(** * Verification of the site-auditing crawler

    A shallow embedding of the crawler's TypeScript sources
    (seo-url-filter, robots-parser, sitemap-parser, page-crawler,
    crawl-manager, link-quality-analyzer) and the proofs that settle the
    claims C1..C10 of the specification against it.

    JavaScript strings are modelled as [string] (the bytes of their
    UTF-8 encoding); sets and maps ([Set], [Map]) as stdpp's [gset] and
    [gmap], or as association lists where the order of the keys is
    read; numbers that the code only uses as integers as [Z]. What the
    sources call and do not define (the built-ins of the runtime, the
    npm packages, the browser, the store) is a parameter of the
    functions that call it. *)

From Stdlib Require Import ZArith Ascii Bool Lia DecimalString.
From stdpp Require Import gmap strings list fin_maps.

Local Open Scope Z_scope.

(* ===================================================================== *)
(** * Part I. The embedding *)
(* ===================================================================== *)

(** ** JavaScript string primitives used by the sources *)

Module Js.

(** Strings are the sequences of the bytes of their UTF-8 encoding; an
    ASCII character is one byte below 128. *)
Fixpoint isAscii (s : string) : bool :=
  match s with
  | EmptyString => true
  | String c r => (nat_of_ascii c <? 128)%nat && isAscii r
  end.

(** [c.toLowerCase()] on one ASCII character. *)
Definition lowerAscii (c : ascii) : ascii :=
  let n := nat_of_ascii c in
  if ((65 <=? n)%nat && (n <=? 90)%nat)%bool then ascii_of_nat (n + 32) else c.

(** [s.toLowerCase()] on the ASCII characters: the letters [A] to [Z]
    are lowered and every other byte is kept. On a string of ASCII
    characters this is what the runtime computes; outside ASCII the
    runtime also lowers the letters of other alphabets (the Kelvin sign
    U+212A becomes [k]). Code that compares the lowered text of a
    foreign document takes the runtime's function as a parameter. *)
Fixpoint toLowerCase (s : string) : string :=
  match s with
  | EmptyString => EmptyString
  | String c r => String (lowerAscii c) (toLowerCase r)
  end.

(** [s.startsWith(p)]. *)
Fixpoint startsWith (p s : string) : bool :=
  match p, s with
  | EmptyString, _ => true
  | String a p', String b s' => if Ascii.eqb a b then startsWith p' s' else false
  | String _ _, EmptyString => false
  end.

(** [s.slice(n)] for [0 <= n]. *)
Fixpoint drop (n : nat) (s : string) : string :=
  match n, s with
  | O, _ => s
  | S n', String _ r => drop n' r
  | S _, EmptyString => EmptyString
  end.

(** [s.slice(0, n)] for [0 <= n]. *)
Fixpoint take (n : nat) (s : string) : string :=
  match n, s with
  | S n', String c r => String c (take n' r)
  | _, _ => EmptyString
  end.

(** [s.endsWith(p)]. *)
Definition endsWith (p s : string) : bool :=
  let lp := String.length p in
  let ls := String.length s in
  if (lp <=? ls)%nat then String.eqb (drop (ls - lp) s) p else false.

(** [s.includes(p)]. *)
Fixpoint includes (p s : string) : bool :=
  if startsWith p s then true
  else match s with
       | EmptyString => false
       | String _ r => includes p r
       end.

(** [s.replace(p, r)] with a string pattern: the first occurrence only. *)
Fixpoint replace (p r s : string) : string :=
  if startsWith p s then r +:+ drop (String.length p) s
  else match s with
       | EmptyString => EmptyString
       | String c t => String c (replace p r t)
       end.

(** The ASCII white space removed by [trim]: TAB, LF, VT, FF, CR and
    SPACE. *)
Definition isWhite (c : ascii) : bool :=
  let n := nat_of_ascii c in
  ((9 <=? n)%nat && (n <=? 13)%nat || (n =? 32)%nat)%bool.

Fixpoint trimStart (s : string) : string :=
  match s with
  | String c r => if isWhite c then trimStart r else s
  | EmptyString => EmptyString
  end.

Fixpoint trimEnd (s : string) : string :=
  match s with
  | EmptyString => EmptyString
  | String c r =>
      match trimEnd r with
      | EmptyString => if isWhite c then EmptyString else String c EmptyString
      | r' => String c r'
      end
  end.

(** [s.trim()] for the ASCII white space. The runtime's [trim] also
    removes the white space and line terminators outside ASCII (U+00A0,
    U+1680, U+2000 to U+200A, U+2028, U+2029, U+202F, U+205F, U+3000
    and U+FEFF); code that trims the text of a foreign document takes
    the runtime's function as a parameter. *)
Definition trim (s : string) : string := trimEnd (trimStart s).

(** [s.split(sep)] for a one-character separator; the empty string
    splits into one empty piece. *)
Fixpoint split (sep : ascii) (s : string) : list string :=
  match s with
  | EmptyString => [EmptyString]
  | String c r =>
      if Ascii.eqb c sep then EmptyString :: split sep r
      else match split sep r with
           | p :: ps => String c p :: ps
           | [] => [String c EmptyString]
           end
  end.

(** [parts.join(sep)]. *)
Fixpoint join (sep : string) (parts : list string) : string :=
  match parts with
  | [] => EmptyString
  | [p] => p
  | p :: ps => p +:+ sep +:+ join sep ps
  end.

(** [arr.includes(x)] on an array of strings. *)
Definition arrayIncludes (arr : list string) (x : string) : bool :=
  existsb (String.eqb x) arr.

(** [arr.find(f)]. *)
Definition arrayFind {A} (f : A -> bool) (arr : list A) : option A := List.find f arr.

End Js.

(** ** The URL objects of the JavaScript runtime

    [new URL(s)] is a builtin of the runtime, not code of the repository.
    The record below holds the components of a parsed URL that the crawler
    reads or writes; the parser itself is a parameter of every function
    that calls it ([None] stands for the [TypeError] thrown on an invalid
    URL).  [Whatwg.parse] further down is a concrete parser for a fragment
    of the URL standard, used to run the functions on literal inputs. *)

Module Url.

Record URL := mkURL {
  prefix : string;          (* scheme, "//", host and port: the href up to the path *)
  hostname : string;
  pathname : string;
  query : option string;    (* [None] is the null query *)
  fragment : option string  (* [None] is the null fragment *)
}.

(** [u.toString()] / [u.href]. *)
Definition href (u : URL) : string :=
  prefix u +:+ pathname u
    +:+ match query u with Some q => "?" +:+ q | None => "" end
    +:+ match fragment u with Some f => "#" +:+ f | None => "" end.

(** The getter [u.search]: empty for a null or empty query. *)
Definition search (u : URL) : string :=
  match query u with
  | Some (String c q) => "?" +:+ String c q
  | _ => ""
  end.

(** The setter [u.hash = v]: the empty string clears the fragment. *)
Definition set_hash (u : URL) (v : string) : URL :=
  mkURL (prefix u) (hostname u) (pathname u) (query u)
    match v with
    | EmptyString => None
    | _ => Some (if Js.startsWith "#" v then Js.drop 1 v else v)
    end.

(** The setter [u.search = v]: the empty string clears the query; a
    leading [?] is dropped.  The crawler only assigns the output of
    [URLSearchParams.toString], which the setter stores unchanged. *)
Definition set_search (u : URL) (v : string) : URL :=
  mkURL (prefix u) (hostname u) (pathname u)
    match v with
    | EmptyString => None
    | _ => Some (if Js.startsWith "?" v then Js.drop 1 v else v)
    end
    (fragment u).

(** *** URLSearchParams: application/x-www-form-urlencoded *)

Definition hexVal (c : ascii) : option nat :=
  let n := nat_of_ascii c in
  if ((48 <=? n) && (n <=? 57))%nat then Some (n - 48)%nat
  else if ((65 <=? n) && (n <=? 70))%nat then Some (n - 55)%nat
  else if ((97 <=? n) && (n <=? 102))%nat then Some (n - 87)%nat
  else None.

Definition hexDigit (n : nat) : ascii :=
  if (n <? 10)%nat then ascii_of_nat (n + 48) else ascii_of_nat (n + 55).

(** Percent-decoding of a byte sequence. *)
Fixpoint percentDecode (s : string) : string :=
  match s with
  | EmptyString => EmptyString
  | String c r =>
      let keep := String c (percentDecode r) in
      if Ascii.eqb c "%" then
        match r with
        | String h (String l r') =>
            match hexVal h, hexVal l with
            | Some a, Some b =>
                String (ascii_of_nat (16 * a + b)) (percentDecode r')
            | _, _ => keep
            end
        | _ => keep
        end
      else keep
  end.

Fixpoint plusToSpace (s : string) : string :=
  match s with
  | EmptyString => EmptyString
  | String c r => String (if Ascii.eqb c "+" then " "%char else c) (plusToSpace r)
  end.

(** Name and value of one [name=value] sequence: split at the first [=]. *)
Fixpoint cutAtEq (s : string) : string * string :=
  match s with
  | EmptyString => (EmptyString, EmptyString)
  | String c r =>
      if Ascii.eqb c "=" then (EmptyString, r)
      else let '(n, v) := cutAtEq r in (String c n, v)
  end.

(** [new URLSearchParams(init)] for a string [init]. *)
Definition parseParams (init : string) : list (string * string) :=
  let body := if Js.startsWith "?" init then Js.drop 1 init else init in
  map (fun sq => let '(n, v) := cutAtEq sq in
                 (percentDecode (plusToSpace n), percentDecode (plusToSpace v)))
      (List.filter (fun sq => negb (String.eqb sq "")) (Js.split "&" body)).

Definition formSafe (c : ascii) : bool :=
  let n := nat_of_ascii c in
  ((n =? 42) || (n =? 45) || (n =? 46) || (n =? 95)
   || ((48 <=? n) && (n <=? 57)) || ((65 <=? n) && (n <=? 90))
   || ((97 <=? n) && (n <=? 122)))%nat.

Fixpoint formEncode (s : string) : string :=
  match s with
  | EmptyString => EmptyString
  | String c r =>
      if Ascii.eqb c " " then String "+" (formEncode r)
      else if formSafe c then String c (formEncode r)
      else let n := nat_of_ascii c in
           String "%" (String (hexDigit (n / 16)) (String (hexDigit (n mod 16)) (formEncode r)))
  end.

(** [params.toString()]. *)
Definition serializeParams (ps : list (string * string)) : string :=
  Js.join "&" (map (fun kv => formEncode (fst kv) +:+ "=" +:+ formEncode (snd kv)) ps).

(** [u.searchParams]. *)
Definition searchParams (u : URL) : list (string * string) :=
  parseParams (match query u with Some q => q | None => "" end).

(** [params.has(name)]. *)
Definition has (ps : list (string * string)) (name : string) : bool :=
  existsb (fun kv => String.eqb (fst kv) name) ps.

(** [Array.prototype.sort] without a comparator on an array of
    [name, value] pairs: elements are compared as the strings
    [name + "," + value]; the sort is stable. *)
Definition entryKey (kv : string * string) : string := fst kv +:+ "," +:+ snd kv.

Fixpoint insertEntry (x : string * string) (l : list (string * string)) :=
  match l with
  | [] => [x]
  | y :: l' =>
      if String.ltb (entryKey y) (entryKey x) then y :: insertEntry x l'
      else x :: l
  end.

Definition sortEntries (l : list (string * string)) : list (string * string) :=
  fold_right insertEntry [] l.

End Url.

(** ** A concrete URL parser for a fragment of the URL standard

    [Whatwg.parse] accepts [http] and [https] URLs written as
    [scheme://host/path?query#fragment] with a plain ASCII host name (no
    credentials, port, IP address or IDNA label), a path of characters
    that the standard leaves unchanged and without dot segments, and a
    query and fragment of characters that it leaves unchanged.  On these
    strings it computes the components the standard prescribes.  A string
    without a scheme is not a URL (there is no base URL) and is rejected as
    the standard does; a string with a scheme that falls outside the
    fragment is rejected too, which says nothing about the runtime's
    parser.  The functions of the crawler never use [Whatwg.parse]
    directly: it only instantiates their parser parameter on literals. *)

Module Whatwg.

Definition isAlpha (c : ascii) : bool :=
  let n := nat_of_ascii c in
  (((65 <=? n) && (n <=? 90)) || ((97 <=? n) && (n <=? 122)))%nat.

Definition isDigit (c : ascii) : bool :=
  let n := nat_of_ascii c in ((48 <=? n) && (n <=? 57))%nat.

Fixpoint mem (c : ascii) (s : string) : bool :=
  match s with
  | EmptyString => false
  | String d r => Ascii.eqb c d || mem c r
  end.

Fixpoint allChars (f : ascii -> bool) (s : string) : bool :=
  match s with
  | EmptyString => true
  | String c r => f c && allChars f r
  end.

(** Splits [s] before its first character satisfying [stop]. *)
Fixpoint cutAt (stop : ascii -> bool) (s : string) : string * string :=
  match s with
  | EmptyString => (EmptyString, EmptyString)
  | String c r =>
      if stop c then (EmptyString, s)
      else let '(a, b) := cutAt stop r in (String c a, b)
  end.

(** Scheme state: letters, digits, [+], [-], [.] up to the colon. *)
Fixpoint cutScheme (s : string) : option (string * string) :=
  match s with
  | EmptyString => None
  | String c r =>
      if Ascii.eqb c ":" then Some (EmptyString, r)
      else if isAlpha c || isDigit c || mem c "+-." then
        match cutScheme r with
        | Some (a, b) => Some (String c a, b)
        | None => None
        end
      else None
  end.

(** Scheme start state: the first character must be a letter. *)
Definition splitScheme (s : string) : option (string * string) :=
  match s with
  | String c _ => if isAlpha c then cutScheme s else None
  | EmptyString => None
  end.

Definition labelOk (l : string) : bool :=
  negb (String.eqb l "")
  && allChars (fun c => isAlpha c || isDigit c || Ascii.eqb c "-") l
  && negb (Js.startsWith "xn--" (Js.toLowerCase l)).

Definition hostOk (h : string) : bool :=
  let labels := Js.split "." h in
  forallb labelOk labels
  && match List.last labels EmptyString with
     | String c _ => isAlpha c
     | EmptyString => false
     end.

Definition pathChar (c : ascii) : bool :=
  isAlpha c || isDigit c || mem c "-._~!$&'()*+,;=:@/".

Definition queryChar (c : ascii) : bool :=
  isAlpha c || isDigit c || mem c "-._~!$&()*+,;=:@/?%".

Definition fragmentChar (c : ascii) : bool :=
  isAlpha c || isDigit c || mem c "-._~!$&'()*+,;=:@/?%#".

Definition noDotSegment (path : string) : bool :=
  forallb (fun sg => negb (String.eqb sg "." || String.eqb sg "..")) (Js.split "/" path).

Definition optAll (f : ascii -> bool) (o : option string) : bool :=
  match o with Some s => allChars f s | None => true end.

Definition parse (s : string) : option Url.URL :=
  match splitScheme s with
  | None => None
  | Some (sch, rest) =>
      let scheme := Js.toLowerCase sch in
      if (String.eqb scheme "http" || String.eqb scheme "https") && Js.startsWith "//" rest then
        let '(host, r1) := cutAt (fun c => mem c "/?#") (Js.drop 2 rest) in
        let '(path, r2) := cutAt (fun c => mem c "?#") r1 in
        let '(q, r3) :=
          match r2 with
          | String c t =>
              if Ascii.eqb c "?" then
                let '(q, r) := cutAt (fun c => Ascii.eqb c "#") t in (Some q, r)
              else (None, r2)
          | EmptyString => (None, r2)
          end in
        let f := match r3 with String _ t => Some t | EmptyString => None end in
        if hostOk host && allChars pathChar path && noDotSegment path
           && optAll queryChar q && optAll fragmentChar f
        then
          let h := Js.toLowerCase host in
          Some (Url.mkURL (scheme +:+ "://" +:+ h) h
                  (if String.eqb path "" then "/" else path) q f)
        else None
      else None
  end.

End Whatwg.

(** ** seo-url-filter.ts *)

Module SeoUrlFilter.

Definition NON_HTML_EXTENSIONS : list string :=
  [ ".jpg"; ".jpeg"; ".png"; ".gif"; ".webp"; ".svg"; ".ico"; ".bmp"; ".tiff"; ".avif";
    ".pdf"; ".doc"; ".docx"; ".xls"; ".xlsx"; ".ppt"; ".pptx"; ".odt"; ".ods"; ".odp";
    ".mp3"; ".mp4"; ".wav"; ".avi"; ".mov"; ".webm"; ".ogg"; ".flac"; ".mkv";
    ".js"; ".css"; ".json"; ".xml"; ".rss"; ".atom"; ".yaml"; ".yml";
    ".woff"; ".woff2"; ".ttf"; ".otf"; ".eot";
    ".zip"; ".rar"; ".tar"; ".gz"; ".7z";
    ".txt"; ".csv"; ".ics"; ".vcf"; ".apk"; ".exe"; ".dmg" ].

Definition EXCLUDED_PATH_SEGMENTS : list string :=
  [ "wp-admin"; "admin"; "administrator"; "backend"; "dashboard";
    "wp-login"; "wp-json";
    "login"; "logout"; "signin"; "signout"; "signup"; "register";
    "account"; "my-account"; "profile"; "settings"; "preferences";
    "password"; "reset-password"; "forgot-password";
    "cart"; "checkout"; "basket"; "wishlist"; "compare";
    "add-to-cart"; "remove-from-cart"; "order-confirmation";
    "order-tracking"; "payment";
    "search"; "filter"; "results";
    "print"; "email-friend"; "share";
    "calendar"; "ical";
    "feed"; "rss"; "atom";
    "api"; "graphql"; "rest";
    "preview"; "draft";
    "private"; "internal"; "staging";
    "comment"; "comments"; "reply";
    "tag"; "author"; "tags"; "authors" ].

Definition EXCLUDED_PATH_SUBSTRINGS : list string :=
  [ "/wp-content/uploads"; "/wp-login.php" ].

Definition EXCLUDED_QUERY_PARAMS : list string :=
  [ "page"; "p"; "paged"; "pg"; "offset";
    "sort"; "sortby"; "order"; "orderby"; "filter"; "filters";
    "sessionid"; "session_id"; "sid"; "phpsessid"; "jsessionid";
    "utm_source"; "utm_medium"; "utm_campaign"; "utm_term"; "utm_content";
    "fbclid"; "gclid"; "msclkid"; "dclid"; "zanpid"; "ref"; "affiliate";
    "mc_cid"; "mc_eid"; "_ga"; "_gl"; "yclid"; "ymclid";
    "preview"; "draft"; "debug"; "test";
    "print"; "format"; "output"; "pdf";
    "replytocom"; "reply"; "comment";
    "add-to-cart"; "remove-item"; "quantity"; "coupon";
    "q"; "s"; "search"; "query"; "keyword"; "keywords";
    "redirect"; "redirect_to"; "return"; "return_to"; "next";
    "view"; "display"; "layout"; "mode";
    "compare"; "wishlist"; "add-to-wishlist";
    "v"; "ver"; "version"; "rev";
    "t"; "ts"; "timestamp"; "cache"; "_" ].

Record SeoFilterResult := mkResult {
  isRelevant : bool;
  reason : option string
}.

(** [pathname.split('/').filter(s => s.length > 0)] *)
Definition segmentsOf (pathname : string) : list string :=
  List.filter (fun s => (0 <? String.length s)%nat) (Js.split "/" pathname).

(** The first segment of the path that the excluded list includes. *)
Definition hasExcludedPathSegment (pathname : string) : option string :=
  Js.arrayFind (Js.arrayIncludes EXCLUDED_PATH_SEGMENTS) (segmentsOf pathname).

(** A returned segment is tested by [if (excludedSegment)]: the empty
    string is falsy. *)
Definition truthy (s : option string) : option string :=
  match s with
  | Some EmptyString => None
  | other => other
  end.

Section WithParser.
Variable parseURL : string -> option Url.URL.

(** The body of the [try] block, run on the parsed URL. *)
Definition classify (parsed : Url.URL) : SeoFilterResult :=
  let pathname := Js.toLowerCase (Url.pathname parsed) in
  match Js.arrayFind (fun ext => Js.endsWith ext pathname) NON_HTML_EXTENSIONS with
  | Some ext => mkResult false (Some ("Non-HTML file extension: " +:+ ext))
  | None =>
  match truthy (hasExcludedPathSegment pathname) with
  | Some seg => mkResult false (Some ("Excluded path segment: " +:+ seg))
  | None =>
  match Js.arrayFind (fun pattern => Js.includes pattern pathname) EXCLUDED_PATH_SUBSTRINGS with
  | Some pattern => mkResult false (Some ("Excluded path pattern: " +:+ pattern))
  | None =>
  let params := Url.searchParams parsed in
  match Js.arrayFind (fun param => Url.has params param) EXCLUDED_QUERY_PARAMS with
  | Some param => mkResult false (Some ("Excluded query parameter: " +:+ param))
  | None => mkResult true None
  end end end end.

(** [isSeoRelevantUrl]: a URL that does not parse lands in the [catch]. *)
Definition isSeoRelevantUrl (url : string) : SeoFilterResult :=
  match parseURL url with
  | Some parsed => classify parsed
  | None => mkResult false (Some "Invalid URL")
  end.

Definition isSeoRelevant (url : string) : bool :=
  isRelevant (isSeoRelevantUrl url).
End WithParser.

End SeoUrlFilter.

(** ** robots-parser.ts *)

Module Robots.

(** Known AI crawler user agents. *)
Definition AI_CRAWLERS : list string :=
  [ "GPTBot"; "ChatGPT-User"; "Google-Extended"; "anthropic-ai"; "Claude-Web";
    "PerplexityBot"; "Amazonbot"; "OAI-SearchBot"; "cohere-ai"; "FacebookBot" ].

(** What [fetch(robotsUrl)] of the runtime does: it rejects, or resolves
    to a response with a status whose body may fail to be read. *)
Inductive Thrown (A : Type) := Resolved (a : A) | Rejected.
Arguments Resolved {A} a.
Arguments Rejected {A}.

Record HttpResponse := mkResponse {
  status : Z;
  text : Thrown string
}.

(** [response.ok] *)
Definition ok (r : HttpResponse) : bool := (200 <=? status r) && (status r <=? 299).

Section WithStrings.
(** [String.prototype.trim] and [String.prototype.toLowerCase] of the
    runtime, on the text of a robots.txt, which may hold any
    character. *)
Variable trim : string -> string.
Variable toLowerCase : string -> string.

(** [AI_CRAWLERS.some((c) => c.toLowerCase() === ua)] *)
Definition isAiCrawler (ua : string) : bool :=
  existsb (fun c => String.eqb (toLowerCase c) ua) AI_CRAWLERS.

(** [AI_CRAWLERS.find((c) => c.toLowerCase() === ua)] *)
Definition matchedCrawler (ua : string) : option string :=
  Js.arrayFind (fun c => String.eqb (toLowerCase c) ua) AI_CRAWLERS.

(** The body of [for (const ua of currentUserAgents)]: record the
    verdict [b] for a listed crawler, skip the wildcard. *)
Definition setRule (b : bool) (rules : gmap string bool) (ua : string) : gmap string bool :=
  if negb (String.eqb ua "*") then
    match matchedCrawler ua with
    | Some c => <[c := b]> rules
    | None => rules
    end
  else rules.

(** One iteration of the loop over the lines of robots.txt; the state
    is [currentUserAgents] and [this.aiCrawlerRules]. *)
Definition ruleStep (st : list string * gmap string bool) (line : string)
  : list string * gmap string bool :=
  let '(currentUserAgents, rules) := st in
  let trimmedLine := toLowerCase (trim line) in
  if Js.startsWith "user-agent:" trimmedLine then
    let ua := trim (Js.replace "user-agent:" "" trimmedLine) in
    if String.eqb ua "*" || isAiCrawler ua
    then (currentUserAgents ++ [ua], rules)
    else ([], rules)
  else if Js.startsWith "disallow:" trimmedLine && (0 <? length currentUserAgents)%nat then
    let path := trim (Js.replace "disallow:" "" trimmedLine) in
    if String.eqb path "/" || String.eqb path ""
    then (currentUserAgents, fold_left (setRule false) currentUserAgents rules)
    else st
  else if Js.startsWith "allow:" trimmedLine && (0 <? length currentUserAgents)%nat then
    let path := trim (Js.replace "allow:" "" trimmedLine) in
    if String.eqb path "/" || String.eqb path ""
    then (currentUserAgents, fold_left (setRule true) currentUserAgents rules)
    else st
  else if String.eqb trimmedLine "" || Js.startsWith "#" trimmedLine then
    ([], rules)
  else st.

(** [parseAiCrawlerRules(robotsTxt)], from the rules recorded so far. *)
Definition parseAiCrawlerRules (rules : gmap string bool) (robotsTxt : string)
  : gmap string bool :=
  (* "010" is the line feed, [robotsTxt.split('\n')] *)
  snd (fold_left ruleStep (Js.split "010" robotsTxt) ([], rules)).

Section WithPackage.
(** The npm package [robots-parser]: [robotsParser(url, contents)]
    builds a matcher whose [isAllowed(url, ua)] answers [true],
    [false] or [undefined]. *)
Variable Matcher : Type.
Variable robotsParser : string -> string -> Matcher.
Variable matcherIsAllowed : Matcher -> string -> string -> option bool.

Record RobotsParser := mkRobots {
  domain : string;
  userAgent : string;
  parser : option Matcher;
  aiCrawlerRules : gmap string bool
}.

(** [domain.replace(/^www\./, '')] *)
Definition stripWww (d : string) : string :=
  if Js.startsWith "www." d then Js.drop 4 d else d.

Definition new (d ua : string) : RobotsParser :=
  mkRobots (stripWww d) ua None ∅.

Definition robotsUrl (r : RobotsParser) : string :=
  "https://" +:+ domain r +:+ "/robots.txt".

Definition permissive (r : RobotsParser) : RobotsParser :=
  mkRobots (domain r) (userAgent r) (Some (robotsParser (robotsUrl r) "")) (aiCrawlerRules r).

(** [fetch()], given what the HTTP request does. *)
Definition fetch (r : RobotsParser) (net : Thrown HttpResponse) : RobotsParser :=
  match net with
  | Rejected => permissive r
  | Resolved response =>
      if negb (ok response) then permissive r
      else match text response with
           | Rejected => permissive r
           | Resolved robotsTxt =>
               mkRobots (domain r) (userAgent r)
                 (Some (robotsParser (robotsUrl r) robotsTxt))
                 (parseAiCrawlerRules (aiCrawlerRules r) robotsTxt)
           end
  end.

(** [isAllowed(url)]: [this.parser.isAllowed(url, ua) ?? true] *)
Definition isAllowed (r : RobotsParser) (url : string) : bool :=
  match parser r with
  | None => true
  | Some p =>
      match matcherIsAllowed p url (userAgent r) with
      | Some b => b
      | None => true
      end
  end.

(** [getAiCrawlerAccess()]: the record, as the list of its entries. *)
Definition getAiCrawlerAccess (r : RobotsParser) : list (string * option bool) :=
  map (fun crawler => (crawler, aiCrawlerRules r !! crawler)) AI_CRAWLERS.

(** [isAiCrawlerAllowed(crawler)] *)
Definition isAiCrawlerAllowed (r : RobotsParser) (crawler : string) : option bool :=
  aiCrawlerRules r !! crawler.
End WithPackage.

(** *** Two readings of the AI-crawler classification

    Both read a line as the parser does: trimmed and lower-cased. *)

Definition normalLine (line : string) : string := toLowerCase (trim line).

Definition userAgentOf (l : string) : option string :=
  if Js.startsWith "user-agent:" l
  then Some (trim (Js.replace "user-agent:" "" l)) else None.

Definition ruleFor (keyword l : string) : option string :=
  if Js.startsWith keyword l
  then Some (trim (Js.replace keyword "" l)) else None.

Definition isBlankOrComment (l : string) : bool :=
  String.eqb l "" || Js.startsWith "#" l.

(** The classification as the specification words it: a User-agent
    line matching the crawler is followed by [Disallow: /] (or
    [Allow: /]) before the next blank, comment or User-agent line. *)
Definition opt_is (o : option string) (v : string) : bool :=
  match o with Some x => String.eqb x v | None => false end.

Fixpoint followedBy (keyword : string) (rest : list string) : bool :=
  match rest with
  | [] => false
  | line :: rest' =>
      let l := normalLine line in
      if opt_is (ruleFor keyword l) "/" then true
      else if isBlankOrComment l
              || match userAgentOf l with Some _ => true | None => false end
      then false
      else followedBy keyword rest'
  end.

Fixpoint statedRule (keyword crawler : string) (lines : list string) : bool :=
  match lines with
  | [] => false
  | line :: rest =>
      (opt_is (userAgentOf (normalLine line)) (toLowerCase crawler)
       && followedBy keyword rest)
      || statedRule keyword crawler rest
  end.

(** The parser, followed for one crawler: [inGroup] tells whether the
    lower-cased name of the crawler is in [currentUserAgents],
    [verdict] is the last rule read while it is and whose path passes
    [isRoot].  Lines naming other listed crawlers or [*] keep the list; a
    line naming any other agent, a blank line and a comment line empty
    it. *)
Definition scanStep (isRoot : string -> bool) (crawler : string)
    (st : bool * option bool) (line : string) : bool * option bool :=
  let '(inGroup, verdict) := st in
  let l := normalLine line in
  match userAgentOf l with
  | Some ua =>
      if String.eqb ua (toLowerCase crawler) then (true, verdict)
      else if String.eqb ua "*" || isAiCrawler ua then (inGroup, verdict)
      else (false, verdict)
  | None =>
      match ruleFor "disallow:" l with
      | Some path => if inGroup && isRoot path then (inGroup, Some false) else st
      | None =>
          match ruleFor "allow:" l with
          | Some path => if inGroup && isRoot path then (inGroup, Some true) else st
          | None => if isBlankOrComment l then (false, verdict) else st
          end
      end
  end.

(** The test of the parser: the path is [/] or empty. *)
Definition isRootPath (path : string) : bool :=
  String.eqb path "/" || String.eqb path "".

Definition agentStep : string -> bool * option bool -> string -> bool * option bool :=
  scanStep isRootPath.

Definition agentScan (crawler : string) (lines : list string) : option bool :=
  snd (fold_left (agentStep crawler) lines (false, None)).

(** The scan that counts [Disallow: /] and [Allow: /] only. *)
Definition isSlash (path : string) : bool := String.eqb path "/".

Definition rootScan (crawler : string) (lines : list string) : option bool :=
  snd (fold_left (scanStep isSlash crawler) lines (false, None)).

(** No [Disallow] or [Allow] line of the text has an empty path. *)
Definition hasEmptyRule (line : string) : bool :=
  let l := normalLine line in
  match userAgentOf l with
  | Some _ => false
  | None =>
      match ruleFor "disallow:" l with
      | Some path => String.eqb path ""
      | None => opt_is (ruleFor "allow:" l) ""
      end
  end.

Definition noEmptyRule (lines : list string) : bool :=
  forallb (fun line => negb (hasEmptyRule line)) lines.

(** The scan for one crawler is the projection of the parser's state:
    the crawler is in the group exactly when its lower-cased name is
    among [currentUserAgents], and its verdict is its entry in the map. *)
Definition projects (c : string) (st : list string * gmap string bool)
    (ast : bool * option bool) : Prop :=
  (fst ast = true <-> In (toLowerCase c) (fst st)) /\ snd st !! c = snd ast.

(** The classification by groups, for one crawler. A group is a run of
    consecutive User-agent lines with the [Disallow] and [Allow] lines
    after it; a User-agent line that comes after such a rule line
    begins the next group, and a blank line or a comment line ends the
    group. The state tells whether the crawler is named in the current
    group ([named]), whether the group has a rule line ([ruled]), and
    the last [Disallow: /] or [Allow: /] read in a group that names the
    crawler. *)
Definition groupStep (crawler : string) (st : bool * bool * option bool) (line : string)
  : bool * bool * option bool :=
  let '(named, ruled, verdict) := st in
  let l := normalLine line in
  match userAgentOf l with
  | Some ua =>
      let here := String.eqb ua (toLowerCase crawler) in
      if ruled then (here, false, verdict) else (named || here, false, verdict)
  | None =>
      match ruleFor "disallow:" l with
      | Some path => (named, true, if named && isSlash path then Some false else verdict)
      | None =>
          match ruleFor "allow:" l with
          | Some path => (named, true, if named && isSlash path then Some true else verdict)
          | None => if isBlankOrComment l then (false, false, verdict) else st
          end
      end
  end.

Definition groupScan (crawler : string) (lines : list string) : option bool :=
  snd (fold_left (groupStep crawler) lines (false, false, None)).

(** The texts whose groups the parser reads as groups. The parser keeps
    the agents of its list [currentUserAgents] over rule lines and
    empties the list at a User-agent line of an agent it does not
    track. The check follows the list ([tracking]: it is not empty;
    [ruled]: a rule line was read since) and fails where a User-agent
    line naming [*] or a listed crawler comes after the rule lines of a
    tracked group, and where a User-agent line naming another agent
    comes after the User-agent lines of a tracked group and before its
    rule lines. *)
Definition groupingStep (st : bool * bool * bool) (line : string) : bool * bool * bool :=
  let '(tracking, ruled, good) := st in
  let l := normalLine line in
  match userAgentOf l with
  | Some ua =>
      if String.eqb ua "*" || isAiCrawler ua
      then (true, ruled, good && negb ruled)
      else (false, false, good && negb (tracking && negb ruled))
  | None =>
      match ruleFor "disallow:" l, ruleFor "allow:" l with
      | None, None => if isBlankOrComment l then (false, false, good) else st
      | _, _ => (tracking, ruled || tracking, good)
      end
  end.

Definition wellGrouped (lines : list string) : bool :=
  snd (fold_left groupingStep lines (false, false, true)).

(** What relates the three scans at a line: the parser's scan for the
    crawler [(g, v)], the scan by groups [(named, ruled', v')] and the
    check of the grouping [(tracking, ruled)]. *)
Definition scansAgree (root : bool * option bool) (grouped : bool * bool * option bool)
    (grouping : bool * bool) : Prop :=
  fst root = fst (fst grouped)
  /\ snd root = snd grouped
  /\ (fst root = true -> fst grouping = true)
  /\ (fst grouping = true -> snd (fst grouped) = snd grouping)
  /\ (snd grouping = true -> fst grouping = true).

(** [access[crawler]] on the record that [getAiCrawlerAccess] returns. *)
Definition accessOf (access : list (string * option bool)) (crawler : string) : option bool :=
  match List.find (fun e => String.eqb (fst e) crawler) access with
  | Some e => snd e
  | None => None
  end.

(** The three cases of the classification, as the specification states
    them, for the verdict [access] of one crawler. *)
Definition classifiedAsStated (access : option bool) (crawler : string)
    (lines : list string) : Prop :=
  (access = Some false <-> statedRule "disallow:" crawler lines = true)
  /\ (access = Some true <-> statedRule "allow:" crawler lines = true)
  /\ (access = None <-> statedRule "disallow:" crawler lines = false
                        /\ statedRule "allow:" crawler lines = false).
End WithStrings.

End Robots.

(** ** crawl-manager.ts: the frontier *)

Module CrawlManager.

Inductive DiscoveredVia := seed | sitemap | crawl.

Record QueueItem := mkItem {
  url : string;
  depth : Z;
  parentUrl : option string;
  discoveredVia : DiscoveredVia
}.

Record CrawlSettings := mkSettings {
  max_pages : Z;
  follow_subdomains : bool;
  include_patterns : list string;
  exclude_patterns : list string;
  max_depth : Z
}.

Section WithRuntime.
Variable parseURL : string -> option Url.URL.
Variable Matcher : Type.
Variable matcherIsAllowed : Matcher -> string -> string -> option bool.

(** The fields of a [CrawlManager] that [addToQueue] reads or writes. *)
Record State := mkState {
  projectDomain : string;
  settings : CrawlSettings;
  robotsParser : option (Robots.RobotsParser Matcher);
  queue : list QueueItem;
  visited : gset string;
  discovered : gset string;
  pagesDiscovered : Z
}.

(** [normalizeUrl]: drop the hash, sort the query parameters, remove
    one trailing slash unless the path is the root. *)
Definition normalizeUrl (u : string) : option string :=
  match parseURL u with
  | None => None
  | Some parsed =>
      let parsed := Url.set_hash parsed "" in
      let params := Url.parseParams (Url.search parsed) in
      let sortedParams := Url.sortEntries params in
      let parsed := Url.set_search parsed (Url.serializeParams sortedParams) in
      let normalized := Url.href parsed in
      Some (if Js.endsWith "/" normalized && negb (String.eqb (Url.pathname parsed) "/")
            then Js.take (String.length normalized - 1) normalized
            else normalized)
  end.

Definition matchesPatterns (st : CrawlSettings) (u : string) : bool :=
  (if (0 <? length (include_patterns st))%nat
   then existsb (fun pattern => Js.includes pattern u) (include_patterns st)
   else true)
  && (if (0 <? length (exclude_patterns st))%nat
      then negb (existsb (fun pattern => Js.includes pattern u) (exclude_patterns st))
      else true).

Definition isAllowedDomain (s : State) (u : string) : bool :=
  match parseURL u with
  | None => false
  | Some parsed =>
      let targetDomain := Robots.stripWww (Url.hostname parsed) in
      let baseDomain := Robots.stripWww (projectDomain s) in
      if follow_subdomains (settings s)
      then String.eqb targetDomain baseDomain
           || Js.endsWith ("." +:+ baseDomain) targetDomain
      else String.eqb targetDomain baseDomain
  end.

(** [addToQueue(url, depth, parentUrl, discoveredVia)]: the answer and
    the state it leaves. *)
Definition addToQueue (s : State) (u : string) (d : Z)
    (parent : option string) (via : DiscoveredVia) : bool * State :=
  match normalizeUrl u with
  | None => (false, s)
  | Some normalizedUrl =>
      if bool_decide (normalizedUrl ∈ visited s) || bool_decide (normalizedUrl ∈ discovered s)
      then (false, s)
      else if max_depth (settings s) <? d then (false, s)
      else if max_pages (settings s) <=? Z.of_nat (size (discovered s)) then (false, s)
      else if match robotsParser s with
              | Some r => negb (Robots.isAllowed Matcher matcherIsAllowed r normalizedUrl)
              | None => false
              end then (false, s)
      else if negb (matchesPatterns (settings s) normalizedUrl) then (false, s)
      else if negb (isAllowedDomain s normalizedUrl) then (false, s)
      else if negb (SeoUrlFilter.isSeoRelevant parseURL normalizedUrl) then (false, s)
      else (true,
            mkState (projectDomain s) (settings s) (robotsParser s)
              (queue s ++ [mkItem normalizedUrl d parent via])
              (visited s)
              ({[normalizedUrl]} ∪ discovered s)
              (pagesDiscovered s + 1))
  end.

(** A sequence of [addToQueue] calls, as the run loop and the sitemap
    seeding issue them: each call with its answer and the state after
    it. *)
Record Call := mkCall {
  callUrl : string;
  callDepth : Z;
  callParent : option string;
  callVia : DiscoveredVia
}.

Fixpoint addAll (s : State) (calls : list Call) : list (Call * bool * State) :=
  match calls with
  | [] => []
  | c :: rest =>
      let '(answer, s') := addToQueue s (callUrl c) (callDepth c) (callParent c) (callVia c) in
      (c, answer, s') :: addAll s' rest
  end.
End WithRuntime.

End CrawlManager.

(** ** A stand-in for the robots-parser package

    A small matcher with the interface of the package, used to
    instantiate its parameters on literals: the [Disallow] prefixes of
    the [User-agent: *] group are collected, a URL is allowed unless its
    path starts with one of them, and a URL that does not parse has no
    answer ([undefined]). *)

Module RobotsLib.

Definition Matcher : Type := list string.

Definition collect (st : bool * list string) (line : string) : bool * list string :=
  let '(inStar, acc) := st in
  let l := Js.toLowerCase (Js.trim line) in
  if Js.startsWith "user-agent:" l then
    (String.eqb (Js.trim (Js.replace "user-agent:" "" l)) "*", acc)
  else if Js.startsWith "disallow:" l && inStar then
    let path := Js.trim (Js.replace "disallow:" "" l) in
    (inStar, if String.eqb path "" then acc else acc ++ [path])
  else st.

Definition robotsParser (_url contents : string) : Matcher :=
  snd (fold_left collect (Js.split "010" contents) (false, [])).

Definition isAllowed (m : Matcher) (url _ua : string) : option bool :=
  match Whatwg.parse url with
  | None => None
  | Some u => Some (negb (existsb (fun p => Js.startsWith p (Js.toLowerCase (Url.pathname u))) m))
  end.

End RobotsLib.

(** ** sitemap-parser.ts *)

Module Sitemap.

Section WithXml.
(** An entry [{ loc, lastmod?, changefreq?, priority? }], and
    [parseXml], the regular-expression scan of one document: a total
    function of the content. *)
Variable SitemapUrl : Type.

Record SitemapParseResult := mkParse {
  urls : list SitemapUrl;
  sitemapIndexUrls : list string;
  errors : list string
}.

Variable parseXml : string -> SitemapParseResult.

(** The responses: [web !! url] is the body that [fetchSitemap(url)]
    returns, and a URL outside the map makes it return [null] (status
    not ok, network error, timeout or failed decompression). *)
Variable web : gmap string string.

Definition fetchSitemap (url : string) : option string := web !! url.

(** [arr.slice(0, n)] *)
Definition sliceTo {A} (n : Z) (l : list A) : list A :=
  if 0 <=? n then firstn (Z.to_nat n) l
  else firstn (length l - Z.to_nat (- n)) l.

(** The variables of [parse]; [fetched] logs the calls of
    [fetchSitemap]. *)
Record Loop := mkLoop {
  result : SitemapParseResult;
  processedSitemaps : gset string;
  sitemapsToProcess : list string;
  fetched : list string
}.

(** The loop condition. *)
Definition continues (maxUrls : Z) (st : Loop) : bool :=
  (0 <? length (sitemapsToProcess st))%nat
  && (Z.of_nat (length (urls (result st))) <? maxUrls).

(** The children of an index that are pushed on the queue. *)
Definition pushChildren (processed : gset string) (children : list string) : list string :=
  List.filter (fun childUrl => negb (bool_decide (childUrl ∈ processed))) children.

(** One iteration of the [while] loop, the queue being not empty.
    [fetchSitemap] catches its own errors and [parseXml] throws none, so
    the [catch] branch of the loop body is never taken. *)
Definition iteration (maxUrls : Z) (st : Loop) : Loop :=
  match sitemapsToProcess st with
  | [] => st
  | sitemapUrl :: rest =>
      if bool_decide (sitemapUrl ∈ processedSitemaps st)
      then mkLoop (result st) (processedSitemaps st) rest (fetched st)
      else
        let processed := {[sitemapUrl]} ∪ processedSitemaps st in
        let log := fetched st ++ [sitemapUrl] in
        match fetchSitemap sitemapUrl with
        | None => mkLoop (result st) processed rest log
        | Some EmptyString => mkLoop (result st) processed rest log
        | Some content =>
            let parsed := parseXml content in
            let isIndex := (0 <? length (sitemapIndexUrls parsed))%nat in
            let indexUrls :=
              if isIndex
              then sitemapIndexUrls (result st) ++ sitemapIndexUrls parsed
              else sitemapIndexUrls (result st) in
            let queue :=
              if isIndex
              then rest ++ pushChildren processed (sitemapIndexUrls parsed)
              else rest in
            let remaining := maxUrls - Z.of_nat (length (urls (result st))) in
            let urlsToAdd := sliceTo remaining (urls parsed) in
            mkLoop (mkParse (urls (result st) ++ urlsToAdd) indexUrls
                      (errors (result st) ++ errors parsed))
                   processed queue log
        end
  end.

(** The [while] loop, with a bound on the number of iterations:
    [None] when the bound is reached before the loop ends. *)
Fixpoint loop (fuel : nat) (maxUrls : Z) (st : Loop) : option Loop :=
  if continues maxUrls st then
    match fuel with
    | O => None
    | S fuel' => loop fuel' maxUrls (iteration maxUrls st)
    end
  else Some st.

(** The variables on entry; [domain] is [this.domain]. *)
Definition initial (domain : string) (sitemapUrls : list string) : Loop :=
  mkLoop (mkParse [] [] []) ∅
    (match sitemapUrls with
     | [] => [ "https://" +:+ domain +:+ "/sitemap.xml";
               "https://" +:+ domain +:+ "/sitemap_index.xml" ]
     | _ => sitemapUrls
     end)
    [].

(** [parse(sitemapUrls)] *)
Definition parse (fuel : nat) (domain : string) (maxUrls : Z) (sitemapUrls : list string)
  : option Loop :=
  loop fuel maxUrls (initial domain sitemapUrls).

(** The children listed by the documents of a set of responses. *)
Definition childCount (m : gmap string string) : nat :=
  sum_list_with (fun kc => length (sitemapIndexUrls (parseXml (snd kc)))) (map_to_list m).

(** Iterations that suffice from a state whose unprocessed responses
    are [pending]. *)
Definition budget (pending : gmap string string) (st : Loop) : nat :=
  length (sitemapsToProcess st) + childCount pending.

(** [pending] holds the responses of the sitemaps not yet processed. *)
Definition tracks (pending : gmap string string) (st : Loop) : Prop :=
  forall k, k ∉ processedSitemaps st -> web !! k = pending !! k.

(** What holds of the loop variables throughout: no sitemap is fetched
    twice, what was fetched is marked processed, and the collected URLs
    stay within the cap. *)
Definition bounded (maxUrls : Z) (st : Loop) : Prop :=
  NoDup (fetched st)
  /\ (forall u, u ∈ fetched st -> u ∈ processedSitemaps st)
  /\ Z.of_nat (length (urls (result st))) <= Z.max 0 maxUrls.
End WithXml.

End Sitemap.

(** ** The effects of the page crawler

    [PageCrawler] talks to the browser (Playwright), reads the clock and
    sleeps.  Its methods are embedded as trees of commands: [Do c k]
    issues the command [c] and goes on with [k] on its answer, [Raise]
    is a thrown exception.  An awaited promise that rejects is a command
    whose answer is [Thrown]. *)

Module Effects.

Inductive Outcome (A : Type) : Type :=
| Returned (a : A)
| Thrown (message : string).
Arguments Returned {A} a.
Arguments Thrown {A} message.

(** What [page.goto] resolves to. *)
Record Response := mkResponse {
  status : Z;
  contentTypeHeader : option string;   (* [response.headers()['content-type']] *)
  finalUrl : string;                   (* [page.url()] after the navigation *)
  redirects : list (string * Z)        (* the 3xx responses seen on the way *)
}.

(** [{ lcp?, fcp?, ttfb?, cls? }] as measured in the page. *)
Record CoreWebVitals := mkCwv {
  lcp : option Z;
  fcp : option Z;
  ttfb : option Z;
  cls : option Z
}.

Inductive Cmd : Type -> Type :=
| ReadClock : Cmd Z                                  (* [new Date()], [Date.now()] *)
| NewPage : Cmd (Outcome unit)                       (* [context.newPage()] *)
| Goto (url waitUntil : string) (timeout : Z)
    : Cmd (Outcome (option Response))                (* [page.goto(url, ...)] *)
| Content : Cmd (Outcome string)                     (* [page.content()] *)
| MeasureCwv : Cmd CoreWebVitals                     (* [measureCoreWebVitals(page)] *)
| ClosePage : Cmd (Outcome unit)                     (* [page.close()] *)
| Sleep (ms : Z) : Cmd unit.                         (* [setTimeout] *)

Inductive Eff (A : Type) : Type :=
| Ret (a : A)
| Do {X : Type} (c : Cmd X) (k : X -> Eff A)
| Raise (message : string).
Arguments Ret {A} a.
Arguments Do {A X} c k.
Arguments Raise {A} message.

Fixpoint bind {A B : Type} (e : Eff A) (f : A -> Eff B) : Eff B :=
  match e with
  | Ret a => f a
  | Do c k => Do c (fun x => bind (k x) f)
  | Raise m => Raise m
  end.

(** [try { e } catch (error) { h(error.message) }] *)
Fixpoint catch {A : Type} (e : Eff A) (h : string -> Eff A) : Eff A :=
  match e with
  | Ret a => Ret a
  | Do c k => Do c (fun x => catch (k x) h)
  | Raise m => h m
  end.

(** [try { e } finally { f }]: [f] runs on every exit, and an exception
    of [f] replaces the outcome of [e]. *)
Fixpoint finally {A : Type} (e : Eff A) (f : Eff unit) : Eff A :=
  match e with
  | Ret a => bind f (fun _ => Ret a)
  | Do c k => Do c (fun x => finally (k x) f)
  | Raise m => bind f (fun _ => Raise m)
  end.

(** [await] of a command whose promise may reject. *)
Definition await {A : Type} (c : Cmd (Outcome A)) : Eff A :=
  Do c (fun o => match o with Returned a => Ret a | Thrown m => Raise m end).

Definition perform {A : Type} (c : Cmd A) : Eff A := Do c Ret.

(** The commands, as they are observed from outside. *)
Inductive Event :=
| EClock
| ENewPage
| EGoto (url : string)
| EContent
| EMeasureCwv
| EClosePage
| ESleep (ms : Z).

Definition eventOf {X : Type} (c : Cmd X) : Event :=
  match c with
  | ReadClock => EClock
  | NewPage => ENewPage
  | Goto url _ _ => EGoto url
  | Content => EContent
  | MeasureCwv => EMeasureCwv
  | ClosePage => EClosePage
  | Sleep ms => ESleep ms
  end.

(** What the browser does with the page of one attempt. *)
Record PageScript := mkScript {
  onNewPage : Outcome unit;
  onGoto : Outcome (option Response);
  onContent : Outcome string;
  onMeasureCwv : CoreWebVitals;
  onClose : Outcome unit
}.

(** The world a crawl runs in: the successive readings of the clock, the
    script of every page opened, in order, and the events so far. *)
Record World := mkWorld {
  clock : nat -> Z;
  ticks : nat;
  pages : nat -> PageScript;
  opened : nat;
  trace : list Event
}.

Definition currentPage (w : World) : PageScript := pages w (opened w - 1)%nat.

Definition logged {X : Type} (c : Cmd X) (w : World) : list Event := trace w ++ [eventOf c].

Definition handle {X : Type} (c : Cmd X) (w : World) : X * World :=
  match c in Cmd T return T * World with
  | ReadClock =>
      (clock w (ticks w), mkWorld (clock w) (S (ticks w)) (pages w) (opened w) (logged c w))
  | NewPage =>
      (onNewPage (pages w (opened w)),
       mkWorld (clock w) (ticks w) (pages w) (S (opened w)) (logged c w))
  | Goto _ _ _ =>
      (onGoto (currentPage w), mkWorld (clock w) (ticks w) (pages w) (opened w) (logged c w))
  | Content =>
      (onContent (currentPage w), mkWorld (clock w) (ticks w) (pages w) (opened w) (logged c w))
  | MeasureCwv =>
      (onMeasureCwv (currentPage w),
       mkWorld (clock w) (ticks w) (pages w) (opened w) (logged c w))
  | ClosePage =>
      (onClose (currentPage w), mkWorld (clock w) (ticks w) (pages w) (opened w) (logged c w))
  | Sleep _ =>
      (tt, mkWorld (clock w) (ticks w) (pages w) (opened w) (logged c w))
  end.

Fixpoint run {A : Type} (e : Eff A) (w : World) : Outcome A * World :=
  match e with
  | Ret a => (Returned a, w)
  | Do c k => let '(x, w') := handle c w in run (k x) w'
  | Raise m => (Thrown m, w)
  end.

(** A tree that only ever reads the clock: no browser or network
    command, no sleep. *)
Inductive clockOnly {A : Type} : Eff A -> Prop :=
| clockOnly_ret (a : A) : clockOnly (Ret a)
| clockOnly_raise (m : string) : clockOnly (Raise m)
| clockOnly_now (k : Z -> Eff A) : (forall t, clockOnly (k t)) -> clockOnly (Do ReadClock k).

End Effects.

(** ** page-crawler.ts *)

Module PageCrawler.
Import Effects.

Section WithRuntime.
(** Numbers of the runtime (IEEE doubles) and the operations the
    extractor applies to them. *)
Variable Number : Type.
Variable numberToString : Number -> string.       (* [String(n)] *)
Variable parseFloat : string -> option Number.    (* [None] is [NaN] *)
Variable isZero : Number -> bool.                 (* [n === 0] *)
Variable isNegative : Number -> bool.             (* [n < 0] *)

(** Dates of the runtime: the time value of [new Date(s)] in
    milliseconds ([None] for an invalid date), and the time value after
    [d.setFullYear(d.getFullYear() - 2)]. *)
Variable dateParse : string -> option Z.
Variable twoYearsBefore : Z -> Z.

(** *** JSON values and the coercions of the extractor *)

#[warnings="-register-all"]
Inductive Json :=
| JNull
| JBool (b : bool)
| JNumber (n : Number)
| JString (s : string)
| JArray (items : list Json)
| JObject (fields : list (string * Json)).

(** A value of type [unknown]: [None] is [undefined]. *)
Definition unknown : Type := option Json.

(** An object of the structured data, [Record<string, unknown>]. *)
Definition SchemaObject : Type := list (string * Json).

Definition prop (o : SchemaObject) (key : string) : unknown :=
  match List.find (fun kv => String.eqb (fst kv) key) o with
  | Some kv => Some (snd kv)
  | None => None
  end.

(** [v[key]] on a value that is an object or an array; an array has none
    of the keys the extractor reads. *)
Definition get (v : Json) (key : string) : unknown :=
  match v with
  | JObject o => prop o key
  | _ => None
  end.

Definition truthy (v : unknown) : bool :=
  match v with
  | None | Some JNull => false
  | Some (JBool b) => b
  | Some (JNumber n) => negb (isZero n)
  | Some (JString s) => negb (String.eqb s "")
  | Some (JArray _) | Some (JObject _) => true
  end.

(** [a || b] *)
Definition orElse (a b : unknown) : unknown := if truthy a then a else b.

(** Truthiness of an optional string. *)
Definition present (s : option string) : bool :=
  match s with
  | Some (String _ _) => true
  | _ => false
  end.

Definition getSchemaString (value : unknown) : option string :=
  match value with
  | Some (JString s) => Some s
  | Some (JNumber n) => Some (numberToString n)
  | _ => None
  end.

(** [value.replace(/[^0-9.-]/g, '')] *)
Fixpoint keepNumeric (s : string) : string :=
  match s with
  | EmptyString => EmptyString
  | String c r =>
      if Whatwg.isDigit c || Ascii.eqb c "." || Ascii.eqb c "-"
      then String c (keepNumeric r) else keepNumeric r
  end.

Definition getSchemaNumber (value : unknown) : option Number :=
  match value with
  | Some (JNumber n) => Some n
  | Some (JString s) => parseFloat (keepNumeric s)
  | _ => None
  end.

Definition extractBrandName (brand : unknown) : option string :=
  if negb (truthy brand) then None
  else match brand with
       | Some (JString s) => Some s
       | Some (JObject _ as o) | Some (JArray _ as o) => getSchemaString (get o "name")
       | _ => None
       end.

Fixpoint firstImage (image : Json) : option string :=
  match image with
  | JString s => if String.eqb s "" then None else Some s
  | JArray (first :: _) => firstImage first
  | JArray [] => None
  | JObject o => getSchemaString (orElse (prop o "url") (prop o "@id"))
  | JNull => None
  | JBool _ => None
  | JNumber _ => None
  end.

Definition extractFirstImage (image : unknown) : option string :=
  match image with
  | Some v => firstImage v
  | None => None
  end.

(** [avail.match(/schema\.org\/(.*?)$/i)]: the text after the leftmost
    [schema.org/] that is followed by no line break up to the end. *)
Fixpoint noLineBreak (s : string) : bool :=
  match s with
  | EmptyString => true
  | String c r => negb (Ascii.eqb c "010" || Ascii.eqb c "013") && noLineBreak r
  end.

Fixpoint afterSchemaOrg (s : string) : option string :=
  let tail := Js.drop 11 s in
  if Js.startsWith "schema.org/" (Js.toLowerCase s) && noLineBreak tail then Some tail
  else match s with
       | EmptyString => None
       | String _ r => afterSchemaOrg r
       end.

Definition normalizeAvailability (availability : unknown) : option string :=
  match getSchemaString availability with
  | Some (String c r) =>
      let avail := String c r in
      match afterSchemaOrg avail with
      | Some (String d t) => Some (String d t)
      | _ => Some avail
      end
  | _ => None
  end.

Record Offer := mkOffer {
  offerPrice : option Number;
  offerCurrency : option string;
  offerAvailability : option string;
  priceValidUntil : option string
}.

(** [processOffer]: the offers pushed for one value. *)
Definition processOffer (offer : Json) : list Offer :=
  match offer with
  | JObject _ | JArray _ =>
      match get offer "@type" with
      | Some (JString "AggregateOffer") =>
          [ mkOffer
              (match getSchemaNumber (get offer "lowPrice") with
               | Some lowPrice => Some lowPrice
               | None => getSchemaNumber (get offer "highPrice")
               end)
              (getSchemaString (get offer "priceCurrency"))
              (normalizeAvailability (get offer "availability"))
              (getSchemaString (get offer "priceValidUntil")) ]
      | _ =>
          [ mkOffer
              (getSchemaNumber (get offer "price"))
              (getSchemaString (get offer "priceCurrency"))
              (normalizeAvailability (get offer "availability"))
              (getSchemaString (get offer "priceValidUntil")) ]
      end
  | _ => []
  end.

Definition extractOffers (offers : unknown) : list Offer :=
  if negb (truthy offers) then []
  else match offers with
       | Some (JArray items) => flat_map processOffer items
       | Some v => processOffer v
       | None => []
       end.

(** *** extractEcommerceData *)

Record ProductData := mkProductData {
  productName : option string;
  productDescription : option string;
  sku : option string;
  gtin : option string;
  mpn : option string;
  brand : option string;
  productImage : option string;
  condition : option string;
  ratingValue : option Number;
  reviewCount : option Number;
  offers : option (list Offer);
  price : option Number;
  currency : option string;
  availability : option string
}.

(** The flags of [issues]: [true] when set, [false] when absent. *)
Record ProductIssues := mkProductIssues {
  missingProductName : bool;
  productMissingDescription : bool;
  productMissingImage : bool;
  missingSku : bool;
  missingBrand : bool;
  missingOffer : bool;
  missingPrice : bool;
  missingAvailability : bool;
  invalidPrice : bool;
  missingCurrency : bool;
  outOfStock : bool;
  discontinuedProduct : bool;
  expiredPrice : bool;
  multipleProducts : bool
}.

Record Ecommerce := mkEcommerce {
  hasProductSchema : bool;
  productData : ProductData;
  productIssues : option ProductIssues
}.

Definition isString (v : Json) (s : string) : bool :=
  match v with
  | JString x => String.eqb x s
  | _ => false
  end.

(** The filter on [@type] for products. *)
Definition isProductSchema (item : SchemaObject) : bool :=
  match prop item "@type" with
  | Some (JArray types) => existsb (fun t => isString t "Product") types
  | Some v => isString v "Product"
  | None => false
  end.

(** [validUntil < now] for the first offer that has a [priceValidUntil];
    the loop breaks on the first expired offer. *)
Definition offerExpired (now : Z) (offer : Offer) : bool :=
  if present (priceValidUntil offer) then
    match priceValidUntil offer with
    | Some s => match dateParse s with
                | Some validUntil => validUntil <? now
                | None => false
                end
    | None => false
    end
  else false.

Definition anyProductIssue (i : ProductIssues) : bool :=
  missingProductName i || productMissingDescription i || productMissingImage i
  || missingSku i || missingBrand i || missingOffer i || missingPrice i
  || missingAvailability i || invalidPrice i || missingCurrency i || outOfStock i
  || discontinuedProduct i || expiredPrice i || multipleProducts i.

Definition extractEcommerceData (structuredData : list SchemaObject) : Eff (option Ecommerce) :=
  match List.filter isProductSchema structuredData with
  | [] => Ret None
  | product :: others =>
      let rating := prop product "aggregateRating" in
      let hasRating :=
        truthy rating && match rating with
                         | Some (JObject _) | Some (JArray _) => true
                         | _ => false
                         end in
      let ratingOf (key : string) : unknown :=
        match rating with Some r => get r key | None => None end in
      let offerList := extractOffers (prop product "offers") in
      let mainOffer := List.head offerList in
      let data :=
        mkProductData
          (getSchemaString (prop product "name"))
          (getSchemaString (prop product "description"))
          (getSchemaString (prop product "sku"))
          (getSchemaString (orElse (orElse (orElse (prop product "gtin") (prop product "gtin13"))
                                      (prop product "gtin12")) (prop product "gtin14")))
          (getSchemaString (prop product "mpn"))
          (extractBrandName (prop product "brand"))
          (extractFirstImage (prop product "image"))
          (getSchemaString (prop product "itemCondition"))
          (if hasRating then getSchemaNumber (ratingOf "ratingValue") else None)
          (if hasRating
           then getSchemaNumber (orElse (ratingOf "reviewCount") (ratingOf "ratingCount"))
           else None)
          (match offerList with [] => None | _ => Some offerList end)
          (match mainOffer with Some o => offerPrice o | None => None end)
          (match mainOffer with Some o => offerCurrency o | None => None end)
          (match mainOffer with Some o => offerAvailability o | None => None end) in
      let noOffers := negb (truthy (prop product "offers")) in
      let availLower :=
        if present (availability data)
        then match availability data with Some a => Js.toLowerCase a | None => "" end
        else "" in
      bind (match offerList with
            | [] => Ret false
            | _ => bind (perform ReadClock) (fun now => Ret (existsb (offerExpired now) offerList))
            end)
        (fun expired =>
           let issues :=
             mkProductIssues
               (negb (present (productName data)))
               (negb (present (productDescription data)))
               (negb (present (productImage data)))
               (negb (present (sku data)) && negb (present (gtin data))
                && negb (present (mpn data)))
               (negb (present (brand data)))
               noOffers
               (if noOffers then true
                else match price data with None => true | Some _ => false end)
               (if noOffers then true else negb (present (availability data)))
               (if noOffers then false
                else match price data with Some n => isNegative n | None => false end)
               (if noOffers then false else negb (present (currency data)))
               (Js.includes "outofstock" availLower || Js.includes "out_of_stock" availLower)
               (Js.includes "discontinued" availLower)
               expired
               (match others with [] => false | _ => true end) in
           Ret (Some (mkEcommerce true data
                        (if anyProductIssue issues then Some issues else None))))
  end.

(** *** extractArticleData *)

Inductive Author :=
| AuthorName (name : string)
| AuthorObject (name : string) (url : option string).

Inductive Publisher :=
| PublisherName (name : string)
| PublisherObject (name : string) (logo : option string).

Record ArticleData := mkArticleData {
  headline : option string;
  articleDescription : option string;
  body : option string;
  datePublished : option string;
  dateModified : option string;
  articleImage : option string;
  wordCount : option Number;
  inLanguage : option string;
  mainEntityOfPage : option string;
  author : option Author;
  publisher : option Publisher
}.

Record ArticleIssues := mkArticleIssues {
  missingHeadline : bool;
  shortHeadline : bool;
  headlineTooLong : bool;
  missingDatePublished : bool;
  invalidDateFormat : bool;
  futureDatePublished : bool;
  outdatedContent : bool;
  missingDateModified : bool;
  missingAuthor : bool;
  articleMissingImage : bool;
  articleMissingDescription : bool;
  missingPublisher : bool;
  missingBody : bool;
  missingWordCount : bool;
  multipleArticles : bool
}.

Record Article := mkArticle {
  hasArticleSchema : bool;
  schemaType : option string;
  articleCount : nat;
  articleData : ArticleData;
  articleIssues : option ArticleIssues
}.

Definition articleTypes : list string :=
  [ "Article"; "NewsArticle"; "BlogPosting"; "TechArticle"; "ScholarlyArticle" ].

Definition isArticleType (t : Json) : bool :=
  match t with
  | JString s => Js.arrayIncludes articleTypes s
  | _ => false
  end.

Definition isArticleSchema (item : SchemaObject) : bool :=
  match prop item "@type" with
  | Some (JArray types) => existsb isArticleType types
  | Some v => isArticleType v
  | None => false
  end.

(** The regular expression of [isValidISO8601Date],
    [^\d{4}-\d{2}-\d{2}(T\d{2}:\d{2}(:\d{2})?(\.\d+)?(Z|[+-]\d{2}:\d{2})?)?$],
    as a scanner: [digits n s] reads exactly [n] digits. *)
Fixpoint digits (n : nat) (s : string) : option string :=
  match n with
  | O => Some s
  | S n' => match s with
            | String c r => if Whatwg.isDigit c then digits n' r else None
            | EmptyString => None
            end
  end.

Definition lit (c : ascii) (s : string) : option string :=
  match s with
  | String d r => if Ascii.eqb c d then Some r else None
  | EmptyString => None
  end.

Fixpoint skipDigits (s : string) : string :=
  match s with
  | String c r => if Whatwg.isDigit c then skipDigits r else s
  | EmptyString => EmptyString
  end.

Definition andThen {A B : Type} (o : option A) (f : A -> option B) : option B :=
  match o with Some a => f a | None => None end.

(** The optional parts: they start with different characters, so each
    is taken whenever it matches. *)
Definition optional (p : string -> option string) (s : string) : string :=
  match p s with Some r => r | None => s end.

Definition secondsPart (s : string) : option string := andThen (lit ":" s) (digits 2).

Definition fractionPart (s : string) : option string :=
  andThen (lit "." s) (fun r => andThen (digits 1 r) (fun r' => Some (skipDigits r'))).

Definition zonePart (s : string) : option string :=
  match lit "Z" s with
  | Some r => Some r
  | None =>
      andThen (match lit "+" s with Some r => Some r | None => lit "-" s end)
        (fun r => andThen (digits 2 r) (fun r => andThen (lit ":" r) (digits 2)))
  end.

Definition timePart (s : string) : option string :=
  andThen (lit "T" s) (fun r =>
  andThen (digits 2 r) (fun r =>
  andThen (lit ":" r) (fun r =>
  andThen (digits 2 r) (fun r =>
  Some (optional zonePart (optional fractionPart (optional secondsPart r))))))).

Definition matchesIso8601 (s : string) : bool :=
  match andThen (digits 4 s) (fun r =>
        andThen (lit "-" r) (fun r =>
        andThen (digits 2 r) (fun r =>
        andThen (lit "-" r) (digits 2)))) with
  | Some EmptyString => true
  | Some rest => match timePart rest with
                 | Some EmptyString => true
                 | _ => false
                 end
  | None => false
  end.

Definition isValidISO8601Date (dateStr : string) : bool :=
  if String.eqb dateStr "" then false
  else if negb (matchesIso8601 dateStr) then false
  else match dateParse dateStr with Some _ => true | None => false end.

(** The [author] field. *)
Definition extractAuthor (authorData : unknown) : option Author :=
  if negb (truthy authorData) then None
  else match authorData with
       | Some (JString s) => Some (AuthorName s)
       | Some (JObject _ as v) | Some (JArray _ as v) =>
           let firstAuthor :=
             match v with
             | JArray items => List.head items
             | _ => Some v
             end in
           match firstAuthor with
           | Some (JObject _ as a) | Some (JArray _ as a) =>
               let n := getSchemaString (get a "name") in
               Some (AuthorObject (if present n then default "" n else "Unknown")
                       (getSchemaString (get a "url")))
           | _ => None
           end
       | _ => None
       end.

(** The [publisher] field. *)
Definition extractPublisher (publisherData : unknown) : option Publisher :=
  if negb (truthy publisherData) then None
  else match publisherData with
       | Some (JString s) => Some (PublisherName s)
       | Some (JObject _ as v) | Some (JArray _ as v) =>
           let pubName := getSchemaString (get v "name") in
           let logoUrl :=
             match get v "logo" with
             | Some (JString s) => Some s
             | Some (JObject _ as l) | Some (JArray _ as l) => getSchemaString (get l "url")
             | _ => None
             end in
           Some (PublisherObject (if present pubName then default "" pubName else "Unknown")
                   logoUrl)
       | _ => None
       end.

(** [typeof m === 'object' ? m['@id'] : m], which throws on [null]. *)
Definition mainEntityValue (m : unknown) : Eff unknown :=
  match m with
  | Some JNull => Raise "Cannot read properties of null (reading '@id')"
  | Some (JObject _ as v) | Some (JArray _ as v) => Ret (get v "@id")
  | other => Ret other
  end.

Definition anyArticleIssue (i : ArticleIssues) : bool :=
  missingHeadline i || shortHeadline i || headlineTooLong i || missingDatePublished i
  || invalidDateFormat i || futureDatePublished i || outdatedContent i
  || missingDateModified i || missingAuthor i || articleMissingImage i
  || articleMissingDescription i || missingPublisher i || missingBody i
  || missingWordCount i || multipleArticles i.

(** The checks on [datePublished] that compare with the current time:
    the flags [futureDatePublished] and [outdatedContent]. *)
Definition dateChecks (data : ArticleData) : Eff (bool * bool) :=
  match datePublished data with
  | Some (String c r) =>
      let published := String c r in
      if isValidISO8601Date published then
        let pubDate := default 0 (dateParse published) in
        bind (perform ReadClock) (fun now =>
        bind (perform ReadClock) (fun now' =>
        Ret (now <? pubDate,
             (pubDate <? twoYearsBefore now') && negb (present (dateModified data)))))
      else Ret (false, false)
  | _ => Ret (false, false)
  end.

Definition extractArticleData (structuredData : list SchemaObject) : Eff (option Article) :=
  match List.filter isArticleSchema structuredData with
  | [] => Ret None
  | article :: others =>
      let count := S (length others) in
      let kind :=
        match prop article "@type" with
        | Some (JArray types) =>
            match List.find isArticleType types with
            | Some (JString s) => Some s
            | _ => None
            end
        | Some (JString s) => Some s
        | _ => None
        end in
      bind (mainEntityValue (prop article "mainEntityOfPage")) (fun mainEntity =>
      let data :=
        mkArticleData
          (getSchemaString (orElse (prop article "headline") (prop article "name")))
          (getSchemaString (orElse (prop article "description") (prop article "abstract")))
          (getSchemaString (orElse (prop article "articleBody") (prop article "text")))
          (getSchemaString (prop article "datePublished"))
          (getSchemaString (prop article "dateModified"))
          (extractFirstImage (prop article "image"))
          (getSchemaNumber (prop article "wordCount"))
          (getSchemaString (prop article "inLanguage"))
          (getSchemaString mainEntity)
          (extractAuthor (prop article "author"))
          (extractPublisher (prop article "publisher")) in
      let headlineLength := String.length (default "" (headline data)) in
      bind (dateChecks data) (fun '(future, outdated) =>
      let issues :=
        mkArticleIssues
          (negb (present (headline data)))
          (present (headline data) && (headlineLength <? 30)%nat)
          (present (headline data) && (110 <? headlineLength)%nat)
          (negb (present (datePublished data)))
          ((present (datePublished data)
            && negb (isValidISO8601Date (default "" (datePublished data))))
           || (present (dateModified data)
               && negb (isValidISO8601Date (default "" (dateModified data)))))
          future
          outdated
          (present (datePublished data) && negb (present (dateModified data)))
          (match author data with Some _ => false | None => true end)
          (negb (present (articleImage data)))
          (negb (present (articleDescription data)))
          (match publisher data with Some _ => false | None => true end)
          (negb (present (body data)))
          (match wordCount data with
           | Some n => isZero n
           | None => true
           end && present (body data))
          (1 <? count)%nat in
      Ret (Some (mkArticle true kind count data
                   (if anyArticleIssue issues then Some issues else None)))))
  end.

(** *** The libraries behind the extraction

    [extractPageData] and its helpers query the parsed document through
    cheerio and compute with built-ins of the runtime: strings in
    UTF-16, regular expressions, [URL], [JSON.parse], [crypto] and IEEE
    doubles. None of this is code of the repository; it is the
    interface [Library]. A selection is a value. The extractor calls
    [remove()] on clones only, and [without] reads
    [s.find(sel).remove().end()] as the function from the clone to the
    clone without the elements found. *)

Variable Dom : Type.
Variable load : string -> Dom.                       (* [cheerio.load(html)] *)

(** A regular expression literal [/source/flags]. *)
Record RegExp := mkRegExp {
  source : string;
  flags : string
}.

Class Library := mkLibrary {
  (* cheerio *)
  Selection : Type;
  select : Dom -> string -> Selection;            (* [$(selector)] *)
  each : Selection -> list Selection;             (* the [$(el)] of [.each((_, el) => ...)] *)
  first : Selection -> Selection;                 (* [.first()] *)
  text : Selection -> string;                     (* [.text()] *)
  innerHtml : Selection -> option string;         (* [.html()], [None] is [null] *)
  attr : Selection -> string -> option string;    (* [.attr(name)] *)
  tagName : Selection -> string;                  (* [el.tagName] of an element *)
  propTagName : Selection -> option string;       (* [.prop('tagName')] *)
  parent : Selection -> Selection;                (* [.parent()] *)
  parents : Selection -> string -> Selection;     (* [.parents(selector)] *)
  matches : Selection -> string -> bool;          (* [.is(selector)] *)
  position : Selection -> Z;                      (* [.index()] *)
  clone : Selection -> Selection;                 (* [.clone()] *)
  descendants : Selection -> string -> Selection; (* [.find(selector)] *)
  without : Selection -> string -> Selection;     (* [.find(selector).remove().end()] *)
  withoutChildren : Selection -> string -> Selection;
                                                  (* [.children(selector).remove().end()] *)
  (* strings, in UTF-16 code units *)
  trim : string -> string;                        (* [s.trim()] *)
  toLowerCase : string -> string;                 (* [s.toLowerCase()] *)
  toUpperCase : string -> string;                 (* [s.toUpperCase()] *)
  codeUnits : string -> Z;                        (* [s.length] *)
  substring : Z -> Z -> string -> string;         (* [s.substring(from, to)] *)
  (* regular expressions *)
  test : RegExp -> string -> bool;                (* [re.test(s)], [re] without the flag g *)
  matchGroups : RegExp -> string -> option (list (option string));
                                                  (* [s.match(re)], [re] without the flag g *)
  matchAll : RegExp -> string -> option (list string);
                                                  (* [s.match(re)], [re] with the flag g *)
  replaceRegExp : RegExp -> string -> string -> string;
                                                  (* [s.replace(re, replacement)] *)
  splitRegExp : RegExp -> string -> list string;  (* [s.split(re)] *)
  (* URL *)
  parseURL : string -> option Url.URL;            (* [new URL(s)], [None] when it throws *)
  resolveURL : string -> string -> option Url.URL;  (* [new URL(s, base)] *)
  searchParamKeys : Url.URL -> list string;       (* [Array.from(u.searchParams.keys())] *)
  (* JSON and crypto *)
  jsonParse : string -> Outcome Json;             (* [JSON.parse(s)] or the message it throws *)
  notIterable : Json -> string;         (* the message of [for (... of v)] on such a [v] *)
  sha256 : string -> string;     (* [createHash('sha256').update(s).digest('hex')] *)
  (* numbers *)
  parseInt : string -> option Number;             (* [parseInt(s, 10)], [None] is [NaN] *)
  ofZ : Z -> Number;                              (* an integer below 2^53 as a number *)
  literal : string -> Number;                     (* a decimal literal of the source *)
  numEqb : Number -> Number -> bool;              (* [a === b] *)
  numLtb : Number -> Number -> bool;              (* [a < b] *)
  numLeb : Number -> Number -> bool;              (* [a <= b] *)
  numAdd : Number -> Number -> Number;
  numSub : Number -> Number -> Number;
  numMul : Number -> Number -> Number;
  numDiv : Number -> Number -> Number;
  mathRound : Number -> Number;
  mathMax : Number -> Number -> Number
}.

Variable library : Library.

(** [s || undefined] and [s || ''] on an optional string. *)
Definition nonEmpty (s : option string) : option string :=
  match s with
  | Some (String c r) => Some (String c r)
  | _ => None
  end.

Definition orEmpty (s : option string) : string :=
  match s with
  | Some v => v
  | None => ""
  end.

(** [.length] of a selection. *)
Definition count (s : Selection) : Z := Z.of_nat (length (each s)).

(** The double quote, and the attribute selectors [[name="value"]],
    [[name*="value"]] and [[name^="value"]]. *)
Definition quote : string := String "034" EmptyString.
Definition attrIs (name value : string) : string :=
  "[" +:+ name +:+ "=" +:+ quote +:+ value +:+ quote +:+ "]".
Definition attrHas (name value : string) : string :=
  "[" +:+ name +:+ "*=" +:+ quote +:+ value +:+ quote +:+ "]".
Definition attrStarts (name value : string) : string :=
  "[" +:+ name +:+ "^=" +:+ quote +:+ value +:+ quote +:+ "]".

Definition whitespace : RegExp := mkRegExp "\s+" "".
Definition whitespaces : RegExp := mkRegExp "\s+" "g".

(** [String(n)] for an integer. *)
Definition decimal (n : Z) : string := NilZero.string_of_int (Z.to_int n).

(** [normalizeUrl(url, baseUrl)] of the page crawler. *)
Definition normalizeUrl (url baseUrl : string) : string :=
  match resolveURL url baseUrl with
  | Some parsed =>
      let parsed := Url.set_hash parsed "" in
      let normalized := Url.href parsed in
      if Js.endsWith "/" normalized && negb (String.eqb (Url.pathname parsed) "/")
      then Js.take (String.length normalized - 1) normalized
      else normalized
  | None => url
  end.

(** [checkIndexability(statusCode, robotsMeta)] *)
Definition checkIndexability (statusCode : Z) (robotsMeta : option string)
  : bool * option string :=
  if 400 <=? statusCode
  then (false, Some ("HTTP " +:+ decimal statusCode +:+ " error"))
  else if (300 <=? statusCode) && (statusCode <? 400) then (false, Some "Redirect")
  else match nonEmpty robotsMeta with
       | Some robots =>
           if Js.includes "noindex" (toLowerCase robots)
           then (false, Some "noindex directive")
           else (true, None)
       | None => (true, None)
       end.

(** The texts pushed by [$(tag).each(...)]: trimmed, the empty ones
    left out. *)
Definition headingTexts (dom : Dom) (tag : string) : list string :=
  List.filter (fun t => negb (String.eqb t ""))
    (map (fun el => trim (text el)) (each (select dom tag))).

(** [extractLinks($, baseUrl)]: [new URL(baseUrl)] stands outside the
    [try] block and throws on a base that is no URL. *)
Record Links := mkLinks {
  internal : list string;
  external : list string
}.

Definition linkStep (baseUrl baseDomain : string) (links : Links) (el : Selection) : Links :=
  match nonEmpty (attr el "href") with
  | None => links
  | Some href =>
      match resolveURL href baseUrl with
      | None => links
      | Some resolved =>
          let absoluteUrl := Url.href resolved in
          match parseURL absoluteUrl with
          | None => links
          | Some absolute =>
              let linkDomain := Robots.stripWww (Url.hostname absolute) in
              if negb (Js.startsWith "http" absoluteUrl) then links
              else if String.eqb linkDomain baseDomain
                      || Js.endsWith ("." +:+ baseDomain) linkDomain
              then if Js.arrayIncludes (internal links) absoluteUrl then links
                   else mkLinks (internal links ++ [absoluteUrl]) (external links)
              else if Js.arrayIncludes (external links) absoluteUrl then links
                   else mkLinks (internal links) (external links ++ [absoluteUrl])
          end
      end
  end.

Definition extractLinks (dom : Dom) (baseUrl : string) : Eff Links :=
  match parseURL baseUrl with
  | None => Raise "Invalid URL"
  | Some base =>
      let baseDomain := Robots.stripWww (Url.hostname base) in
      Ret (fold_left (linkStep baseUrl baseDomain)
             (each (select dom "a[href]")) (mkLinks [] []))
  end.

(** [extractImages($)] *)
Record ImageData := mkImage {
  src : string;
  alt : option string;
  width : option Number;
  height : option Number
}.

Record ImageStats := mkImageStats {
  total : Z;
  withoutAlt : Z;
  withEmptyAlt : Z;
  details : list ImageData
}.

Definition imageStep (stats : ImageStats) (el : Selection) : ImageStats :=
  let src := attr el "src" in
  let alt := attr el "alt" in
  let width := parseInt (orEmpty (attr el "width")) in
  let height := parseInt (orEmpty (attr el "height")) in
  mkImageStats
    (total stats + 1)
    (match alt with None => withoutAlt stats + 1 | Some _ => withoutAlt stats end)
    (match alt with
     | Some a => if String.eqb (trim a) "" then withEmptyAlt stats + 1 else withEmptyAlt stats
     | None => withEmptyAlt stats
     end)
    (match nonEmpty src with
     | Some s => details stats ++ [mkImage s alt width height]
     | None => details stats
     end).

Definition extractImages (dom : Dom) : ImageStats :=
  fold_left imageStep (each (select dom "img")) (mkImageStats 0 0 0 []).

(** [extractBodyText($)] *)
Definition chrome : string := "script, style, noscript, nav, footer, header, aside".

Definition extractBodyText (dom : Dom) : string :=
  trim (replaceRegExp whitespaces " " (text (without (clone (select dom "body")) chrome))).

(** [extractBodyTextAsMarkdown($)] *)
Definition consentSelectors : list string :=
  [ attrHas "id" "cookie"; attrHas "id" "consent"; attrHas "id" "gdpr";
    attrHas "id" "privacy-banner";
    attrHas "class" "cookie"; attrHas "class" "consent"; attrHas "class" "gdpr";
    attrHas "class" "privacy-banner"; attrHas "class" "cookieyes";
    ".cc-window"; ".cc-banner"; "#CybotCookiebotDialog"; "#onetrust-consent-sdk";
    ".onetrust-pc-dark-filter"; "#truste-consent-track"; ".evidon-banner";
    "#cookiescript_injected"; ".cookie-law-info-bar"; "#cookie-law-info-bar"; ".cli-modal";
    attrHas "aria-label" "cookie"; attrHas "aria-label" "consent";
    attrHas "aria-label" "privacy" ].

Definition ignoreCase (source : string) : RegExp := mkRegExp source "i".

Definition boilerplatePatterns : list RegExp :=
  map ignoreCase
    [ "^we (use|value) (cookies|your privacy)";
      "we use cookies to (enhance|help|improve)";
      "cookie(s)? (policy|preferences|settings|consent)";
      "accept (all )?(cookies|consent)";
      "by clicking .*(accept|agree|consent)";
      "consent (to|for) (our|the) use of cookies";
      "manage (your )?(cookie|consent|privacy)";
      "^necessary cookies";
      "^functional cookies";
      "^analytical cookies";
      "^performance cookies";
      "^advertisement cookies";
      "cookies are (used|required|stored)";
      "no cookies to display";
      "cookies do not store any personally";
      "this cookie is set by";
      "cookieyes sets this cookie";
      "google analytics sets this cookie";
      "^cookie[a-z_-]*$";
      "^duration";
      "^description.*cookie";
      "sets this cookie to";
      "show more";
      "accept all";
      "reject all";
      "customize";
      "save preferences";
      "stored on your browser";
      "enabling the basic functionalities";
      "collect or store any personal";
      "third-party features";
      "remember users' consent";
      "calculate visitor, session";
      "store and count page views";
      "track site usage";
      "recognise unique visitors";
      "analyse the effectiveness";
      "customised advertisements";
      "key performance indexes" ].

Definition isBoilerplate (t : string) : bool :=
  (codeUnits t <? 3) || existsb (fun pattern => test pattern t) boilerplatePatterns.

Definition blocks : string := "h1, h2, h3, h4, h5, h6, p, li, blockquote".

Definition lf : string := String "010" EmptyString.

(** The lines pushed for one element of the clone. *)
Definition markdownLines (el : Selection) : list string :=
  let tag := toLowerCase (tagName el) in
  let t := trim (text (withoutChildren (clone el) blocks)) in
  if String.eqb t "" then []
  else
    let t := replaceRegExp whitespaces " " t in
    if isBoilerplate t then []
    else if String.eqb tag "h1" then ["# " +:+ t; ""]
    else if String.eqb tag "h2" then ["## " +:+ t; ""]
    else if String.eqb tag "h3" then ["### " +:+ t; ""]
    else if String.eqb tag "h4" then ["#### " +:+ t; ""]
    else if String.eqb tag "h5" then ["##### " +:+ t; ""]
    else if String.eqb tag "h6" then ["###### " +:+ t; ""]
    else if String.eqb tag "p" then [t; ""]
    else if String.eqb tag "li" then
      if matches (parent el) "ol"
      then [decimal (position el + 1) +:+ ". " +:+ t]
      else ["- " +:+ t]
    else if String.eqb tag "blockquote" then ["> " +:+ t; ""]
    else [].

Definition extractBodyTextAsMarkdown (dom : Dom) : string :=
  let body := clone (select dom "body") in
  let body := without body chrome in
  let body := without body (Js.join ", " consentSelectors) in
  let lines := flat_map markdownLines (each (descendants body blocks)) in
  let result :=
    trim (replaceRegExp (mkRegExp "\n{3,}" "g") (lf +:+ lf) (Js.join lf lines)) in
  let result :=
    replaceRegExp (mkRegExp "^(We value your privacy[\s\S]*?)(#{1,6}\s)" "m") "$2" result in
  let result :=
    replaceRegExp
      (mkRegExp "- Cookie[a-z_-]*\n- Duration[^\n]*\n- Description[^\n]*" "gi") "" result in
  let result := replaceRegExp (mkRegExp "\n-\s*\n" "g") lf result in
  let result := replaceRegExp (mkRegExp "\n{3,}" "g") (lf +:+ lf) result in
  trim result.

(** [calculateTextToHtmlRatio($, html)] *)
Definition calculateTextToHtmlRatio (dom : Dom) (html : string) : Number :=
  let t := extractBodyText dom in
  if String.eqb html "" || (codeUnits html =? 0) then ofZ 0
  else mathRound (numMul (numDiv (ofZ (codeUnits t)) (ofZ (codeUnits html))) (ofZ 100)).

(** [analyzeKeywords($)]; [wordCounts] is a [Map], kept in the order
    in which its keys were first set. *)
Record Keyword := mkKeyword {
  word : string;
  occurrences : Z;              (* [count] *)
  density : Number
}.

Definition stopWords : list string :=
  [ "the"; "and"; "for"; "are"; "but"; "not"; "you"; "all"; "can"; "her";
    "was"; "one"; "our"; "out"; "has"; "have"; "been"; "will"; "from";
    "they"; "this"; "that"; "with"; "what"; "which"; "when"; "where";
    "your"; "more"; "about"; "would"; "there"; "their"; "than"; "into";
    "some"; "could"; "them"; "these"; "other"; "only"; "just"; "also";
    "over"; "such"; "most"; "very"; "here"; "should"; "being"; "does" ].

(** [map.set(key, f(map.get(key)))] *)
Fixpoint mapUpdate {V : Type} (key : string) (f : option V -> V) (m : list (string * V))
  : list (string * V) :=
  match m with
  | [] => [(key, f None)]
  | (k, v) :: rest =>
      if String.eqb k key then (k, f (Some v)) :: rest
      else (k, v) :: mapUpdate key f rest
  end.

Definition countWord (wordCounts : list (string * Z)) (w : string) : list (string * Z) :=
  if Js.arrayIncludes stopWords w then wordCounts
  else mapUpdate w (fun c => default 0 c + 1) wordCounts.

(** [keywords.sort((a, b) => b.density - a.density)]: the sort of the
    runtime is stable, and a keyword goes before the first one of a
    smaller density. *)
Fixpoint insertKeyword (k : Keyword) (sorted : list Keyword) : list Keyword :=
  match sorted with
  | [] => [k]
  | y :: rest =>
      if numLtb (density y) (density k) then k :: sorted
      else y :: insertKeyword k rest
  end.

Definition sortByDensity (keywords : list Keyword) : list Keyword :=
  fold_left (fun sorted k => insertKeyword k sorted) keywords [].

Definition analyzeKeywords (dom : Dom) : list Keyword :=
  let t := toLowerCase (extractBodyText dom) in
  if String.eqb t "" then []
  else
    let words := match matchAll (mkRegExp "\b[a-z]{3,}\b" "g") t with
                 | Some ws => ws
                 | None => []
                 end in
    let totalWords := Z.of_nat (length words) in
    if totalWords <? 50 then []
    else
      let wordCounts := fold_left countWord words [] in
      let keywords :=
        flat_map (fun '(w, c) =>
                    if 3 <=? c
                    then [mkKeyword w c
                            (numDiv (mathRound (numMul (numDiv (ofZ c) (ofZ totalWords))
                                                  (ofZ 1000)))
                               (ofZ 10))]
                    else [])
                 wordCounts in
      firstn 10 (sortByDensity keywords).

(** [countSyllables(text)] *)
Definition wordSyllables (w : string) : Z :=
  let vowelGroups := match matchAll (mkRegExp "[aeiouy]+" "g") w with
                     | Some groups => Z.of_nat (length groups)
                     | None => 1
                     end in
  let vowelGroups := if Js.endsWith "e" w && (1 <? vowelGroups)
                     then vowelGroups - 1 else vowelGroups in
  Z.max 1 vowelGroups.

Definition countSyllables (t : string) : Z :=
  let words := match matchAll (mkRegExp "\b[a-z]+\b" "g") (toLowerCase t) with
               | Some ws => ws
               | None => []
               end in
  fold_left (fun syllables w => syllables + wordSyllables w) words 0.

(** [analyzeReadingLevel($)] *)
Inductive ReadingLevel := basic | intermediate | advanced | complex.

(** [n || 1] on a length. *)
Definition orOne (n : Z) : Z := if n =? 0 then 1 else n.

Definition analyzeReadingLevel (dom : Dom) : ReadingLevel * Number :=
  let t := extractBodyText dom in
  if String.eqb t "" || (codeUnits t <? 100) then (basic, ofZ 0)
  else
    let sentences := orOne (match matchAll (mkRegExp "[.!?]+" "g") t with
                            | Some found => Z.of_nat (length found)
                            | None => 0
                            end) in
    let words := orOne (Z.of_nat (length (splitRegExp whitespace t))) in
    let syllableCount := countSyllables t in
    let avgWordsPerSentence := numDiv (ofZ words) (ofZ sentences) in
    let avgSyllablesPerWord := numDiv (ofZ syllableCount) (ofZ words) in
    let gradeLevel :=
      mathRound (numSub (numAdd (numMul (literal "0.39") avgWordsPerSentence)
                           (numMul (literal "11.8") avgSyllablesPerWord))
                   (literal "15.59")) in
    let level :=
      if numLeb gradeLevel (ofZ 6) then basic
      else if numLeb gradeLevel (ofZ 10) then intermediate
      else if numLeb gradeLevel (ofZ 14) then advanced
      else complex in
    (level, mathMax (ofZ 0) gradeLevel).

(** [extractHeadingHierarchy($)] *)
Definition extractHeadingHierarchy (dom : Dom) : list string :=
  map (fun el => toLowerCase (tagName el)) (each (select dom "h1, h2, h3, h4, h5, h6")).

(** [extractSchemaData($)] *)
Record SchemaData := mkSchemaData {
  types : list Json;
  data : list SchemaObject;
  errors : list string
}.

(** [Array.isArray(t) ? t : [t]] *)
Definition asArray (t : Json) : list Json :=
  match t with
  | JArray items => items
  | _ => [t]
  end.

(** [if (json['@type']) { types.push(...); data.push(json) }] for a
    value that is not [null]. *)
Definition pushTyped (st : list Json * list SchemaObject) (json : Json)
  : list Json * list SchemaObject :=
  match json with
  | JObject fields =>
      if truthy (prop fields "@type")
      then match prop fields "@type" with
           | Some t => (fst st ++ asArray t, snd st ++ [fields])
           | None => st
           end
      else st
  | _ => st
  end.

(** The loop over the items of [json['@graph']], an array: reading
    [item['@type']] throws on [null]. *)
Fixpoint pushGraph (st : list Json * list SchemaObject) (items : list Json)
  : list Json * list SchemaObject * option string :=
  match items with
  | [] => (st, None)
  | JNull :: _ => (st, Some "Cannot read properties of null (reading '@type')")
  | item :: rest => pushGraph (pushTyped st item) rest
  end.

(** The [try] block for one script: what it pushed, and the message of
    the exception that ended it. *)
Definition parseScript (st : list Json * list SchemaObject) (el : Selection)
  : list Json * list SchemaObject * option string :=
  match jsonParse (match nonEmpty (innerHtml el) with Some s => s | None => "{}" end) with
  | Thrown message => (st, Some message)
  | Returned JNull => (st, Some "Cannot read properties of null (reading '@type')")
  | Returned json =>
      let st := pushTyped st json in
      match get json "@graph" with
      | Some graph =>
          if truthy (Some graph)
          then match graph with
               | JArray items => pushGraph st items
               | JString _ => (st, None)
               | _ => (st, Some (notIterable graph))
               end
          else (st, None)
      | None => (st, None)
      end
  end.

Definition scriptStep (schema : SchemaData) (el : Selection) : SchemaData :=
  let '(pushed, failure) := parseScript (types schema, data schema) el in
  mkSchemaData (fst pushed) (snd pushed)
    (match failure with
     | Some message => errors schema ++ ["Invalid JSON-LD: " +:+ message]
     | None => errors schema
     end).

(** [a === b] for two values of [types]: the strings, numbers and
    booleans by value; an array or an object is equal only to itself,
    and every one parsed is a new one. *)
Definition sameValue (a b : Json) : bool :=
  match a, b with
  | JNull, JNull => true
  | JBool x, JBool y => Bool.eqb x y
  | JNumber x, JNumber y => numEqb x y
  | JString x, JString y => String.eqb x y
  | _, _ => false
  end.

(** [typeName = itemtype.split('/').pop()], pushed unless it is empty
    or already among [types]. *)
Definition microdataStep (types : list Json) (el : Selection) : list Json :=
  match nonEmpty (attr el "itemtype") with
  | None => types
  | Some itemtype =>
      match nonEmpty (last (Js.split "/" itemtype)) with
      | Some typeName =>
          if existsb (sameValue (JString typeName)) types then types
          else types ++ [JString typeName]
      | None => types
      end
  end.

(** [[...new Set(types)]]: the first of equal values is kept. *)
Fixpoint distinct (seen types : list Json) : list Json :=
  match types with
  | [] => []
  | t :: rest =>
      if existsb (sameValue t) seen then distinct seen rest
      else t :: distinct (seen ++ [t]) rest
  end.

Definition extractSchemaData (dom : Dom) : SchemaData :=
  let schema :=
    fold_left scriptStep (each (select dom ("script" +:+ attrIs "type" "application/ld+json")))
      (mkSchemaData [] [] []) in
  let types := fold_left microdataStep (each (select dom "[itemtype]")) (types schema) in
  mkSchemaData (distinct [] types) (data schema) (errors schema).

(** [extractHreflang($, baseUrl)] *)
Record HreflangEntry := mkHreflang {
  lang : string;
  hrefUrl : string              (* [url] *)
}.

Definition hreflangStep (baseUrl : string) (tags : list HreflangEntry) (el : Selection)
  : list HreflangEntry :=
  match nonEmpty (attr el "hreflang"), nonEmpty (attr el "href") with
  | Some hreflang, Some href =>
      match resolveURL href baseUrl with
      | Some resolved => tags ++ [mkHreflang hreflang (Url.href resolved)]
      | None => tags
      end
  | _, _ => tags
  end.

Definition extractHreflang (dom : Dom) (baseUrl : string) : list HreflangEntry :=
  fold_left (hreflangStep baseUrl)
    (each (select dom ("link" +:+ attrIs "rel" "alternate" +:+ "[hreflang]"))) [].

(** [normalizeUrlForComparison(url)] *)
Definition normalizeUrlForComparison (url : string) : string :=
  match parseURL url with
  | Some parsed =>
      let parsed := Url.set_hash parsed "" in
      let normalized := toLowerCase (Url.href parsed) in
      if Js.endsWith "/" normalized && negb (String.eqb (Url.pathname parsed) "/")
      then Js.take (String.length normalized - 1) normalized
      else normalized
  | None => toLowerCase url
  end.

(** [validateHreflangTags(hreflangs, currentUrl)] *)
Definition validLangCodes : list string :=
  [ "aa"; "ab"; "af"; "am"; "ar"; "as"; "az"; "ba"; "be"; "bg"; "bn"; "bo"; "br"; "bs";
    "ca"; "ce"; "co"; "cs"; "cy"; "da"; "de"; "el"; "en"; "eo"; "es"; "et"; "eu"; "fa";
    "fi"; "fj"; "fo"; "fr"; "fy"; "ga"; "gd"; "gl"; "gu"; "ha"; "he"; "hi"; "hr"; "hu";
    "hy"; "id"; "is"; "it"; "ja"; "jv"; "ka"; "kk"; "km"; "kn"; "ko"; "ku"; "ky"; "la";
    "lb"; "lo"; "lt"; "lv"; "mg"; "mi"; "mk"; "ml"; "mn"; "mr"; "ms"; "mt"; "my"; "nb";
    "ne"; "nl"; "nn"; "no"; "pa"; "pl"; "ps"; "pt"; "ro"; "ru"; "rw"; "sa"; "sd"; "si";
    "sk"; "sl"; "so"; "sq"; "sr"; "sv"; "sw"; "ta"; "te"; "tg"; "th"; "tk"; "tl"; "tr";
    "tt"; "uk"; "ur"; "uz"; "vi"; "xh"; "yi"; "zh"; "zu" ].

Definition validRegionCodes : list string :=
  [ "AD"; "AE"; "AF"; "AG"; "AL"; "AM"; "AO"; "AR"; "AT"; "AU"; "AZ"; "BA"; "BB"; "BD";
    "BE"; "BG"; "BH"; "BN"; "BO"; "BR"; "BS"; "BT"; "BW"; "BY"; "BZ"; "CA"; "CD"; "CF";
    "CH"; "CI"; "CL"; "CM"; "CN"; "CO"; "CR"; "CU"; "CY"; "CZ"; "DE"; "DJ"; "DK"; "DO";
    "DZ"; "EC"; "EE"; "EG"; "ES"; "ET"; "FI"; "FJ"; "FR"; "GA"; "GB"; "GE"; "GH"; "GR";
    "GT"; "HK"; "HN"; "HR"; "HT"; "HU"; "ID"; "IE"; "IL"; "IN"; "IQ"; "IR"; "IS"; "IT";
    "JM"; "JO"; "JP"; "KE"; "KG"; "KH"; "KR"; "KW"; "KZ"; "LA"; "LB"; "LI"; "LK"; "LT";
    "LU"; "LV"; "LY"; "MA"; "MC"; "MD"; "ME"; "MG"; "MK"; "ML"; "MM"; "MN"; "MO"; "MT";
    "MU"; "MV"; "MX"; "MY"; "MZ"; "NA"; "NG"; "NI"; "NL"; "NO"; "NP"; "NZ"; "OM"; "PA";
    "PE"; "PH"; "PK"; "PL"; "PR"; "PS"; "PT"; "PY"; "QA"; "RO"; "RS"; "RU"; "RW"; "SA";
    "SD"; "SE"; "SG"; "SI"; "SK"; "SN"; "SO"; "SV"; "SY"; "TH"; "TJ"; "TN"; "TR"; "TW";
    "TZ"; "UA"; "UG"; "UK"; "US"; "UY"; "UZ"; "VE"; "VN"; "YE"; "ZA"; "ZM"; "ZW" ].

Record HreflangValidation := mkHreflangValidation {
  invalidLangCodes : list HreflangEntry;
  invalidRegionCodes : list HreflangEntry;
  hasSelfReference : bool;
  duplicateEntries : list (string * list string)
}.

(** The state of the loop over the entries: the three results and
    [langUrlMap]. *)
Definition validateStep (normalizedCurrentUrl : string)
    (st : list HreflangEntry * list HreflangEntry * bool * list (string * list string))
    (entry : HreflangEntry)
  : list HreflangEntry * list HreflangEntry * bool * list (string * list string) :=
  let '(invalidLang, invalidRegion, selfReference, langUrlMap) := st in
  let lower := toLowerCase (lang entry) in
  if String.eqb lower "x-default" then st
  else
    let parts := Js.split "-" lower in
    let langCode := nth_error parts 0 in
    let regionCode := option_map toUpperCase (nth_error parts 1) in
    let invalidLang :=
      match nonEmpty langCode with
      | Some code => if Js.arrayIncludes validLangCodes code then invalidLang
                     else invalidLang ++ [entry]
      | None => invalidLang
      end in
    let invalidRegion :=
      match nonEmpty regionCode with
      | Some code => if Js.arrayIncludes validRegionCodes code then invalidRegion
                     else invalidRegion ++ [entry]
      | None => invalidRegion
      end in
    let selfReference :=
      if String.eqb (normalizeUrlForComparison (hrefUrl entry)) normalizedCurrentUrl
      then true else selfReference in
    (invalidLang, invalidRegion, selfReference,
     mapUpdate (lang entry) (fun existing => default [] existing ++ [hrefUrl entry]) langUrlMap).

Definition validateHreflangTags (hreflangs : list HreflangEntry) (currentUrl : string)
  : HreflangValidation :=
  let '(invalidLang, invalidRegion, selfReference, langUrlMap) :=
    fold_left (validateStep (normalizeUrlForComparison currentUrl)) hreflangs
      ([], [], false, []) in
  mkHreflangValidation invalidLang invalidRegion selfReference
    (List.filter (fun '(_, urls) => (1 <? length urls)%nat) langUrlMap).

(** [detectMixedContent($)] *)
Definition detectMixedContent (dom : Dom) : bool :=
  existsb (fun el =>
             match nonEmpty (match nonEmpty (attr el "src") with
                             | Some s => Some s
                             | None => attr el "href"
                             end) with
             | Some s => Js.startsWith "http://" s
             | None => false
             end)
    (each (select dom "img[src], script[src], link[href], iframe[src], video[src], audio[src]")).

(** [hasSmallTouchTargets($)] *)
Definition hasSmallTouchTargets (dom : Dom) : bool :=
  let smallTargets :=
    List.filter (fun el =>
                   let style := orEmpty (attr el "style") in
                   Js.includes "font-size: 10px" style
                   || Js.includes "font-size:10px" style
                   || Js.includes "width: 20px" style
                   || Js.includes "height: 20px" style)
      (each (select dom ("a, button, input" +:+ attrIs "type" "submit"
                         +:+ ", input" +:+ attrIs "type" "button"))) in
  (3 <? length smallTargets)%nat.

(** [extractPageNumber(url)] and [detectPagination(url, relPrev, relNext)] *)
Definition firstGroup (pattern : RegExp) (s : string) : option string :=
  match matchGroups pattern s with
  | Some groups =>
      match nth_error groups 1 with
      | Some (Some (String c r)) => Some (String c r)
      | _ => None
      end
  | None => None
  end.

Fixpoint extractPageNumberFrom (patterns : list RegExp) (url : string) : option Number :=
  match patterns with
  | [] => None
  | pattern :: rest =>
      match firstGroup pattern url with
      | Some digits => parseInt digits
      | None => extractPageNumberFrom rest url
      end
  end.

Definition extractPageNumber (url : string) : option Number :=
  extractPageNumberFrom
    (map ignoreCase ["[?&]page=(\d+)"; "[?&]p=(\d+)"; "\/page\/(\d+)"; "\/p\/(\d+)"]) url.

Definition paginationPatterns : list RegExp :=
  map ignoreCase
    [ "[?&]page=(\d+)"; "[?&]p=(\d+)"; "\/page\/(\d+)"; "\/p\/(\d+)";
      "[?&]offset=(\d+)"; "[?&]start=(\d+)"; "-page-(\d+)"; "_page(\d+)" ].

(** [pageNum > n], false for [NaN]. *)
Definition above (n : Z) (pageNum : option Number) : bool :=
  match pageNum with
  | Some p => numLtb (ofZ n) p
  | None => false
  end.

Fixpoint detectPaginationFrom (patterns : list RegExp) (url : string)
  : bool * option Number :=
  match patterns with
  | [] => (false, None)
  | pattern :: rest =>
      match firstGroup pattern url with
      | Some digits =>
          let pageNum := parseInt digits in
          if above 1 pageNum || (Js.includes "offset" (source pattern) && above 0 pageNum)
          then (true, pageNum)
          else detectPaginationFrom rest url
      | None => detectPaginationFrom rest url
      end
  end.

Definition detectPagination (url : string) (relPrev relNext : option string)
  : bool * option Number :=
  if present relPrev || present relNext then (true, extractPageNumber url)
  else detectPaginationFrom paginationPatterns url.

(** [analyzeUrlParameters(url)] *)
Record UrlAnalysis := mkUrlAnalysis {
  parameters : list string;
  parameterCount : Z;
  hasTrailingSlash : bool;
  hasSortingParams : bool;
  hasFilterParams : bool;
  hasSessionParams : bool
}.

Definition sortingParams : list string :=
  ["sort"; "order"; "orderby"; "sortby"; "dir"; "direction"; "asc"; "desc"].

Definition filterParams : list string :=
  [ "filter"; "color"; "size"; "brand"; "price"; "category"; "type";
    "min_price"; "max_price"; "minprice"; "maxprice"; "attr"; "attribute"; "facet" ].

Definition sessionParams : list string :=
  [ "sid"; "sessionid"; "session_id"; "phpsessid"; "jsessionid";
    "utm_source"; "utm_medium"; "utm_campaign"; "utm_term"; "utm_content";
    "fbclid"; "gclid"; "msclkid"; "ref"; "referrer"; "source"; "affiliate" ].

Definition analyzeUrlParameters (url : string) : UrlAnalysis :=
  match parseURL url with
  | Some parsed =>
      let params := searchParamKeys parsed in
      let among (names : list string) :=
        existsb (fun p => Js.arrayIncludes names (toLowerCase p)) params in
      mkUrlAnalysis params (Z.of_nat (length params))
        (Js.endsWith "/" (Url.pathname parsed) && negb (String.eqb (Url.pathname parsed) "/"))
        (among sortingParams) (among filterParams) (among sessionParams)
  | None => mkUrlAnalysis [] 0 false false false false
  end.

(** [extractMobileData($, _viewportContent, html)] *)
Record ViewportAnalysis := mkViewport {
  viewportPresent : bool;                (* [hasViewport] *)
  viewportText : option string;          (* [content] *)
  isZoomDisabled : bool;
  hasUserScalableNo : bool;
  maxScale : option Number;
  initialScale : option Number;
  viewportWidth : option string          (* [width] *)
}.

(** [part.split('=')[1]?.trim()] *)
Definition valueOf (part : string) : option string :=
  option_map trim (nth_error (Js.split "=" part) 1).

Definition viewportStep (v : ViewportAnalysis) (part : string) : ViewportAnalysis :=
  let v :=
    if Js.includes "user-scalable" part
    then match valueOf part with
         | Some value =>
             if String.eqb value "no" || String.eqb value "0"
             then mkViewport (viewportPresent v) (viewportText v) true true
                    (maxScale v) (initialScale v) (viewportWidth v)
             else v
         | None => v
         end
    else v in
  let v :=
    if Js.includes "maximum-scale" part
    then match parseFloat (orEmpty (valueOf part)) with
         | Some value =>
             mkViewport (viewportPresent v) (viewportText v)
               (if numLeb value (ofZ 1) then true else isZoomDisabled v)
               (hasUserScalableNo v) (Some value) (initialScale v) (viewportWidth v)
         | None => v
         end
    else v in
  let v :=
    if Js.includes "initial-scale" part
    then match parseFloat (orEmpty (valueOf part)) with
         | Some value =>
             mkViewport (viewportPresent v) (viewportText v) (isZoomDisabled v)
               (hasUserScalableNo v) (maxScale v) (Some value) (viewportWidth v)
         | None => v
         end
    else v in
  if Js.includes "width=" part
  then mkViewport (viewportPresent v) (viewportText v) (isZoomDisabled v)
         (hasUserScalableNo v) (maxScale v) (initialScale v) (valueOf part)
  else v.

Definition analyzeViewport (dom : Dom) : ViewportAnalysis :=
  let viewportMeta := select dom ("meta" +:+ attrIs "name" "viewport") in
  let content := orEmpty (attr viewportMeta "content") in
  let start := mkViewport (0 <? count viewportMeta) (nonEmpty (Some content))
                 false false None None None in
  if String.eqb content "" then start
  else fold_left viewportStep (map trim (Js.split "," (toLowerCase content))) start.

Record MobileIssues := mkMobileIssues {
  zoomDisabled : bool;
  initialScaleNotOne : bool;
  noAppleTouchIcon : bool;
  noWebAppManifest : bool;
  noThemeColor : bool;
  imagesNotResponsive : bool;
  tablesWithoutResponsive : bool;
  fixedElementsBlocking : bool;
  noTelLinks : bool;
  lcpLazyLoaded : bool;
  noMediaQueries : bool;
  fontTooSmall : bool
}.

Definition anyMobileIssue (i : MobileIssues) : bool :=
  zoomDisabled i || initialScaleNotOne i || noAppleTouchIcon i || noWebAppManifest i
  || noThemeColor i || imagesNotResponsive i || tablesWithoutResponsive i
  || fixedElementsBlocking i || noTelLinks i || lcpLazyLoaded i || noMediaQueries i
  || fontTooSmall i.

(** [n > 50] and [!n] for the result of [parseInt]. *)
Definition over50 (n : option Number) : bool :=
  match n with
  | Some v => numLtb (ofZ 50) v
  | None => false
  end.

Definition falsy (n : option Number) : bool :=
  match n with
  | Some v => isZero v
  | None => true
  end.

(** The counters [totalImageCount] and [nonResponsiveImageCount]. *)
Definition responsiveStep (counts : Z * Z) (img : Selection) : Z * Z :=
  let width := parseInt (match nonEmpty (attr img "width") with Some s => s | None => "0" end) in
  let height :=
    parseInt (match nonEmpty (attr img "height") with Some s => s | None => "0" end) in
  if over50 width || over50 height || (falsy width && falsy height)
  then
    let hasSrcset := present (attr img "srcset") in
    let inPicture := 0 <? count (parents img "picture") in
    (fst counts + 1,
     if negb hasSrcset && negb inPicture then snd counts + 1 else snd counts)
  else counts.

Definition tableIsResponsive (table : Selection) : bool :=
  let parentClasses := orEmpty (attr (parent table) "class") in
  let tableClasses := orEmpty (attr table "class") in
  let hasOverflowWrapper :=
    Js.includes "overflow" parentClasses || Js.includes "responsive" parentClasses
    || Js.includes "scroll" parentClasses in
  let isResponsiveTable :=
    Js.includes "responsive" tableClasses || present (attr table "data-responsive") in
  hasOverflowWrapper || isResponsiveTable.

Definition fixedSelector : string :=
  attrHas "style" "position: fixed" +:+ ", " +:+ attrHas "style" "position:fixed" +:+ ", "
  +:+ attrHas "style" "position: sticky" +:+ ", " +:+ attrHas "style" "position:sticky".

(** [$el.prop('tagName')?.toLowerCase() || fallback] *)
Definition tagOr (fallback : string) (el : Selection) : string :=
  match nonEmpty (option_map toLowerCase (propTagName el)) with
  | Some tag => tag
  | None => fallback
  end.

Definition describeFixed (el : Selection) : string :=
  let id := attr el "id" in
  let className := match attr el "class" with
                   | Some c => nth_error (Js.split " " c) 0
                   | None => None
                   end in
  tagOr "unknown" el
  +:+ match nonEmpty id, nonEmpty className with
      | Some i, _ => "#" +:+ i
      | None, Some c => "." +:+ c
      | None, None => ""
      end.

Definition commonFixedSelectors : list string :=
  [ "header.fixed"; "nav.fixed"; ".sticky-header"; ".fixed-header"; ".fixed-nav";
    "#cookie-banner"; ".cookie-notice" ].

Definition heroSelectors : list string :=
  [ "header img"; ".hero img"; attrHas "class" "hero" +:+ " img";
    "main > img:first-child"; "main > div:first-child img" ].

Definition responsiveIndicators : list string :=
  [ "col-sm"; "col-md"; "col-lg"; "md:"; "sm:"; "lg:"; "hidden-xs"; "d-none"; "d-sm-";
    "@screen" ].

(** The text pushed on [smallTextElements] for one element, if any. *)
Definition smallText (el : Selection) : list string :=
  let style := orEmpty (attr el "style") in
  match matchGroups (ignoreCase "font-size:\s*(\d+)(px|pt)") style with
  | Some groups =>
      match nth_error groups 1, nth_error groups 2 with
      | Some (Some (String c1 r1)), Some (Some (String c2 r2)) =>
          let size := parseInt (String c1 r1) in
          let unit := toLowerCase (String c2 r2) in
          match size with
          | Some n =>
              let pxSize := if String.eqb unit "pt" then numMul n (literal "1.333") else n in
              if numLtb pxSize (ofZ 12)
              then [tagOr "element" el +:+ " (" +:+ numberToString n +:+ unit +:+ ")"]
              else []
          | None => []
          end
      | _, _ => []
      end
  | None => []
  end.

Record MobileData := mkMobileData {
  viewportAnalysis : ViewportAnalysis;
  hasResponsiveImages : bool;
  nonResponsiveImageCount : option Z;
  totalImageCount : option Z;
  hasResponsiveTables : option bool;
  tableCount : option Z;
  hasLargeFixedElements : bool;
  fixedElements : option (list string);
  smallTextElements : option (list string);
  minimumFontSize : option Z;
  hasAppleTouchIcon : bool;
  hasWebAppManifest : bool;
  hasThemeColor : option string;
  hasTelLinks : bool;
  phoneNumbersFound : option Z;
  lcpElementIsLazyLoaded : bool;
  hasMediaQueries : bool;
  mobileIssues : option MobileIssues      (* [issues] *)
}.

(** [n > 0 ? n : undefined] and [l.length > 0 ? l : undefined] *)
Definition positive (n : Z) : option Z := if 0 <? n then Some n else None.
Definition inhabited {A : Type} (l : list A) : option (list A) :=
  match l with
  | [] => None
  | _ => Some l
  end.

Definition extractMobileData (dom : Dom) (_viewportContent : option string) (html : string)
  : MobileData :=
  let viewport := analyzeViewport dom in
  let scaleNotOne := match initialScale viewport with
                     | Some scale => negb (isZero scale) && negb (numEqb scale (ofZ 1))
                     | None => false
                     end in
  let hasAppleTouchIcon :=
    0 <? count (select dom ("link" +:+ attrIs "rel" "apple-touch-icon" +:+ ", link"
                            +:+ attrIs "rel" "apple-touch-icon-precomposed")) in
  let hasWebAppManifest := 0 <? count (select dom ("link" +:+ attrIs "rel" "manifest")) in
  let hasThemeColor :=
    nonEmpty (attr (select dom ("meta" +:+ attrIs "name" "theme-color")) "content") in
  let '(totalImageCount, nonResponsiveImageCount) :=
    fold_left responsiveStep (each (select dom "img")) (0, 0) in
  let hasResponsiveImages := (nonResponsiveImageCount =? 0) || (totalImageCount =? 0) in
  let tables := select dom "table" in
  let tableCount := count tables in
  let hasResponsiveTables :=
    if 0 <? tableCount then forallb tableIsResponsive (each tables) else true in
  let fixedElements :=
    map describeFixed (each (select dom fixedSelector))
    ++ List.filter (fun selector => 0 <? count (select dom selector)) commonFixedSelectors in
  let hasLargeFixedElements := (2 <? length fixedElements)%nat in
  let hasTelLinks := 0 <? count (select dom ("a" +:+ attrStarts "href" "tel:")) in
  let phoneNumbersFound :=
    match matchAll
            (mkRegExp "(\+?\d{1,3}[-.\s]?)?\(?\d{3}\)?[-.\s]?\d{3}[-.\s]?\d{4}" "g")
            (text (select dom "body")) with
    | Some found => Z.of_nat (length found)
    | None => 0
    end in
  let lcpElementIsLazyLoaded :=
    existsb (fun selector =>
               let img := first (select dom selector) in
               (0 <? count img)
               && match attr img "loading" with
                  | Some loading => String.eqb loading "lazy"
                  | None => false
                  end)
      heroSelectors in
  let htmlContent := substring 0 100000 html in
  let hasMediaQueries :=
    existsb (fun style => Js.includes "@media" (orEmpty (innerHtml style)))
      (each (select dom "style"))
    || existsb (fun indicator => Js.includes indicator htmlContent) responsiveIndicators
    || existsb (fun link =>
                  let href := orEmpty (attr link "href") in
                  Js.includes "bootstrap" href || Js.includes "tailwind" href
                  || Js.includes "foundation" href || Js.includes "bulma" href)
         (each (select dom ("link" +:+ attrIs "rel" "stylesheet"))) in
  let smallTextElements :=
    flat_map smallText (each (select dom (attrHas "style" "font-size"))) in
  let issues :=
    mkMobileIssues (isZoomDisabled viewport) scaleNotOne
      (negb hasAppleTouchIcon) (negb hasWebAppManifest) (negb (present hasThemeColor))
      (negb hasResponsiveImages && (0 <? nonResponsiveImageCount))
      ((0 <? tableCount) && negb hasResponsiveTables)
      hasLargeFixedElements
      ((0 <? phoneNumbersFound) && negb hasTelLinks)
      lcpElementIsLazyLoaded
      (negb hasMediaQueries)
      (match smallTextElements with [] => false | _ => true end) in
  mkMobileData viewport hasResponsiveImages
    (positive nonResponsiveImageCount) (positive totalImageCount)
    (if 0 <? tableCount then Some hasResponsiveTables else None)
    (positive tableCount)
    hasLargeFixedElements (inhabited fixedElements) (inhabited smallTextElements)
    (match smallTextElements with [] => None | _ => Some 10 end)
    hasAppleTouchIcon hasWebAppManifest hasThemeColor hasTelLinks
    (positive phoneNumbersFound) lcpElementIsLazyLoaded hasMediaQueries
    (if anyMobileIssue issues then Some issues else None).

(** *** extractPageData *)

Record BaseData := mkBase {
  baseStatusCode : Z;
  baseContentType : option string;
  baseResponseTime : option Z;
  basePageSize : option Z;
  baseRedirectChain : option (list (string * Z));
  baseRedirectUrl : option string
}.

(** [{ title, description, image }] of the Open Graph tags. *)
Record OpenGraphData := mkOpenGraph {
  ogTitle : option string;
  ogDescription : option string;
  ogImage : option string
}.

(** The fields of the [PageData] returned by [extractPageData], up to
    [ecommerce] and [article]. A value that the object holds under two
    names is one field: [meta] repeats [metaDescription] and
    [robotsMeta], and [canonical], [h1], [h2], [images] and
    [imageDetails], [lang], [hreflangs], [ogTags] and [twitterCard]
    repeat [canonicalUrl], [h1Tags], [h2Tags], [imageStats.details],
    [htmlLang], [hreflangTags], [openGraph] and [twitterCardType]. *)
Record PageSignals := mkSignals {
  pageUrl : string;                                   (* [url] *)
  statusCode : Z;
  contentType : option string;
  responseTime : option Z;
  pageSize : option Z;
  redirectChain : option (list (string * Z));
  redirectUrl : option string;
  title : option string;
  metaDescription : option string;
  robotsMeta : option string;
  canonicalUrl : option string;
  isSelfCanonical : option bool;
  h1Tags : list string;
  h2Tags : list string;
  isIndexable : bool;
  indexabilityReason : option string;
  links : Links;
  imageStats : ImageStats;
  pageWordCount : Z;                                  (* [wordCount] *)
  contentHash : string;
  bodyText : string;
  textToHtmlRatio : Number;
  topKeywords : list Keyword;
  readingLevel : ReadingLevel;
  readingGradeLevel : Number;
  headingHierarchy : list string;
  hasViewport : bool;
  viewportContent : option string;
  isMobileFriendly : bool;
  mobile : MobileData;
  htmlLang : option string;
  hreflangTags : option (list HreflangEntry);
  hreflangValidation : option HreflangValidation;
  schemaTypes : list Json;
  structuredData : list SchemaObject;
  structuredDataErrors : option (list string);
  openGraph : OpenGraphData;
  twitterCardType : option string;
  hasMixedContent : bool;
  relPrev : option string;
  relNext : option string;
  isPaginatedPage : bool;
  paginationPageNumber : option Number;
  urlAnalysis : UrlAnalysis
}.

(** The three shapes of [PageData] that the crawler builds. *)
Inductive PageData :=
| ErrorResult (url : string) (statusCode : Z) (reason : string)
| NotHtml (url : string) (statusCode : Z) (contentType : string) (responseTime : Z)
| Extracted (signals : PageSignals) (ecommerce : option Ecommerce)
    (article : option Article) (cwv : option CoreWebVitals).

(** [$(selector).attr(name) || undefined] *)
Definition attribute (dom : Dom) (selector name : string) : option string :=
  nonEmpty (attr (select dom selector) name).

(** Everything [extractPageData] computes from the document, given the
    links: the statements of its body in their order, then the fields
    of the object it returns up to [ecommerce]. *)
Definition pageSignals (dom : Dom) (url : string) (baseData : BaseData) (html : string)
    (links : Links) (schemaData : SchemaData) : PageSignals :=
  let title := nonEmpty (Some (trim (text (first (select dom "title"))))) in
  let metaDescription :=
    nonEmpty (option_map trim (attr (select dom ("meta" +:+ attrIs "name" "description"))
                                 "content")) in
  let robotsMeta :=
    match attribute dom ("meta" +:+ attrIs "name" "robots") "content" with
    | Some robots => Some robots
    | None => attribute dom ("meta" +:+ attrIs "name" "googlebot") "content"
    end in
  let canonicalUrl := attribute dom ("link" +:+ attrIs "rel" "canonical") "href" in
  let isSelfCanonical :=
    match canonicalUrl with
    | Some canonical => Some (String.eqb (normalizeUrl canonical url) (normalizeUrl url url))
    | None => None
    end in
  let h1Tags := headingTexts dom "h1" in
  let h2Tags := headingTexts dom "h2" in
  let '(isIndexable, indexabilityReason) :=
    checkIndexability (baseStatusCode baseData) robotsMeta in
  let imageData := extractImages dom in
  let plainText := extractBodyText dom in
  let wordCount :=
    if String.eqb plainText "" then 0
    else Z.of_nat (length (splitRegExp whitespace plainText)) in
  let bodyText := extractBodyTextAsMarkdown dom in
  let viewportMeta := select dom ("meta" +:+ attrIs "name" "viewport") in
  let hasViewport := 0 <? count viewportMeta in
  let viewportContent := nonEmpty (attr viewportMeta "content") in
  let htmlLang := attribute dom "html" "lang" in
  let ogData :=
    mkOpenGraph (attribute dom ("meta" +:+ attrIs "property" "og:title") "content")
      (attribute dom ("meta" +:+ attrIs "property" "og:description") "content")
      (attribute dom ("meta" +:+ attrIs "property" "og:image") "content") in
  let twitterCardType := attribute dom ("meta" +:+ attrIs "name" "twitter:card") "content" in
  let hreflangTags := extractHreflang dom url in
  let hreflangValidation :=
    match hreflangTags with
    | [] => None
    | _ => Some (validateHreflangTags hreflangTags url)
    end in
  let hasMixedContent := Js.startsWith "https://" url && detectMixedContent dom in
  let contentHash :=
    sha256 (trim (replaceRegExp whitespaces " " (text (select dom "body")))) in
  let isMobileFriendly := hasViewport && negb (hasSmallTouchTargets dom) in
  let textToHtmlRatio := calculateTextToHtmlRatio dom html in
  let topKeywords := analyzeKeywords dom in
  let readingAnalysis := analyzeReadingLevel dom in
  let headingHierarchy := extractHeadingHierarchy dom in
  let relPrev := attribute dom ("link" +:+ attrIs "rel" "prev") "href" in
  let relNext := attribute dom ("link" +:+ attrIs "rel" "next") "href" in
  let paginationInfo := detectPagination url relPrev relNext in
  let urlAnalysis := analyzeUrlParameters url in
  mkSignals url (baseStatusCode baseData) (baseContentType baseData)
    (baseResponseTime baseData) (basePageSize baseData) (baseRedirectChain baseData)
    (baseRedirectUrl baseData)
    title metaDescription robotsMeta canonicalUrl isSelfCanonical h1Tags h2Tags
    isIndexable indexabilityReason links imageData wordCount contentHash bodyText
    textToHtmlRatio topKeywords (fst readingAnalysis) (snd readingAnalysis)
    headingHierarchy hasViewport viewportContent isMobileFriendly
    (extractMobileData dom viewportContent html)
    htmlLang (inhabited hreflangTags) hreflangValidation
    (types schemaData) (data schemaData) (inhabited (errors schemaData))
    ogData twitterCardType hasMixedContent relPrev relNext
    (fst paginationInfo) (snd paginationInfo) urlAnalysis.

(** [extractPageData($, url, baseData, html)]: of the statements on the
    document, [extractLinks] alone can throw; the product and article
    data are read off the structured data last, and read the clock. *)
Definition extractPageData (dom : Dom) (url : string) (baseData : BaseData) (html : string)
  : Eff PageData :=
  bind (extractLinks dom url) (fun links =>
  let schemaData := extractSchemaData dom in
  bind (extractEcommerceData (data schemaData)) (fun ecommerce =>
  bind (extractArticleData (data schemaData)) (fun article =>
  Ret (Extracted (pageSignals dom url baseData html links schemaData)
         ecommerce article None)))).

(** *** crawl and crawlAttempt *)

Definition timeout : Z := 30000.
Definition maxRetries : nat := 2.
Definition retryDelayMs : Z := 1000.

Variable render_javascript : bool.

Definition createErrorResult (url : string) (statusCode : Z) (reason : string) : PageData :=
  ErrorResult url statusCode reason.

Definition retryablePatterns : list string :=
  [ "net::err_connection_reset";
    "net::err_connection_timed_out";
    "net::err_network_changed";
    "net::err_internet_disconnected";
    "net::err_socket_not_connected";
    "net::err_connection_closed";
    "net::err_empty_response";
    "timeout";
    "econnreset";
    "econnrefused";
    "etimedout";
    "epipe";
    "socket hang up";
    "aborted" ].

Definition isRetryableError (message : string) : bool :=
  let message := Js.toLowerCase message in
  existsb (fun pattern => Js.includes pattern message) retryablePatterns.

(** The [catch] block of [crawlAttempt]; [response] is the variable of
    that name, still [null] when [page.goto] threw. *)
Definition attemptFailed (url : string) (response : option Response) (errorMessage : string)
  : PageData :=
  if Js.includes "net::ERR_NAME_NOT_RESOLVED" errorMessage
  then createErrorResult url 0 "DNS resolution failed"
  else if Js.includes "net::ERR_CONNECTION_REFUSED" errorMessage
  then createErrorResult url 0 "Connection refused"
  else if Js.includes "Timeout" errorMessage
  then createErrorResult url 0 "Request timeout"
  else createErrorResult url
         (match response with Some r => status r | None => 0 end) errorMessage.

Definition withCwv (data : PageData) (v : CoreWebVitals) : PageData :=
  match data with
  | Extracted signals ecommerce article _ => Extracted signals ecommerce article (Some v)
  | other => other
  end.

(** The [try] block of [crawlAttempt] after the navigation. *)
Definition afterGoto (url : string) (startTime : Z) (response : option Response)
  : Eff PageData :=
  bind (perform ReadClock) (fun endTime =>
  let responseTime := endTime - startTime in
  match response with
  | None => Ret (createErrorResult url 0 "No response received")
  | Some r =>
      let contentType :=
        match contentTypeHeader r with
        | Some (String c t) => String c t
        | _ => ""
        end in
      if negb (Js.includes "text/html" contentType)
      then Ret (NotHtml (finalUrl r) (status r) contentType responseTime)
      else
        bind (await Content) (fun html =>
        let chain := redirects r in
        let redirected := (0 <? length chain)%nat in
        let baseData :=
          mkBase (status r) (Some contentType) (Some responseTime)
            (Some (Z.of_nat (String.length html)))
            (if redirected then Some chain else None)
            (if redirected then Some (finalUrl r) else None) in
        bind (extractPageData (load html) (finalUrl r) baseData html) (fun data =>
        if render_javascript
        then bind (perform MeasureCwv) (fun v => Ret (withCwv data v))
        else Ret data))
  end).

Definition crawlAttempt (url : string) : Eff PageData :=
  bind (await NewPage) (fun _ =>
  bind (perform ReadClock) (fun startTime =>
  finally
    (bind (catch
             (bind (await (Goto url
                             (if render_javascript then "networkidle" else "domcontentloaded")
                             timeout))
                   (fun response => Ret (inr response)))
             (fun errorMessage => Ret (inl (attemptFailed url None errorMessage))))
          (fun navigation =>
             match navigation with
             | inl failed => Ret failed
             | inr response =>
                 catch (afterGoto url startTime response)
                       (fun errorMessage => Ret (attemptFailed url response errorMessage))
             end))
    (await ClosePage))).

(** [try { return await e } catch (error) { ... }], with the outcome
    made a value. *)
Definition attempt {A : Type} (e : Eff A) : Eff (Outcome A) :=
  catch (bind e (fun a => Ret (Returned a))) (fun m => Ret (Thrown m)).

(** [lastError?.message || 'Unknown error'] *)
Definition lastMessage (lastError : option string) : string :=
  match lastError with
  | Some (String c r) => String c r
  | _ => "Unknown error"
  end.

(** The [for] loop of [crawl], [remaining] iterations before
    [attempt > maxRetries]. *)
Fixpoint crawlFrom (remaining k : nat) (url : string) (lastError : option string)
  : Eff PageData :=
  match remaining with
  | O => Ret (createErrorResult url 0 (lastMessage lastError))
  | S remaining' =>
      bind (attempt (crawlAttempt url)) (fun outcome =>
      match outcome with
      | Returned data => Ret data
      | Thrown message =>
          if negb (isRetryableError message)
          then Ret (createErrorResult url 0 (lastMessage (Some message)))
          else
            bind (if (k <? maxRetries)%nat
                  then perform (Sleep (retryDelayMs * 2 ^ Z.of_nat k))
                  else Ret tt)
                 (fun _ => crawlFrom remaining' (S k) url (Some message))
      end)
  end.

Definition crawl (url : string) : Eff PageData :=
  crawlFrom (S maxRetries) 0 url None.

End WithRuntime.

End PageCrawler.

(** ** A stand-in for the runtime of the page crawler

    Integers for numbers, the UTC calendar for dates (only the date form
    [YYYY-MM-DD] is parsed), and a document that is given by its JSON-LD
    objects.  It instantiates the parameters of [PageCrawler] on
    literals. *)

Module Runtime.

Definition Number : Type := Z.
Definition numberToString (n : Number) : string := NilZero.string_of_int (Z.to_int n).
Definition isZero (n : Number) : bool := n =? 0.
Definition isNegative (n : Number) : bool := n <? 0.

Definition digitValue (c : ascii) : Z := Z.of_nat (nat_of_ascii c) - 48.

Fixpoint decimal (acc : Z) (s : string) : option Z :=
  match s with
  | EmptyString => Some acc
  | String c r => if Whatwg.isDigit c then decimal (10 * acc + digitValue c) r else None
  end.

(** Integers only: an optional sign and digits. *)
Definition parseFloat (s : string) : option Number :=
  match s with
  | EmptyString => None
  | String c r =>
      if Ascii.eqb c "-"
      then match r with
           | EmptyString => None
           | _ => option_map Z.opp (decimal 0 r)
           end
      else decimal 0 s
  end.

(** Days since 1970-01-01 of a date of the proleptic Gregorian calendar. *)
Definition daysFromCivil (y m d : Z) : Z :=
  let y' := if m <=? 2 then y - 1 else y in
  let era := y' / 400 in
  let yoe := y' - era * 400 in
  let mp := (m + 9) mod 12 in
  let doy := (153 * mp + 2) / 5 + d - 1 in
  let doe := yoe * 365 + yoe / 4 - yoe / 100 + doy in
  era * 146097 + doe - 719468.

Definition civilFromDays (days : Z) : Z * Z * Z :=
  let z := days + 719468 in
  let era := z / 146097 in
  let doe := z - era * 146097 in
  let yoe := (doe - doe / 1460 + doe / 36524 - doe / 146096) / 365 in
  let doy := doe - (365 * yoe + yoe / 4 - yoe / 100) in
  let mp := (5 * doy + 2) / 153 in
  let d := doy - (153 * mp + 2) / 5 + 1 in
  let m := if mp <? 10 then mp + 3 else mp - 9 in
  (if m <=? 2 then yoe + era * 400 + 1 else yoe + era * 400, m, d).

Definition msPerDay : Z := 86400000.

(** [new Date("YYYY-MM-DD").getTime()]: midnight UTC of that day. *)
Definition dateParse (s : string) : option Z :=
  if (String.length s =? 10)%nat then
    match decimal 0 (Js.take 4 s), decimal 0 (Js.take 2 (Js.drop 5 s)),
          decimal 0 (Js.drop 8 s) with
    | Some y, Some m, Some d =>
        if Ascii.eqb (default "-"%char (String.get 4 s)) "-"
           && Ascii.eqb (default "-"%char (String.get 7 s)) "-"
           && (1 <=? m) && (m <=? 12) && (1 <=? d) && (d <=? 31)
        then Some (daysFromCivil y m d * msPerDay)
        else None
    | _, _, _ => None
    end
  else None.

(** [d.setFullYear(d.getFullYear() - 2)] in UTC. *)
Definition twoYearsBefore (t : Z) : Z :=
  let '(y, m, d) := civilFromDays (t / msPerDay) in
  daysFromCivil (y - 2) m d * msPerDay + t mod msPerDay.

Definition Json : Type := PageCrawler.Json Number.
Definition SchemaObject : Type := PageCrawler.SchemaObject Number.

End Runtime.

(** ** link-quality-analyzer.ts: the orphan analysis *)

Module LinkQuality.

Record IssueDefinition := mkDef {
  defId : string;
  code : string;
  name : string;
  category : string;
  severity : string
}.

(** A row of [crawled_pages], with the columns the analysis selects or
    filters on. *)
Record Page := mkPage {
  id : string;
  url : string;
  page_depth : Z;
  internal_links_received : Z;
  status_code : Z;
  discovered_via : string
}.

(** A row that a call of [storeIssue] wrote to [page_issues]: the page,
    the code of the issue it links, and the details. *)
Record StoredIssue := mkStored {
  pageId : string;
  issueCode : string;
  detailUrl : string;
  detailIncomingLinks : Z;
  detailDiscoveredVia : string
}.

(** The query of [analyzeOrphanPages] on the rows of the crawl:
    [.eq('internal_links_received', 0).neq('page_depth', 0)
     .gte('status_code', 200).lt('status_code', 400)]. *)
Definition selectPotentialOrphans (rows : list Page) : list Page :=
  List.filter (fun p => (internal_links_received p =? 0)
                        && negb (page_depth p =? 0)
                        && (200 <=? status_code p)
                        && (status_code p <? 400)) rows.

(** A request to the store: it resolves with an answer or throws. *)
Inductive Request (A : Type) :=
| Answered (a : A)
| Threw.
Arguments Answered {A} a.
Arguments Threw {A}.

(** What the store answers to the requests of one call of
    [storeIssue]:
    - [existingIssue]: the [data] of the [select('id')...single()] on
      [issues], [None] when it is null, else the [id] of the row (an
      [id] that is null counts as [None]);
    - [incremented]: the call of [rpc('increment_issue_count')];
    - [newIssue]: whether the insert into [issues] reports an
      [insertError], and its [data] (as for [existingIssue]);
    - [linked]: the [code] of the [linkError] of the insert into
      [page_issues], [None] without an error. *)
Record StoreReplies := mkReplies {
  existingIssue : Request (option (option string));
  incremented : Request unit;
  newIssue : Request (bool * option (option string));
  linked : Request (option string)
}.

(** [!issueId] is false. *)
Definition isId (issueId : option string) : bool :=
  match issueId with
  | Some (String _ _) => true
  | _ => false
  end.

(** The end of [storeIssue], from [if (!issueId) return] on: the row of
    [page_issues] is written when the insert reports no error (an error
    is logged unless its code is 23505, and nothing is written), and
    the [catch] block takes a request that throws. *)
Definition linkPage (replies : StoreReplies) (issueId : option string)
    (row : StoredIssue) : list StoredIssue :=
  if negb (isId issueId) then []
  else match linked replies with
       | Answered None => [row]
       | Answered (Some _) => []
       | Threw => []
       end.

(** [storeIssue(pageId, code, details)], with the answers of the store
    to its requests: the rows it writes to [page_issues]. It returns
    without a definition of the code, on an [insertError] and without
    an issue id; a request that throws ends it in the [catch] block. *)
Definition storeIssue (defs : gmap string IssueDefinition) (replies : StoreReplies)
    (pid c u via : string) : list StoredIssue :=
  match defs !! c with
  | None => []
  | Some def =>
      match existingIssue replies with
      | Threw => []
      | Answered (Some existing) =>
          match incremented replies with
          | Threw => []
          | Answered _ => linkPage replies existing (mkStored pid c u 0 via)
          end
      | Answered None =>
          match newIssue replies with
          | Threw => []
          | Answered (true, _) => []
          | Answered (false, created) =>
              linkPage replies (match created with Some i => i | None => None end)
                (mkStored pid c u 0 via)
          end
      end
  end.

(** The requests of a call of [storeIssue] go through to the insert
    into [page_issues], and that insert reports no error. *)
Definition written (replies : StoreReplies) : bool :=
  let linkedWith (issueId : option string) :=
    isId issueId && match linked replies with
                    | Answered None => true
                    | _ => false
                    end in
  match existingIssue replies with
  | Threw => false
  | Answered (Some existing) =>
      match incremented replies with
      | Threw => false
      | Answered _ => linkedWith existing
      end
  | Answered None =>
      match newIssue replies with
      | Answered (false, Some created) => linkedWith created
      | _ => false
      end
  end.

(** [analyzeOrphanPages()]: [query] is the answer of the store to the
    query for the pages, [None] when it reports an error or no rows;
    [store] gives the answers of the store to the call of [storeIssue]
    for a page and a code (the id is the key of [crawled_pages], and the
    analysis calls [storeIssue] at most once for a page and a code). The
    result is the list of the rows written to [page_issues], in
    order. *)
Definition analyzeOrphanPages (defs : gmap string IssueDefinition)
    (store : string -> string -> StoreReplies)
    (query : option (list Page)) : list StoredIssue :=
  match query with
  | None => []
  | Some potentialOrphans =>
      if (length potentialOrphans =? 0)%nat then []
      else
        let sitemapOnlyPages :=
          List.filter (fun page => String.eqb (discovered_via page) "sitemap") potentialOrphans in
        let trueOrphans :=
          List.filter (fun page => negb (String.eqb (discovered_via page) "sitemap")
                                   && negb (String.eqb (discovered_via page) "seed"))
                      potentialOrphans in
        (match defs !! "orphan_page" with
         | Some _ =>
             flat_map (fun page => storeIssue defs (store (id page) "orphan_page")
                                     (id page) "orphan_page"
                                     (url page) (discovered_via page)) trueOrphans
         | None => []
         end)
        ++
        (match defs !! "sitemap_only_page" with
         | Some _ =>
             flat_map (fun page => storeIssue defs (store (id page) "sitemap_only_page")
                                     (id page) "sitemap_only_page"
                                     (url page) "sitemap") sitemapOnlyPages
         | None => []
         end)
  end.

(** The analysis run against the table of the crawl, the query
    succeeding. *)
Definition analyzeTable (defs : gmap string IssueDefinition)
    (store : string -> string -> StoreReplies) (rows : list Page)
  : list StoredIssue :=
  analyzeOrphanPages defs store (Some (selectPotentialOrphans rows)).

(** A store that finds no issue row, inserts one and links the page,
    all without an error. *)
Definition reliableStore (pid c : string) : StoreReplies :=
  mkReplies (Answered None) (Answered tt)
    (Answered (false, Some (Some ("issue-" +:+ c)))) (Answered None).

(** "The page receives the issue": the stored issue of a row. *)
Definition orphanIssue (p : Page) : StoredIssue :=
  mkStored (id p) "orphan_page" (url p) 0 (discovered_via p).
Definition sitemapOnlyIssue (p : Page) : StoredIssue :=
  mkStored (id p) "sitemap_only_page" (url p) 0 "sitemap".

(** The outcome as the specification states it, for a row that passes
    the filters. *)
Definition splitAsStated (log : list StoredIssue) (p : Page) : Prop :=
  (discovered_via p = "sitemap" -> In (sitemapOnlyIssue p) log)
  /\ (discovered_via p <> "sitemap" -> discovered_via p <> "seed" -> In (orphanIssue p) log)
  /\ (discovered_via p = "seed" ->
      ~ In (orphanIssue p) log /\ ~ In (sitemapOnlyIssue p) log)
  /\ ~ (In (orphanIssue p) log /\ In (sitemapOnlyIssue p) log).

End LinkQuality.

(** ** Literal inputs *)

Definition robotsTxtLastWins : string := "User-agent: GPTBot
Disallow: /
Allow: /".

Definition robotsTxtGrouped : string := "User-agent: GPTBot
User-agent: Claude-Web
Disallow: /".

Definition robotsTxtEmptyPath : string := "User-agent: GPTBot
Disallow:".

(** Two groups set apart by a blank line: the first names two listed
    crawlers and its last rule allows the root, the second disallows it
    for a third crawler. *)
Definition robotsTxtSeparated : string := "# AI crawlers
User-agent: GPTBot
User-agent: Claude-Web
Disallow: /
Allow: /

User-agent: Amazonbot
Disallow: /private
Disallow: /".

(** A User-agent line right after the rule lines of a group. *)
Definition robotsTxtRunOn : string := "User-agent: GPTBot
Disallow: /
User-agent: *
Allow: /".

(** A User-agent line of an agent that is not listed, among those of
    a group. *)
Definition robotsTxtMixed : string := "User-agent: GPTBot
User-agent: Googlebot
Disallow: /".

(** A trim that removes the no-break space U+00A0 (the bytes 194 160
    of its UTF-8 encoding) along with the ASCII white space, as the
    trim of the runtime does, and a robots.txt whose User-agent line
    ends with one. *)
Fixpoint trimStartWide (s : string) : string :=
  match s with
  | EmptyString => EmptyString
  | String c r =>
      if Js.isWhite c then trimStartWide r
      else match r with
           | String d r' =>
               if Ascii.eqb c "194" && Ascii.eqb d "160" then trimStartWide r' else s
           | EmptyString => s
           end
  end.

Fixpoint reverseOnto (s acc : string) : string :=
  match s with
  | EmptyString => acc
  | String c r => reverseOnto r (String c acc)
  end.

(** The same from the end, on the reversed text. *)
Fixpoint trimStartReversed (s : string) : string :=
  match s with
  | EmptyString => EmptyString
  | String c r =>
      if Js.isWhite c then trimStartReversed r
      else match r with
           | String d r' =>
               if Ascii.eqb c "160" && Ascii.eqb d "194" then trimStartReversed r' else s
           | EmptyString => s
           end
  end.

Definition trimWide (s : string) : string :=
  reverseOnto (trimStartReversed (reverseOnto (trimStartWide s) EmptyString)) EmptyString.

Definition robotsTxtNoBreakSpace : string :=
  "User-agent: GPTBot" +:+ String "194" (String "160" EmptyString) +:+ "
Disallow: /".

Definition fetched (robotsTxt : string) : Robots.RobotsParser RobotsLib.Matcher :=
  Robots.fetch Js.trim Js.toLowerCase RobotsLib.Matcher RobotsLib.robotsParser
    (Robots.new RobotsLib.Matcher "ex.test" "SemDashBot")
    (Robots.Resolved (Robots.mkResponse 200 (Robots.Resolved robotsTxt))).

Definition orphanRow : LinkQuality.Page :=
  LinkQuality.mkPage "p1" "https://ex.test/orphan" 1 0 200 "sitemap".

Definition linkDefinitions : gmap string LinkQuality.IssueDefinition :=
  {[ "orphan_page" := LinkQuality.mkDef "d1" "orphan_page" "Orphan page" "links" "warning";
     "sitemap_only_page" :=
       LinkQuality.mkDef "d2" "sitemap_only_page" "Sitemap-only page" "links" "notice" ]}.

(** A store that finds the issue row and refuses the insert into
    [page_issues] (insufficient privilege). *)
Definition refusingStore (pid c : string) : LinkQuality.StoreReplies :=
  LinkQuality.mkReplies (LinkQuality.Answered (Some (Some "i7"))) (LinkQuality.Answered tt)
    (LinkQuality.Answered (false, None)) (LinkQuality.Answered (Some "42501")).

(** A browser whose navigation fails with a connection reset, on every
    page it opens. *)
Definition resetMessage : string :=
  "page.goto: net::ERR_CONNECTION_RESET at https://ex.test/".

Definition resetScript : Effects.PageScript :=
  Effects.mkScript (Effects.Returned tt) (Effects.Thrown resetMessage)
    (Effects.Returned "") (Effects.mkCwv None None None None) (Effects.Returned tt).

Definition worldAt (now : Z) (script : Effects.PageScript) : Effects.World :=
  Effects.mkWorld (fun n => now + Z.of_nat n) 0 (fun _ => script) 0 [].

(** A browser context that fails to open a page, every time. *)
Definition closedScript : Effects.PageScript :=
  Effects.mkScript (Effects.Thrown "browserContext.newPage: Target page, context or browser has been closed (aborted)")
    (Effects.Returned None) (Effects.Returned "")
    (Effects.mkCwv None None None None) (Effects.Returned tt).

(** The structured data of a product whose offer was valid until
    2000-01-01. *)
Definition productObject : Runtime.SchemaObject :=
  [ ("@type", PageCrawler.JString _ "Product");
    ("name", PageCrawler.JString _ "Widget");
    ("offers", PageCrawler.JObject _
                 [ ("@type", PageCrawler.JString _ "Offer");
                   ("price", PageCrawler.JNumber _ 5);
                   ("priceCurrency", PageCrawler.JString _ "EUR");
                   ("availability", PageCrawler.JString _ "https://schema.org/InStock");
                   ("priceValidUntil", PageCrawler.JString _ "2000-01-01") ]) ].

Definition productBase : PageCrawler.BaseData :=
  PageCrawler.mkBase 200 (Some "text/html") (Some 120) (Some 2048) None None.

(** 1999-01-01 and 2026-01-01, in milliseconds since the epoch. *)
Definition year1999 : Z := 915148800000.
Definition year2026 : Z := 1767225600000.

(** A line-based stand-in for [parseXml]: a line [S url] lists a child
    sitemap, a line [U url] a page; and two sitemap indexes that list each
    other. *)
Definition parseLines (content : string) : Sitemap.SitemapParseResult string :=
  let lines := Js.split "010" content in
  Sitemap.mkParse string
    (map (Js.drop 2) (List.filter (Js.startsWith "U ") lines))
    (map (Js.drop 2) (List.filter (Js.startsWith "S ") lines))
    [].

Definition cyclicWeb : gmap string string :=
  {[ "https://ex.test/sitemap.xml" := "S https://ex.test/b.xml
S https://ex.test/sitemap.xml";
     "https://ex.test/b.xml" := "S https://ex.test/sitemap.xml
S https://ex.test/pages.xml";
     "https://ex.test/pages.xml" := "U https://ex.test/x
U https://ex.test/y
U https://ex.test/z" ]}.

(** ** Scores: crawl-manager.ts (calculateHealthScore) and
    issue-detector.ts (getIssueCounts) *)

Module Scores.

(** [calculateHealthScore]; on integers [Math.floor(notices * 0.5)] is
    the quotient by 2 rounded down. *)
Definition calculateHealthScore (errors warnings notices : Z) : Z :=
  let score := 100 - (errors * 5 + warnings * 2 + notices / 2) in
  Z.max 0 (Z.min 100 score).

Record Counts := mkCounts {
  errors : Z;
  warnings : Z;
  notices : Z
}.

Definition noCounts : Counts := mkCounts 0 0 0.

(** A row of [issues] joined with its definition: [definition] is
    [None] when the join gave nothing usable, else severity and
    category. *)
Record IssueRow := mkIssueRow {
  affected_pages_count : option Z;
  definition : option (string * string)
}.

(** The [switch] on the severity. *)
Definition addCount (severity : string) (count : Z) (c : Counts) : Counts :=
  if String.eqb severity "error" then mkCounts (errors c + count) (warnings c) (notices c)
  else if String.eqb severity "warning" then mkCounts (errors c) (warnings c + count) (notices c)
  else if String.eqb severity "notice" then mkCounts (errors c) (warnings c) (notices c + count)
  else c.

(** The names that a plain object such as [categoryIssues = {}]
    inherits from [Object.prototype]: a lookup of one of them finds the
    inherited member, which is truthy, also when the object has no key
    of its own. *)
Definition objectPrototypeMembers : list string :=
  [ "constructor"; "__defineGetter__"; "__defineSetter__"; "hasOwnProperty";
    "__lookupGetter__"; "__lookupSetter__"; "isPrototypeOf"; "propertyIsEnumerable";
    "toString"; "valueOf"; "__proto__"; "toLocaleString" ].

Definition isPrototypeMember (name : string) : bool :=
  existsb (String.eqb name) objectPrototypeMembers.

(** One iteration of the loop over the issues: the totals and the own
    keys of [categoryIssues]. For a category that names a member of
    [Object.prototype], [!categoryIssues[category]] is false: no entry
    is created, and the second [switch] adds to a property of the
    inherited member, which [Object.entries] never lists. *)
Definition countIssue (st : Counts * gmap string Counts) (issue : IssueRow)
  : Counts * gmap string Counts :=
  match definition issue with
  | None => st
  | Some (severity, category) =>
      let count := default 0 (affected_pages_count issue) in
      (addCount severity count (fst st),
       if isPrototypeMember category then snd st
       else <[category := addCount severity count (default noCounts (snd st !! category))]>
              (snd st))
  end.

Definition categoryScore (c : Counts) : Z :=
  calculateHealthScore (errors c) (warnings c) (notices c).

Record IssueCounts := mkIssueCounts {
  totals : Counts;
  pagesWithIssues : Z;
  categoryScores : gmap string Z
}.

(** [getIssueCounts()]: [query] is the answer of the store for the issues
    ([None] on an error), [distinctPages] that of the count of distinct
    pages ([null] counts as 0). *)
Definition getIssueCounts (query : option (list IssueRow)) (distinctPages : option Z)
  : IssueCounts :=
  match query with
  | None => mkIssueCounts noCounts 0 ∅
  | Some issues =>
      let '(total, categoryIssues) := fold_left countIssue issues (noCounts, ∅) in
      mkIssueCounts total (default 0 distinctPages) (categoryScore <$> categoryIssues)
  end.

(** The counts of all categories, added up. *)
Definition sumOver (f : Counts -> Z) (m : gmap string Counts) : Z :=
  foldr (fun kc acc => f (snd kc) + acc) 0 (map_to_list m).

(** The counts of the issues that enter no category of
    [categoryIssues], their category naming a member of
    [Object.prototype]. *)
Definition countInherited (c : Counts) (issue : IssueRow) : Counts :=
  match definition issue with
  | None => c
  | Some (severity, category) =>
      if isPrototypeMember category
      then addCount severity (default 0 (affected_pages_count issue)) c
      else c
  end.

Definition inheritedCounts (issues : list IssueRow) : Counts :=
  fold_left countInherited issues noCounts.

(** No issue of the list has a category that names a member of
    [Object.prototype]. *)
Definition ownCategories (issues : list IssueRow) : bool :=
  forallb (fun issue => match definition issue with
                        | Some (_, category) => negb (isPrototypeMember category)
                        | None => true
                        end) issues.

(** The categories of [categoryIssues], for the totals of the loop. *)
Definition categoryIssuesOf (issues : list IssueRow) : gmap string Counts :=
  snd (fold_left countIssue issues (noCounts, ∅)).

End Scores.

(** ** link-quality-analyzer.ts: the per-page analysis *)

Module LinkPages.

Record PageLinkData := mkPageLinkData {
  id : string;
  url : string;
  page_depth : Z;
  internal_links_count : Z;
  status_code : Z
}.

(** The codes pushed on [issues] by [analyzePage], in order. *)
Definition detected (page : PageLinkData) : list string :=
  (if (4 <? page_depth page) && (page_depth page <=? 7) then ["page_too_deep"] else [])
  ++ (if 7 <? page_depth page then ["page_very_deep"] else [])
  ++ (if internal_links_count page =? 0 then ["dead_end_page"] else [])
  ++ (if 150 <? internal_links_count page then ["high_outbound_links"] else []).

(** [analyzePage(page)]: the issues stored for the page, as pairs of the
    page id and the code; [storeIssue] drops a code without definition. *)
Definition analyzePage (defs : gmap string LinkQuality.IssueDefinition)
    (page : PageLinkData) : list (string * string) :=
  if 400 <=? status_code page then []
  else
    flat_map (fun code => match defs !! code with
                          | Some _ => [(id page, code)]
                          | None => []
                          end)
             (detected page).

(** [analyze()] after the definitions were loaded: [query] is the answer
    of the store for the pages of the crawl. *)
Definition analyze (defs : gmap string LinkQuality.IssueDefinition)
    (query : option (list PageLinkData)) : list (string * string) :=
  match query with
  | None => []
  | Some pages => flat_map (analyzePage defs) pages
  end.

End LinkPages.

(** ** ai-search-analyzer.ts *)

Module AiSearch.

Record PageRow := mkPageRow {
  schema_types : option (list string);
  h1_count : option Z;
  h2_count : option Z;
  word_count : option Z;
  title : option string;
  meta_description : option string
}.

Record PageAIAnalysis := mkAnalysis {
  hasGoodStructure : bool;
  hasFaqSchema : bool;
  hasHowToSchema : bool;
  hasSpeakableSchema : bool;
  issues : list string
}.

(** [!!s && s.length >= n] *)
Definition atLeast (n : nat) (s : option string) : bool :=
  match s with
  | Some (String c r) => (n <=? String.length (String c r))%nat
  | _ => false
  end.

Definition analyzePageForAI (page : PageRow) : PageAIAnalysis :=
  let schemaTypes := default [] (schema_types page) in
  let hasFaq :=
    existsb (fun s => Js.includes "faq" (Js.toLowerCase s) || String.eqb s "FAQPage")
            schemaTypes in
  let hasHowTo :=
    existsb (fun s => Js.includes "howto" (Js.toLowerCase s) || String.eqb s "HowTo")
            schemaTypes in
  let hasSpeakable :=
    existsb (fun s => Js.includes "speakable" (Js.toLowerCase s)) schemaTypes in
  let hasGoodHeadingStructure :=
    (default 0 (h1_count page) =? 1) && (2 <=? default 0 (h2_count page)) in
  let hasAdequateContent := 300 <=? default 0 (word_count page) in
  let hasTitle := atLeast 20 (title page) in
  let hasMetaDescription := atLeast 50 (meta_description page) in
  mkAnalysis
    (hasGoodHeadingStructure && hasAdequateContent && hasTitle)
    hasFaq hasHowTo hasSpeakable
    ((if hasGoodHeadingStructure then [] else ["Poor heading structure for AI comprehension"])
     ++ (if hasAdequateContent then []
         else ["Content may be too short for AI to extract value"])
     ++ (if hasTitle then [] else ["Missing or short title"])
     ++ (if hasMetaDescription then [] else ["Missing or short meta description"])).

Record PageStats := mkStats {
  optimizedCount : Z;
  notOptimizedCount : Z;
  issuesCount : Z;
  faqSchemaCount : Z;
  howToSchemaCount : Z;
  speakableCount : Z
}.

(** One iteration of the loop of [analyzePages]. *)
Definition countPage (st : PageStats) (page : PageRow) : PageStats :=
  let analysis := analyzePageForAI page in
  mkStats
    (if hasGoodStructure analysis then optimizedCount st + 1 else optimizedCount st)
    (if hasGoodStructure analysis then notOptimizedCount st else notOptimizedCount st + 1)
    (issuesCount st + Z.of_nat (length (issues analysis)))
    (if hasFaqSchema analysis then faqSchemaCount st + 1 else faqSchemaCount st)
    (if hasHowToSchema analysis then howToSchemaCount st + 1 else howToSchemaCount st)
    (if hasSpeakableSchema analysis then speakableCount st + 1 else speakableCount st).

(** [analyzePages()]: [query] is the answer of the store for the
    indexable pages of the crawl. *)
Definition analyzePages (query : option (list PageRow)) : PageStats :=
  match query with
  | None => mkStats 0 0 0 0 0 0
  | Some pages => fold_left countPage pages (mkStats 0 0 0 0 0 0)
  end.

(** [getAICrawlerAccess()]: without a robots parser, six crawlers and
    no verdict. *)
Definition getAICrawlerAccess {Matcher : Type} (robotsParser : option (Robots.RobotsParser Matcher))
  : list (string * option bool) :=
  match robotsParser with
  | None => [ ("GPTBot", None); ("ChatGPT-User", None); ("Google-Extended", None);
              ("anthropic-ai", None); ("PerplexityBot", None); ("OAI-SearchBot", None) ]
  | Some r => Robots.getAiCrawlerAccess Matcher r
  end.

Definition crawlerPenalties : list (string * Z) :=
  [ ("GPTBot", 10); ("ChatGPT-User", 5); ("Google-Extended", 10);
    ("anthropic-ai", 5); ("PerplexityBot", 5) ].

(** [data.aiCrawlerAccess[crawler] === false] *)
Definition blocked (access : list (string * option bool)) (crawler : string) : bool :=
  match Robots.accessOf access crawler with
  | Some false => true
  | _ => false
  end.

Section WithRatio.
(** [optimizedCount / totalPages < tenths / 10], a comparison of
    floating-point numbers of the runtime. *)
Variable ratioBelow : Z -> Z -> Z -> bool.

Definition contentPenalty (stats : PageStats) : Z :=
  let totalPages := optimizedCount stats + notOptimizedCount stats in
  if 0 <? totalPages then
    if ratioBelow (optimizedCount stats) totalPages 3 then 20
    else if ratioBelow (optimizedCount stats) totalPages 5 then 15
    else if ratioBelow (optimizedCount stats) totalPages 7 then 10
    else if ratioBelow (optimizedCount stats) totalPages 9 then 5
    else 0
  else 0.

Definition calculateScore (access : list (string * option bool))
    (llmsExists : bool) (llmsValid : option bool) (aiTxtExists : bool)
    (stats : PageStats) : Z :=
  let score := 100 in
  let score :=
    fold_left (fun sc cp => if blocked access (fst cp) then sc - snd cp else sc)
              crawlerPenalties score in
  let score :=
    if negb llmsExists then score - 10
    else match llmsValid with Some false => score - 5 | _ => score end in
  let score := if negb aiTxtExists then score - 5 else score in
  let score := score - contentPenalty stats in
  let score := if faqSchemaCount stats =? 0 then score - 10 else score in
  let score :=
    if (howToSchemaCount stats =? 0) && (faqSchemaCount stats =? 0) then score - 5 else score in
  Z.max 0 (Z.min 100 score).
End WithRatio.

End AiSearch.

(** ** crawl-manager.ts: the run of a crawl

    [run()] up to the end of [processQueue()]: the resume information is
    loaded, the start URL and the URLs of the sitemaps are offered to
    [addToQueue], and the queue is processed. The browser, the store and
    the issue detector are the environment: what they do to one page is
    a [Visit]. *)

Module CrawlRun.
Import CrawlManager.

(** One pass through the [try] block of [processQueue] for a page, as
    the environment decides it: [links] are the internal links the loop
    over [pageData.links.internal] went through (none when [crawl] or
    [storePage] threw, or the page has no links), [completed] says that
    the block reached its end ([pagesCrawled++]) rather than the [catch]
    ([pagesFailed++]), [progressStored] that [updateProgress()]
    resolved. *)
Record Visit := mkVisit {
  links : list string;
  completed : bool;
  progressStored : bool
}.

(** [settings.resume_info] *)
Record ResumeInfo := mkResume {
  skip_urls : list string;
  original_pages_discovered : Z
}.

(** How [processQueue()] ends. *)
Inductive Ending := Resolved | Rejected.

Section WithRuntime.
Variable parseURL : string -> option Url.URL.
Variable Matcher : Type.
Variable matcherIsAllowed : Matcher -> string -> string -> option bool.
(** The environment: the outcome of crawling an item after the given
    history, and the [cancelled] flag at the head of each iteration. *)
Variable visit : list (QueueItem * Visit) -> QueueItem -> Visit.
Variable cancelledAt : nat -> bool.

Abbreviation State := (State Matcher).
Abbreviation normalizeUrl := (normalizeUrl parseURL).
Abbreviation addToQueue := (addToQueue parseURL Matcher matcherIsAllowed).

(** The manager with the counters of the run; [fetched] is the history
    of the calls of [pageCrawler.crawl], [iterations] the number of
    iterations of the loop so far. *)
Record Run := mkRun {
  manager : State;
  incomingLinks : gmap string Z;
  pagesCrawled : Z;
  pagesFailed : Z;
  fetched : list (QueueItem * Visit);
  iterations : nat
}.

Definition withQueue (s : State) (q : list QueueItem) : State :=
  mkState Matcher (projectDomain _ s) (settings _ s) (robotsParser _ s)
    q (visited _ s) (discovered _ s) (pagesDiscovered _ s).

Definition withVisited (s : State) (v : gset string) : State :=
  mkState Matcher (projectDomain _ s) (settings _ s) (robotsParser _ s)
    (queue _ s) v (discovered _ s) (pagesDiscovered _ s).

(** [trackIncomingLink(url)] *)
Definition trackIncomingLink (m : gmap string Z) (u : string) : gmap string Z :=
  match normalizeUrl u with
  | None => m
  | Some normalizedUrl =>
      let currentCount := default 0 (m !! normalizedUrl) in
      <[normalizedUrl := currentCount + 1]> m
  end.

(** The body of the loop over the internal links of a page. *)
Definition followLink (item : QueueItem) (st : State * gmap string Z) (link : string)
  : State * gmap string Z :=
  (snd (addToQueue (fst st) link (depth item + 1) (Some (url item)) crawl),
   trackIncomingLink (snd st) link).

(** The [try] block and what follows it, for an item that was marked
    visited in [s]; the flag says that [updateProgress()] resolved. *)
Definition crawlItem (r : Run) (s : State) (item : QueueItem) : Run * bool :=
  let v := visit (fetched r) item in
  let st := fold_left (followLink item) (links v) (s, incomingLinks r) in
  (mkRun (fst st) (snd st)
     (if completed v then pagesCrawled r + 1 else pagesCrawled r)
     (if completed v then pagesFailed r else pagesFailed r + 1)
     (fetched r ++ [(item, v)])
     (S (iterations r)),
   progressStored v).

(** One iteration of [while (this.queue.length > 0 && !this.cancelled)];
    [None] when the loop is left. *)
Definition iteration (r : Run) : option (Run * bool) :=
  match queue _ (manager r) with
  | [] => None
  | item :: rest =>
      if cancelledAt (iterations r) then None
      else
        let s := withQueue (manager r) rest in
        if bool_decide (url item ∈ visited _ s)
        then Some (mkRun s (incomingLinks r) (pagesCrawled r) (pagesFailed r)
                     (fetched r) (S (iterations r)), true)
        else Some (crawlItem r (withVisited s ({[url item]} ∪ visited _ s)) item)
  end.

(** [processQueue()] *)
Fixpoint processQueue (fuel : nat) (r : Run) : option (Run * Ending) :=
  match fuel with
  | O => None
  | S fuel =>
      match iteration r with
      | None => Some (r, Resolved)
      | Some (r', true) => processQueue fuel r'
      | Some (r', false) => Some (r', Rejected)
      end
  end.

(** The loop over [resumeInfo.skip_urls]. *)
Definition preloadUrl (s : State) (u : string) : State :=
  match normalizeUrl u with
  | Some normalizedUrl =>
      mkState Matcher (projectDomain _ s) (settings _ s) (robotsParser _ s)
        (queue _ s) ({[normalizedUrl]} ∪ visited _ s) ({[normalizedUrl]} ∪ discovered _ s)
        (pagesDiscovered _ s)
  | None => s
  end.

(** Every write to the frontier in the class: an offer to [addToQueue]
    (which alone pushes to [queue] and, with the preloading of a
    resumed crawl, alone adds to [discovered]), the [queue.shift()] and
    the [visited.add(item.url)] of the run loop, and the preloading of
    one skipped URL. *)
Inductive FrontierOp :=
| Offer (u : string) (d : Z) (parent : option string) (via : DiscoveredVia)
| Shift
| MarkVisited (u : string)
| Preload (u : string).

Definition applyOp (s : State) (op : FrontierOp) : State :=
  match op with
  | Offer u d parent via => snd (addToQueue s u d parent via)
  | Shift => withQueue s (tl (queue _ s))
  | MarkVisited u => withVisited s ({[u]} ∪ visited _ s)
  | Preload u => preloadUrl s u
  end.

Definition preload (s : State) (resumeInfo : option ResumeInfo) : State :=
  match resumeInfo with
  | None => s
  | Some info =>
      let s := fold_left preloadUrl (skip_urls info) s in
      mkState Matcher (projectDomain _ s) (settings _ s) (robotsParser _ s)
        (queue _ s) (visited _ s) (discovered _ s) (original_pages_discovered info)
  end.

(** The start URL, then the loop of [parseSitemaps()] over
    [result.urls]. *)
Definition seedAll (s : State) (sitemapUrls : list string) : State :=
  let s := snd (addToQueue s ("https://" +:+ projectDomain _ s) 0 None seed) in
  fold_left (fun s loc => snd (addToQueue s loc 1 None sitemap)) sitemapUrls s.

(** The manager when [processQueue()] is called: [robots] is the parser
    [initRobotsParser()] installed (none when robots.txt is not
    respected), [sitemapUrls] are the locations the sitemap parser
    returned (none when it threw). *)
Definition seeded (domain : string) (crawlSettings : CrawlSettings)
    (resumeInfo : option ResumeInfo) (robots : option (Robots.RobotsParser Matcher))
    (sitemapUrls : list string) : Run :=
  let s := preload (mkState Matcher domain crawlSettings None [] ∅ ∅ 0) resumeInfo in
  let s := mkState Matcher (projectDomain _ s) (settings _ s) robots
             (queue _ s) (visited _ s) (discovered _ s) (pagesDiscovered _ s) in
  mkRun (seedAll s sitemapUrls) ∅ 0 0 [] 0.

(** [run()] up to the end of [processQueue()]. *)
Definition run (fuel : nat) (domain : string) (crawlSettings : CrawlSettings)
    (resumeInfo : option ResumeInfo) (robots : option (Robots.RobotsParser Matcher))
    (sitemapUrls : list string) : option (Run * Ending) :=
  processQueue fuel (seeded domain crawlSettings resumeInfo robots sitemapUrls).

(** *** What the proofs about the run use *)

(** The iterations the frontier can still take: the queue, and the
    room left under [max_pages]. *)
Definition budget (s : State) : nat :=
  (length (queue _ s)
   + Z.to_nat (max_pages (settings _ s) - Z.of_nat (size (discovered _ s))))%nat.

(** The normalized skip URLs. *)
Definition skipSet (resumeInfo : option ResumeInfo) : gset string :=
  match resumeInfo with
  | None => ∅
  | Some info =>
      fold_left (fun acc u => match normalizeUrl u with
                              | Some n => {[n]} ∪ acc
                              | None => acc
                              end) (skip_urls info) ∅
  end.

(** Every queued URL is discovered, not yet visited, and queued once. *)
Definition queueFresh (s : State) : Prop :=
  NoDup (map url (queue _ s))
  /\ forall item, In item (queue _ s) -> url item ∈ discovered _ s /\ url item ∉ visited _ s.

(** The guards of [addToQueue] that do not depend on the frontier. *)
Definition admitted (s : State) (item : QueueItem) : Prop :=
  depth item <= max_depth (settings _ s)
  /\ match robotsParser _ s with
     | Some r => Robots.isAllowed Matcher matcherIsAllowed r (url item) = true
     | None => True
     end
  /\ matchesPatterns (settings _ s) (url item) = true
  /\ isAllowedDomain parseURL Matcher s (url item) = true
  /\ SeoUrlFilter.isSeoRelevant parseURL (url item) = true.

Definition sameCrawl (s s' : State) : Prop :=
  projectDomain _ s' = projectDomain _ s
  /\ settings _ s' = settings _ s
  /\ robotsParser _ s' = robotsParser _ s.

(** What a series of [addToQueue] calls does to the frontier: the crawl
    stays the same, nothing is visited, the budget is kept, and the
    queue grows by items [cs] that satisfy [D] and passed the guards. *)
Definition grows (D : QueueItem -> Prop) (s s' : State) : Prop :=
  sameCrawl s s' /\ visited _ s' = visited _ s /\ budget s' = budget s
  /\ Z.of_nat (size (discovered _ s'))
     <= Z.max (max_pages (settings _ s)) (Z.of_nat (size (discovered _ s)))
  /\ exists cs, queue _ s' = queue _ s ++ cs
       /\ Forall (fun c => D c /\ admitted s c
                           /\ (url c ∉ visited _ s) /\ (url c ∉ discovered _ s)) cs
       /\ NoDup (map url cs)
       /\ discovered _ s' = list_to_set (map url cs) ∪ discovered _ s
       /\ pagesDiscovered _ s' = pagesDiscovered _ s + Z.of_nat (length cs).

(** All links the loop went through, and those that normalize to [n]. *)
Definition linksSeen (log : list (QueueItem * Visit)) : list string :=
  flat_map (fun e => links (snd e)) log.

Definition countTo (n : string) (ls : list string) : Z :=
  Z.of_nat (length (List.filter (fun l => bool_decide (normalizeUrl l = Some n)) ls)).

(** Depths in the order of the history, then of the queue. *)
Fixpoint nondecreasing (l : list Z) : Prop :=
  match l with
  | [] => True
  | x :: rest => Forall (Z.le x) rest /\ nondecreasing rest
  end.

Definition depthsOf (r : Run) : list Z :=
  map (fun e => depth (fst e)) (fetched r) ++ map depth (queue _ (manager r)).

Definition breadthFirst (r : Run) : Prop :=
  nondecreasing (depthsOf r)
  /\ forall x y, In x (queue _ (manager r)) -> In y (queue _ (manager r)) ->
       depth y <= depth x + 1.

(** *** Invariants of the loop *)

Definition fetchedUrls (r : Run) : list string :=
  map (fun e => url (fst e)) (fetched r).

(** [K] are URLs marked visited before the loop. *)
Definition fetchedOnce (K : gset string) (r : Run) : Prop :=
  queueFresh (manager r)
  /\ (forall u, In u (fetchedUrls r) -> u ∈ visited _ (manager r))
  /\ NoDup (fetchedUrls r)
  /\ iterations r = length (fetched r)
  /\ visited _ (manager r) ⊆ discovered _ (manager r)
  /\ forall n, n ∈ K -> n ∈ visited _ (manager r) /\ ~ In n (fetchedUrls r).

Definition allAdmitted (s0 : State) (r : Run) : Prop :=
  sameCrawl s0 (manager r)
  /\ Forall (admitted s0) (queue _ (manager r))
  /\ Forall (fun e => admitted s0 (fst e)) (fetched r).

Definition counted (r : Run) : Prop :=
  pagesCrawled r
  = Z.of_nat (length (List.filter (fun e => completed (snd e)) (fetched r)))
  /\ pagesFailed r
     = Z.of_nat (length (List.filter (fun e => negb (completed (snd e))) (fetched r))).

Definition linksCounted (r : Run) : Prop :=
  forall n, incomingLinks r !! n
            = let c := countTo n (linksSeen (fetched r)) in
              if c =? 0 then None else Some c.

Definition withinBudget (B : nat) (r : Run) : Prop :=
  (length (fetched r) + budget (manager r) <= B)%nat.

Definition accounted (base limit : Z) (r : Run) : Prop :=
  pagesDiscovered _ (manager r) = base + Z.of_nat (size (discovered _ (manager r)))
  /\ Z.of_nat (size (discovered _ (manager r))) <= limit
  /\ max_pages (settings _ (manager r)) <= limit.

(** Where an item comes from: the start URL at depth 0, a sitemap at
    depth 1, or a link on a page [p] among [earlier], one level above. *)
Definition originOf (earlier : list QueueItem) (c : QueueItem) : Prop :=
  match discoveredVia c with
  | seed => depth c = 0 /\ parentUrl c = None
  | sitemap => depth c = 1 /\ parentUrl c = None
  | crawl => exists p, In p earlier /\ parentUrl c = Some (url p) /\ depth c = depth p + 1
  end.

Definition rooted (r : Run) : Prop :=
  (forall c, In c (queue _ (manager r)) -> originOf (map fst (fetched r)) c)
  /\ forall l1 e l2, fetched r = l1 ++ e :: l2 -> originOf (map fst l1) (fst e).

(** Everything discovered is a skip URL, fetched, or still queued. *)
Definition covered (K : gset string) (r : Run) : Prop :=
  discovered _ (manager r)
  = K ∪ list_to_set (fetchedUrls r) ∪ list_to_set (map url (queue _ (manager r))).

(** The manager after the resume information was loaded and the robots
    parser installed. *)
Definition loaded (domain : string) (crawlSettings : CrawlSettings)
    (resumeInfo : option ResumeInfo) (robots : option (Robots.RobotsParser Matcher)) : State :=
  mkState Matcher domain crawlSettings robots [] (skipSet resumeInfo) (skipSet resumeInfo)
    (match resumeInfo with
     | Some info => original_pages_discovered info
     | None => 0
     end).

End WithRuntime.

End CrawlRun.

(** A small crawl: every page links to two pages of the site, the third
    fetch fails, the crawl is never cancelled. *)
Definition smallSettings : CrawlManager.CrawlSettings :=
  CrawlManager.mkSettings 10 false [] [] 2.

Definition linkedVisit (log : list (CrawlManager.QueueItem * CrawlRun.Visit))
    (item : CrawlManager.QueueItem) : CrawlRun.Visit :=
  CrawlRun.mkVisit
    [CrawlManager.url item +:+ "/a"; "https://ex.test/contact#top"; "mailto:x"]
    (negb (length log =? 2)%nat) true.

Definition neverCancelled (n : nat) : bool := false.

Definition resumedCrawl : CrawlRun.ResumeInfo :=
  CrawlRun.mkResume ["https://ex.test/contact"; "https://ex.test/old/"] 7.


(** ** What a tree of effects can emit *)

Module Traces.
Import Effects.

(** Every command of the tree emits an event that satisfies [P]. *)
Inductive uses {A : Type} (P : Event -> Prop) : Eff A -> Prop :=
| uses_ret (a : A) : uses P (Ret a)
| uses_raise (m : string) : uses P (Raise m)
| uses_do {X : Type} (c : Cmd X) (k : X -> Eff A) :
    P (eventOf c) -> (forall x, uses P (k x)) -> uses P (Do c k).

(** The events of an attempt between opening and closing the page. *)
Definition inner (url : string) (e : Event) : Prop :=
  e = EClock \/ e = EGoto url \/ e = EContent \/ e = EMeasureCwv.

Definition sleepsOf (evs : list Event) : list Z :=
  flat_map (fun e => match e with ESleep ms => [ms] | _ => [] end) evs.

Definition pagesOpened (evs : list Event) : nat :=
  length (List.filter (fun e => match e with ENewPage => true | _ => false end) evs).

Definition pagesClosed (evs : list Event) : nat :=
  length (List.filter (fun e => match e with EClosePage => true | _ => false end) evs).

(** The delays of the attempts [k], [k+1], ... of [crawl]: an attempt
    is followed by a sleep when [attempt < maxRetries]. *)
Definition backoffs (k n : nat) : list Z :=
  map (fun i => PageCrawler.retryDelayMs * 2 ^ Z.of_nat i)
      (List.filter (fun i => (i <? PageCrawler.maxRetries)%nat) (seq k n)).

End Traces.


(** A robots.txt that closes the site to every agent. *)
Definition robotsTxtBlockAll : string :=
  "User-agent: *" +:+ String "010" ("Disallow: /" +:+ String "010" "").


(** ** Where the sitemap parser's results come from *)

Module SitemapTrace.
Import Sitemap.

Section WithXml.
Variable SitemapUrl : Type.
Variable parseXml : string -> SitemapParseResult SitemapUrl.
Variable web : gmap string string.

(** [u] is a child listed by the index of a sitemap of the log. *)
Definition listedBy (log : list string) (u : string) : Prop :=
  exists k content,
    In k log /\ web !! k = Some content
    /\ In u (sitemapIndexUrls _ (parseXml content)).

(** [x] is an entry of a sitemap of the log. *)
Definition foundIn (log : list string) (x : SitemapUrl) : Prop :=
  exists k content,
    In k log /\ web !! k = Some content /\ In x (urls _ (parseXml content)).

Definition traced (start : list string) (st : Loop SitemapUrl) : Prop :=
  (forall u, In u (sitemapsToProcess _ st) -> In u start \/ listedBy (fetched _ st) u)
  /\ (forall u, In u (fetched _ st) -> In u start \/ listedBy (fetched _ st) u)
  /\ (forall u, In u (sitemapIndexUrls _ (result _ st)) -> listedBy (fetched _ st) u)
  /\ (forall x, In x (urls _ (result _ st)) -> foundIn (fetched _ st) x).
End WithXml.

End SitemapTrace.


(** A blog post whose structured data says [mainEntityOfPage: null],
    and a browser that delivers its page. *)
Definition articleNullEntity : Runtime.SchemaObject :=
  [ ("@type", PageCrawler.JString _ "BlogPosting");
    ("headline", PageCrawler.JString _ "A post");
    ("mainEntityOfPage", PageCrawler.JNull _) ].

Definition postResponse : Effects.Response :=
  Effects.mkResponse 200 (Some "text/html; charset=utf-8") "https://ex.test/post" [].

Definition postScript : Effects.PageScript :=
  Effects.mkScript (Effects.Returned tt) (Effects.Returned (Some postResponse))
    (Effects.Returned "<html></html>") (Effects.mkCwv None None None None)
    (Effects.Returned tt).


(** The catalogue of the depth and outbound-link issues, and a page
    eight clicks deep without outbound links. *)
Definition depthDefinitions : gmap string LinkQuality.IssueDefinition :=
  {[ "page_very_deep" :=
       LinkQuality.mkDef "d3" "page_very_deep" "Page very deep" "links" "warning";
     "dead_end_page" :=
       LinkQuality.mkDef "d4" "dead_end_page" "Dead end page" "links" "notice" ]}.

Definition deepPage : LinkPages.PageLinkData :=
  LinkPages.mkPageLinkData "p9" "https://ex.test/a/b/c/d/e/f/g/h" 8 0 200.

(** A fresh frontier for [ex.test]. *)
Definition freshFrontier : CrawlManager.State RobotsLib.Matcher :=
  CrawlManager.mkState RobotsLib.Matcher "ex.test" smallSettings None [] ∅ ∅ 0.


(** ** A stand-in for cheerio and [JSON.parse]

    Documents that hold nothing but JSON-LD scripts: a document is the
    list of the texts of its scripts, and a text is named, not spelled
    out; [jsonTexts] gives the value that [JSON.parse] returns for it.
    No other selector finds an element, no regular expression matches,
    and numbers are the integers of [Runtime]. It instantiates
    [PageCrawler.Library] on the literal inputs. *)

Module Documents.

Definition Dom : Type := list string.

Definition jsonLd : string :=
  "script" +:+ PageCrawler.attrIs "type" "application/ld+json".

Definition jsonTexts : list (string * Runtime.Json) :=
  [ ("product.json", PageCrawler.JObject _ productObject);
    ("post.json", PageCrawler.JObject _ articleNullEntity);
    ("null.json", PageCrawler.JNull _) ].

Definition jsonParse (s : string) : Effects.Outcome Runtime.Json :=
  match List.find (fun entry => String.eqb (fst entry) s) jsonTexts with
  | Some entry => Effects.Returned (snd entry)
  | None => Effects.Thrown "Unexpected token"
  end.

Definition upperAscii (c : ascii) : ascii :=
  let n := nat_of_ascii c in
  if ((97 <=? n)%nat && (n <=? 122)%nat)%bool then ascii_of_nat (n - 32) else c.

Fixpoint toUpperCase (s : string) : string :=
  match s with
  | EmptyString => EmptyString
  | String c r => String (upperAscii c) (toUpperCase r)
  end.

Definition library : PageCrawler.Library Runtime.Number Dom :=
  {| PageCrawler.Selection := list string;
     PageCrawler.select := fun dom selector => if String.eqb selector jsonLd then dom else [];
     PageCrawler.each := map (fun script => [script]);
     PageCrawler.first := firstn 1;
     PageCrawler.text := fun _ => "";
     PageCrawler.innerHtml := fun s => head s;
     PageCrawler.attr := fun _ _ => None;
     PageCrawler.tagName := fun _ => "SCRIPT";
     PageCrawler.propTagName := fun s => option_map (fun _ => "SCRIPT") (head s);
     PageCrawler.parent := fun _ => [];
     PageCrawler.parents := fun _ _ => [];
     PageCrawler.matches := fun _ _ => false;
     PageCrawler.position := fun _ => 0;
     PageCrawler.clone := fun s => s;
     PageCrawler.descendants := fun _ _ => [];
     PageCrawler.without := fun s _ => s;
     PageCrawler.withoutChildren := fun s _ => s;
     PageCrawler.trim := Js.trim;
     PageCrawler.toLowerCase := Js.toLowerCase;
     PageCrawler.toUpperCase := toUpperCase;
     PageCrawler.codeUnits := fun s => Z.of_nat (String.length s);
     PageCrawler.substring :=
       fun from to s => Js.take (Z.to_nat (to - from)) (Js.drop (Z.to_nat from) s);
     PageCrawler.test := fun _ _ => false;
     PageCrawler.matchGroups := fun _ _ => None;
     PageCrawler.matchAll := fun _ _ => None;
     PageCrawler.replaceRegExp := fun _ _ s => s;
     PageCrawler.splitRegExp := fun _ s => [s];
     PageCrawler.parseURL := Whatwg.parse;
     PageCrawler.resolveURL := fun s _ => Whatwg.parse s;
     PageCrawler.searchParamKeys := fun u => map fst (Url.parseParams (Url.search u));
     PageCrawler.jsonParse := jsonParse;
     PageCrawler.notIterable := fun _ => "object is not iterable";
     PageCrawler.sha256 := fun s => s;
     PageCrawler.parseInt := Runtime.parseFloat;
     PageCrawler.ofZ := fun n => n;
     PageCrawler.literal := fun s => default 0 (Runtime.parseFloat s);
     PageCrawler.numEqb := Z.eqb;
     PageCrawler.numLtb := Z.ltb;
     PageCrawler.numLeb := Z.leb;
     PageCrawler.numAdd := Z.add;
     PageCrawler.numSub := Z.sub;
     PageCrawler.numMul := Z.mul;
     PageCrawler.numDiv := Z.div;
     PageCrawler.mathRound := fun n => n;
     PageCrawler.mathMax := Z.max |}.

(** [cheerio.load(html)] for the one page the literal browsers deliver. *)
Definition load (html : string) : Dom :=
  if String.eqb html "<html></html>" then ["post.json"] else [].

Definition PageData : Type := PageCrawler.PageData Runtime.Number.

Definition extractPageData (dom : Dom) (url : string) (baseData : PageCrawler.BaseData)
    (html : string) : Effects.Eff PageData :=
  PageCrawler.extractPageData Runtime.Number Runtime.numberToString Runtime.parseFloat
    Runtime.isZero Runtime.isNegative Runtime.dateParse Runtime.twoYearsBefore Dom library
    dom url baseData html.

Definition crawl (render_javascript : bool) (url : string) : Effects.Eff PageData :=
  PageCrawler.crawl Runtime.Number Runtime.numberToString Runtime.parseFloat
    Runtime.isZero Runtime.isNegative Runtime.dateParse Runtime.twoYearsBefore Dom load
    library render_javascript url.

End Documents.

(** The page of the product. *)
Definition productPage : Documents.Dom := ["product.json"].


(* ===================================================================== *)
(** * Part II. Properties *)
(* ===================================================================== *)

Example js_trim_ex : Js.trim "  User-Agent: GPTBot " = "User-Agent: GPTBot".
Proof. reflexivity. Qed.
Example js_split_ex : Js.split "/" "/a//b/" = [""; "a"; ""; "b"; ""].
Proof. reflexivity. Qed.
Example js_ends_ex : Js.endsWith ".png" "/img/x.png" = true.
Proof. reflexivity. Qed.
Example js_replace_ex : Js.replace "disallow:" "" "disallow: /" = " /".
Proof. reflexivity. Qed.
Example params_ex :
  Url.serializeParams (Url.sortEntries (Url.parseParams "?b=2&a=1&a=0&c")) = "a=0&a=1&b=2&c=".
Proof. reflexivity. Qed.
Example parse_ex1 :
  Whatwg.parse "HTTPS://Ex.Test/a/b/?x=1&y#top"
  = Some (Url.mkURL "https://ex.test" "ex.test" "/a/b/" (Some "x=1&y") (Some "top")).
Proof. reflexivity. Qed.
Example parse_ex2 : Whatwg.parse "https://ex.test" = Some (Url.mkURL "https://ex.test" "ex.test" "/" None None).
Proof. reflexivity. Qed.
Example parse_ex3 : Whatwg.parse "" = None /\ Whatwg.parse "//example.com/page/" = None /\ Whatwg.parse "not-a-valid-url" = None.
Proof. repeat split; reflexivity. Qed.
Example seo_ex1 : SeoUrlFilter.isSeoRelevantUrl Whatwg.parse "https://example.com/image.PNG"
  = SeoUrlFilter.mkResult false (Some "Non-HTML file extension: .png").
Proof. reflexivity. Qed.
Example seo_ex2 : SeoUrlFilter.isSeoRelevantUrl Whatwg.parse "https://example.com/Admin/Dashboard/"
  = SeoUrlFilter.mkResult false (Some "Excluded path segment: admin").
Proof. reflexivity. Qed.
Example seo_ex3 : SeoUrlFilter.isSeoRelevantUrl Whatwg.parse "https://example.com/page/?id=123&utm_source=google"
  = SeoUrlFilter.mkResult false (Some "Excluded query parameter: utm_source").
Proof. reflexivity. Qed.
Example seo_ex4 : SeoUrlFilter.isSeoRelevantUrl Whatwg.parse "https://example.com/page/#section"
  = SeoUrlFilter.mkResult true None.
Proof. reflexivity. Qed.
Example ai_rules_ex :
  Robots.parseAiCrawlerRules Js.trim Js.toLowerCase ∅ "User-agent: GPTBot
User-agent: Claude-Web
Disallow: /

User-agent: *
Allow: /" !! "Claude-Web" = Some false.
Proof. vm_compute. reflexivity. Qed.
Example normalize_ex1 :
  CrawlManager.normalizeUrl Whatwg.parse "https://ex.test/about/?b=2&a=1#top" = Some "https://ex.test/about/?a=1&b=2".
Proof. reflexivity. Qed.
Example normalize_ex2 :
  CrawlManager.normalizeUrl Whatwg.parse "https://ex.test/about/" = Some "https://ex.test/about"
  /\ CrawlManager.normalizeUrl Whatwg.parse "https://ex.test/" = Some "https://ex.test/"
  /\ CrawlManager.normalizeUrl Whatwg.parse "https://ex.test" = Some "https://ex.test/".
Proof. repeat split; reflexivity. Qed.

(** ** String lemmas *)

Lemma string_eqb_true (a b : string) : String.eqb a b = true <-> a = b.
Proof. apply String.eqb_eq. Qed.

Lemma drop_app (a b : string) : Js.drop (String.length a) (a +:+ b) = b.
Proof. induction a as [|c a IH]; simpl; auto. Qed.

Lemma string_length_app (a b : string) :
  String.length (a +:+ b) = (String.length a + String.length b)%nat.
Proof. induction a as [|c a IH]; simpl; auto. Qed.

Lemma take_drop (n : nat) (s : string) : Js.take n s +:+ Js.drop n s = s.
Proof.
  revert s; induction n as [|n IH]; intros [|c s]; simpl; auto.
  change (String c (Js.take n s +:+ Js.drop n s) = String c s).
  f_equal. apply IH.
Qed.

(** [endsWith] decides being a suffix. *)
Lemma endsWith_spec (p s : string) :
  Js.endsWith p s = true <-> exists pre, s = pre +:+ p.
Proof.
  unfold Js.endsWith. split.
  - destruct (String.length p <=? String.length s)%nat eqn:Hle; [|discriminate].
    intros H. apply String.eqb_eq in H.
    exists (Js.take (String.length s - String.length p) s).
    rewrite <- H at 2. symmetry. apply take_drop.
  - intros [pre ->]. rewrite string_length_app.
    replace (String.length p <=? String.length pre + String.length p)%nat with true
      by (symmetry; apply Nat.leb_le; lia).
    replace (String.length pre + String.length p - String.length p)%nat
      with (String.length pre) by lia.
    rewrite drop_app. apply String.eqb_refl.
Qed.

Lemma has_spec (ps : list (string * string)) (k : string) :
  Url.has ps k = true <-> exists v, In (k, v) ps.
Proof.
  unfold Url.has. rewrite existsb_exists. split.
  - intros [[k' v] [Hin Heq]]. simpl in Heq. apply String.eqb_eq in Heq. subst. eauto.
  - intros [v Hin]. exists (k, v). split; [assumption | apply String.eqb_refl].
Qed.

Lemma arrayIncludes_spec (arr : list string) (x : string) :
  Js.arrayIncludes arr x = true <-> In x arr.
Proof.
  unfold Js.arrayIncludes. rewrite existsb_exists. split.
  - intros [y [Hin Heq]]. apply String.eqb_eq in Heq. now subst.
  - intros Hin. exists x. split; [assumption | apply String.eqb_refl].
Qed.

(** ** The SEO filter (C8, C10) *)

Section SeoFilter.
Import SeoUrlFilter.
Variable parseURL : string -> option Url.URL.

(** A relevant verdict is only reached when every table lookup missed. *)
Lemma classify_relevant_inv (parsed : Url.URL) :
  isRelevant (classify parsed) = true ->
  let pathname := Js.toLowerCase (Url.pathname parsed) in
  Js.arrayFind (fun ext => Js.endsWith ext pathname) NON_HTML_EXTENSIONS = None
  /\ truthy (hasExcludedPathSegment pathname) = None
  /\ Js.arrayFind (fun p => Url.has (Url.searchParams parsed) p) EXCLUDED_QUERY_PARAMS = None.
Proof.
  unfold classify. cbv zeta.
  destruct (Js.arrayFind (fun ext => Js.endsWith ext _) NON_HTML_EXTENSIONS); [discriminate|].
  destruct (truthy _); [discriminate|].
  destruct (Js.arrayFind (fun pattern => Js.includes pattern _) EXCLUDED_PATH_SUBSTRINGS);
    [discriminate|].
  destruct (Js.arrayFind (fun param => Url.has _ param) EXCLUDED_QUERY_PARAMS); [discriminate|].
  auto.
Qed.

Lemma toLowerCase_app (a b : string) :
  Js.toLowerCase (a +:+ b) = Js.toLowerCase a +:+ Js.toLowerCase b.
Proof.
  induction a as [|c a IH]; [reflexivity|].
  change (String (Js.lowerAscii c) (Js.toLowerCase (a +:+ b))
          = String (Js.lowerAscii c) (Js.toLowerCase a +:+ Js.toLowerCase b)).
  now rewrite IH.
Qed.

Lemma extensions_lower_case :
  forall ext, In ext NON_HTML_EXTENSIONS -> Js.toLowerCase ext = ext.
Proof.
  assert (H : forallb (fun ext => String.eqb (Js.toLowerCase ext) ext) NON_HTML_EXTENSIONS
              = true) by reflexivity.
  intros ext Hin. rewrite forallb_forall in H. now apply String.eqb_eq, H.
Qed.

Lemma excluded_segments_nonempty :
  forall sg, In sg EXCLUDED_PATH_SEGMENTS -> sg <> "".
Proof.
  assert (H : forallb (fun sg => negb (String.eqb sg "")) EXCLUDED_PATH_SEGMENTS = true)
    by reflexivity.
  intros sg Hin Heq. rewrite forallb_forall in H. specialize (H sg Hin).
  subst. discriminate.
Qed.

Lemma excluded_segment_found (pathname sg : string) :
  In sg (Js.split "/" pathname) -> In sg EXCLUDED_PATH_SEGMENTS ->
  exists sg', truthy (hasExcludedPathSegment pathname) = Some sg'.
Proof.
  intros Hseg Hex. unfold hasExcludedPathSegment, Js.arrayFind.
  destruct (List.find (Js.arrayIncludes EXCLUDED_PATH_SEGMENTS) (segmentsOf pathname))
    as [sg'|] eqn:Hfind.
  - apply find_some in Hfind as [_ Hinc]. apply arrayIncludes_spec in Hinc.
    apply excluded_segments_nonempty in Hinc.
    exists sg'. destruct sg'; [contradiction | reflexivity].
  - exfalso. assert (Hin : In sg (segmentsOf pathname)).
    { unfold segmentsOf. apply filter_In. split; [assumption|].
      apply excluded_segments_nonempty in Hex. destruct sg; [contradiction | reflexivity]. }
    pose proof (find_none _ _ Hfind sg Hin) as Hn.
    apply arrayIncludes_spec in Hex. congruence.
Qed.


(** A URL that does not parse is answered in the [catch] branch. *)
Lemma isSeoRelevantUrl_invalid (u : string) :
  parseURL u = None ->
  isSeoRelevantUrl parseURL u = mkResult false (Some "Invalid URL").
Proof. intros H. unfold isSeoRelevantUrl. now rewrite H. Qed.
End SeoFilter.


(** C10. [isSeoRelevantUrl] is total: on every string that does not parse
    as a URL, the empty string and protocol-relative strings among them,
    it returns [{ isRelevant: false, reason: 'Invalid URL' }]. *)
Theorem isSeoRelevantUrl_total :
  (forall (parseURL : string -> option Url.URL) (u : string),
      parseURL u = None ->
      SeoUrlFilter.isSeoRelevantUrl parseURL u
      = SeoUrlFilter.mkResult false (Some "Invalid URL"))
  /\ SeoUrlFilter.isSeoRelevantUrl Whatwg.parse ""
     = SeoUrlFilter.mkResult false (Some "Invalid URL")
  /\ SeoUrlFilter.isSeoRelevantUrl Whatwg.parse "//host/path"
     = SeoUrlFilter.mkResult false (Some "Invalid URL").
Proof.
  split; [|split].
  - intros parseURL u H. now apply isSeoRelevantUrl_invalid.
  - reflexivity.
  - reflexivity.
Qed.

Lemma isSeoRelevantUrl_total_witness :
  SeoUrlFilter.isSeoRelevantUrl Whatwg.parse "not-a-valid-url"
  = SeoUrlFilter.mkResult false (Some "Invalid URL").
Proof.
  apply (proj1 isSeoRelevantUrl_total Whatwg.parse "not-a-valid-url"). reflexivity.
Defined.

(** ** The frontier (C3) *)

Section Frontier.
Import CrawlManager.
Variable parseURL : string -> option Url.URL.
Variable Matcher : Type.
Variable matcherIsAllowed : Matcher -> string -> string -> option bool.

Abbreviation State := (State Matcher).
Abbreviation addToQueue := (addToQueue parseURL Matcher matcherIsAllowed).
Abbreviation addAll := (addAll parseURL Matcher matcherIsAllowed).

(** Case analysis on every guard of a function whose result is [H]. *)
Ltac guards H :=
  repeat match type of H with
         | (match ?x with _ => _ end) = _ => destruct x
         | (if ?x then _ else _) = _ => destruct x
         end.

(** The configuration of the crawl is not touched by [addToQueue]. *)
Lemma addToQueue_settings (s s' : State) u d parent via answer :
  addToQueue s u d parent via = (answer, s') -> settings _ s' = settings _ s.
Proof.
  unfold CrawlManager.addToQueue. intros H.
  guards H; inversion H; reflexivity.
Qed.

(** A rejected URL leaves the state as it was. *)
Lemma addToQueue_rejected (s s' : State) u d parent via :
  addToQueue s u d parent via = (false, s') -> s' = s.
Proof.
  unfold CrawlManager.addToQueue. intros H.
  guards H; inversion H; reflexivity.
Qed.

(** What acceptance of one URL guarantees. *)
Lemma addToQueue_accepted (s s' : State) u d parent via :
  addToQueue s u d parent via = (true, s') ->
  d <= max_depth (settings _ s)
  /\ Z.of_nat (size (discovered _ s')) <= max_pages (settings _ s)
  /\ exists n, CrawlManager.normalizeUrl parseURL u = Some n
               /\ (n ∉ visited _ s) /\ (n ∉ discovered _ s)
               /\ discovered _ s' = {[n]} ∪ discovered _ s
               /\ queue _ s' = queue _ s ++ [mkItem n d parent via].
Proof.
  unfold CrawlManager.addToQueue.
  destruct (CrawlManager.normalizeUrl parseURL u) as [n|]; [|discriminate].
  destruct (bool_decide (n ∈ visited _ s)) eqn:Hv; [discriminate|].
  destruct (bool_decide (n ∈ discovered _ s)) eqn:Hd; [discriminate|]. simpl.
  destruct (max_depth (settings _ s) <? d) eqn:Hdepth; [discriminate|].
  destruct (max_pages (settings _ s) <=? Z.of_nat (size (discovered _ s))) eqn:Hpages;
    [discriminate|].
  intros H.
  repeat match type of H with
         | (if ?x then _ else _) = _ => destruct x; [discriminate|]
         end.
  inversion H; subst; clear H. simpl.
  apply bool_decide_eq_false in Hv, Hd.
  apply Z.ltb_ge in Hdepth. apply Z.leb_gt in Hpages.
  split; [assumption|]. split.
  - rewrite size_union by set_solver. rewrite size_singleton. lia.
  - exists n. auto.
Qed.

(** C3. Over every sequence of [addToQueue] calls, each accepted URL
    has a depth of at most [max_depth], and once it is added the
    discovered set holds at most [max_pages] URLs. *)
Theorem addToQueue_bounds (s0 : State) (calls : list Call) :
  Forall (fun '(c, answer, s') =>
            answer = true ->
            callDepth c <= max_depth (settings _ s0)
            /\ Z.of_nat (size (discovered _ s')) <= max_pages (settings _ s0))
         (addAll s0 calls).
Proof.
  revert s0. induction calls as [|c rest IH]; intros s0; simpl.
  - constructor.
  - destruct (addToQueue s0 (callUrl c) (callDepth c) (callParent c) (callVia c))
      as [answer s'] eqn:Hcall.
    constructor.
    + intros ->. apply addToQueue_accepted in Hcall. tauto.
    + rewrite <- (addToQueue_settings _ _ _ _ _ _ _ Hcall). apply IH.
Qed.
End Frontier.

Lemma addToQueue_bounds_witness :
  let s0 := CrawlManager.mkState RobotsLib.Matcher "ex.test"
              (CrawlManager.mkSettings 10 false [] [] 2) None [] ∅ ∅ 0 in
  Forall (fun '(c, answer, s') =>
            answer = true ->
            CrawlManager.callDepth c <= 2
            /\ Z.of_nat (size (CrawlManager.discovered _ s')) <= 10)
         (CrawlManager.addAll Whatwg.parse RobotsLib.Matcher RobotsLib.isAllowed s0
            [ CrawlManager.mkCall "https://ex.test" 0 None CrawlManager.seed;
              CrawlManager.mkCall "https://ex.test/about" 1 (Some "https://ex.test/") CrawlManager.crawl;
              CrawlManager.mkCall "https://ex.test/deep" 3 (Some "https://ex.test/") CrawlManager.crawl ]).
Proof.
  intros s0.
  apply (addToQueue_bounds Whatwg.parse RobotsLib.Matcher RobotsLib.isAllowed s0).
Defined.

(** ** The robots policy (C4) *)

Section RobotsFailOpen.
Variable trim : string -> string.
Variable toLowerCase : string -> string.
Variable Matcher : Type.
Variable robotsParser : string -> string -> Matcher.
Variable matcherIsAllowed : Matcher -> string -> string -> option bool.

Abbreviation fetch := (Robots.fetch trim toLowerCase Matcher robotsParser).
Abbreviation isAllowed := (Robots.isAllowed Matcher matcherIsAllowed).

(** The package, built from an empty robots.txt, disallows nothing. *)
Hypothesis empty_robots_disallows_nothing :
  forall robotsUrl url ua,
    matcherIsAllowed (robotsParser robotsUrl "") url ua <> Some false.

Lemma permissive_allows (r : Robots.RobotsParser Matcher) (url : string) :
  isAllowed (Robots.permissive Matcher robotsParser r) url = true.
Proof.
  unfold Robots.isAllowed, Robots.permissive. simpl.
  destruct (matcherIsAllowed _ url (Robots.userAgent Matcher r)) as [[|]|] eqn:H; auto.
  exfalso. eapply empty_robots_disallows_nothing. exact H.
Qed.

(** C4. When the request for robots.txt answers with a status outside
    200..299, or fails with a network error, the parser is fully
    permissive: [isAllowed(url)] is [true] for every URL. *)
Theorem robots_fail_open (r : Robots.RobotsParser Matcher) (net : Robots.Thrown Robots.HttpResponse) :
  (net = Robots.Rejected
   \/ exists response, net = Robots.Resolved response
                       /\ ~ (200 <= Robots.status response <= 299)) ->
  forall url, isAllowed (fetch r net) url = true.
Proof.
  intros [-> | (response & -> & Hstatus)] url; simpl.
  - apply permissive_allows.
  - unfold Robots.ok.
    destruct ((200 <=? Robots.status response) && (Robots.status response <=? 299)) eqn:Hok.
    + exfalso. apply Hstatus. apply andb_true_iff in Hok as [H1 H2].
      apply Z.leb_le in H1, H2. lia.
    + simpl. apply permissive_allows.
Qed.
End RobotsFailOpen.

Lemma robotsLib_empty_disallows_nothing :
  forall robotsUrl url ua,
    RobotsLib.isAllowed (RobotsLib.robotsParser robotsUrl "") url ua <> Some false.
Proof.
  intros robotsUrl url ua. unfold RobotsLib.isAllowed.
  destruct (Whatwg.parse url); [simpl | ]; discriminate.
Qed.

Lemma robots_fail_open_witness :
  Robots.isAllowed RobotsLib.Matcher RobotsLib.isAllowed
    (Robots.fetch Js.trim Js.toLowerCase RobotsLib.Matcher RobotsLib.robotsParser
       (Robots.new RobotsLib.Matcher "www.ex.test" "SemDashBot")
       (Robots.Resolved (Robots.mkResponse 500 (Robots.Resolved "User-agent: *
Disallow: /"))))
    "https://ex.test/admin/x" = true.
Proof.
  apply (robots_fail_open Js.trim Js.toLowerCase
           RobotsLib.Matcher RobotsLib.robotsParser RobotsLib.isAllowed
           robotsLib_empty_disallows_nothing).
  right. eexists. split; [reflexivity | simpl; lia].
Defined.

(** ** The AI-crawler classification (C5) *)

Section AiCrawlers.
Import Robots.
Variable trim : string -> string.
Variable toLowerCase : string -> string.

(** On ASCII text the runtime lowers the letters [A] to [Z] and
    nothing else. *)
Hypothesis toLowerCase_ascii :
  forall s, Js.isAscii s = true -> toLowerCase s = Js.toLowerCase s.

Abbreviation isAiCrawler := (Robots.isAiCrawler toLowerCase).
Abbreviation matchedCrawler := (Robots.matchedCrawler toLowerCase).
Abbreviation setRule := (Robots.setRule toLowerCase).
Abbreviation ruleStep := (Robots.ruleStep trim toLowerCase).
Abbreviation parseAiCrawlerRules := (Robots.parseAiCrawlerRules trim toLowerCase).
Abbreviation normalLine := (Robots.normalLine trim toLowerCase).
Abbreviation userAgentOf := (Robots.userAgentOf trim).
Abbreviation ruleFor := (Robots.ruleFor trim).
Abbreviation scanStep := (Robots.scanStep trim toLowerCase).
Abbreviation agentStep := (Robots.agentStep trim toLowerCase).
Abbreviation agentScan := (Robots.agentScan trim toLowerCase).
Abbreviation projects := (Robots.projects toLowerCase).

Lemma startsWith_cons (a : ascii) (p s : string) :
  Js.startsWith (String a p) s = true -> exists s', s = String a s'.
Proof.
  destruct s as [|b s]; simpl; [discriminate|].
  destruct (Ascii.eqb a b) eqn:E; [|discriminate].
  apply Ascii.eqb_eq in E. subst. eauto.
Qed.

Lemma disallow_line (l : string) :
  Js.startsWith "disallow:" l = true ->
  Js.startsWith "allow:" l = false /\ isBlankOrComment l = false.
Proof.
  intros H. apply startsWith_cons in H as [l' ->]. split; reflexivity.
Qed.

Lemma allow_line (l : string) :
  Js.startsWith "allow:" l = true -> isBlankOrComment l = false.
Proof.
  intros H. apply startsWith_cons in H as [l' ->]. reflexivity.
Qed.

Lemma find_agree {A} (f g : A -> bool) (l : list A) :
  (forall x, In x l -> f x = g x) -> List.find f l = List.find g l.
Proof.
  induction l as [|x l IH]; intros H; simpl; [reflexivity|].
  rewrite (H x) by now left. destruct (g x); [reflexivity|].
  apply IH. intros y Hy. apply H. now right.
Qed.

Lemma existsb_agree {A} (f g : A -> bool) (l : list A) :
  (forall x, In x l -> f x = g x) -> existsb f l = existsb g l.
Proof.
  induction l as [|x l IH]; intros H; simpl; [reflexivity|].
  rewrite (H x) by now left. f_equal. apply IH. intros y Hy. apply H. now right.
Qed.

(** The names of the table are ASCII text. *)
Lemma crawler_lower (c : string) :
  In c AI_CRAWLERS -> toLowerCase c = Js.toLowerCase c.
Proof.
  assert (H : forallb Js.isAscii AI_CRAWLERS = true) by (vm_compute; reflexivity).
  intros Hin. rewrite forallb_forall in H. apply toLowerCase_ascii. now apply H.
Qed.

Lemma matchedCrawler_ascii (ua : string) :
  matchedCrawler ua = Robots.matchedCrawler Js.toLowerCase ua.
Proof.
  unfold Robots.matchedCrawler, Js.arrayFind. apply find_agree.
  intros c Hc. now rewrite (crawler_lower c Hc).
Qed.

Lemma isAiCrawler_ascii (ua : string) :
  isAiCrawler ua = Robots.isAiCrawler Js.toLowerCase ua.
Proof.
  unfold Robots.isAiCrawler. apply existsb_agree.
  intros c Hc. now rewrite (crawler_lower c Hc).
Qed.

(** Facts read off the table of crawlers. *)
Lemma crawler_table (c : string) :
  In c AI_CRAWLERS ->
  matchedCrawler (toLowerCase c) = Some c
  /\ isAiCrawler (toLowerCase c) = true
  /\ toLowerCase c <> "*".
Proof.
  assert (H : forallb (fun c =>
              match Robots.matchedCrawler Js.toLowerCase (Js.toLowerCase c) with
              | Some c' => String.eqb c' c
              | None => false
              end && Robots.isAiCrawler Js.toLowerCase (Js.toLowerCase c)
              && negb (String.eqb (Js.toLowerCase c) "*")) AI_CRAWLERS = true)
    by (vm_compute; reflexivity).
  intros Hin. rewrite forallb_forall in H. specialize (H c Hin).
  rewrite matchedCrawler_ascii, isAiCrawler_ascii, (crawler_lower c Hin).
  apply andb_true_iff in H as [H H3]. apply andb_true_iff in H as [H1 H2].
  destruct (Robots.matchedCrawler Js.toLowerCase (Js.toLowerCase c)) as [c'|]; [|discriminate].
  apply String.eqb_eq in H1. subst c'. repeat split; auto.
  intros E. rewrite E in H3. discriminate.
Qed.

Lemma matchedCrawler_lower (ua c : string) :
  matchedCrawler ua = Some c -> toLowerCase c = ua.
Proof.
  unfold matchedCrawler, Js.arrayFind. intros H.
  apply find_some in H as [_ H]. now apply String.eqb_eq in H.
Qed.

Lemma setRule_same (b : bool) (rules : gmap string bool) (c : string) :
  In c AI_CRAWLERS -> setRule b rules (toLowerCase c) !! c = Some b.
Proof.
  intros Hin. destruct (crawler_table c Hin) as (Hm & _ & Hstar).
  unfold setRule. rewrite Hm.
  destruct (String.eqb (toLowerCase c) "*") eqn:E.
  - apply String.eqb_eq in E. contradiction.
  - simpl. apply lookup_insert_eq.
Qed.

Lemma setRule_other (b : bool) (rules : gmap string bool) (ua c : string) :
  ua <> toLowerCase c -> setRule b rules ua !! c = rules !! c.
Proof.
  intros Hne. unfold setRule.
  destruct (negb (String.eqb ua "*")); [|reflexivity].
  destruct (matchedCrawler ua) as [c'|] eqn:Hm; [|reflexivity].
  apply matchedCrawler_lower in Hm.
  apply lookup_insert_ne. intros ->. congruence.
Qed.

Lemma fold_setRule_out (b : bool) (cur : list string) (rules : gmap string bool) (c : string) :
  ~ In (toLowerCase c) cur ->
  fold_left (setRule b) cur rules !! c = rules !! c.
Proof.
  revert rules. induction cur as [|ua cur IH]; intros rules Hnin; simpl; [reflexivity|].
  rewrite IH by (intros H; apply Hnin; now right).
  apply setRule_other. intros ->. apply Hnin. now left.
Qed.

Lemma fold_setRule_in (b : bool) (cur : list string) (rules : gmap string bool) (c : string) :
  In c AI_CRAWLERS -> In (toLowerCase c) cur ->
  fold_left (setRule b) cur rules !! c = Some b.
Proof.
  intros Hc. revert rules. induction cur as [|ua cur IH]; intros rules Hin; simpl.
  - destruct Hin.
  - destruct (in_dec String.string_dec (toLowerCase c) cur) as [Hin'|Hnin].
    + now apply IH.
    + rewrite fold_setRule_out by assumption.
      destruct Hin as [-> | Hin]; [|contradiction].
      now apply setRule_same.
Qed.

Lemma rule_branch (b : bool) (c : string) (cur : list string) (rules : gmap string bool)
    (g : bool) (v : option bool) (path : string) :
  In c AI_CRAWLERS ->
  projects c (cur, rules) (g, v) ->
  projects c
    (if (0 <? length cur)%nat
     then if String.eqb path "/" || String.eqb path ""
          then (cur, fold_left (setRule b) cur rules) else (cur, rules)
     else (cur, rules))
    (if g && isRootPath path then (g, Some b) else (g, v)).
Proof.
  intros Hc [Hg Hv]. cbn [fst snd] in Hg, Hv. unfold isRootPath, projects.
  destruct cur as [|ua cur].
  - cbn. destruct g; [exfalso; now apply Hg|]. cbn. tauto.
  - change (0 <? length (ua :: cur))%nat with true. cbv iota.
    destruct (String.eqb path "/" || String.eqb path "").
    + destruct g; cbn [andb fst snd].
      * split; [tauto|]. apply fold_setRule_in; tauto.
      * split; [tauto|]. rewrite <- Hv. apply fold_setRule_out.
        intros H. apply Hg in H. discriminate.
    + rewrite andb_false_r. cbn [fst snd]. tauto.
Qed.

Lemma ruleStep_projects (c : string) (st : list string * gmap string bool)
    (ast : bool * option bool) (line : string) :
  In c AI_CRAWLERS ->
  projects c st ast -> projects c (ruleStep st line) (agentStep c ast line).
Proof.
  intros Hc Hp. destruct st as [cur rules], ast as [g v].
  pose proof Hp as [Hg Hv]. simpl in Hg, Hv.
  destruct (crawler_table c Hc) as (_ & Hai & _).
  unfold ruleStep, agentStep, scanStep, userAgentOf, ruleFor, normalLine.
  set (l := toLowerCase (trim line)).
  change (String.eqb l "" || Js.startsWith "#" l) with (isBlankOrComment l).
  destruct (Js.startsWith "user-agent:" l) eqn:Hua.
  { set (ua := trim (Js.replace "user-agent:" "" l)).
    destruct (String.eqb ua (toLowerCase c)) eqn:E.
    - apply String.eqb_eq in E. rewrite E, Hai, orb_true_r.
      split; simpl; [|assumption]. split; [intros _|reflexivity].
      apply in_or_app. right. now left.
    - apply String.eqb_neq in E.
      destruct (String.eqb ua "*" || isAiCrawler ua).
      + split; simpl; [|assumption]. rewrite Hg. split.
        * intros H. apply in_or_app. now left.
        * intros H. apply in_app_or in H as [H|[H|[]]]; [assumption|congruence].
      + split; simpl; [|assumption]. split; [discriminate|tauto]. }
  destruct (Js.startsWith "disallow:" l) eqn:Hdis.
  { destruct (disallow_line l Hdis) as [Hal Hbl].
    pose proof (rule_branch false c cur rules g v
                  (trim (Js.replace "disallow:" "" l)) Hc Hp) as H.
    destruct (0 <? length cur)%nat eqn:Hlen; cbn [andb].
    - exact H.
    - rewrite Hal, Hbl. cbn [andb]. exact H. }
  cbn [andb].
  destruct (Js.startsWith "allow:" l) eqn:Hal.
  { pose proof (allow_line l Hal) as Hbl.
    pose proof (rule_branch true c cur rules g v
                  (trim (Js.replace "allow:" "" l)) Hc Hp) as H.
    destruct (0 <? length cur)%nat eqn:Hlen; cbn [andb].
    - exact H.
    - rewrite Hbl. exact H. }
  cbn [andb].
  destruct (isBlankOrComment l).
  - split; cbn [fst snd]; [|assumption]. split; [discriminate | intros []].
  - exact Hp.
Qed.

Lemma fold_projects (c : string) (lines : list string) st ast :
  In c AI_CRAWLERS ->
  projects c st ast ->
  projects c (fold_left ruleStep lines st) (fold_left (agentStep c) lines ast).
Proof.
  intros Hc. revert st ast. induction lines as [|line lines IH]; intros st ast Hp; simpl.
  - exact Hp.
  - apply IH. now apply ruleStep_projects.
Qed.

(** The parser's verdict for a listed crawler is the scan's verdict. *)
Lemma parseAiCrawlerRules_scan (robotsTxt c : string) :
  In c AI_CRAWLERS ->
  parseAiCrawlerRules ∅ robotsTxt !! c = agentScan c (Js.split "010" robotsTxt).
Proof.
  intros Hc. unfold parseAiCrawlerRules, agentScan.
  apply (fold_projects c (Js.split "010" robotsTxt) ([], ∅) (false, None) Hc).
  split; simpl; [split; [discriminate|tauto] | apply lookup_empty].
Qed.
End AiCrawlers.

Section AiCrawlerAccess.
Import Robots.
Variable trim : string -> string.
Variable toLowerCase : string -> string.
Variable Matcher : Type.
Variable robotsParser : string -> string -> Matcher.

(** On ASCII text the runtime lowers the letters [A] to [Z] and
    nothing else. *)
Hypothesis toLowerCase_ascii :
  forall s, Js.isAscii s = true -> toLowerCase s = Js.toLowerCase s.

Abbreviation isAiCrawler := (Robots.isAiCrawler toLowerCase).
Abbreviation parseAiCrawlerRules := (Robots.parseAiCrawlerRules trim toLowerCase).
Abbreviation fetch := (Robots.fetch trim toLowerCase Matcher robotsParser).
Abbreviation normalLine := (Robots.normalLine trim toLowerCase).
Abbreviation userAgentOf := (Robots.userAgentOf trim).
Abbreviation ruleFor := (Robots.ruleFor trim).
Abbreviation scanStep := (Robots.scanStep trim toLowerCase).
Abbreviation agentStep := (Robots.agentStep trim toLowerCase).
Abbreviation agentScan := (Robots.agentScan trim toLowerCase).
Abbreviation rootScan := (Robots.rootScan trim toLowerCase).
Abbreviation hasEmptyRule := (Robots.hasEmptyRule trim toLowerCase).
Abbreviation noEmptyRule := (Robots.noEmptyRule trim toLowerCase).
Abbreviation groupStep := (Robots.groupStep trim toLowerCase).
Abbreviation groupScan := (Robots.groupScan trim toLowerCase).
Abbreviation groupingStep := (Robots.groupingStep trim toLowerCase).
Abbreviation wellGrouped := (Robots.wellGrouped trim toLowerCase).

Lemma accessOf_map (f : string -> option bool) (l : list string) (c : string) :
  In c l -> accessOf (map (fun x => (x, f x)) l) c = f c.
Proof.
  unfold accessOf. induction l as [|x l IH]; intros Hin; [destruct Hin|]. simpl.
  destruct (String.eqb x c) eqn:E.
  - apply String.eqb_eq in E. now subst.
  - apply String.eqb_neq in E. destruct Hin as [->|Hin]; [contradiction|]. now apply IH.
Qed.

(** After robots.txt was fetched with a 2xx status, [getAiCrawlerAccess]
    gives every listed crawler its entry in the map of the parser. *)
Lemma getAiCrawlerAccess_rules (d ua robotsTxt crawler : string) (status : Z) :
  200 <= status <= 299 ->
  In crawler AI_CRAWLERS ->
  accessOf
    (getAiCrawlerAccess Matcher
       (fetch (new Matcher d ua)
          (Resolved (mkResponse status (Resolved robotsTxt)))))
    crawler
  = parseAiCrawlerRules ∅ robotsTxt !! crawler.
Proof.
  intros Hstatus Hin. unfold Robots.fetch, ok. cbn [Robots.status text].
  replace ((200 <=? status) && (status <=? 299)) with true
    by (symmetry; apply andb_true_iff; split; apply Z.leb_le; lia).
  cbn [negb]. unfold getAiCrawlerAccess. cbn [aiCrawlerRules new].
  now rewrite (accessOf_map (fun c => parseAiCrawlerRules ∅ robotsTxt !! c)) by assumption.
Qed.

(** It is the verdict of the parser's scan. *)
Lemma getAiCrawlerAccess_agentScan (d ua robotsTxt crawler : string) (status : Z) :
  200 <= status <= 299 ->
  In crawler AI_CRAWLERS ->
  accessOf
    (getAiCrawlerAccess Matcher
       (fetch (new Matcher d ua)
          (Resolved (mkResponse status (Resolved robotsTxt)))))
    crawler
  = agentScan crawler (Js.split "010" robotsTxt).
Proof.
  intros Hstatus Hin.
  rewrite (getAiCrawlerAccess_rules d ua robotsTxt crawler status Hstatus Hin).
  now apply parseAiCrawlerRules_scan.
Qed.

(** On a line without an empty rule path the two scans take the same
    step. *)
Lemma scanStep_no_empty_rule (c : string) (st : bool * option bool) (line : string) :
  hasEmptyRule line = false ->
  scanStep isRootPath c st line = scanStep isSlash c st line.
Proof.
  unfold Robots.hasEmptyRule, Robots.scanStep, isRootPath, isSlash, opt_is.
  destruct st as [g v].
  destruct (userAgentOf (normalLine line)); [reflexivity|].
  destruct (ruleFor "disallow:" (normalLine line)) as [path|].
  - intros ->. now rewrite orb_false_r.
  - destruct (ruleFor "allow:" (normalLine line)) as [path|]; [|reflexivity].
    intros ->. now rewrite orb_false_r.
Qed.

Lemma agentScan_rootScan (c : string) (lines : list string) :
  noEmptyRule lines = true -> agentScan c lines = rootScan c lines.
Proof.
  unfold Robots.agentScan, Robots.rootScan, Robots.agentStep, Robots.noEmptyRule.
  generalize (false, @None bool). induction lines as [|line lines IH]; intros st H; simpl.
  - reflexivity.
  - simpl in H. apply andb_true_iff in H as [Hline H].
    apply negb_true_iff in Hline.
    rewrite (scanStep_no_empty_rule c st line Hline). now apply IH.
Qed.

(** Once the check of the grouping has failed it stays failed. *)
Lemma groupingStep_failed (lines : list string) (tracking ruled : bool) :
  snd (fold_left groupingStep lines (tracking, ruled, false)) = false.
Proof.
  revert tracking ruled. induction lines as [|line lines IH]; intros tracking ruled; simpl.
  - reflexivity.
  - destruct (userAgentOf (normalLine line)) as [ua|].
    + destruct (String.eqb ua "*" || isAiCrawler ua); apply IH.
    + destruct (ruleFor "disallow:" (normalLine line)),
        (ruleFor "allow:" (normalLine line)); try apply IH.
      destruct (isBlankOrComment (normalLine line)); apply IH.
Qed.

(** On a line that passes the check, the parser's scan for a listed
    crawler and the scan by groups take the same step. *)
Lemma scans_step (c : string) (line : string)
    (root : bool * option bool) (grouped : bool * bool * option bool)
    (tracking ruled : bool) :
  In c AI_CRAWLERS ->
  scansAgree root grouped (tracking, ruled) ->
  snd (groupingStep (tracking, ruled, true) line) = true ->
  scansAgree (scanStep isSlash c root line) (groupStep c grouped line)
    (fst (groupingStep (tracking, ruled, true) line)).
Proof.
  intros Hc Hagree. destruct root as [g v], grouped as [[g' r'] v'].
  destruct Hagree as (Hg & Hv & Ho & Hr & Hro). cbn [fst snd] in *. subst g' v'.
  destruct (crawler_table toLowerCase toLowerCase_ascii c Hc) as (_ & Hai & _).
  unfold Robots.scanStep, Robots.groupStep, Robots.groupingStep, scansAgree.
  destruct (userAgentOf (normalLine line)) as [ua|].
  - destruct (String.eqb ua (toLowerCase c)) eqn:E.
    + apply String.eqb_eq in E. subst ua. rewrite Hai, orb_true_r. cbn [fst snd andb].
      intros Hgood. apply negb_true_iff in Hgood. subst ruled.
      destruct r'; cbn [fst snd]; rewrite ?orb_true_r; auto.
    + destruct (String.eqb ua "*" || isAiCrawler ua); cbn [fst snd andb].
      * intros Hgood. apply negb_true_iff in Hgood. subst ruled.
        destruct r'; cbn [fst snd]; rewrite ?orb_false_r.
        -- destruct g; [|auto]. specialize (Ho eq_refl). specialize (Hr Ho). discriminate.
        -- auto.
      * intros Hgood. apply negb_true_iff in Hgood.
        destruct r'; cbn [fst snd]; rewrite ?orb_false_r.
        -- repeat split; auto; discriminate.
        -- destruct g.
           ++ specialize (Ho eq_refl). specialize (Hr Ho). subst tracking ruled.
              discriminate.
           ++ repeat split; auto; discriminate.
  - destruct (ruleFor "disallow:" (normalLine line)) as [path|].
    { intros _. cbn [fst snd].
      assert (Hrest : (g = true -> tracking = true)
                      /\ (tracking = true -> true = ruled || tracking)
                      /\ (ruled || tracking = true -> tracking = true)).
      { split; [assumption|]. split.
        - intros ->. now rewrite orb_true_r.
        - destruct ruled; [auto|]. cbn. auto. }
      destruct (ruleFor "allow:" (normalLine line));
        destruct (g && isSlash path); cbn [fst snd]; tauto. }
    destruct (ruleFor "allow:" (normalLine line)) as [path|].
    { intros _. cbn [fst snd].
      assert (Hrest : (g = true -> tracking = true)
                      /\ (tracking = true -> true = ruled || tracking)
                      /\ (ruled || tracking = true -> tracking = true)).
      { split; [assumption|]. split.
        - intros ->. now rewrite orb_true_r.
        - destruct ruled; [auto|]. cbn. auto. }
      destruct (g && isSlash path); cbn [fst snd]; tauto. }
    destruct (isBlankOrComment (normalLine line)); intros _; cbn [fst snd].
    + repeat split; auto; discriminate.
    + auto.
Qed.

Lemma scans_fold (c : string) (lines : list string)
    (root : bool * option bool) (grouped : bool * bool * option bool)
    (tracking ruled : bool) :
  In c AI_CRAWLERS ->
  scansAgree root grouped (tracking, ruled) ->
  snd (fold_left groupingStep lines (tracking, ruled, true)) = true ->
  snd (fold_left (scanStep isSlash c) lines root)
  = snd (fold_left (groupStep c) lines grouped).
Proof.
  intros Hc. revert root grouped tracking ruled.
  induction lines as [|line lines IH]; intros root grouped tracking ruled Hagree Hgood.
  - apply Hagree.
  - cbn [fold_left] in Hgood |- *.
    pose proof (scans_step c line root grouped tracking ruled Hc Hagree) as Hstep.
    destruct (groupingStep (tracking, ruled, true) line) as [[tracking' ruled'] good'].
    destruct good'.
    + apply (IH _ _ tracking' ruled'); [|assumption]. now apply Hstep.
    + now rewrite groupingStep_failed in Hgood.
Qed.

(** On a text whose groups the parser reads as groups, its scan is the
    scan by groups. *)
Lemma rootScan_groupScan (c : string) (lines : list string) :
  In c AI_CRAWLERS -> wellGrouped lines = true -> rootScan c lines = groupScan c lines.
Proof.
  intros Hc Hgood. unfold Robots.rootScan, Robots.groupScan.
  apply (scans_fold c lines _ _ false false Hc); [|exact Hgood].
  unfold scansAgree. cbn. tauto.
Qed.

End AiCrawlerAccess.


(** Scenario: GPTBot and Claude-Web share a group that allows the
    root after disallowing it, and a later group disallows it for
    Amazonbot. *)
Example ai_access_groups :
  map (Robots.accessOf (Robots.getAiCrawlerAccess _ (fetched robotsTxtSeparated)))
    ["GPTBot"; "Claude-Web"; "Amazonbot"; "PerplexityBot"]
  = [Some true; Some true; Some false; None]
  /\ map (fun c => Robots.groupScan Js.trim Js.toLowerCase c
                     (Js.split "010" robotsTxtSeparated))
       ["GPTBot"; "Claude-Web"; "Amazonbot"; "PerplexityBot"]
     = [Some true; Some true; Some false; None].
Proof. split; vm_compute; reflexivity. Qed.

(** A User-agent line that ends with a no-break space names the
    crawler for a trim that removes it, as the trim of the runtime
    does, and not for the ASCII trim. *)
Example ai_access_no_break_space :
  Robots.parseAiCrawlerRules trimWide Js.toLowerCase ∅ robotsTxtNoBreakSpace !! "GPTBot"
  = Some false
  /\ Robots.parseAiCrawlerRules Js.trim Js.toLowerCase ∅ robotsTxtNoBreakSpace !! "GPTBot"
     = None
  /\ trimWide "  User-Agent: GPTBot " = Js.trim "  User-Agent: GPTBot ".
Proof. repeat split; vm_compute; reflexivity. Qed.

(** Texts that the statement leaves out: a User-agent line right after
    the rule lines of a group, and a User-agent line of an agent that
    is not listed among those of a group. *)
Example ai_access_left_out :
  Robots.wellGrouped Js.trim Js.toLowerCase (Js.split "010" robotsTxtRunOn) = false
  /\ Robots.wellGrouped Js.trim Js.toLowerCase (Js.split "010" robotsTxtMixed) = false
  /\ Robots.wellGrouped Js.trim Js.toLowerCase (Js.split "010" robotsTxtGrouped) = true
  /\ Robots.wellGrouped Js.trim Js.toLowerCase (Js.split "010" robotsTxtLastWins) = true.
Proof. repeat split; vm_compute; reflexivity. Qed.


(** Two more inputs on which the code and the stated classification
    part: the last rule of a group wins, and an empty path counts as the
    root. *)
Example ai_access_last_wins :
  Robots.accessOf (Robots.getAiCrawlerAccess _ (fetched robotsTxtLastWins)) "GPTBot" = Some true
  /\ Robots.statedRule Js.trim Js.toLowerCase "disallow:" "GPTBot"
       (Js.split "010" robotsTxtLastWins) = true.
Proof. split; vm_compute; reflexivity. Qed.

Example ai_access_empty_path :
  Robots.accessOf (Robots.getAiCrawlerAccess _ (fetched robotsTxtEmptyPath)) "GPTBot" = Some false
  /\ Robots.statedRule Js.trim Js.toLowerCase "disallow:" "GPTBot"
       (Js.split "010" robotsTxtEmptyPath) = false.
Proof. split; vm_compute; reflexivity. Qed.

(** ** The orphan analysis (C6) *)

Section Orphans.
Import LinkQuality.

Lemma selected_iff (rows : list Page) (p : Page) :
  In p (selectPotentialOrphans rows) <->
  In p rows /\ internal_links_received p = 0 /\ page_depth p <> 0
  /\ 200 <= status_code p < 400.
Proof.
  unfold selectPotentialOrphans. rewrite filter_In.
  rewrite !andb_true_iff, negb_true_iff, Z.eqb_eq, Z.eqb_neq, Z.leb_le, Z.ltb_lt.
  tauto.
Qed.

Lemma same_id_same_row (rows : list Page) (p q : Page) :
  NoDup (map id rows) -> In p rows -> In q rows -> id p = id q -> p = q.
Proof.
  induction rows as [|r rows IH]; intros Hnd Hp Hq Hid; [destruct Hp|].
  simpl in Hnd. apply NoDup_cons in Hnd as [Hr Hnd].
  destruct Hp as [->|Hp], Hq as [->|Hq]; auto.
  - exfalso. apply Hr. rewrite Hid. apply list_elem_of_In. now apply in_map.
  - exfalso. apply Hr. rewrite <- Hid. apply list_elem_of_In. now apply in_map.
Qed.

Lemma or_iff_both (A A' B B' : Prop) :
  (A <-> A') -> (B <-> B') -> (A \/ B <-> A' \/ B').
Proof. tauto. Qed.

(** What a call of [storeIssue] writes. *)
Lemma storeIssue_rows (defs : gmap string IssueDefinition) (replies : StoreReplies)
    (pid c u via : string) (x : StoredIssue) :
  In x (storeIssue defs replies pid c u via) <->
  is_Some (defs !! c) /\ written replies = true /\ x = mkStored pid c u 0 via.
Proof.
  unfold storeIssue, written, linkPage.
  destruct (defs !! c) as [def|].
  2:{ split; [intros []|intros ([d Hd] & _); discriminate]. }
  assert (Hdef : is_Some (Some def)) by eauto.
  destruct (existingIssue replies) as [[existing|]|].
  - destruct (incremented replies) as [[]|].
    + destruct (isId existing), (linked replies) as [[e|]|]; simpl;
        intuition (try discriminate; try contradiction; auto).
    + simpl. intuition discriminate.
  - destruct (newIssue replies) as [[[|] [created|]]|]; simpl;
      try (intuition discriminate).
    + destruct (isId created), (linked replies) as [[e|]|]; simpl;
        intuition (try discriminate; try contradiction; auto).
  - simpl. intuition discriminate.
Qed.

(** The issues stored by the analysis, read back. *)
Lemma stored_inv (defs : gmap string IssueDefinition) store (rows : list Page)
    (x : StoredIssue) :
  In x (analyzeOrphanPages defs store (Some rows)) <->
  (is_Some (defs !! "orphan_page")
   /\ exists q, In q rows /\ discovered_via q <> "sitemap" /\ discovered_via q <> "seed"
                /\ written (store (id q) "orphan_page") = true
                /\ x = orphanIssue q)
  \/ (is_Some (defs !! "sitemap_only_page")
      /\ exists q, In q rows /\ discovered_via q = "sitemap"
                   /\ written (store (id q) "sitemap_only_page") = true
                   /\ x = sitemapOnlyIssue q).
Proof.
  unfold analyzeOrphanPages.
  destruct rows as [|r rows].
  { simpl. split; [tauto|]. intros [(_ & q & [] & _) | (_ & q & [] & _)]. }
  change (length (r :: rows) =? 0)%nat with false. cbv iota.
  set (l := r :: rows). rewrite in_app_iff.
  apply or_iff_both.
  - destruct (defs !! "orphan_page") as [d|] eqn:Hd.
    + rewrite in_flat_map. split.
      * intros (q & Hq & Hx). apply filter_In in Hq as [Hq Hvia].
        apply andb_true_iff in Hvia as [H1 H2].
        apply negb_true_iff, String.eqb_neq in H1, H2.
        apply storeIssue_rows in Hx as (_ & Hw & ->).
        split; [eauto|]. exists q. auto.
      * intros (_ & q & Hq & H1 & H2 & Hw & ->). exists q. split.
        -- apply filter_In. split; [assumption|].
           apply andb_true_iff. split; apply negb_true_iff, String.eqb_neq; assumption.
        -- apply storeIssue_rows. rewrite Hd. split; [eauto|]. split; [assumption|].
           reflexivity.
    + split; [intros [] | intros ([d' Hd'] & _); discriminate].
  - destruct (defs !! "sitemap_only_page") as [d|] eqn:Hd.
    + rewrite in_flat_map. split.
      * intros (q & Hq & Hx). apply filter_In in Hq as [Hq Hvia].
        apply String.eqb_eq in Hvia.
        apply storeIssue_rows in Hx as (_ & Hw & ->).
        split; [eauto|]. exists q. auto.
      * intros (_ & q & Hq & H1 & Hw & ->). exists q. split.
        -- apply filter_In. split; [assumption|]. now apply String.eqb_eq.
        -- apply storeIssue_rows. rewrite Hd. split; [eauto|]. split; [assumption|].
           reflexivity.
    + split; [intros [] | intros ([d' Hd'] & _); discriminate].
Qed.

Lemma orphan_stored_iff defs store rows p :
  In p (selectPotentialOrphans rows) ->
  In (orphanIssue p) (analyzeTable defs store rows) <->
  is_Some (defs !! "orphan_page")
  /\ discovered_via p <> "sitemap" /\ discovered_via p <> "seed"
  /\ written (store (id p) "orphan_page") = true.
Proof.
  intros Hp. unfold analyzeTable. rewrite stored_inv. split.
  - intros [(Hd & q & Hq & H1 & H2 & Hw & E) | (_ & q & _ & _ & _ & E)]; [|discriminate E].
    injection E as Hid _ Hvia. rewrite Hvia, Hid. auto.
  - intros (Hd & H1 & H2 & Hw). left. split; [assumption|]. exists p. auto.
Qed.

Lemma sitemapOnly_stored_iff defs store rows p :
  NoDup (map id rows) -> In p (selectPotentialOrphans rows) ->
  In (sitemapOnlyIssue p) (analyzeTable defs store rows) <->
  is_Some (defs !! "sitemap_only_page") /\ discovered_via p = "sitemap"
  /\ written (store (id p) "sitemap_only_page") = true.
Proof.
  intros Hnd Hp. unfold analyzeTable. rewrite stored_inv. split.
  - intros [(_ & q & _ & _ & _ & _ & E) | (Hd & q & Hq & H1 & Hw & E)]; [discriminate E|].
    injection E as Hid _.
    apply selected_iff in Hp as [Hp _]. apply selected_iff in Hq as [Hq _].
    rewrite (same_id_same_row rows p q Hnd Hp Hq Hid). auto.
  - intros (Hd & H1 & Hw). right. split; [assumption|]. exists p. auto.
Qed.

(** C6, as amended. For every crawled page with
    [internal_links_received = 0], a depth other than 0 and a status in
    [200, 400), the orphan analysis (its query for the pages
    succeeding) stores [sitemap_only_page] for the page exactly when
    the page was discovered via the sitemap, the issue catalogue
    defines that code and the store carries out the writes of that
    call of [storeIssue]; it stores [orphan_page] exactly when the
    discovery source is neither sitemap nor seed, the catalogue defines
    that code and the store carries out the writes; it stores neither
    for a seed page, and no page receives both. The store carries out
    the writes when no request of the call throws, the issue row is
    found or is inserted without an error, its id is not empty, and the
    insert into [page_issues] reports no error. *)
Theorem orphan_analysis_split (defs : gmap string IssueDefinition)
    (store : string -> string -> StoreReplies) (rows : list Page) (p : Page) :
  NoDup (map id rows) ->
  In p rows ->
  internal_links_received p = 0 -> page_depth p <> 0 -> 200 <= status_code p < 400 ->
  let log := analyzeTable defs store rows in
  (In (sitemapOnlyIssue p) log <->
     discovered_via p = "sitemap" /\ is_Some (defs !! "sitemap_only_page")
     /\ written (store (id p) "sitemap_only_page") = true)
  /\ (In (orphanIssue p) log <->
        discovered_via p <> "sitemap" /\ discovered_via p <> "seed"
        /\ is_Some (defs !! "orphan_page")
        /\ written (store (id p) "orphan_page") = true)
  /\ (discovered_via p = "seed" ->
      ~ In (orphanIssue p) log /\ ~ In (sitemapOnlyIssue p) log)
  /\ ~ (In (orphanIssue p) log /\ In (sitemapOnlyIssue p) log).
Proof.
  intros Hnd Hin H0 Hdepth Hstatus log.
  assert (Hsel : In p (selectPotentialOrphans rows)) by (apply selected_iff; auto).
  subst log.
  rewrite (orphan_stored_iff defs store rows p Hsel).
  rewrite (sitemapOnly_stored_iff defs store rows p Hnd Hsel).
  split; [tauto|]. split; [tauto|]. split.
  - intros Hseed. rewrite Hseed. split.
    + intros (_ & _ & H & _). now apply H.
    + intros (_ & H & _). discriminate H.
  - tauto.
Qed.
End Orphans.

Lemma orphan_analysis_split_witness :
  let log := LinkQuality.analyzeTable linkDefinitions LinkQuality.reliableStore [orphanRow] in
  (In (LinkQuality.sitemapOnlyIssue orphanRow) log <->
     LinkQuality.discovered_via orphanRow = "sitemap"
     /\ is_Some (linkDefinitions !! "sitemap_only_page")
     /\ LinkQuality.written (LinkQuality.reliableStore (LinkQuality.id orphanRow) "sitemap_only_page")
        = true)
  /\ (In (LinkQuality.orphanIssue orphanRow) log <->
        LinkQuality.discovered_via orphanRow <> "sitemap"
        /\ LinkQuality.discovered_via orphanRow <> "seed"
        /\ is_Some (linkDefinitions !! "orphan_page")
        /\ LinkQuality.written (LinkQuality.reliableStore (LinkQuality.id orphanRow) "orphan_page")
           = true)
  /\ (LinkQuality.discovered_via orphanRow = "seed" ->
      ~ In (LinkQuality.orphanIssue orphanRow) log
      /\ ~ In (LinkQuality.sitemapOnlyIssue orphanRow) log)
  /\ ~ (In (LinkQuality.orphanIssue orphanRow) log
        /\ In (LinkQuality.sitemapOnlyIssue orphanRow) log).
Proof.
  apply (orphan_analysis_split linkDefinitions LinkQuality.reliableStore [orphanRow] orphanRow).
  - simpl. apply NoDup_singleton.
  - simpl. tauto.
  - reflexivity.
  - simpl. lia.
  - simpl. lia.
Defined.

(** Scenario 3 of the specification, with the catalogue loaded and a
    store that carries out the writes. *)
Example orphan_scenario :
  LinkQuality.analyzeTable linkDefinitions LinkQuality.reliableStore [orphanRow]
  = [LinkQuality.sitemapOnlyIssue orphanRow].
Proof. vm_compute. reflexivity. Qed.

(** The same page when the store refuses the insert into
    [page_issues]: the error is logged and the page has no issue. *)
Example orphan_scenario_refused :
  LinkQuality.analyzeTable linkDefinitions refusingStore [orphanRow] = [].
Proof. vm_compute. reflexivity. Qed.

(** Without a definition of the code in the catalogue, the page of
    scenario 3 receives no issue, although the store carries out every
    write: the split is not unconditional. *)
Lemma orphan_analysis_not_as_stated :
  ~ (forall (defs : gmap string LinkQuality.IssueDefinition) rows p,
        In p rows ->
        LinkQuality.internal_links_received p = 0 ->
        LinkQuality.page_depth p <> 0 ->
        200 <= LinkQuality.status_code p < 400 ->
        LinkQuality.splitAsStated
          (LinkQuality.analyzeTable defs LinkQuality.reliableStore rows) p).
Proof.
  intros H.
  destruct (H ∅ [orphanRow] orphanRow) as (Hsitemap & _).
  - simpl. tauto.
  - reflexivity.
  - simpl. lia.
  - simpl. lia.
  - specialize (Hsitemap eq_refl). vm_compute in Hsitemap. exact Hsitemap.
Qed.

(** ** The sitemap reader (C9) *)

Section SitemapTermination.
Import Sitemap.
Variable SitemapUrl : Type.
Variable parseXml : string -> SitemapParseResult SitemapUrl.
Variable web : gmap string string.
Variable maxUrls : Z.

Abbreviation Loop := (Loop SitemapUrl).
Abbreviation iteration := (iteration SitemapUrl parseXml web maxUrls).
Abbreviation loop := (loop SitemapUrl parseXml web).
Abbreviation childCount := (childCount SitemapUrl parseXml).
Abbreviation budget := (budget SitemapUrl parseXml).
Abbreviation tracks := (tracks SitemapUrl web).
Abbreviation bounded := (bounded SitemapUrl maxUrls).

Lemma childCount_delete (pending : gmap string string) (u content : string) :
  pending !! u = Some content ->
  childCount pending
  = (length (sitemapIndexUrls _ (parseXml content)) + childCount (delete u pending))%nat.
Proof.
  intros H. unfold Sitemap.childCount.
  rewrite <- (map_to_list_delete pending u content H). reflexivity.
Qed.

Lemma childCount_delete_le (pending : gmap string string) (u : string) :
  (childCount (delete u pending) <= childCount pending)%nat.
Proof.
  destruct (pending !! u) as [content|] eqn:H.
  - rewrite (childCount_delete pending u content H). lia.
  - now rewrite delete_id.
Qed.

Lemma tracks_delete pending (st st' : Loop) (u : string) :
  tracks pending st ->
  processedSitemaps _ st' = {[u]} ∪ processedSitemaps _ st ->
  tracks (delete u pending) st'.
Proof.
  intros Ht Hst k Hk. rewrite Hst in Hk.
  apply not_elem_of_union in Hk as [Hku Hk].
  apply not_elem_of_singleton in Hku.
  rewrite lookup_delete_ne by congruence. now apply Ht.
Qed.

(** Every iteration uses up one unit of the budget. *)
Lemma iteration_budget (pending : gmap string string) (st : Loop) :
  tracks pending st ->
  sitemapsToProcess _ st <> [] ->
  exists pending',
    tracks pending' (iteration st)
    /\ (S (budget pending' (iteration st)) <= budget pending st)%nat.
Proof.
  intros Ht Hq. unfold Sitemap.iteration, Sitemap.budget.
  destruct (sitemapsToProcess _ st) as [|u rest] eqn:Hqueue; [contradiction|].
  destruct (bool_decide (u ∈ processedSitemaps _ st)) eqn:Hproc.
  - exists pending. split; [exact Ht | simpl; lia].
  - apply bool_decide_eq_false in Hproc.
    pose proof (Ht u Hproc) as Hweb. unfold fetchSitemap.
    pose proof (childCount_delete_le pending u) as Hle.
    exists (delete u pending).
    destruct (web !! u) as [content|] eqn:Hfetch.
    + destruct content as [|c content].
      * split; [eapply tracks_delete; eauto | simpl; lia].
      * split; [eapply tracks_delete; eauto |].
        cbn [sitemapsToProcess].
        symmetry in Hweb. rewrite (childCount_delete pending u _ Hweb).
        set (children := sitemapIndexUrls _ (parseXml (String c content))).
        destruct (0 <? length children)%nat.
        -- rewrite length_app. unfold pushChildren.
           pose proof (List.filter_length_le
                         (fun childUrl => negb (bool_decide
                            (childUrl ∈ {[u]} ∪ processedSitemaps _ st))) children).
           simpl. lia.
        -- simpl. lia.
    + split; [eapply tracks_delete; eauto | simpl; lia].
Qed.

(** The loop ends within its budget. *)
Lemma loop_ends (fuel : nat) (pending : gmap string string) (st : Loop) :
  tracks pending st -> (budget pending st <= fuel)%nat ->
  exists st', loop fuel maxUrls st = Some st'.
Proof.
  revert pending st. induction fuel as [|fuel IH]; intros pending st Ht Hb; simpl.
  - unfold continues. unfold Sitemap.budget in Hb.
    destruct (sitemapsToProcess _ st); [simpl; eauto | simpl in Hb; lia].
  - destruct (continues _ maxUrls st) eqn:Hc; [|eauto].
    assert (Hq : sitemapsToProcess _ st <> []).
    { unfold continues in Hc. destruct (sitemapsToProcess _ st); [discriminate|congruence]. }
    destruct (iteration_budget pending st Ht Hq) as (pending' & Ht' & Hb').
    apply (IH pending'); [assumption | lia].
Qed.

Lemma loop_more_fuel (fuel fuel' : nat) (st st' : Loop) :
  loop fuel maxUrls st = Some st' -> (fuel <= fuel')%nat ->
  loop fuel' maxUrls st = Some st'.
Proof.
  revert fuel' st. induction fuel as [|fuel IH]; intros fuel' st H Hle; simpl in H.
  - destruct (continues _ maxUrls st) eqn:Hc; [discriminate|].
    destruct fuel'; simpl; now rewrite Hc.
  - destruct (continues _ maxUrls st) eqn:Hc.
    + destruct fuel' as [|fuel']; [lia|]. simpl. rewrite Hc. apply IH; [assumption|lia].
    + destruct fuel'; simpl; now rewrite Hc.
Qed.

Lemma sliceTo_length (n : Z) (l : list SitemapUrl) :
  0 <= n -> Z.of_nat (length (sliceTo n l)) <= n.
Proof.
  intros Hn. unfold sliceTo. replace (0 <=? n) with true by (symmetry; now apply Z.leb_le).
  pose proof (firstn_le_length (Z.to_nat n) l). lia.
Qed.

Lemma iteration_bounded (st : Loop) :
  continues _ maxUrls st = true -> bounded st -> bounded (iteration st).
Proof.
  intros Hc (Hnd & Hsub & Hlen). unfold continues in Hc.
  apply andb_true_iff in Hc as [_ Hlt]. apply Z.ltb_lt in Hlt.
  unfold Sitemap.iteration.
  destruct (sitemapsToProcess _ st) as [|u rest]; [repeat split; assumption|].
  destruct (bool_decide (u ∈ processedSitemaps _ st)) eqn:Hproc;
    [repeat split; assumption|].
  apply bool_decide_eq_false in Hproc.
  assert (Hnd' : NoDup (fetched _ st ++ [u])).
  { apply NoDup_app. split; [assumption|]. split; [|apply NoDup_singleton].
    intros x Hx Hxu. apply list_elem_of_singleton in Hxu. subst. apply Hproc, Hsub, Hx. }
  assert (Hsub' : forall x, x ∈ fetched _ st ++ [u] -> x ∈ {[u]} ∪ processedSitemaps _ st).
  { intros x Hx. apply elem_of_app in Hx as [Hx|Hx].
    - apply Hsub in Hx. set_solver.
    - apply list_elem_of_singleton in Hx. set_solver. }
  unfold fetchSitemap.
  destruct (web !! u) as [[|c content]|]; try (repeat split; assumption).
  repeat split; try assumption. cbn [result urls].
  rewrite length_app.
  pose proof (sliceTo_length (maxUrls - Z.of_nat (length (urls _ (result _ st))))
                (urls _ (parseXml (String c content)))).
  lia.
Qed.

Lemma loop_bounded (fuel : nat) (st st' : Loop) :
  loop fuel maxUrls st = Some st' -> bounded st -> bounded st'.
Proof.
  revert st. induction fuel as [|fuel IH]; intros st H Hb; simpl in H.
  - destruct (continues _ maxUrls st); [discriminate|]. now inversion H; subst.
  - destruct (continues _ maxUrls st) eqn:Hc.
    + eapply IH; [exact H|]. now apply iteration_bounded.
    + now inversion H; subst.
Qed.

(** C9. [parse] terminates on every finite assignment of response
    bodies to sitemap URLs: some number of iterations ends the loop (and
    any larger bound gives the same result); no sitemap URL is fetched
    twice, and the collected URLs are at most [maxUrls]. *)
Theorem parse_terminates (domain : string) (sitemapUrls : list string) :
  exists (fuel : nat) (st : Loop),
    (forall fuel', (fuel <= fuel')%nat ->
                   parse _ parseXml web fuel' domain maxUrls sitemapUrls = Some st)
    /\ NoDup (fetched _ st)
    /\ Z.of_nat (length (urls _ (result _ st))) <= Z.max 0 maxUrls.
Proof.
  set (st0 := initial SitemapUrl domain sitemapUrls).
  assert (Ht : tracks web st0) by (intros k _; reflexivity).
  destruct (loop_ends (budget web st0) web st0 Ht (Nat.le_refl _)) as [st Hst].
  exists (budget web st0), st. split; [|].
  - intros fuel' Hle. unfold parse. now apply (loop_more_fuel (budget web st0)).
  - assert (Hb : bounded st).
    { apply (loop_bounded _ _ _ Hst). unfold Sitemap.bounded, st0. simpl.
      split; [apply NoDup_nil_2|]. split; [intros u Hu; inversion Hu | lia]. }
    destruct Hb as (Hnd & _ & Hlen). auto.
Qed.
End SitemapTermination.

(** ** URL normalization (C7) *)

(** [normalizeUrl] returns [null] exactly when the URL does not parse. *)
Lemma normalizeUrl_null_iff (parseURL : string -> option Url.URL) (u : string) :
  CrawlManager.normalizeUrl parseURL u = None <-> parseURL u = None.
Proof.
  unfold CrawlManager.normalizeUrl. destruct (parseURL u); split; congruence.
Qed.

(** C7. Normalization is meant to be idempotent, and the code is not: on
    [https://ex.test/a//] it removes one of the two trailing slashes, and
    normalizing the result removes the other. *)
Theorem normalizeUrl_twice :
  CrawlManager.normalizeUrl Whatwg.parse "https://ex.test/a//" = Some "https://ex.test/a/"
  /\ CrawlManager.normalizeUrl Whatwg.parse "https://ex.test/a/" = Some "https://ex.test/a"
  /\ CrawlManager.normalizeUrl Whatwg.parse "https://ex.test/a" = Some "https://ex.test/a".
Proof. repeat split; reflexivity. Qed.

(** ** Retries of the page crawler (C1) *)

Section CrawlRetry.
Import Effects PageCrawler.
Variable Number : Type.
Variable numberToString : Number -> string.
Variable parseFloat : string -> option Number.
Variable isZero : Number -> bool.
Variable isNegative : Number -> bool.
Variable dateParse : string -> option Z.
Variable twoYearsBefore : Z -> Z.
Variable Dom : Type.
Variable load : string -> Dom.
Variable library : Library Number Dom.
Variable render_javascript : bool.

Abbreviation crawl :=
  (PageCrawler.crawl Number numberToString parseFloat isZero isNegative dateParse
     twoYearsBefore Dom load library render_javascript).

(** A navigation failure never leaves [crawlAttempt]: its own [catch]
    turns it into an error record, so [crawl] makes one attempt and does
    not sleep, whatever the message. *)
Lemma crawl_navigation_failure (url message : string) (w : World) :
  onNewPage (pages w (opened w)) = Returned tt ->
  onGoto (pages w (opened w)) = Thrown message ->
  onClose (pages w (opened w)) = Returned tt ->
  fst (run (crawl url) w)
  = Returned (attemptFailed Number url None message)
  /\ trace (snd (run (crawl url) w))
     = trace w ++ [ENewPage; EClock; EGoto url; EClosePage].
Proof.
  destruct w as [clk tk pgs op tr]. cbn [pages opened trace].
  intros Hnew Hgoto Hclose.
  unfold PageCrawler.crawl, maxRetries. cbn [crawlFrom].
  unfold maxRetries, retryDelayMs, attempt, crawlAttempt, await, perform.
  cbn [bind catch finally run handle pages opened]. rewrite Hnew.
  cbn [bind catch finally run handle currentPage clock ticks pages opened trace].
  replace (S op - 1)%nat with op by lia. rewrite Hgoto.
  cbn [bind catch finally run handle currentPage clock ticks pages opened trace].
  replace (S op - 1)%nat with op by lia. rewrite Hclose.
  cbn [bind catch finally run handle fst snd clock ticks pages opened trace logged eventOf].
  split; [reflexivity|].
  unfold logged. cbn [trace eventOf]. rewrite <- !app_assoc. reflexivity.
Qed.

(** What the loop of [crawl] does when the attempt itself throws a
    retryable error (the page cannot be opened): three attempts, with
    sleeps of 1 s and 2 s between them, then an error record. *)
Lemma crawl_retries_thrown_attempts (url message : string) (w : World) :
  (forall n, onNewPage (pages w n) = Thrown message) ->
  isRetryableError message = true ->
  fst (run (crawl url) w)
  = Returned (createErrorResult Number url 0 (lastMessage (Some message)))
  /\ trace (snd (run (crawl url) w))
     = trace w ++ [ENewPage; ESleep 1000; ENewPage; ESleep 2000; ENewPage].
Proof.
  destruct w as [clk tk pgs op tr]. cbn [pages opened trace].
  intros Hnew Hretry.
  unfold PageCrawler.crawl, maxRetries. cbn [crawlFrom].
  unfold maxRetries, retryDelayMs, attempt, crawlAttempt, await, perform.
  cbn [bind catch finally run handle pages opened]. rewrite Hnew.
  cbn [bind catch finally run handle]. rewrite Hretry.
  cbn [negb Nat.ltb Nat.leb bind catch finally run handle clock ticks pages opened trace].
  rewrite Hnew. cbn [bind catch finally run handle]. rewrite Hretry.
  cbn [negb Nat.ltb Nat.leb bind catch finally run handle clock ticks pages opened trace].
  rewrite Hnew. cbn [bind catch finally run handle]. rewrite Hretry.
  cbn [negb Nat.ltb Nat.leb bind catch finally run handle clock ticks pages opened trace
         fst snd logged eventOf].
  split; [reflexivity|].
  unfold logged. cbn [trace eventOf]. rewrite <- !app_assoc. reflexivity.
Qed.
End CrawlRetry.

(** C1. A navigation that fails with a retryable network error is meant
    to be retried up to 2 times, after 1 s and 2 s. The code does not:
    with every navigation failing on [net::ERR_CONNECTION_RESET], [crawl]
    navigates once, never sleeps, and returns the error record. *)
Theorem crawl_connection_reset_not_retried :
  let w := worldAt 0 resetScript in
  PageCrawler.isRetryableError resetMessage = true
  /\ fst (Effects.run (Documents.crawl false "https://ex.test/") w)
     = Effects.Returned (PageCrawler.ErrorResult _ "https://ex.test/" 0 resetMessage)
  /\ Effects.trace (snd (Effects.run (Documents.crawl false "https://ex.test/") w))
     = [Effects.ENewPage; Effects.EClock; Effects.EGoto "https://ex.test/"; Effects.EClosePage].
Proof.
  intros w. split; [vm_compute; reflexivity|].
  destruct (crawl_navigation_failure Runtime.Number Runtime.numberToString Runtime.parseFloat
              Runtime.isZero Runtime.isNegative Runtime.dateParse Runtime.twoYearsBefore
              Documents.Dom Documents.load Documents.library false "https://ex.test/"
              resetMessage w eq_refl eq_refl eq_refl) as [Hres Htrace].
  split.
  - etransitivity; [exact Hres|]. vm_compute. reflexivity.
  - etransitivity; [exact Htrace|]. reflexivity.
Qed.

(** The loop does retry when the attempt itself throws. *)
Example crawl_retries_closed_context :
  Effects.trace (snd (Effects.run (Documents.crawl false "https://ex.test/")
                        (worldAt 0 closedScript)))
  = [Effects.ENewPage; Effects.ESleep 1000; Effects.ENewPage; Effects.ESleep 2000;
     Effects.ENewPage].
Proof. vm_compute. reflexivity. Qed.

(** ** Extraction and the clock (C2) *)

Section ClockOnly.
Import Effects.

Lemma clockOnly_bind {A B : Type} (e : Eff A) (f : A -> Eff B) :
  clockOnly e -> (forall a, clockOnly (f a)) -> clockOnly (bind e f).
Proof.
  intros He Hf. induction He as [a | m | k Hk IH]; simpl.
  - apply Hf.
  - constructor.
  - constructor. exact IH.
Qed.

Lemma run_bind {A B : Type} (e : Eff A) (f : A -> Eff B) (w : World) :
  run (bind e f) w
  = match run e w with
    | (Returned a, w') => run (f a) w'
    | (Thrown m, w') => (Thrown m, w')
    end.
Proof.
  revert w. induction e as [a | X c k IH | m]; intros w; cbn [bind run]; try reflexivity.
  destruct (handle c w) as [x w']. apply IH.
Qed.

Lemma clockOnly_read : clockOnly (perform ReadClock).
Proof. constructor. intros t. constructor. Qed.

(** The outcome of a tree that only reads the clock is a function of the
    readings: the rest of the world (the browser, the pages) is never
    consulted. *)
Lemma clockOnly_run {A : Type} (e : Eff A) :
  clockOnly e ->
  forall w1 w2,
    (forall n, clock w1 (ticks w1 + n) = clock w2 (ticks w2 + n)) ->
    fst (run e w1) = fst (run e w2).
Proof.
  intros He. induction He as [a | m | k Hk IH]; intros w1 w2 Hclock; simpl.
  - reflexivity.
  - reflexivity.
  - pose proof (Hclock 0%nat) as H0. rewrite !Nat.add_0_r in H0. rewrite H0.
    apply IH. intros n. simpl.
    pose proof (Hclock (S n)) as Hn. rewrite !Nat.add_succ_r in Hn. exact Hn.
Qed.
End ClockOnly.

Section Extraction.
Import Effects PageCrawler.
Variable Number : Type.
Variable numberToString : Number -> string.
Variable parseFloat : string -> option Number.
Variable isZero : Number -> bool.
Variable isNegative : Number -> bool.
Variable dateParse : string -> option Z.
Variable twoYearsBefore : Z -> Z.
Variable Dom : Type.
Variable library : Library Number Dom.

Abbreviation extractEcommerceData :=
  (PageCrawler.extractEcommerceData Number numberToString parseFloat isZero isNegative dateParse).
Abbreviation extractArticleData :=
  (PageCrawler.extractArticleData Number numberToString parseFloat isZero dateParse
     twoYearsBefore).
Abbreviation extractPageData :=
  (PageCrawler.extractPageData Number numberToString parseFloat isZero isNegative dateParse
     twoYearsBefore Dom library).

Lemma extractEcommerceData_clockOnly (sd : list (SchemaObject Number)) :
  clockOnly (extractEcommerceData sd).
Proof.
  unfold PageCrawler.extractEcommerceData.
  destruct (List.filter _ sd) as [|product others]; [constructor|].
  apply clockOnly_bind.
  - destruct (extractOffers _ _ _ _ _); [constructor|].
    apply clockOnly_bind; [apply clockOnly_read | intros now; constructor].
  - intros expired. constructor.
Qed.

Lemma dateChecks_clockOnly (data : ArticleData Number) :
  clockOnly (dateChecks Number dateParse twoYearsBefore data).
Proof.
  unfold dateChecks.
  destruct (datePublished _ data) as [[|c r]|]; try constructor.
  destruct (isValidISO8601Date _ _); [|constructor].
  apply clockOnly_bind; [apply clockOnly_read | intros now].
  apply clockOnly_bind; [apply clockOnly_read | intros now']. constructor.
Qed.

Lemma extractArticleData_clockOnly (sd : list (SchemaObject Number)) :
  clockOnly (extractArticleData sd).
Proof.
  unfold PageCrawler.extractArticleData.
  destruct (List.filter _ sd) as [|article others]; [constructor|].
  apply clockOnly_bind.
  - unfold mainEntityValue. destruct (prop _ article "mainEntityOfPage") as [[]|]; constructor.
  - intros mainEntity. apply clockOnly_bind; [apply dateChecks_clockOnly|].
    intros [future outdated]. constructor.
Qed.

Lemma extractLinks_clockOnly dom url :
  clockOnly (extractLinks Number Dom library dom url).
Proof. unfold extractLinks. destruct (parseURL _ _ url); constructor. Qed.

Lemma extractPageData_clockOnly dom url baseData html :
  clockOnly (extractPageData dom url baseData html).
Proof.
  unfold PageCrawler.extractPageData.
  apply clockOnly_bind; [apply extractLinks_clockOnly | intros links].
  apply clockOnly_bind; [apply extractEcommerceData_clockOnly | intros ecommerce].
  apply clockOnly_bind; [apply extractArticleData_clockOnly | intros article].
  constructor.
Qed.

(** What a run of the extraction returns holds the signals of the
    document, whatever the clock reads. *)
Lemma extractPageData_signals dom url baseData html (w : World)
    signals ecommerce article cwv :
  fst (run (extractPageData dom url baseData html) w)
  = Returned (Extracted Number signals ecommerce article cwv) ->
  exists links,
    fst (run (extractLinks Number Dom library dom url) w) = Returned links
    /\ signals = pageSignals Number numberToString parseFloat isZero Dom library
                   dom url baseData html links
                   (extractSchemaData Number isZero Dom library dom).
Proof.
  unfold PageCrawler.extractPageData. rewrite run_bind.
  unfold extractLinks. destruct (parseURL _ _ url) as [base|]; cbn [run]; [|discriminate].
  rewrite run_bind.
  destruct (run (extractEcommerceData _) w) as [[e|m] w1]; [|discriminate].
  rewrite run_bind.
  destruct (run (extractArticleData _) w1) as [[a|m] w2]; [|discriminate].
  cbn [run fst]. intros [= <- _ _ _]. eexists. split; reflexivity.
Qed.

(** C2, as amended. Extraction issues no command but readings of the
    clock (no network call, no browser call), and for every pair of runs
    on the same parsed HTML, the same final URL and identical transport
    metadata that read the same times off the clock, the two resulting
    page records (or the exceptions thrown) are equal. Whatever the
    clock reads, two runs that return agree on every field that is
    read off the document, the URL and the metadata: the clock enters
    the [ecommerce] and [article] fields only. The two runs are runs of
    one runtime: cheerio, the regular expressions, the numbers and the
    parsing of dates (with the time zone it gives a date-time without
    offset) answer alike in both. *)
Theorem extractPageData_deterministic dom url baseData html :
  clockOnly (extractPageData dom url baseData html)
  /\ (forall w1 w2,
        (forall n, clock w1 (ticks w1 + n) = clock w2 (ticks w2 + n)) ->
        fst (run (extractPageData dom url baseData html) w1)
        = fst (run (extractPageData dom url baseData html) w2))
  /\ (forall w1 w2 signals1 ecommerce1 article1 cwv1 signals2 ecommerce2 article2 cwv2,
        fst (run (extractPageData dom url baseData html) w1)
        = Returned (Extracted Number signals1 ecommerce1 article1 cwv1) ->
        fst (run (extractPageData dom url baseData html) w2)
        = Returned (Extracted Number signals2 ecommerce2 article2 cwv2) ->
        signals1 = signals2 /\ cwv1 = None /\ cwv2 = None).
Proof.
  split; [apply extractPageData_clockOnly|]. split.
  - apply clockOnly_run, extractPageData_clockOnly.
  - intros w1 w2 s1 e1 a1 c1 s2 e2 a2 c2 H1 H2.
    pose proof (extractPageData_signals _ _ _ _ _ _ _ _ _ H1) as (l1 & Hl1 & ->).
    pose proof (extractPageData_signals _ _ _ _ _ _ _ _ _ H2) as (l2 & Hl2 & ->).
    assert (Hl : l1 = l2).
    { unfold extractLinks in Hl1, Hl2. destruct (parseURL _ _ url); cbn in Hl1, Hl2.
      - congruence.
      - discriminate. }
    subst l2. split; [reflexivity|].
    revert H1 H2. unfold PageCrawler.extractPageData. rewrite !run_bind.
    unfold extractLinks. destruct (parseURL _ _ url) as [base|]; cbn [run]; [|discriminate].
    rewrite !run_bind.
    destruct (run (extractEcommerceData _) w1) as [[x1|m1] w1']; [|discriminate].
    destruct (run (extractEcommerceData _) w2) as [[x2|m2] w2']; [|discriminate].
    rewrite !run_bind.
    destruct (run (extractArticleData _) w1') as [[y1|n1] w1'']; [|discriminate].
    destruct (run (extractArticleData _) w2') as [[y2|n2] w2'']; [|discriminate].
    cbn [run fst]. intros [= _ _ _ <-] [= _ _ _ <-]. split; reflexivity.
Qed.
End Extraction.

Lemma extractPageData_deterministic_witness :
  fst (Effects.run (Documents.extractPageData productPage "https://ex.test/p" productBase "")
         (worldAt year2026 resetScript))
  = fst (Effects.run (Documents.extractPageData productPage "https://ex.test/p" productBase "")
           (worldAt year2026 closedScript)).
Proof.
  apply (proj1 (proj2 (extractPageData_deterministic Runtime.Number Runtime.numberToString
                  Runtime.parseFloat Runtime.isZero Runtime.isNegative Runtime.dateParse
                  Runtime.twoYearsBefore Documents.Dom Documents.library productPage
                  "https://ex.test/p" productBase ""))
           (worldAt year2026 resetScript) (worldAt year2026 closedScript)).
  intros n. reflexivity.
Defined.

(** The same document, URL and metadata, extracted in 1999 and in 2026:
    the flag [expiredPrice] differs. *)
Example extraction_expiredPrice :
  let flag (now : Z) :=
    match fst (Effects.run (Documents.extractPageData productPage "https://ex.test/p"
                              productBase "") (worldAt now resetScript)) with
    | Effects.Returned (PageCrawler.Extracted _ _ (Some e) _ _) =>
        option_map (PageCrawler.expiredPrice) (PageCrawler.productIssues _ e)
    | _ => None
    end in
  flag year1999 = Some false /\ flag year2026 = Some true.
Proof. vm_compute. split; reflexivity. Qed.

(** Extraction is not a function of the document, the URL and the
    transport metadata alone. *)
Lemma extractPageData_not_deterministic :
  ~ (forall (dom : Documents.Dom) (url : string) (baseData : PageCrawler.BaseData)
            (html : string) (w1 w2 : Effects.World),
        fst (Effects.run (Documents.extractPageData dom url baseData html) w1)
        = fst (Effects.run (Documents.extractPageData dom url baseData html) w2)).
Proof.
  intros H.
  specialize (H productPage "https://ex.test/p" productBase ""
                (worldAt year1999 resetScript) (worldAt year2026 resetScript)).
  vm_compute in H. discriminate H.
Qed.

(** Two sitemap indexes that list each other, with a cap of two URLs:
    the loop ends after four fetches (the second default location
    included). *)
Example parse_cyclic_index :
  match Sitemap.parse string parseLines cyclicWeb 10 "ex.test" 2 [] with
  | Some st =>
      Sitemap.urls _ (Sitemap.result _ st) = ["https://ex.test/x"; "https://ex.test/y"]
      /\ Sitemap.fetched _ st
         = [ "https://ex.test/sitemap.xml"; "https://ex.test/sitemap_index.xml";
             "https://ex.test/b.xml"; "https://ex.test/pages.xml" ]
  | None => False
  end.
Proof. vm_compute. split; reflexivity. Qed.

(** Scenario 1 of the specification on the frontier: the root and
    [/about] are accepted, the tracking variant is filtered, the
    trailing-slash variant is a duplicate, and a link below [max_depth]
    is refused. *)
Example addAll_scenario :
  map (fun r => snd (fst r))
    (CrawlManager.addAll Whatwg.parse RobotsLib.Matcher RobotsLib.isAllowed
       (CrawlManager.mkState RobotsLib.Matcher "ex.test"
          (CrawlManager.mkSettings 10 false [] [] 2) None [] ∅ ∅ 0)
       [ CrawlManager.mkCall "https://ex.test" 0 None CrawlManager.seed;
         CrawlManager.mkCall "https://ex.test/about" 1 (Some "https://ex.test/") CrawlManager.crawl;
         CrawlManager.mkCall "https://ex.test/about?utm_source=x" 1 (Some "https://ex.test/")
           CrawlManager.crawl;
         CrawlManager.mkCall "https://ex.test/about/" 1 (Some "https://ex.test/") CrawlManager.crawl;
         CrawlManager.mkCall "https://ex.test/deep" 3 (Some "https://ex.test/about")
           CrawlManager.crawl ])
  = [true; true; false; false; false].
Proof. vm_compute. reflexivity. Qed.

(* ===================================================================== *)
(** * Part III. Further properties of the code *)
(* ===================================================================== *)

(** ** Scores *)

Section ScoreProperties.
Import Scores.

(** X1. The health score lies between 0 and 100, and it never rises
    when a count of errors, warnings or notices rises. *)
Theorem calculateHealthScore_antitone (e w n e' w' n' : Z) :
  e <= e' -> w <= w' -> n <= n' ->
  0 <= calculateHealthScore e' w' n' <= calculateHealthScore e w n
  /\ calculateHealthScore e w n <= 100.
Proof.
  intros He Hw Hn. unfold calculateHealthScore.
  pose proof (Z.div_le_mono n n' 2 ltac:(lia) Hn). lia.
Qed.

(** X2. With counts that are not negative, the health score is 100
    exactly when there is no error, no warning and at most one notice. *)
Theorem calculateHealthScore_perfect (e w n : Z) :
  0 <= e -> 0 <= w -> 0 <= n ->
  (calculateHealthScore e w n = 100 <-> e = 0 /\ w = 0 /\ n <= 1).
Proof.
  intros He Hw Hn. unfold calculateHealthScore.
  pose proof (Z.div_pos n 2 Hn ltac:(lia)) as Hq.
  split.
  - intros H. assert (Hz : n / 2 = 0) by lia.
    apply Z.div_small_iff in Hz; lia.
  - intros (-> & -> & Hn1). rewrite (Z.div_small n 2) by lia. lia.
Qed.

Lemma foldr_sum_perm (f : Counts -> Z) (l l' : list (string * Counts)) :
  l ≡ₚ l' ->
  foldr (fun kc acc => f (snd kc) + acc) 0 l = foldr (fun kc acc => f (snd kc) + acc) 0 l'.
Proof.
  induction 1 as [|x l l' _ IH|x y l|l l' l'' _ IH1 _ IH2]; simpl; try lia.
Qed.

Lemma sumOver_insert (f : Counts -> Z) (m : gmap string Counts) (k : string) (c : Counts) :
  sumOver f (<[k := c]> m)
  = sumOver f m + f c - match m !! k with Some old => f old | None => 0 end.
Proof.
  unfold sumOver. destruct (m !! k) as [old|] eqn:Hk.
  - rewrite <- (insert_delete_eq m k c).
    rewrite (foldr_sum_perm f _ _ (map_to_list_insert (delete k m) k c (lookup_delete_eq m k))).
    rewrite <- (foldr_sum_perm f _ _ (map_to_list_delete m k old Hk)). simpl. lia.
  - rewrite (foldr_sum_perm f _ _ (map_to_list_insert m k c Hk)). simpl. lia.
Qed.

(** Adding a count moves a field of the totals and the same field of
    the category by the same amount. *)
Lemma addCount_delta (f : Counts -> Z) (severity : string) (count : Z) (a b : Counts) :
  f = errors \/ f = warnings \/ f = notices ->
  f (addCount severity count a) - f a = f (addCount severity count b) - f b.
Proof.
  intros Hf. unfold addCount.
  destruct (String.eqb severity "error"), (String.eqb severity "warning"),
    (String.eqb severity "notice"); destruct Hf as [->|[->| ->]]; simpl; lia.
Qed.

Lemma countIssue_sums (f : Counts -> Z) (issues : list IssueRow)
    (st : Counts * gmap string Counts) (c : Counts) :
  f = errors \/ f = warnings \/ f = notices ->
  f (fst st) = sumOver f (snd st) + f c ->
  f (fst (fold_left countIssue issues st))
  = sumOver f (snd (fold_left countIssue issues st))
    + f (fold_left countInherited issues c).
Proof.
  intros Hf. revert st c. induction issues as [|issue issues IH]; intros st c Hst; simpl.
  - exact Hst.
  - apply IH. unfold countIssue, countInherited.
    destruct (definition issue) as [[severity category]|]; [|exact Hst].
    cbn [fst snd]. destruct (isPrototypeMember category).
    + pose proof (addCount_delta f severity (default 0 (affected_pages_count issue))
                    (fst st) c Hf). lia.
    + rewrite sumOver_insert.
      pose proof (addCount_delta f severity (default 0 (affected_pages_count issue))
                    (fst st) (default noCounts (snd st !! category)) Hf) as Hd.
      destruct (snd st !! category) as [old|]; simpl in *.
      * lia.
      * assert (f noCounts = 0) by (destruct Hf as [->|[->| ->]]; reflexivity). lia.
Qed.

(** No key of [categoryIssues] names a member of [Object.prototype]. *)
Lemma countIssue_own_keys (issues : list IssueRow) (st : Counts * gmap string Counts) :
  (forall k, is_Some (snd st !! k) -> isPrototypeMember k = false) ->
  forall k, is_Some (snd (fold_left countIssue issues st) !! k) ->
            isPrototypeMember k = false.
Proof.
  revert st. induction issues as [|issue issues IH]; intros st Hst; simpl; [exact Hst|].
  apply IH. intros k. unfold countIssue.
  destruct (definition issue) as [[severity category]|]; [|apply Hst].
  cbn [fst snd]. destruct (isPrototypeMember category) eqn:Hc; [apply Hst|].
  destruct (decide (category = k)) as [<-|Hne].
  - intros _. exact Hc.
  - rewrite lookup_insert_ne by exact Hne. apply Hst.
Qed.

Lemma countInherited_own (issues : list IssueRow) (c : Counts) :
  ownCategories issues = true -> fold_left countInherited issues c = c.
Proof.
  revert c. induction issues as [|issue issues IH]; intros c H; simpl in *; [reflexivity|].
  apply andb_true_iff in H as [Hi Hrest]. rewrite <- (IH c Hrest) at 2. f_equal.
  unfold countInherited. destruct (definition issue) as [[severity category]|]; [|reflexivity].
  apply negb_true_iff in Hi. now rewrite Hi.
Qed.

(** X3. The totals that [getIssueCounts] returns are the sums, over the
    categories, of the counts behind the category scores, plus the
    counts of the issues whose category names a member of
    [Object.prototype]: those enter the totals and no category. No
    category score belongs to such a name, every category score lies
    between 0 and 100, and when no category is such a name the totals
    are the sums over the categories. *)
Theorem getIssueCounts_categories (issues : list IssueRow) (distinctPages : option Z) :
  let r := getIssueCounts (Some issues) distinctPages in
  errors (totals r)
  = sumOver errors (categoryIssuesOf issues) + errors (inheritedCounts issues)
  /\ warnings (totals r)
     = sumOver warnings (categoryIssuesOf issues) + warnings (inheritedCounts issues)
  /\ notices (totals r)
     = sumOver notices (categoryIssuesOf issues) + notices (inheritedCounts issues)
  /\ categoryScores r = categoryScore <$> categoryIssuesOf issues
  /\ (forall category score,
        categoryScores r !! category = Some score ->
        0 <= score <= 100 /\ isPrototypeMember category = false)
  /\ (ownCategories issues = true -> inheritedCounts issues = noCounts).
Proof.
  unfold getIssueCounts, categoryIssuesOf, inheritedCounts.
  pose proof (countIssue_sums errors issues (noCounts, ∅) noCounts ltac:(auto) eq_refl) as He.
  pose proof (countIssue_sums warnings issues (noCounts, ∅) noCounts ltac:(auto) eq_refl)
    as Hw.
  pose proof (countIssue_sums notices issues (noCounts, ∅) noCounts ltac:(auto) eq_refl)
    as Hn.
  pose proof (countIssue_own_keys issues (noCounts, ∅)) as Hkeys.
  destruct (fold_left countIssue issues (noCounts, ∅)) as [total cats].
  cbn [fst snd totals categoryScores] in *.
  split; [exact He|]. split; [exact Hw|]. split; [exact Hn|]. split; [reflexivity|].
  split.
  - intros category score H. rewrite lookup_fmap in H.
    destruct (cats !! category) as [c|] eqn:Hc; [|discriminate].
    injection H as <-. split.
    + unfold categoryScore, calculateHealthScore. lia.
    + apply Hkeys; [|rewrite Hc; eauto].
      intros k [x Hx]. rewrite lookup_empty in Hx. discriminate.
  - apply countInherited_own.
Qed.

(** An issue of the category [constructor] is counted in the totals
    and gives no category score; one of the category [links] gives
    one. *)
Example getIssueCounts_inherited_member :
  getIssueCounts (Some [mkIssueRow (Some 3) (Some ("error", "constructor"))]) (Some 3)
  = mkIssueCounts (mkCounts 3 0 0) 3 ∅
  /\ getIssueCounts (Some [mkIssueRow (Some 3) (Some ("error", "links"))]) (Some 3)
     = mkIssueCounts (mkCounts 3 0 0) 3 {[ "links" := 85 ]}.
Proof. split; vm_compute; reflexivity. Qed.
End ScoreProperties.

Lemma calculateHealthScore_antitone_witness :
  0 <= Scores.calculateHealthScore 3 4 7 <= Scores.calculateHealthScore 2 4 5
  /\ Scores.calculateHealthScore 2 4 5 <= 100.
Proof. apply (calculateHealthScore_antitone 2 4 5 3 4 7); lia. Defined.

Lemma calculateHealthScore_perfect_witness :
  Scores.calculateHealthScore 0 0 1 = 100 <-> 0 = 0 /\ 0 = 0 /\ 1 <= 1.
Proof. apply (calculateHealthScore_perfect 0 0 1); lia. Defined.

(** ** Link quality of a page *)

Section LinkPageProperties.
Import LinkPages.

Lemma analyzePage_detected (defs : gmap string LinkQuality.IssueDefinition)
    (page : PageLinkData) (pageId code : string) :
  In (pageId, code) (analyzePage defs page) ->
  pageId = id page /\ In code (detected page) /\ status_code page < 400
  /\ is_Some (defs !! code).
Proof.
  unfold analyzePage. destruct (400 <=? status_code page) eqn:Hs; [intros []|].
  apply Z.leb_gt in Hs. intros Hin. apply in_flat_map in Hin as (c & Hc & Hin).
  destruct (defs !! c) as [d|] eqn:Hd; [|destruct Hin].
  destruct Hin as [[= <- <-]|[]]. rewrite Hd. eauto.
Qed.

Lemma detected_inv (page : PageLinkData) (code : string) :
  In code (detected page) ->
  (code = "page_too_deep" /\ 4 < page_depth page <= 7)
  \/ (code = "page_very_deep" /\ 7 < page_depth page)
  \/ (code = "dead_end_page" /\ internal_links_count page = 0)
  \/ (code = "high_outbound_links" /\ 150 < internal_links_count page).
Proof.
  unfold detected. rewrite !in_app_iff.
  destruct (4 <? page_depth page) eqn:H4, (page_depth page <=? 7) eqn:H7,
    (7 <? page_depth page) eqn:H7', (internal_links_count page =? 0) eqn:H0,
    (150 <? internal_links_count page) eqn:H150; cbn [andb In];
    repeat match goal with
    | H : (_ <? _) = true |- _ => apply Z.ltb_lt in H
    | H : (_ <=? _) = true |- _ => apply Z.leb_le in H
    | H : (_ =? _) = true |- _ => apply Z.eqb_eq in H
    | H : (_ <? _) = false |- _ => clear H
    | H : (_ <=? _) = false |- _ => clear H
    | H : (_ =? _) = false |- _ => clear H
    end;
    intros [H|[H|[H|H]]]; try destruct H as [<-|[]]; try destruct H; auto 6; lia.
Qed.

(** X4. The link analysis of a page stores nothing for a status of 400
    or more; it stores only the four depth and outbound-link codes, each
    for the page itself and defined in the catalogue; a page is never
    both too deep and very deep, and never both a dead end and a page
    with too many outbound links. *)
Theorem analyzePage_exclusive (defs : gmap string LinkQuality.IssueDefinition)
    (page : PageLinkData) :
  (400 <= status_code page -> analyzePage defs page = [])
  /\ (forall pageId code, In (pageId, code) (analyzePage defs page) ->
        pageId = id page /\ is_Some (defs !! code)
        /\ In code ["page_too_deep"; "page_very_deep"; "dead_end_page"; "high_outbound_links"])
  /\ ~ (In (id page, "page_too_deep") (analyzePage defs page)
        /\ In (id page, "page_very_deep") (analyzePage defs page))
  /\ ~ (In (id page, "dead_end_page") (analyzePage defs page)
        /\ In (id page, "high_outbound_links") (analyzePage defs page)).
Proof.
  repeat split.
  - intros Hs. unfold analyzePage. apply Z.leb_le in Hs. now rewrite Hs.
  - now apply analyzePage_detected in H.
  - now apply analyzePage_detected in H.
  - apply analyzePage_detected in H as (_ & Hd & _).
    apply detected_inv in Hd as [[-> _]|[[-> _]|[[-> _]|[-> _]]]]; simpl; auto.
  - intros [H1 H2].
    apply analyzePage_detected in H1 as (_ & H1 & _).
    apply analyzePage_detected in H2 as (_ & H2 & _).
    apply detected_inv in H1 as [[_ H1]|[[? _]|[[? _]|[? _]]]]; try discriminate.
    apply detected_inv in H2 as [[? _]|[[_ H2]|[[? _]|[? _]]]]; try discriminate. lia.
  - intros [H1 H2].
    apply analyzePage_detected in H1 as (_ & H1 & _).
    apply analyzePage_detected in H2 as (_ & H2 & _).
    apply detected_inv in H1 as [[? _]|[[? _]|[[_ H1]|[? _]]]]; try discriminate.
    apply detected_inv in H2 as [[? _]|[[? _]|[[? _]|[_ H2]]]]; try discriminate. lia.
Qed.

(** X5. Every issue stored by the link analysis of a crawl belongs to
    one of the pages of the query, which has a status below 400; after a
    failed query nothing is stored. *)
Theorem analyze_sound (defs : gmap string LinkQuality.IssueDefinition)
    (query : option (list PageLinkData)) (pageId code : string) :
  In (pageId, code) (analyze defs query) ->
  exists pages page, query = Some pages /\ In page pages /\ id page = pageId
    /\ status_code page < 400 /\ is_Some (defs !! code) /\ In code (detected page).
Proof.
  unfold analyze. destruct query as [pages|]; [|intros []].
  intros Hin. apply in_flat_map in Hin as (page & Hp & Hin).
  apply analyzePage_detected in Hin as (-> & Hd & Hs & Hdef).
  exists pages, page. auto 7.
Qed.
End LinkPageProperties.

(** ** AI search health *)

Section AiSearchProperties.
Import AiSearch.

Lemma analyzePageForAI_issues (page : PageRow) :
  (length (issues (analyzePageForAI page)) <= 4)%nat
  /\ (hasGoodStructure (analyzePageForAI page) = false ->
      (1 <= length (issues (analyzePageForAI page)))%nat)
  /\ (hasGoodStructure (analyzePageForAI page) = true ->
      (length (issues (analyzePageForAI page)) <= 1)%nat).
Proof.
  unfold analyzePageForAI. cbn [issues hasGoodStructure].
  destruct ((default 0 (h1_count page) =? 1) && (2 <=? default 0 (h2_count page))),
    (300 <=? default 0 (word_count page)), (atLeast 20 (title page)),
    (atLeast 50 (meta_description page)); cbn; repeat split; intros; try discriminate; lia.
Qed.

Lemma countPage_fold (pages : list PageRow) (st : PageStats) :
  let r := fold_left countPage pages st in
  optimizedCount r + notOptimizedCount r
  = optimizedCount st + notOptimizedCount st + Z.of_nat (length pages)
  /\ optimizedCount st <= optimizedCount r
  /\ notOptimizedCount r - notOptimizedCount st <= issuesCount r - issuesCount st
  /\ issuesCount r - issuesCount st
     <= 4 * (notOptimizedCount r - notOptimizedCount st)
        + (optimizedCount r - optimizedCount st)
  /\ faqSchemaCount st <= faqSchemaCount r <= faqSchemaCount st + Z.of_nat (length pages)
  /\ howToSchemaCount st <= howToSchemaCount r <= howToSchemaCount st + Z.of_nat (length pages)
  /\ speakableCount st <= speakableCount r <= speakableCount st + Z.of_nat (length pages).
Proof.
  revert st. induction pages as [|page pages IH]; intros st; cbn [fold_left length].
  - cbn zeta. lia.
  - specialize (IH (countPage st page)). cbn zeta in *.
    destruct (analyzePageForAI_issues page) as (H4 & Hbad & Hgood).
    set (r := fold_left countPage pages (countPage st page)) in *.
    assert (Hstep :
      let st' := countPage st page in
      let n := Z.of_nat (length (issues (analyzePageForAI page))) in
      issuesCount st' = issuesCount st + n
      /\ ((optimizedCount st' = optimizedCount st + 1
           /\ notOptimizedCount st' = notOptimizedCount st /\ n <= 1)
          \/ (optimizedCount st' = optimizedCount st
              /\ notOptimizedCount st' = notOptimizedCount st + 1 /\ 1 <= n <= 4))
      /\ faqSchemaCount st <= faqSchemaCount st' <= faqSchemaCount st + 1
      /\ howToSchemaCount st <= howToSchemaCount st' <= howToSchemaCount st + 1
      /\ speakableCount st <= speakableCount st' <= speakableCount st + 1).
    { unfold countPage.
      cbn [optimizedCount notOptimizedCount issuesCount faqSchemaCount howToSchemaCount
           speakableCount].
      destruct (hasGoodStructure (analyzePageForAI page));
        destruct (hasFaqSchema (analyzePageForAI page));
        destruct (hasHowToSchema (analyzePageForAI page));
        destruct (hasSpeakableSchema (analyzePageForAI page));
        try specialize (Hbad eq_refl); try specialize (Hgood eq_refl); lia. }
    cbn zeta in Hstep. lia.
Qed.

(** X6. The page statistics of the AI analysis count every page of the
    query once, as optimized or as not optimized; every page that is not
    optimized has between one and four issues and an optimized page at
    most one; no schema count exceeds the number of pages. *)
Theorem analyzePages_counts (pages : list PageRow) :
  let r := analyzePages (Some pages) in
  let n := Z.of_nat (length pages) in
  optimizedCount r + notOptimizedCount r = n
  /\ 0 <= optimizedCount r
  /\ notOptimizedCount r <= issuesCount r <= 4 * notOptimizedCount r + optimizedCount r
  /\ 0 <= faqSchemaCount r <= n
  /\ 0 <= howToSchemaCount r <= n
  /\ 0 <= speakableCount r <= n.
Proof.
  cbn zeta. unfold analyzePages.
  pose proof (countPage_fold pages (mkStats 0 0 0 0 0 0)) as H. cbn zeta in H.
  cbn [optimizedCount notOptimizedCount issuesCount faqSchemaCount howToSchemaCount
       speakableCount] in H. lia.
Qed.

Lemma crawler_penalties_range (access : list (string * option bool)) :
  65 <= fold_left (fun sc cp => if blocked access (fst cp) then sc - snd cp else sc)
          crawlerPenalties 100 <= 100.
Proof.
  unfold crawlerPenalties. cbn [fold_left fst snd].
  destruct (blocked access "GPTBot"), (blocked access "ChatGPT-User"),
    (blocked access "Google-Extended"), (blocked access "anthropic-ai"),
    (blocked access "PerplexityBot"); lia.
Qed.

Lemma contentPenalty_range (ratioBelow : Z -> Z -> Z -> bool) (stats : PageStats) :
  0 <= contentPenalty ratioBelow stats <= 20.
Proof.
  unfold contentPenalty.
  repeat match goal with |- context [if ?b then _ else _] => destruct b end; lia.
Qed.

(** X7. The AI health score lies between 15 and 100 whatever the
    inputs: the penalties add up to at most 85, so the lower clamp at 0
    is never reached. It is 100 only when no listed crawler is blocked,
    llms.txt exists and is not invalid, ai.txt exists and some page has
    FAQ schema. *)
Theorem calculateScore_range (ratioBelow : Z -> Z -> Z -> bool)
    (access : list (string * option bool)) (llmsExists : bool) (llmsValid : option bool)
    (aiTxtExists : bool) (stats : PageStats) :
  let score := calculateScore ratioBelow access llmsExists llmsValid aiTxtExists stats in
  15 <= score <= 100
  /\ (score = 100 ->
      (forall crawler penalty, In (crawler, penalty) crawlerPenalties ->
         blocked access crawler = false)
      /\ llmsExists = true /\ llmsValid <> Some false /\ aiTxtExists = true
      /\ faqSchemaCount stats <> 0 /\ contentPenalty ratioBelow stats = 0).
Proof.
  cbn zeta. unfold calculateScore.
  pose proof (contentPenalty_range ratioBelow stats) as Hc.
  pose proof (crawler_penalties_range access) as Hp.
  split.
  - destruct llmsExists, llmsValid as [[]|], aiTxtExists,
      (faqSchemaCount stats =? 0), (howToSchemaCount stats =? 0); cbn [negb andb]; lia.
  - intros H.
    assert (Hfaq : (faqSchemaCount stats =? 0) = false).
    { destruct (faqSchemaCount stats =? 0); [|reflexivity]. exfalso.
      destruct llmsExists, llmsValid as [[]|], aiTxtExists,
        (howToSchemaCount stats =? 0); cbn [negb andb] in H; lia. }
    rewrite Hfaq, andb_false_r in H. apply Z.eqb_neq in Hfaq.
    assert (Hall : fold_left (fun sc cp => if blocked access (fst cp) then sc - snd cp else sc)
                     crawlerPenalties 100 = 100
                   /\ llmsExists = true /\ llmsValid <> Some false /\ aiTxtExists = true
                   /\ contentPenalty ratioBelow stats = 0).
    { destruct llmsExists, llmsValid as [[]|], aiTxtExists; cbn [negb] in H;
        repeat split; try congruence; lia. }
    destruct Hall as (Hfold & -> & Hv & -> & Hz). repeat split; auto.
    intros crawler penalty Hin. revert Hfold. unfold crawlerPenalties in *.
    cbn [fold_left fst snd].
    destruct (blocked access "GPTBot") eqn:B1, (blocked access "ChatGPT-User") eqn:B2,
      (blocked access "Google-Extended") eqn:B3, (blocked access "anthropic-ai") eqn:B4,
      (blocked access "PerplexityBot") eqn:B5; try lia.
    intros _. simpl in Hin.
    destruct Hin as [[= <- _]|[[= <- _]|[[= <- _]|[[= <- _]|[[= <- _]|[]]]]]]; assumption.
Qed.

(** X8. Without a robots parser, and with a parser whose fetch of
    robots.txt failed (the request rejected, the status was not 2xx, or
    the body could not be read), the AI analysis has no verdict for any
    crawler, and no crawler penalty applies. *)
Theorem getAICrawlerAccess_no_verdict (trim toLowerCase : string -> string)
    (Matcher : Type) (robotsParser : string -> string -> Matcher) (d ua : string)
    (net : Robots.Thrown Robots.HttpResponse) (crawler : string) :
  match net with
  | Robots.Rejected => True
  | Robots.Resolved response =>
      Robots.ok response = false \/ Robots.text response = Robots.Rejected
  end ->
  forall robots,
    robots = None
    \/ robots = Some (Robots.fetch trim toLowerCase Matcher robotsParser
                        (Robots.new Matcher d ua) net) ->
    Robots.accessOf (getAICrawlerAccess robots) crawler = None
    /\ blocked (getAICrawlerAccess robots) crawler = false.
Proof.
  intros Hnet robots Hrobots. unfold blocked.
  assert (H : Robots.accessOf (getAICrawlerAccess robots) crawler = None).
  { destruct Hrobots as [->| ->].
    - unfold getAICrawlerAccess, Robots.accessOf. cbn.
      repeat match goal with |- context [if ?b then _ else _] => destruct b end; reflexivity.
    - assert (Hrules : Robots.aiCrawlerRules _
                         (Robots.fetch trim toLowerCase Matcher robotsParser
                            (Robots.new Matcher d ua) net) = ∅).
      { unfold Robots.fetch. destruct net as [response|]; [|reflexivity].
        destruct Hnet as [Hok|Htext].
        - rewrite Hok. reflexivity.
        - destruct (negb (Robots.ok response)); [reflexivity|]. rewrite Htext. reflexivity. }
      unfold getAICrawlerAccess, Robots.getAiCrawlerAccess. rewrite Hrules.
      unfold Robots.accessOf.
      destruct (List.find _ _) as [e|] eqn:Hfind; [|reflexivity].
      apply find_some in Hfind as (Hin & _).
      apply in_map_iff in Hin as (c & <- & _). cbn. apply lookup_empty. }
  now rewrite H.
Qed.
End AiSearchProperties.

Lemma getAICrawlerAccess_no_verdict_witness :
  let robots := Some (Robots.fetch Js.trim Js.toLowerCase
                        RobotsLib.Matcher RobotsLib.robotsParser
                        (Robots.new RobotsLib.Matcher "www.ex.test" "bot")
                        (Robots.Resolved (Robots.mkResponse 404 (Robots.Resolved "gone")))) in
  Robots.accessOf (AiSearch.getAICrawlerAccess robots) "GPTBot" = None
  /\ AiSearch.blocked (AiSearch.getAICrawlerAccess robots) "GPTBot" = false.
Proof.
  intros robots.
  apply (getAICrawlerAccess_no_verdict Js.trim Js.toLowerCase
           RobotsLib.Matcher RobotsLib.robotsParser "www.ex.test" "bot"
           (Robots.Resolved (Robots.mkResponse 404 (Robots.Resolved "gone"))) "GPTBot").
  - left. reflexivity.
  - right. reflexivity.
Defined.

(** ** The run of a crawl *)

Section CrawlRunProperties.
Import CrawlManager CrawlRun.
Variable parseURL : string -> option Url.URL.
Variable Matcher : Type.
Variable matcherIsAllowed : Matcher -> string -> string -> option bool.
Variable visit : list (QueueItem * Visit) -> QueueItem -> Visit.
Variable cancelledAt : nat -> bool.

Abbreviation State := (State Matcher).
Abbreviation Run := (Run Matcher).
Abbreviation normalizeUrl := (CrawlManager.normalizeUrl parseURL).
Abbreviation addToQueue := (CrawlManager.addToQueue parseURL Matcher matcherIsAllowed).
Abbreviation admitted := (admitted parseURL Matcher matcherIsAllowed).
Abbreviation grows := (grows parseURL Matcher matcherIsAllowed).
Abbreviation iteration := (iteration parseURL Matcher matcherIsAllowed visit cancelledAt).
Abbreviation processQueue := (processQueue parseURL Matcher matcherIsAllowed visit cancelledAt).
Abbreviation seeded := (seeded parseURL Matcher matcherIsAllowed).
Abbreviation run := (run parseURL Matcher matcherIsAllowed visit cancelledAt).

Lemma admitted_sameCrawl (s s' : State) (item : QueueItem) :
  sameCrawl _ s s' -> admitted s item -> admitted s' item.
Proof.
  intros (Hd & Hs & Hr). unfold CrawlRun.admitted, isAllowedDomain.
  now rewrite Hd, Hs, Hr.
Qed.

Lemma grows_refl (D : QueueItem -> Prop) (s : State) : grows D s s.
Proof.
  unfold CrawlRun.grows, sameCrawl. repeat split; try lia.
  exists []. rewrite app_nil_r. simpl. repeat split; auto; try constructor; try lia.
  now rewrite (left_id_L ∅ (∪)).
Qed.

(** One call of [addToQueue]. *)
Lemma addToQueue_grows (D : QueueItem -> Prop) (s : State) u d parent via :
  (forall n, D (mkItem n d parent via)) ->
  grows D s (snd (addToQueue s u d parent via)).
Proof.
  intros HD. unfold CrawlManager.addToQueue.
  destruct (normalizeUrl u) as [n|]; [|apply grows_refl].
  destruct (bool_decide (n ∈ visited _ s)) eqn:Hv; [apply grows_refl|].
  destruct (bool_decide (n ∈ discovered _ s)) eqn:Hdisc; [apply grows_refl|]. cbn [orb].
  destruct (max_depth (settings _ s) <? d) eqn:Hdepth; [apply grows_refl|].
  destruct (max_pages (settings _ s) <=? Z.of_nat (size (discovered _ s))) eqn:Hpages;
    [apply grows_refl|].
  destruct (match robotsParser _ s with
            | Some r => negb (Robots.isAllowed Matcher matcherIsAllowed r n)
            | None => false
            end) eqn:Hrobots; [apply grows_refl|].
  destruct (matchesPatterns (settings _ s) n) eqn:Hpat; [|apply grows_refl].
  destruct (isAllowedDomain parseURL Matcher s n) eqn:Hdom; [|apply grows_refl].
  destruct (SeoUrlFilter.isSeoRelevant parseURL n) eqn:Hseo; [|apply grows_refl].
  cbn [negb snd].
  apply bool_decide_eq_false in Hv, Hdisc.
  apply Z.ltb_ge in Hdepth. apply Z.leb_gt in Hpages.
  assert (Hsize : size ({[n]} ∪ discovered _ s) = S (size (discovered _ s))).
  { rewrite size_union by set_solver. now rewrite size_singleton. }
  unfold CrawlRun.grows, sameCrawl, budget. cbn [projectDomain settings robotsParser
    queue visited discovered pagesDiscovered].
  rewrite Hsize, length_app. cbn [length].
  repeat split; try lia.
  exists [mkItem n d parent via]. cbn [map url length]. repeat split; try lia.
  - constructor; [|constructor]. repeat split; auto.
    + destruct (robotsParser _ s); [|exact I]. now apply negb_false_iff in Hrobots.
  - apply NoDup_singleton.
  - cbn. now rewrite (right_id_L ∅ (∪)).
Qed.

Lemma grows_trans (D : QueueItem -> Prop) (s1 s2 s3 : State) :
  grows D s1 s2 -> grows D s2 s3 -> grows D s1 s3.
Proof.
  intros (Hc & Hv & Hb & Hsz & cs & Hq & Hall & Hnd & Hdisc & Hpd)
         (Hc' & Hv' & Hb' & Hsz' & cs' & Hq' & Hall' & Hnd' & Hdisc' & Hpd').
  assert (Hsame : sameCrawl _ s2 s1).
  { destruct Hc as (? & ? & ?). unfold sameCrawl. auto. }
  assert (Hsub : (size (discovered _ s1) <= size (discovered _ s2))%nat).
  { apply subseteq_size. rewrite Hdisc. apply union_subseteq_r. }
  destruct Hc as (Hc1 & Hc2 & Hc3), Hc' as (Hc1' & Hc2' & Hc3').
  unfold CrawlRun.grows, sameCrawl. repeat split; try congruence.
  - rewrite Hc2 in Hsz'. lia.
  - exists (cs ++ cs'). repeat split.
    + rewrite Hq', Hq. now rewrite app_assoc.
    + apply Forall_app. split; [assumption|].
      eapply Forall_impl; [exact Hall'|].
      intros c (HD & Ha & Hnv & Hnd2).
      split; [exact HD|]. split; [now apply (admitted_sameCrawl s2 s1)|].
      split; [now rewrite <- Hv|].
      intros Hin. apply Hnd2. rewrite Hdisc. now apply elem_of_union_r.
    + rewrite map_app. apply NoDup_app. repeat split; auto.
      intros x Hx Hx'. rewrite list_elem_of_In in Hx'.
      apply in_map_iff in Hx' as (c & <- & Hcin).
      apply list_elem_of_In in Hcin.
      rewrite Forall_forall in Hall'. destruct (Hall' c Hcin) as (_ & _ & _ & Hn).
      apply Hn. rewrite Hdisc. apply elem_of_union_l. now apply elem_of_list_to_set.
    + rewrite Hdisc', Hdisc, map_app, list_to_set_app_L.
      apply set_eq. intros x. rewrite !elem_of_union. tauto.
    + rewrite Hpd', Hpd, length_app. lia.
Qed.

Lemma addAll_grows (D : QueueItem -> Prop) (d : Z) parent via (us : list string) (s : State) :
  (forall n, D (mkItem n d parent via)) ->
  grows D s (fold_left (fun s u => snd (addToQueue s u d parent via)) us s).
Proof.
  intros HD. revert s. induction us as [|u us IH]; intros s; cbn [fold_left].
  - apply grows_refl.
  - eapply grows_trans; [|apply IH]. now apply addToQueue_grows.
Qed.

Lemma grows_weaken (D D' : QueueItem -> Prop) (s s' : State) :
  (forall c, D c -> D' c) -> grows D s s' -> grows D' s s'.
Proof.
  intros HD (Hc & Hv & Hb & Hsz & cs & Hq & Hall & Hrest).
  unfold CrawlRun.grows. repeat split; try apply Hc; auto.
  exists cs. split; [assumption|]. split; [|assumption].
  eapply Forall_impl; [exact Hall|]. intros c (? & ?). auto.
Qed.

Lemma grows_discovered (D : QueueItem -> Prop) (s s' : State) :
  grows D s s' ->
  discovered _ s ⊆ discovered _ s'
  /\ pagesDiscovered _ s' - Z.of_nat (size (discovered _ s'))
     = pagesDiscovered _ s - Z.of_nat (size (discovered _ s)).
Proof.
  intros (_ & _ & _ & _ & cs & _ & Hall & Hnd & Hdisc & Hpd).
  split; [rewrite Hdisc; apply union_subseteq_r|].
  rewrite Hpd, Hdisc, size_union.
  - rewrite size_list_to_set by assumption. rewrite length_map. lia.
  - intros x Hx Hx'. apply elem_of_list_to_set, list_elem_of_In, in_map_iff in Hx
      as (c & <- & Hc).
    apply list_elem_of_In in Hc. rewrite Forall_forall in Hall.
    now destruct (Hall c Hc) as (_ & _ & _ & Hn).
Qed.

Lemma grows_queueFresh (D : QueueItem -> Prop) (s s' : State) :
  queueFresh _ s -> grows D s s' -> queueFresh _ s'.
Proof.
  intros (Hnd & Hq) Hg.
  pose proof (grows_discovered D s s' Hg) as (Hsub & _).
  destruct Hg as (_ & Hv & _ & _ & cs & Hqueue & Hall & Hndc & Hdisc & _).
  rewrite Forall_forall in Hall.
  unfold queueFresh. rewrite Hqueue, map_app, Hv. split.
  - apply NoDup_app. repeat split; auto.
    intros x Hx Hx'. rewrite list_elem_of_In in Hx, Hx'.
    apply in_map_iff in Hx as (q & <- & Hqin), Hx' as (c & Heq & Hc).
    apply list_elem_of_In in Hc. destruct (Hall c Hc) as (_ & _ & _ & Hn).
    apply Hn. rewrite Heq. now apply Hq.
  - intros item Hin. apply in_app_iff in Hin as [Hin|Hin].
    + destruct (Hq item Hin). split; auto.
    + split.
      * rewrite Hdisc. apply elem_of_union_l, elem_of_list_to_set, list_elem_of_In.
        now apply in_map.
      * apply list_elem_of_In in Hin. now destruct (Hall item Hin) as (_ & _ & ? & _).
Qed.

Lemma grows_admitted (D : QueueItem -> Prop) (s0 s s' : State) :
  sameCrawl _ s0 s -> Forall (admitted s0) (queue _ s) -> grows D s s' ->
  sameCrawl _ s0 s' /\ Forall (admitted s0) (queue _ s').
Proof.
  intros (H1 & H2 & H3) Hq ((H1' & H2' & H3') & _ & _ & _ & cs & Hqueue & Hall & _).
  split; [unfold sameCrawl; repeat split; congruence|].
  rewrite Hqueue. apply Forall_app. split; [assumption|].
  eapply Forall_impl; [exact Hall|]. intros c (_ & Ha & _).
  apply (admitted_sameCrawl s s0); [|assumption].
  unfold sameCrawl. auto.
Qed.

(** The two loops over the links of a page do not depend on each
    other. *)
Lemma followLink_fold (item : QueueItem) (ls : list string) (s : State)
    (m : gmap string Z) :
  fold_left (followLink parseURL Matcher matcherIsAllowed item) ls (s, m)
  = (fold_left (fun s u => snd (addToQueue s u (depth item + 1) (Some (url item)) crawl)) ls s,
     fold_left (trackIncomingLink parseURL) ls m).
Proof.
  revert s m. induction ls as [|l ls IH]; intros s m; cbn [fold_left]; [reflexivity|].
  unfold followLink at 2. cbn [fst snd]. apply IH.
Qed.

(** The two ways through the body of the loop. *)
Lemma crawlStep_inv (r r' : Run) (b : bool) :
  iteration r = Some (r', b) ->
  exists item rest,
    queue _ (manager _ r) = item :: rest
    /\ cancelledAt (iterations _ r) = false
    /\ ((url item ∈ visited _ (manager _ r)
         /\ r' = mkRun _ (withQueue _ (manager _ r) rest) (incomingLinks _ r)
                   (pagesCrawled _ r) (pagesFailed _ r) (fetched _ r) (S (iterations _ r))
         /\ b = true)
        \/ ((url item ∉ visited _ (manager _ r))
            /\ grows (fun c => depth c = depth item + 1 /\ parentUrl c = Some (url item)
                               /\ discoveredVia c = crawl)
                 (withVisited _ (withQueue _ (manager _ r) rest)
                    ({[url item]} ∪ visited _ (manager _ r)))
                 (manager _ r')
            /\ incomingLinks _ r'
               = fold_left (trackIncomingLink parseURL) (links (visit (fetched _ r) item))
                   (incomingLinks _ r)
            /\ pagesCrawled _ r'
               = (if completed (visit (fetched _ r) item)
                  then pagesCrawled _ r + 1 else pagesCrawled _ r)
            /\ pagesFailed _ r'
               = (if completed (visit (fetched _ r) item)
                  then pagesFailed _ r else pagesFailed _ r + 1)
            /\ fetched _ r' = fetched _ r ++ [(item, visit (fetched _ r) item)]
            /\ iterations _ r' = S (iterations _ r)
            /\ b = progressStored (visit (fetched _ r) item))).
Proof.
  unfold CrawlRun.iteration.
  destruct (queue _ (manager _ r)) as [|item rest] eqn:Hq; [discriminate|].
  destruct (cancelledAt (iterations _ r)) eqn:Hc; [discriminate|].
  cbn [withQueue visited].
  destruct (bool_decide (url item ∈ visited _ (manager _ r))) eqn:Hv.
  - intros [= <- <-]. apply bool_decide_eq_true in Hv.
    exists item, rest. split; [reflexivity|]. split; [reflexivity|]. left. auto.
  - unfold crawlItem. rewrite followLink_fold. cbn [fst snd].
    intros [= <- <-]. apply bool_decide_eq_false in Hv.
    exists item, rest. split; [reflexivity|]. split; [reflexivity|]. right.
    cbn [manager incomingLinks pagesCrawled pagesFailed fetched iterations].
    split; [exact Hv|]. split; [apply addAll_grows; intros n; auto|].
    repeat split.
Qed.

(** Every iteration uses up one unit of the budget and fetches at most
    one page. *)
Lemma crawlStep_budget (r r' : Run) (b : bool) :
  iteration r = Some (r', b) ->
  S (budget _ (manager _ r')) = budget _ (manager _ r)
  /\ (length (fetched _ r) <= length (fetched _ r') <= S (length (fetched _ r)))%nat.
Proof.
  intros H. apply crawlStep_inv in H as (item & rest & Hq & _ & [(_ & -> & _)|H]).
  - unfold budget. cbn. rewrite Hq. cbn. lia.
  - destruct H as (_ & (_ & _ & Hb & _) & _ & _ & _ & -> & _).
    rewrite Hb, length_app. unfold budget. cbn. rewrite Hq. cbn. lia.
Qed.

(** The loop ends within the budget, and what every iteration keeps
    holds at the end. *)
Lemma processQueue_ends_with (P : Run -> Prop) :
  (forall r r' b, P r -> iteration r = Some (r', b) -> P r') ->
  forall fuel r, (budget _ (manager _ r) < fuel)%nat -> P r ->
  exists r' e, processQueue fuel r = Some (r', e) /\ P r'
               /\ (e = Resolved -> iteration r' = None).
Proof.
  intros Hstep. induction fuel as [|fuel IH]; intros r Hfuel HP; [lia|].
  cbn [CrawlRun.processQueue].
  destruct (iteration r) as [[r' []]|] eqn:Hit.
  - pose proof (crawlStep_budget _ _ _ Hit) as (Hb & _).
    apply IH; [lia|]. eapply Hstep; eauto.
  - exists r', Rejected. split; [reflexivity|]. split; [|discriminate].
    eapply Hstep; eauto.
  - exists r, Resolved. auto.
Qed.

Lemma crawlStep_fetchedOnce (K : gset string) (r r' : Run) (b : bool) :
  fetchedOnce _ K r -> iteration r = Some (r', b) -> fetchedOnce _ K r'.
Proof.
  intros ((Hnd & Hq) & Hf & Hndf & Hit & Hvd & HK) H.
  apply crawlStep_inv in H as (item & rest & Hqueue & _ & [(Hv & _ & _)|H]).
  { exfalso. rewrite Hqueue in Hq. destruct (Hq item (or_introl eq_refl)). auto. }
  destruct H as (Hv & Hg & _ & _ & _ & Hfetched & Hiter & _).
  rewrite Hqueue in Hnd, Hq. cbn [map] in Hnd. apply NoDup_cons in Hnd as (Hni & Hnd).
  assert (Hfresh : queueFresh _ (withVisited _ (withQueue _ (manager _ r) rest)
                                   ({[url item]} ∪ visited _ (manager _ r)))).
  { unfold queueFresh. cbn. split; [assumption|]. intros q Hin.
    destruct (Hq q (or_intror Hin)) as (Hd & Hnv). split; [assumption|].
    intros [Heq%elem_of_singleton|Hin']%elem_of_union; [|auto].
    apply Hni. rewrite <- Heq. apply list_elem_of_In. now apply in_map. }
  pose proof (grows_queueFresh _ _ _ Hfresh Hg) as Hfresh'.
  pose proof (grows_discovered _ _ _ Hg) as (Hsub & _).
  destruct Hg as (_ & Hvis & _). cbn in Hvis, Hsub.
  unfold fetchedOnce, fetchedUrls. rewrite Hfetched, Hiter, Hvis, map_app, length_app.
  cbn [map fst length]. split; [assumption|]. split; [|split; [|split; [|split]]].
  - intros u [Hin|[<-|[]]]%in_app_iff.
    + apply elem_of_union_r. now apply Hf.
    + apply elem_of_union_l. now apply elem_of_singleton.
  - apply NoDup_app. split; [assumption|]. split; [|apply NoDup_singleton].
    intros x Hx Hx'. apply list_elem_of_In in Hx. apply list_elem_of_In in Hx'.
    destruct Hx' as [<-|[]]. apply Hv. now apply Hf.
  - rewrite Hit. lia.
  - intros x [Hx%elem_of_singleton|Hx]%elem_of_union.
    + subst x. apply Hsub. now destruct (Hq item (or_introl eq_refl)).
    + apply Hsub. now apply Hvd.
  - intros n Hn. destruct (HK n Hn) as (Hnv & Hnf). split.
    + now apply elem_of_union_r.
    + intros [Hin|[<-|[]]]%in_app_iff; auto.
Qed.

Lemma crawlStep_allAdmitted (s0 : State) (r r' : Run) (b : bool) :
  allAdmitted parseURL _ matcherIsAllowed s0 r -> iteration r = Some (r', b) ->
  allAdmitted parseURL _ matcherIsAllowed s0 r'.
Proof.
  intros (Hs & Hq & Hf) H.
  apply crawlStep_inv in H as (item & rest & Hqueue & _ & [(_ & -> & _)|H]).
  - rewrite Hqueue in Hq. apply Forall_cons in Hq as (_ & Hq).
    unfold allAdmitted. cbn. auto.
  - destruct H as (_ & Hg & _ & _ & _ & Hfetched & _).
    rewrite Hqueue in Hq. apply Forall_cons in Hq as (Hitem & Hq).
    apply (grows_admitted _ s0) in Hg as (Hs' & Hq'); [| exact Hs | exact Hq].
    unfold allAdmitted. rewrite Hfetched. split; [assumption|]. split; [assumption|].
    apply Forall_app. split; [assumption|]. constructor; [assumption|constructor].
Qed.

Lemma crawlStep_counted (r r' : Run) (b : bool) :
  counted _ r -> iteration r = Some (r', b) -> counted _ r'.
Proof.
  intros (Hc & Hf) H.
  apply crawlStep_inv in H as (item & rest & _ & _ & [(_ & -> & _)|H]).
  - split; assumption.
  - destruct H as (_ & _ & _ & Hc' & Hf' & Hfetched & _).
    unfold counted. rewrite Hc', Hf', Hfetched, !List.filter_app, !length_app. cbn.
    destruct (completed (visit (fetched _ r) item)); cbn; lia.
Qed.

Lemma crawlStep_withinBudget (B : nat) (r r' : Run) (b : bool) :
  withinBudget _ B r -> iteration r = Some (r', b) -> withinBudget _ B r'.
Proof.
  unfold withinBudget. intros HB H. apply crawlStep_budget in H. lia.
Qed.

Lemma crawlStep_accounted (base limit : Z) (r r' : Run) (b : bool) :
  accounted _ base limit r -> iteration r = Some (r', b) -> accounted _ base limit r'.
Proof.
  intros (Hp & Hsz & Hmax) H.
  apply crawlStep_inv in H as (item & rest & _ & _ & [(_ & -> & _)|H]).
  - unfold accounted. cbn. auto.
  - destruct H as (_ & Hg & _).
    pose proof (grows_discovered _ _ _ Hg) as (_ & Hpd).
    destruct Hg as ((_ & Hset & _) & _ & _ & Hlim & _). cbn in Hpd, Hlim, Hset.
    unfold accounted. rewrite Hset. repeat split; lia.
Qed.

Lemma countTo_nonneg (n : string) (ls : list string) : 0 <= countTo parseURL n ls.
Proof. unfold countTo. lia. Qed.

Lemma countTo_snoc (n : string) (ls : list string) (l : string) :
  countTo parseURL n (ls ++ [l])
  = countTo parseURL n ls + (if bool_decide (normalizeUrl l = Some n) then 1 else 0).
Proof.
  unfold countTo. rewrite List.filter_app, length_app. cbn.
  destruct (bool_decide (normalizeUrl l = Some n)); cbn; lia.
Qed.

(** The loop of [trackIncomingLink] over the links of a page. *)
Lemma trackIncomingLink_fold (ls seen : list string) (m : gmap string Z) :
  (forall n, m !! n = let c := countTo parseURL n seen in if c =? 0 then None else Some c) ->
  forall n, fold_left (trackIncomingLink parseURL) ls m !! n
            = let c := countTo parseURL n (seen ++ ls) in if c =? 0 then None else Some c.
Proof.
  revert seen m. induction ls as [|l ls IH]; intros seen m Hm n; cbn [fold_left].
  - rewrite app_nil_r. apply Hm.
  - replace (seen ++ l :: ls) with ((seen ++ [l]) ++ ls) by now rewrite <- app_assoc.
    apply IH. clear n. intros n. cbn zeta. rewrite countTo_snoc.
    pose proof (countTo_nonneg n seen) as Hpos.
    unfold trackIncomingLink. destruct (normalizeUrl l) as [k|] eqn:Hk.
    + destruct (decide (k = n)) as [->|Hne].
      * rewrite lookup_insert_eq, bool_decide_eq_true_2 by reflexivity.
        rewrite (Hm n). cbn zeta.
        destruct (countTo parseURL n seen =? 0) eqn:Hz.
        -- apply Z.eqb_eq in Hz. rewrite Hz. reflexivity.
        -- cbn [default]. destruct (countTo parseURL n seen + 1 =? 0) eqn:Hz';
             [apply Z.eqb_eq in Hz'; lia|reflexivity].
      * rewrite lookup_insert_ne by assumption.
        rewrite bool_decide_eq_false_2 by congruence.
        rewrite Z.add_0_r. apply Hm.
    + rewrite bool_decide_eq_false_2 by discriminate. rewrite Z.add_0_r. apply Hm.
Qed.

Lemma linksSeen_snoc (log : list (QueueItem * Visit)) (e : QueueItem * Visit) :
  linksSeen (log ++ [e]) = linksSeen log ++ links (snd e).
Proof. unfold linksSeen. rewrite flat_map_app. cbn. now rewrite app_nil_r. Qed.

Lemma crawlStep_linksCounted (r r' : Run) (b : bool) :
  linksCounted parseURL _ r -> iteration r = Some (r', b) -> linksCounted parseURL _ r'.
Proof.
  intros Hl H.
  apply crawlStep_inv in H as (item & rest & _ & _ & [(_ & -> & _)|H]).
  - exact Hl.
  - destruct H as (_ & _ & Hinc & _ & _ & Hfetched & _).
    unfold linksCounted. rewrite Hinc, Hfetched, linksSeen_snoc. cbn [snd].
    now apply trackIncomingLink_fold.
Qed.

Lemma nondecreasing_app (l1 l2 : list Z) :
  nondecreasing (l1 ++ l2)
  <-> nondecreasing l1 /\ nondecreasing l2 /\ forall x y, In x l1 -> In y l2 -> x <= y.
Proof.
  induction l1 as [|a l1 IH]; cbn [app nondecreasing].
  - split; [intros H; repeat split; auto; intros x y []|tauto].
  - rewrite IH, Forall_app, !List.Forall_forall. split.
    + intros ((H1 & H2) & H3 & H4 & H5). repeat split; auto.
      intros x y [<-|Hx] Hy; auto.
    + intros ((H1 & H2) & H3 & H4). repeat split; auto.
      intros y Hy. apply H4; [now left|assumption].
      intros x y Hx Hy. apply H4; [now right|assumption].
Qed.

Lemma nondecreasing_constant (k : Z) (l : list Z) :
  (forall x, In x l -> x = k) -> nondecreasing l.
Proof.
  induction l as [|a l IH]; intros H; cbn; [exact I|]. split.
  - apply List.Forall_forall. intros x Hx.
    rewrite (H a (or_introl eq_refl)), (H x (or_intror Hx)). lia.
  - apply IH. intros x Hx. apply H. now right.
Qed.

Lemma crawlStep_breadthFirst (r r' : Run) (b : bool) :
  breadthFirst _ r -> iteration r = Some (r', b) -> breadthFirst _ r'.
Proof.
  unfold breadthFirst, depthsOf. intros (Hs & Hr) H.
  apply crawlStep_inv in H as (item & rest & Hq & _ & [(_ & -> & _)|H]).
  - cbn. rewrite Hq in Hs, Hr. cbn [map] in Hs.
    apply nondecreasing_app in Hs as (H1 & (_ & H2) & H3). split.
    + apply nondecreasing_app. repeat split; auto.
      intros x y Hx Hy. apply H3; [assumption|now right].
    + intros x y Hx Hy. apply Hr; now right.
  - destruct H as (_ & Hg & _ & _ & _ & Hfetched & _).
    destruct Hg as (_ & _ & _ & _ & cs & Hqueue & Hall & _). cbn in Hqueue.
    rewrite List.Forall_forall in Hall.
    rewrite Hq in Hs, Hr. cbn [map] in Hs.
    assert (Hcs : forall c, In c cs -> depth c = depth item + 1).
    { intros c Hc. now destruct (Hall c Hc) as ((? & _) & _). }
    assert (Hrest : forall q, In q rest -> depth item <= depth q <= depth item + 1).
    { intros q Hin. split.
      - apply nondecreasing_app in Hs as (_ & (Hle & _) & _).
        rewrite List.Forall_forall in Hle. apply Hle. now apply in_map.
      - apply Hr; [now left|now right]. }
    rewrite Hfetched, Hqueue, !map_app. cbn [map fst]. split.
    + rewrite <- app_assoc. cbn [app].
      replace (map (fun e => depth (fst e)) (fetched _ r)
               ++ depth item :: map depth rest ++ map depth cs)
        with ((map (fun e => depth (fst e)) (fetched _ r) ++ depth item :: map depth rest)
              ++ map depth cs) by now rewrite <- app_assoc.
      apply nondecreasing_app. split; [assumption|]. split.
      * apply (nondecreasing_constant (depth item + 1)).
        intros x (c & <- & Hc)%in_map_iff. auto.
      * intros x y Hx (c & <- & Hc)%in_map_iff. rewrite (Hcs c Hc).
        apply in_app_iff in Hx as [Hx|[<-|(q & <- & Hqin)%in_map_iff]].
        -- apply nondecreasing_app in Hs as (_ & _ & Hle).
           specialize (Hle x (depth item) Hx (or_introl eq_refl)). lia.
        -- lia.
        -- apply Hrest in Hqin. lia.
    + intros x y [Hx|Hx]%in_app_iff [Hy|Hy]%in_app_iff.
      * apply Hr; now right.
      * rewrite (Hcs y Hy). apply Hrest in Hx. lia.
      * rewrite (Hcs x Hx). apply Hrest in Hy. lia.
      * rewrite (Hcs x Hx), (Hcs y Hy). lia.
Qed.

Lemma crawlStep_covered (K : gset string) (r r' : Run) (b : bool) :
  fetchedOnce _ K r /\ covered _ K r -> iteration r = Some (r', b) ->
  fetchedOnce _ K r' /\ covered _ K r'.
Proof.
  intros (Hf & Hc) H. split; [eapply crawlStep_fetchedOnce; eauto|].
  destruct Hf as ((_ & Hfresh) & _).
  unfold covered, fetchedUrls in *.
  apply crawlStep_inv in H as (item & rest & Hq & _ & [(Hv & _ & _)|H]).
  { exfalso. rewrite Hq in Hfresh. destruct (Hfresh item (or_introl eq_refl)). auto. }
  destruct H as (_ & Hg & _ & _ & _ & Hfetched & _).
  destruct Hg as (_ & _ & _ & _ & cs & Hqueue & _ & _ & Hdisc & _).
  cbn in Hqueue, Hdisc.
  rewrite Hdisc, Hc, Hq, Hqueue, Hfetched, !map_app. cbn [map fst].
  apply set_eq. intros x.
  rewrite !elem_of_union, !elem_of_list_to_set, !elem_of_app, !elem_of_cons, elem_of_nil.
  tauto.
Qed.

Lemma originOf_more (earlier : list QueueItem) (p c : QueueItem) :
  originOf earlier c -> originOf (earlier ++ [p]) c.
Proof.
  unfold originOf. destruct (discoveredVia c); auto.
  intros (q & Hq & Hrest). exists q. split; [apply in_app_iff; now left|assumption].
Qed.

Lemma crawlStep_rooted (r r' : Run) (b : bool) :
  rooted _ r -> iteration r = Some (r', b) -> rooted _ r'.
Proof.
  intros (Hq & Hf) H.
  apply crawlStep_inv in H as (item & rest & Hqueue & _ & [(_ & -> & _)|H]).
  - unfold rooted. cbn. split; [|exact Hf].
    intros c Hc. apply Hq. rewrite Hqueue. now right.
  - destruct H as (_ & Hg & _ & _ & _ & Hfetched & _).
    destruct Hg as (_ & _ & _ & _ & cs & Hqueue' & Hall & _). cbn in Hqueue'.
    rewrite List.Forall_forall in Hall. rewrite Hqueue in Hq.
    unfold rooted. rewrite Hfetched, Hqueue', map_app. cbn [map fst]. split.
    + intros c [Hc|Hc]%in_app_iff.
      * apply originOf_more, Hq. now right.
      * destruct (Hall c Hc) as ((Hd & Hp & Hvia) & _).
        unfold originOf. rewrite Hvia. exists item.
        split; [apply in_app_iff; right; now left|auto].
    + intros l1 e l2 Hsplit.
      destruct l2 as [|y l2] using rev_ind.
      * apply app_inj_tail in Hsplit as (<- & <-). apply Hq. now left.
      * clear IHl2. rewrite app_comm_cons, app_assoc in Hsplit.
        apply app_inj_tail in Hsplit as (Hsplit & _). eapply Hf. exact Hsplit.
Qed.

(** *** The state in which the loop starts *)

Lemma preloadUrl_fold (us : list string) (s : State) :
  let g := fun (acc : gset string) u =>
             match normalizeUrl u with Some n => {[n]} ∪ acc | None => acc end in
  let s' := fold_left (preloadUrl parseURL Matcher) us s in
  projectDomain _ s' = projectDomain _ s /\ settings _ s' = settings _ s
  /\ robotsParser _ s' = robotsParser _ s /\ queue _ s' = queue _ s
  /\ visited _ s' = fold_left g us (visited _ s)
  /\ discovered _ s' = fold_left g us (discovered _ s)
  /\ pagesDiscovered _ s' = pagesDiscovered _ s.
Proof.
  cbn zeta. revert s. induction us as [|u us IH]; intros s; cbn [fold_left].
  - repeat split.
  - destruct (IH (preloadUrl parseURL Matcher s u)) as (H1 & H2 & H3 & H4 & H5 & H6 & H7).
    rewrite H1, H2, H3, H4, H5, H6, H7. unfold preloadUrl.
    destruct (normalizeUrl u); cbn; repeat split.
Qed.

(** The seeding offers the start URL at depth 0 and then the sitemap
    URLs at depth 1 to the loaded manager. *)
Lemma seeded_grows domain crawlSettings resumeInfo robots sitemapUrls :
  let s0 := loaded parseURL Matcher domain crawlSettings resumeInfo robots in
  let r0 := seeded domain crawlSettings resumeInfo robots sitemapUrls in
  incomingLinks _ r0 = ∅ /\ pagesCrawled _ r0 = 0 /\ pagesFailed _ r0 = 0
  /\ fetched _ r0 = [] /\ iterations _ r0 = 0%nat
  /\ exists s1, grows (fun c => depth c = 0 /\ parentUrl c = None /\ discoveredVia c = seed) s0 s1
                /\ grows (fun c => depth c = 1 /\ parentUrl c = None
                                   /\ discoveredVia c = sitemap) s1 (manager _ r0).
Proof.
  cbn zeta. unfold CrawlRun.seeded.
  cbn [incomingLinks pagesCrawled pagesFailed fetched iterations manager].
  do 5 (split; [reflexivity|]).
  assert (Hload : mkState Matcher
            (projectDomain _ (preload parseURL Matcher
                                (mkState Matcher domain crawlSettings None [] ∅ ∅ 0) resumeInfo))
            (settings _ (preload parseURL Matcher
                           (mkState Matcher domain crawlSettings None [] ∅ ∅ 0) resumeInfo))
            robots
            (queue _ (preload parseURL Matcher
                        (mkState Matcher domain crawlSettings None [] ∅ ∅ 0) resumeInfo))
            (visited _ (preload parseURL Matcher
                          (mkState Matcher domain crawlSettings None [] ∅ ∅ 0) resumeInfo))
            (discovered _ (preload parseURL Matcher
                             (mkState Matcher domain crawlSettings None [] ∅ ∅ 0) resumeInfo))
            (pagesDiscovered _ (preload parseURL Matcher
                                  (mkState Matcher domain crawlSettings None [] ∅ ∅ 0) resumeInfo))
          = loaded parseURL Matcher domain crawlSettings resumeInfo robots).
  { unfold loaded, preload, skipSet. destruct resumeInfo as [info|]; [|reflexivity].
    destruct (preloadUrl_fold (skip_urls info)
                (mkState Matcher domain crawlSettings None [] ∅ ∅ 0))
      as (H1 & H2 & H3 & H4 & H5 & H6 & H7).
    cbn [projectDomain settings robotsParser queue visited discovered pagesDiscovered] in *.
    now rewrite H1, H2, H4, H5, H6. }
  rewrite Hload. unfold seedAll.
  eexists. split.
  - apply addToQueue_grows. intros n. auto.
  - apply addAll_grows. intros n. auto.
Qed.

(** The invariants hold when the loop starts. *)
Lemma seeded_invariants domain crawlSettings resumeInfo robots sitemapUrls :
  let K := skipSet parseURL resumeInfo in
  let s0 := loaded parseURL Matcher domain crawlSettings resumeInfo robots in
  let r0 := seeded domain crawlSettings resumeInfo robots sitemapUrls in
  (budget _ (manager _ r0)
   = Z.to_nat (max_pages crawlSettings - Z.of_nat (size K)))
  /\ fetchedOnce _ K r0 /\ covered _ K r0
  /\ allAdmitted parseURL _ matcherIsAllowed s0 r0
  /\ counted _ r0 /\ linksCounted parseURL _ r0
  /\ withinBudget _ (Z.to_nat (max_pages crawlSettings - Z.of_nat (size K))) r0
  /\ accounted _ (pagesDiscovered _ s0 - Z.of_nat (size K))
        (Z.max (max_pages crawlSettings) (Z.of_nat (size K))) r0
  /\ breadthFirst _ r0 /\ rooted _ r0.
Proof.
  cbn zeta.
  destruct (seeded_grows domain crawlSettings resumeInfo robots sitemapUrls)
    as (Hinc & Hpc & Hpf & Hfetched & Hiter & s1 & Hg0 & Hg1).
  set (K := skipSet parseURL resumeInfo) in *.
  set (s0 := loaded parseURL Matcher domain crawlSettings resumeInfo robots) in *.
  set (r0 := seeded domain crawlSettings resumeInfo robots sitemapUrls) in *.
  assert (Hg : grows (fun c => 0 <= depth c <= 1) s0 (manager _ r0)).
  { eapply grows_trans; (eapply grows_weaken; [|eassumption]); cbn beta;
      intros c (Hc & _); lia. }
  assert (Hfresh0 : queueFresh _ s0).
  { unfold queueFresh. cbn. split; [constructor|intros ? []]. }
  pose proof (grows_queueFresh (fun c => 0 <= depth c <= 1) _ _ Hfresh0 Hg) as Hfresh.
  pose proof (grows_discovered (fun c => 0 <= depth c <= 1) _ _ Hg) as (Hsub & Hpd).
  assert (Hadm : sameCrawl _ s0 (manager _ r0) /\ Forall (admitted s0) (queue _ (manager _ r0))).
  { apply (grows_admitted (fun c => 0 <= depth c <= 1) s0 s0);
      [unfold sameCrawl; auto|constructor|exact Hg]. }
  assert (Hbudget : budget _ (manager _ r0)
                    = Z.to_nat (max_pages crawlSettings - Z.of_nat (size K))).
  { destruct Hg as (_ & _ & -> & _). reflexivity. }
  split; [exact Hbudget|].
  split; [|split; [|split; [|split; [|split; [|split; [|split; [|split]]]]]]].
  - unfold fetchedOnce, fetchedUrls. rewrite Hfetched, Hiter. cbn [map length].
    split; [assumption|]. split; [intros ? []|]. split; [constructor|].
    split; [reflexivity|].
    destruct Hg as (_ & Hv & _). rewrite Hv. cbn [visited loaded].
    split; [exact Hsub|]. intros n Hn. split; [assumption|intros []].
  - unfold covered, fetchedUrls. rewrite Hfetched. cbn [map list_to_set].
    destruct Hg as (_ & _ & _ & _ & cs & Hq & _ & _ & Hdisc & _).
    rewrite Hdisc, Hq. cbn [queue discovered loaded app s0].
    apply set_eq. intros x. rewrite !elem_of_union, elem_of_empty. tauto.
  - unfold allAdmitted. rewrite Hfetched. destruct Hadm.
    split; [assumption|]. split; [assumption|constructor].
  - unfold counted. rewrite Hpc, Hpf, Hfetched. split; reflexivity.
  - unfold linksCounted. intros n. rewrite Hinc, Hfetched. apply lookup_empty.
  - unfold withinBudget. rewrite Hfetched, Hbudget. cbn [length]. lia.
  - unfold accounted. destruct Hg as ((_ & Hset & _) & _ & _ & Hlim & _).
    rewrite Hset. cbn [settings discovered loaded s0] in *.
    fold K in Hpd, Hlim |- *. repeat split; lia.
  - unfold breadthFirst, depthsOf. rewrite Hfetched. cbn [map app].
    destruct Hg0 as (_ & _ & _ & _ & cs0 & Hq0 & Hall0 & _).
    destruct Hg1 as (_ & _ & _ & _ & cs1 & Hq1 & Hall1 & _).
    rewrite Hq1, Hq0. cbn [queue loaded s0 app].
    rewrite List.Forall_forall in Hall0, Hall1.
    assert (H0 : forall c, In c cs0 -> depth c = 0)
      by (intros c Hc; now destruct (Hall0 c Hc) as ((? & _) & _)).
    assert (H1 : forall c, In c cs1 -> depth c = 1)
      by (intros c Hc; now destruct (Hall1 c Hc) as ((? & _) & _)).
    split.
    + rewrite map_app. apply nondecreasing_app. split; [|split].
      * apply (nondecreasing_constant 0). intros x (c & <- & Hc)%in_map_iff. auto.
      * apply (nondecreasing_constant 1). intros x (c & <- & Hc)%in_map_iff. auto.
      * intros x y (c & <- & Hc)%in_map_iff (c' & <- & Hc')%in_map_iff.
        rewrite (H0 c Hc), (H1 c' Hc'). lia.
    + intros x y [Hx|Hx]%in_app_iff [Hy|Hy]%in_app_iff;
        repeat match goal with
        | H : In _ cs0 |- _ => apply H0 in H
        | H : In _ cs1 |- _ => apply H1 in H
        end; lia.
  - unfold rooted. rewrite Hfetched. split.
    + destruct Hg0 as (_ & _ & _ & _ & cs0 & Hq0 & Hall0 & _).
      destruct Hg1 as (_ & _ & _ & _ & cs1 & Hq1 & Hall1 & _).
      rewrite Hq1, Hq0. cbn [queue loaded s0 app].
      rewrite List.Forall_forall in Hall0, Hall1.
      intros c [Hc|Hc]%in_app_iff; unfold originOf.
      * destruct (Hall0 c Hc) as ((Hd & Hp & ->) & _). auto.
      * destruct (Hall1 c Hc) as ((Hd & Hp & ->) & _). auto.
    + intros [|? ?] e l2 H; discriminate.
Qed.

Lemma skipSet_elem (info : ResumeInfo) (u n : string) :
  In u (skip_urls info) -> normalizeUrl u = Some n -> n ∈ skipSet parseURL (Some info).
Proof.
  unfold skipSet. generalize (∅ : gset string).
  induction (skip_urls info) as [|a us IH]; intros acc Hin Hn; [destruct Hin|].
  cbn [fold_left]. destruct Hin as [->|Hin]; [|now apply IH].
  rewrite Hn. clear IH.
  assert (Hacc : n ∈ {[n]} ∪ acc) by (apply elem_of_union_l; now apply elem_of_singleton).
  revert Hacc. generalize ({[n]} ∪ acc). induction us as [|b us IH]; intros acc' Hacc.
  - exact Hacc.
  - cbn [fold_left]. apply IH. destruct (normalizeUrl b); [now apply elem_of_union_r|assumption].
Qed.

(** The loop ends from the seeded state and all invariants hold at its
    end. *)
Lemma run_invariants domain crawlSettings resumeInfo robots sitemapUrls (fuel : nat) :
  (Z.to_nat (max_pages crawlSettings) < fuel)%nat ->
  let K := skipSet parseURL resumeInfo in
  let s0 := loaded parseURL Matcher domain crawlSettings resumeInfo robots in
  exists r' e,
    run fuel domain crawlSettings resumeInfo robots sitemapUrls = Some (r', e)
    /\ (e = Resolved -> iteration r' = None)
    /\ (fetchedOnce _ K r' /\ covered _ K r')
    /\ allAdmitted parseURL _ matcherIsAllowed s0 r'
    /\ counted _ r' /\ linksCounted parseURL _ r'
    /\ withinBudget _ (Z.to_nat (max_pages crawlSettings - Z.of_nat (size K))) r'
    /\ accounted _ (pagesDiscovered _ s0 - Z.of_nat (size K))
         (Z.max (max_pages crawlSettings) (Z.of_nat (size K))) r'
    /\ breadthFirst _ r' /\ rooted _ r'.
Proof.
  intros Hfuel K s0.
  destruct (seeded_invariants domain crawlSettings resumeInfo robots sitemapUrls)
    as (Hb & H1 & H2 & H3 & H4 & H5 & H6 & H7 & H8 & H9).
  fold K in Hb, H1, H2, H6, H7. fold s0 in H3, H7.
  unfold CrawlRun.run.
  destruct (processQueue_ends_with
              (fun r => (fetchedOnce _ K r /\ covered _ K r)
                        /\ allAdmitted parseURL _ matcherIsAllowed s0 r
                        /\ counted _ r /\ linksCounted parseURL _ r
                        /\ withinBudget _
                             (Z.to_nat (max_pages crawlSettings - Z.of_nat (size K))) r
                        /\ accounted _ (pagesDiscovered _ s0 - Z.of_nat (size K))
                             (Z.max (max_pages crawlSettings) (Z.of_nat (size K))) r
                        /\ breadthFirst _ r /\ rooted _ r))
    with (fuel := fuel) (r := seeded domain crawlSettings resumeInfo robots sitemapUrls)
    as (r' & e & Hrun & HP & Hend).
  - intros r r' b (G1 & G2 & G3 & G4 & G5 & G6 & G7 & G8) Hit.
    split; [eapply crawlStep_covered; eauto|].
    split; [eapply crawlStep_allAdmitted; eauto|].
    split; [eapply crawlStep_counted; eauto|].
    split; [eapply crawlStep_linksCounted; eauto|].
    split; [eapply crawlStep_withinBudget; eauto|].
    split; [eapply crawlStep_accounted; eauto|].
    split; [eapply crawlStep_breadthFirst; eauto|].
    eapply crawlStep_rooted; eauto.
  - rewrite Hb. lia.
  - auto 10.
  - exists r', e. split; [exact Hrun|]. split; [exact Hend|]. exact HP.
Qed.

(** X9. The run of a crawl ends, whatever the pages link to: with fuel
    above [max_pages] the queue loop returns, having fetched at most
    [max_pages] minus the number of distinct normalized skip URLs pages
    (none at all when that many URLs are skipped). *)
Theorem run_terminates domain crawlSettings resumeInfo robots sitemapUrls (fuel : nat) :
  (Z.to_nat (max_pages crawlSettings) < fuel)%nat ->
  exists r' e,
    run fuel domain crawlSettings resumeInfo robots sitemapUrls = Some (r', e)
    /\ Z.of_nat (length (fetched _ r'))
       <= Z.max 0 (max_pages crawlSettings - Z.of_nat (size (skipSet parseURL resumeInfo))).
Proof.
  intros Hfuel.
  destruct (run_invariants domain crawlSettings resumeInfo robots sitemapUrls fuel Hfuel)
    as (r' & e & Hrun & _ & _ & _ & _ & _ & Hb & _).
  exists r', e. split; [exact Hrun|]. unfold withinBudget in Hb. lia.
Qed.

(** X10. At the end of the run every fetch is counted once: as crawled
    when the [try] block completed and as failed otherwise, so the two
    counters add up to the number of fetches. *)
Theorem run_counters domain crawlSettings resumeInfo robots sitemapUrls (fuel : nat) :
  (Z.to_nat (max_pages crawlSettings) < fuel)%nat ->
  exists r' e,
    run fuel domain crawlSettings resumeInfo robots sitemapUrls = Some (r', e)
    /\ pagesCrawled _ r'
       = Z.of_nat (length (List.filter (fun e => completed (snd e)) (fetched _ r')))
    /\ pagesFailed _ r'
       = Z.of_nat (length (List.filter (fun e => negb (completed (snd e))) (fetched _ r')))
    /\ pagesCrawled _ r' + pagesFailed _ r' = Z.of_nat (length (fetched _ r')).
Proof.
  intros Hfuel.
  destruct (run_invariants domain crawlSettings resumeInfo robots sitemapUrls fuel Hfuel)
    as (r' & e & Hrun & _ & _ & _ & (Hc & Hf) & _).
  exists r', e. split; [exact Hrun|]. split; [exact Hc|]. split; [exact Hf|].
  rewrite Hc, Hf. clear. induction (fetched _ r') as [|x l IH]; cbn; [reflexivity|].
  destruct (completed (snd x)); cbn; lia.
Qed.

(** X11. No URL is fetched twice in a run, no skip URL of the resume
    information is fetched, and every item taken from the queue is
    fetched: the test for an already visited item never succeeds. *)
Theorem run_fetches_once domain crawlSettings resumeInfo robots sitemapUrls (fuel : nat) :
  (Z.to_nat (max_pages crawlSettings) < fuel)%nat ->
  exists r' e,
    run fuel domain crawlSettings resumeInfo robots sitemapUrls = Some (r', e)
    /\ NoDup (fetchedUrls _ r')
    /\ iterations _ r' = length (fetched _ r')
    /\ forall info u n, resumeInfo = Some info -> In u (skip_urls info) ->
         normalizeUrl u = Some n -> ~ In n (fetchedUrls _ r').
Proof.
  intros Hfuel.
  destruct (run_invariants domain crawlSettings resumeInfo robots sitemapUrls fuel Hfuel)
    as (r' & e & Hrun & _ & ((_ & _ & Hnd & Hit & _ & HK) & _) & _).
  exists r', e. split; [exact Hrun|]. split; [exact Hnd|]. split; [exact Hit|].
  intros info u n -> Hin Hn. apply HK. eapply skipSet_elem; eauto.
Qed.

(** X12. Every page fetched in a run passed the guards of [addToQueue]:
    its depth is at most [max_depth], robots.txt allows it when a
    parser is installed, it matches the include and exclude patterns,
    it lies in the allowed domain and it is SEO relevant. *)
Theorem run_fetches_admitted domain crawlSettings resumeInfo robots sitemapUrls (fuel : nat) :
  (Z.to_nat (max_pages crawlSettings) < fuel)%nat ->
  exists r' e,
    run fuel domain crawlSettings resumeInfo robots sitemapUrls = Some (r', e)
    /\ forall item v, In (item, v) (fetched _ r') ->
         depth item <= max_depth crawlSettings
         /\ (forall parser, robots = Some parser ->
               Robots.isAllowed Matcher matcherIsAllowed parser (url item) = true)
         /\ matchesPatterns crawlSettings (url item) = true
         /\ isAllowedDomain parseURL Matcher
              (loaded parseURL Matcher domain crawlSettings resumeInfo robots) (url item) = true
         /\ SeoUrlFilter.isSeoRelevant parseURL (url item) = true.
Proof.
  intros Hfuel.
  destruct (run_invariants domain crawlSettings resumeInfo robots sitemapUrls fuel Hfuel)
    as (r' & e & Hrun & _ & _ & (_ & _ & Ha) & _).
  exists r', e. split; [exact Hrun|]. intros item v Hin.
  rewrite List.Forall_forall in Ha. destruct (Ha _ Hin) as (Hd & Hr & Hp & Hdom & Hseo).
  cbn [fst settings robotsParser loaded] in *. repeat split; auto.
  intros parser ->. exact Hr.
Qed.

(** X13. Pages are fetched breadth first: the depths of the fetched
    pages, in the order of the fetches, never decrease. *)
Theorem run_breadth_first domain crawlSettings resumeInfo robots sitemapUrls (fuel : nat) :
  (Z.to_nat (max_pages crawlSettings) < fuel)%nat ->
  exists r' e,
    run fuel domain crawlSettings resumeInfo robots sitemapUrls = Some (r', e)
    /\ nondecreasing (map (fun e => depth (fst e)) (fetched _ r')).
Proof.
  intros Hfuel.
  destruct (run_invariants domain crawlSettings resumeInfo robots sitemapUrls fuel Hfuel)
    as (r' & e & Hrun & _ & _ & _ & _ & _ & _ & _ & (Hs & _) & _).
  exists r', e. split; [exact Hrun|].
  unfold depthsOf in Hs. now apply nondecreasing_app in Hs as (? & _).
Qed.

(** X14. At the end of the run the incoming-link count of a URL is the
    number of links, over all fetched pages, that normalize to it; a
    URL no link normalizes to has no entry. *)
Theorem run_incoming_links domain crawlSettings resumeInfo robots sitemapUrls (fuel : nat) :
  (Z.to_nat (max_pages crawlSettings) < fuel)%nat ->
  exists r' e,
    run fuel domain crawlSettings resumeInfo robots sitemapUrls = Some (r', e)
    /\ forall n, incomingLinks _ r' !! n
                 = let c := countTo parseURL n (linksSeen (fetched _ r')) in
                   if c =? 0 then None else Some c.
Proof.
  intros Hfuel.
  destruct (run_invariants domain crawlSettings resumeInfo robots sitemapUrls fuel Hfuel)
    as (r' & e & Hrun & _ & _ & _ & _ & Hl & _).
  exists r', e. split; [exact Hrun|]. exact Hl.
Qed.

(** X15. [pagesDiscovered] is the count the resume information gave
    (0 for a new crawl) plus the number of URLs discovered in this run,
    and the discovered set never grows beyond [max_pages] unless the
    skip URLs alone exceed it. *)
Theorem run_discovered_count domain crawlSettings resumeInfo robots sitemapUrls (fuel : nat) :
  (Z.to_nat (max_pages crawlSettings) < fuel)%nat ->
  exists r' e,
    run fuel domain crawlSettings resumeInfo robots sitemapUrls = Some (r', e)
    /\ pagesDiscovered _ (manager _ r')
       = match resumeInfo with
         | Some info => original_pages_discovered info
         | None => 0
         end
         + (Z.of_nat (size (discovered _ (manager _ r')))
            - Z.of_nat (size (skipSet parseURL resumeInfo)))
    /\ skipSet parseURL resumeInfo ⊆ discovered _ (manager _ r')
    /\ Z.of_nat (size (discovered _ (manager _ r')))
       <= Z.max (max_pages crawlSettings) (Z.of_nat (size (skipSet parseURL resumeInfo))).
Proof.
  intros Hfuel.
  destruct (run_invariants domain crawlSettings resumeInfo robots sitemapUrls fuel Hfuel)
    as (r' & e & Hrun & _ & ((_ & _ & _ & _ & Hvd & HK) & _) & _ & _ & _ & _
        & (Hp & Hsz & _) & _).
  exists r', e. split; [exact Hrun|]. cbn [pagesDiscovered loaded] in Hp.
  split; [lia|]. split; [|exact Hsz].
  intros n Hn. apply Hvd. now apply HK.
Qed.

(** X16. When the queue loop resolves without the crawl being
    cancelled, the queue is empty and every discovered URL is a skip
    URL or was fetched. *)
Theorem run_covers_discovered domain crawlSettings resumeInfo robots sitemapUrls (fuel : nat) :
  (Z.to_nat (max_pages crawlSettings) < fuel)%nat ->
  exists r' e,
    run fuel domain crawlSettings resumeInfo robots sitemapUrls = Some (r', e)
    /\ (e = Resolved -> cancelledAt (iterations _ r') = false ->
        queue _ (manager _ r') = []
        /\ discovered _ (manager _ r')
           = skipSet parseURL resumeInfo ∪ list_to_set (fetchedUrls _ r')).
Proof.
  intros Hfuel.
  destruct (run_invariants domain crawlSettings resumeInfo robots sitemapUrls fuel Hfuel)
    as (r' & e & Hrun & Hend & (_ & Hc) & _).
  exists r', e. split; [exact Hrun|]. intros He Hcancel. specialize (Hend He).
  unfold CrawlRun.iteration in Hend.
  destruct (queue _ (manager _ r')) as [|item rest] eqn:Hq.
  - split; [reflexivity|]. unfold covered in Hc. rewrite Hc, Hq. cbn [map list_to_set].
    apply set_eq. intros x. rewrite !elem_of_union, elem_of_empty. tauto.
  - rewrite Hcancel in Hend.
    destruct (bool_decide (url item ∈ visited _ (withQueue _ (manager _ r') rest)));
      discriminate.
Qed.

(** X30. The fetched pages form a tree below the start URL and the
    sitemap URLs: a page found by the crawl was queued by a page
    fetched before it, is recorded with that page as its parent, and
    lies one level deeper; the start URL has depth 0 and a sitemap URL
    depth 1, both without parent. *)
Theorem run_discovery_tree domain crawlSettings resumeInfo robots sitemapUrls (fuel : nat) :
  (Z.to_nat (max_pages crawlSettings) < fuel)%nat ->
  exists r' e,
    run fuel domain crawlSettings resumeInfo robots sitemapUrls = Some (r', e)
    /\ forall l1 c v l2, fetched _ r' = l1 ++ (c, v) :: l2 ->
         match discoveredVia c with
         | seed => depth c = 0 /\ parentUrl c = None
         | sitemap => depth c = 1 /\ parentUrl c = None
         | crawl => exists p, In p (map fst l1) /\ parentUrl c = Some (url p)
                              /\ depth c = depth p + 1
         end.
Proof.
  intros Hfuel.
  destruct (run_invariants domain crawlSettings resumeInfo robots sitemapUrls fuel Hfuel)
    as (r' & e & Hrun & _ & _ & _ & _ & _ & _ & _ & _ & (_ & Hf)).
  exists r', e. split; [exact Hrun|]. intros l1 c v l2 Hsplit.
  apply (Hf l1 (c, v) l2 Hsplit).
Qed.
End CrawlRunProperties.

(** The run of a small crawl that resumes an earlier one. *)

Lemma run_terminates_witness :
  exists r' e,
    CrawlRun.run Whatwg.parse RobotsLib.Matcher RobotsLib.isAllowed linkedVisit neverCancelled
      11 "ex.test" smallSettings (Some resumedCrawl) None ["https://ex.test/about"]
    = Some (r', e)
    /\ Z.of_nat (length (CrawlRun.fetched _ r'))
       <= Z.max 0 (CrawlManager.max_pages smallSettings
                   - Z.of_nat (size (CrawlRun.skipSet Whatwg.parse (Some resumedCrawl)))).
Proof.
  apply (run_terminates Whatwg.parse RobotsLib.Matcher RobotsLib.isAllowed linkedVisit
           neverCancelled "ex.test" smallSettings (Some resumedCrawl) None
           ["https://ex.test/about"] 11).
  cbn. lia.
Defined.

Lemma run_counters_witness :
  exists r' e,
    CrawlRun.run Whatwg.parse RobotsLib.Matcher RobotsLib.isAllowed linkedVisit neverCancelled
      11 "ex.test" smallSettings (Some resumedCrawl) None ["https://ex.test/about"]
    = Some (r', e)
    /\ CrawlRun.pagesCrawled _ r'
       = Z.of_nat (length (List.filter (fun e => CrawlRun.completed (snd e))
                             (CrawlRun.fetched _ r')))
    /\ CrawlRun.pagesFailed _ r'
       = Z.of_nat (length (List.filter (fun e => negb (CrawlRun.completed (snd e)))
                             (CrawlRun.fetched _ r')))
    /\ CrawlRun.pagesCrawled _ r' + CrawlRun.pagesFailed _ r'
       = Z.of_nat (length (CrawlRun.fetched _ r')).
Proof.
  apply (run_counters Whatwg.parse RobotsLib.Matcher RobotsLib.isAllowed linkedVisit
           neverCancelled "ex.test" smallSettings (Some resumedCrawl) None
           ["https://ex.test/about"] 11).
  cbn. lia.
Defined.

Lemma run_fetches_once_witness :
  exists r' e,
    CrawlRun.run Whatwg.parse RobotsLib.Matcher RobotsLib.isAllowed linkedVisit neverCancelled
      11 "ex.test" smallSettings (Some resumedCrawl) None ["https://ex.test/about"]
    = Some (r', e)
    /\ NoDup (CrawlRun.fetchedUrls _ r')
    /\ CrawlRun.iterations _ r' = length (CrawlRun.fetched _ r')
    /\ forall info u n, Some resumedCrawl = Some info -> In u (CrawlRun.skip_urls info) ->
         CrawlManager.normalizeUrl Whatwg.parse u = Some n ->
         ~ In n (CrawlRun.fetchedUrls _ r').
Proof.
  apply (run_fetches_once Whatwg.parse RobotsLib.Matcher RobotsLib.isAllowed linkedVisit
           neverCancelled "ex.test" smallSettings (Some resumedCrawl) None
           ["https://ex.test/about"] 11).
  cbn. lia.
Defined.

Lemma run_fetches_admitted_witness :
  exists r' e,
    CrawlRun.run Whatwg.parse RobotsLib.Matcher RobotsLib.isAllowed linkedVisit neverCancelled
      11 "ex.test" smallSettings (Some resumedCrawl) None ["https://ex.test/about"]
    = Some (r', e)
    /\ forall item v, In (item, v) (CrawlRun.fetched _ r') ->
         CrawlManager.depth item <= CrawlManager.max_depth smallSettings
         /\ (forall parser, None = Some parser ->
               Robots.isAllowed RobotsLib.Matcher RobotsLib.isAllowed parser
                 (CrawlManager.url item) = true)
         /\ CrawlManager.matchesPatterns smallSettings (CrawlManager.url item) = true
         /\ CrawlManager.isAllowedDomain Whatwg.parse RobotsLib.Matcher
              (CrawlRun.loaded Whatwg.parse RobotsLib.Matcher "ex.test" smallSettings
                 (Some resumedCrawl) None) (CrawlManager.url item) = true
         /\ SeoUrlFilter.isSeoRelevant Whatwg.parse (CrawlManager.url item) = true.
Proof.
  apply (run_fetches_admitted Whatwg.parse RobotsLib.Matcher RobotsLib.isAllowed linkedVisit
           neverCancelled "ex.test" smallSettings (Some resumedCrawl) None
           ["https://ex.test/about"] 11).
  cbn. lia.
Defined.

Lemma run_breadth_first_witness :
  exists r' e,
    CrawlRun.run Whatwg.parse RobotsLib.Matcher RobotsLib.isAllowed linkedVisit neverCancelled
      11 "ex.test" smallSettings (Some resumedCrawl) None ["https://ex.test/about"]
    = Some (r', e)
    /\ CrawlRun.nondecreasing
         (map (fun e => CrawlManager.depth (fst e)) (CrawlRun.fetched _ r')).
Proof.
  apply (run_breadth_first Whatwg.parse RobotsLib.Matcher RobotsLib.isAllowed linkedVisit
           neverCancelled "ex.test" smallSettings (Some resumedCrawl) None
           ["https://ex.test/about"] 11).
  cbn. lia.
Defined.

Lemma run_incoming_links_witness :
  exists r' e,
    CrawlRun.run Whatwg.parse RobotsLib.Matcher RobotsLib.isAllowed linkedVisit neverCancelled
      11 "ex.test" smallSettings (Some resumedCrawl) None ["https://ex.test/about"]
    = Some (r', e)
    /\ forall n, CrawlRun.incomingLinks _ r' !! n
                 = let c := CrawlRun.countTo Whatwg.parse n
                              (CrawlRun.linksSeen (CrawlRun.fetched _ r')) in
                   if c =? 0 then None else Some c.
Proof.
  apply (run_incoming_links Whatwg.parse RobotsLib.Matcher RobotsLib.isAllowed linkedVisit
           neverCancelled "ex.test" smallSettings (Some resumedCrawl) None
           ["https://ex.test/about"] 11).
  cbn. lia.
Defined.

Lemma run_discovered_count_witness :
  exists r' e,
    CrawlRun.run Whatwg.parse RobotsLib.Matcher RobotsLib.isAllowed linkedVisit neverCancelled
      11 "ex.test" smallSettings (Some resumedCrawl) None ["https://ex.test/about"]
    = Some (r', e)
    /\ CrawlManager.pagesDiscovered _ (CrawlRun.manager _ r')
       = 7 + (Z.of_nat (size (CrawlManager.discovered _ (CrawlRun.manager _ r')))
              - Z.of_nat (size (CrawlRun.skipSet Whatwg.parse (Some resumedCrawl))))
    /\ CrawlRun.skipSet Whatwg.parse (Some resumedCrawl)
         ⊆ CrawlManager.discovered _ (CrawlRun.manager _ r')
    /\ Z.of_nat (size (CrawlManager.discovered _ (CrawlRun.manager _ r')))
       <= Z.max (CrawlManager.max_pages smallSettings)
            (Z.of_nat (size (CrawlRun.skipSet Whatwg.parse (Some resumedCrawl)))).
Proof.
  apply (run_discovered_count Whatwg.parse RobotsLib.Matcher RobotsLib.isAllowed linkedVisit
           neverCancelled "ex.test" smallSettings (Some resumedCrawl) None
           ["https://ex.test/about"] 11).
  cbn. lia.
Defined.

Lemma run_covers_discovered_witness :
  exists r' e,
    CrawlRun.run Whatwg.parse RobotsLib.Matcher RobotsLib.isAllowed linkedVisit neverCancelled
      11 "ex.test" smallSettings (Some resumedCrawl) None ["https://ex.test/about"]
    = Some (r', e)
    /\ (e = CrawlRun.Resolved ->
        neverCancelled (CrawlRun.iterations _ r') = false ->
        CrawlManager.queue _ (CrawlRun.manager _ r') = []
        /\ CrawlManager.discovered _ (CrawlRun.manager _ r')
           = CrawlRun.skipSet Whatwg.parse (Some resumedCrawl)
             ∪ list_to_set (CrawlRun.fetchedUrls _ r')).
Proof.
  apply (run_covers_discovered Whatwg.parse RobotsLib.Matcher RobotsLib.isAllowed linkedVisit
           neverCancelled "ex.test" smallSettings (Some resumedCrawl) None
           ["https://ex.test/about"] 11).
  cbn. lia.
Defined.

Lemma run_discovery_tree_witness :
  exists r' e,
    CrawlRun.run Whatwg.parse RobotsLib.Matcher RobotsLib.isAllowed linkedVisit neverCancelled
      11 "ex.test" smallSettings (Some resumedCrawl) None ["https://ex.test/about"]
    = Some (r', e)
    /\ forall l1 c v l2, CrawlRun.fetched _ r' = l1 ++ (c, v) :: l2 ->
         match CrawlManager.discoveredVia c with
         | CrawlManager.seed => CrawlManager.depth c = 0 /\ CrawlManager.parentUrl c = None
         | CrawlManager.sitemap => CrawlManager.depth c = 1 /\ CrawlManager.parentUrl c = None
         | CrawlManager.crawl =>
             exists p, In p (map fst l1)
                       /\ CrawlManager.parentUrl c = Some (CrawlManager.url p)
                       /\ CrawlManager.depth c = CrawlManager.depth p + 1
         end.
Proof.
  apply (run_discovery_tree Whatwg.parse RobotsLib.Matcher RobotsLib.isAllowed linkedVisit
           neverCancelled "ex.test" smallSettings (Some resumedCrawl) None
           ["https://ex.test/about"] 11).
  cbn. lia.
Defined.

(** The same crawl, evaluated: five pages are fetched, the third one
    fails, and the skipped [/contact] is linked from all five. *)
Example run_scenario :
  match CrawlRun.run Whatwg.parse RobotsLib.Matcher RobotsLib.isAllowed linkedVisit
          neverCancelled 11 "ex.test" smallSettings (Some resumedCrawl) None
          ["https://ex.test/about"] with
  | Some (r, e) =>
      e = CrawlRun.Resolved
      /\ CrawlRun.fetchedUrls _ r
         = ["https://ex.test/"; "https://ex.test/about"; "https://ex.test//a";
            "https://ex.test/about/a"; "https://ex.test//a/a"]
      /\ CrawlRun.pagesCrawled _ r = 4 /\ CrawlRun.pagesFailed _ r = 1
      /\ CrawlRun.incomingLinks _ r !! "https://ex.test/contact" = Some 5
      /\ CrawlManager.pagesDiscovered _ (CrawlRun.manager _ r) = 12
  | None => False
  end.
Proof. vm_compute. repeat split. Qed.

(** ** The events of a page crawl *)

Section EffectTraces.
Import Effects Traces.

Lemma handle_trace {X : Type} (c : Cmd X) (w : World) :
  trace (snd (handle c w)) = trace w ++ [eventOf c].
Proof. destruct c; reflexivity. Qed.

Lemma run_catch {A : Type} (e : Eff A) (h : string -> Eff A) (w : World) :
  run (catch e h) w
  = match run e w with
    | (Returned a, w') => (Returned a, w')
    | (Thrown m, w') => run (h m) w'
    end.
Proof.
  revert w. induction e as [a | X c k IH | m]; intros w; cbn [catch run]; try reflexivity.
  destruct (handle c w) as [x w']. apply IH.
Qed.

Lemma run_finally {A : Type} (e : Eff A) (f : Eff unit) (w : World) :
  run (finally e f) w
  = match run e w with
    | (o, w') =>
        match run f w' with
        | (Returned _, w'') => (o, w'')
        | (Thrown m, w'') => (Thrown m, w'')
        end
    end.
Proof.
  revert w. induction e as [a | X c k IH | m]; intros w; cbn [finally run].
  - rewrite run_bind. destruct (run f w) as [[[]|m] w']; reflexivity.
  - destruct (handle c w) as [x w']. apply IH.
  - rewrite run_bind. destruct (run f w) as [[[]|m'] w']; reflexivity.
Qed.

Lemma uses_bind {A B : Type} (P : Event -> Prop) (e : Eff A) (f : A -> Eff B) :
  uses P e -> (forall a, uses P (f a)) -> uses P (bind e f).
Proof.
  intros He Hf. induction He as [a | m | X c k Hc Hk IH]; cbn [bind].
  - apply Hf.
  - constructor.
  - constructor; assumption.
Qed.

Lemma uses_catch {A : Type} (P : Event -> Prop) (e : Eff A) (h : string -> Eff A) :
  uses P e -> (forall m, uses P (h m)) -> uses P (catch e h).
Proof.
  intros He Hh. induction He as [a | m | X c k Hc Hk IH]; cbn [catch].
  - constructor.
  - apply Hh.
  - constructor; assumption.
Qed.

Lemma uses_weaken {A : Type} (P Q : Event -> Prop) (e : Eff A) :
  (forall ev, P ev -> Q ev) -> uses P e -> uses Q e.
Proof.
  intros HPQ He. induction He as [a | m | X c k Hc Hk IH]; constructor; auto.
Qed.

Lemma clockOnly_uses {A : Type} (e : Eff A) :
  clockOnly e -> uses (fun ev => ev = EClock) e.
Proof.
  intros He. induction He as [a | m | k Hk IH]; constructor; auto.
Qed.

(** A run appends the events of the commands it meets. *)
Lemma run_uses {A : Type} (P : Event -> Prop) (e : Eff A) :
  uses P e ->
  forall w, exists evs, trace (snd (run e w)) = trace w ++ evs /\ Forall P evs.
Proof.
  intros He. induction He as [a | m | X c k Hc Hk IH]; intros w; cbn [run].
  - exists []. rewrite app_nil_r. auto.
  - exists []. rewrite app_nil_r. auto.
  - pose proof (handle_trace c w) as Ht. destruct (handle c w) as [x w']. cbn [snd] in Ht.
    destruct (IH x w') as (evs & Hevs & Hall).
    exists (eventOf c :: evs). rewrite Hevs, Ht, <- app_assoc. split; [reflexivity|].
    constructor; assumption.
Qed.
End EffectTraces.

Section PageCrawlTraces.
Import Effects Traces PageCrawler.
Variable Number : Type.
Variable numberToString : Number -> string.
Variable parseFloat : string -> option Number.
Variable isZero : Number -> bool.
Variable isNegative : Number -> bool.
Variable dateParse : string -> option Z.
Variable twoYearsBefore : Z -> Z.
Variable Dom : Type.
Variable load : string -> Dom.
Variable library : Library Number Dom.
Variable render_javascript : bool.

Abbreviation afterGoto :=
  (PageCrawler.afterGoto Number numberToString parseFloat isZero isNegative dateParse
     twoYearsBefore Dom load library render_javascript).
Abbreviation crawlAttempt :=
  (PageCrawler.crawlAttempt Number numberToString parseFloat isZero isNegative dateParse
     twoYearsBefore Dom load library render_javascript).
Abbreviation crawlFrom :=
  (PageCrawler.crawlFrom Number numberToString parseFloat isZero isNegative dateParse
     twoYearsBefore Dom load library render_javascript).
Abbreviation crawl :=
  (PageCrawler.crawl Number numberToString parseFloat isZero isNegative dateParse
     twoYearsBefore Dom load library render_javascript).

Lemma afterGoto_uses (url : string) (startTime : Z) (response : option Response) :
  uses (inner url) (afterGoto url startTime response).
Proof.
  unfold PageCrawler.afterGoto, perform, await.
  cbn [bind]. constructor; [unfold inner; auto|]. intros endTime. cbn [bind].
  destruct response as [r|]; [|constructor].
  destruct (negb _); [constructor|].
  cbn [bind]. constructor; [unfold inner; cbn; auto|]. intros [html|m]; [|constructor].
  cbn [bind]. apply uses_bind.
  - eapply uses_weaken; [|apply clockOnly_uses, extractPageData_clockOnly].
    intros ev ->. unfold inner. auto.
  - intros data. destruct render_javascript; [|constructor].
    cbn [bind]. constructor; [unfold inner; cbn; auto|]. intros v. constructor.
Qed.

Lemma run_uses_world {A : Type} (P : Event -> Prop) (e : Eff A) :
  uses P e -> ~ P ENewPage ->
  forall w, opened (snd (run e w)) = opened w /\ pages (snd (run e w)) = pages w.
Proof.
  intros He HP. induction He as [a | m | X c k Hc Hk IH]; intros w; cbn [run]; auto.
  assert (Hw : opened (snd (handle c w)) = opened w /\ pages (snd (handle c w)) = pages w).
  { destruct c; cbn; auto. exfalso. apply HP, Hc. }
  destruct (handle c w) as [x w']. cbn [snd] in Hw. destruct Hw as (Ho & Hp).
  destruct (IH x w') as (Ho' & Hp'). split; congruence.
Qed.

Lemma inner_not_newPage (url : string) : ~ inner url ENewPage.
Proof. unfold inner. intros [H|[H|[H|H]]]; discriminate. Qed.

Lemma crawlAttempt_trace (url : string) (w : World) :
  exists mid closing,
    trace (snd (run (crawlAttempt url) w)) = trace w ++ ENewPage :: mid ++ closing
    /\ Forall (inner url) mid
    /\ match onNewPage (pages w (opened w)) with
       | Thrown m =>
           mid = [] /\ closing = [] /\ fst (run (crawlAttempt url) w) = Thrown m
       | Returned _ =>
           closing = [EClosePage]
           /\ match onClose (pages w (opened w)) with
              | Returned _ => exists data, fst (run (crawlAttempt url) w) = Returned data
              | Thrown m => fst (run (crawlAttempt url) w) = Thrown m
              end
       end.
Proof.
  remember (run (crawlAttempt url) w) as res eqn:Hres.
  unfold PageCrawler.crawlAttempt in Hres. rewrite run_bind in Hres.
  unfold await at 1 in Hres. cbn [run handle] in Hres.
  destruct (onNewPage (pages w (opened w))) as [[]|m] eqn:Hnew; cbn [run] in Hres.
  2:{ subst res. exists [], []. cbn. unfold logged. cbn. auto. }
  set (w1 := mkWorld (clock w) (ticks w) (pages w) (S (opened w)) (logged NewPage w)) in Hres.
  rewrite run_bind in Hres. unfold perform at 1 in Hres. cbn [run handle] in Hres.
  set (w2 := mkWorld (clock w1) (S (ticks w1)) (pages w1) (opened w1) (logged ReadClock w1))
    in Hres.
  rewrite run_finally in Hres.
  match type of Hres with context [run ?b w2] => set (body := b) in Hres end.
  assert (Hbody : uses (inner url) body).
  { unfold body. apply uses_bind.
    - apply uses_catch.
      + unfold await. cbn [bind]. constructor; [unfold inner; cbn; auto|].
        intros [response|m]; constructor.
      + intros m. constructor.
    - intros [failed|response]; [constructor|].
      apply uses_catch; [apply afterGoto_uses|intros m; constructor]. }
  destruct (run_uses _ _ Hbody w2) as (evs & Htrace & Hall).
  destruct (run_uses_world _ _ Hbody (inner_not_newPage url) w2) as (Hopened & Hpages).
  assert (Hreturns : exists data, fst (run body w2) = Returned data).
  { unfold body. rewrite run_bind, run_catch.
    destruct (run (bind (await (Goto url _ timeout)) _) w2) as [[nav|m] w3].
    - destruct nav as [failed|response]; [cbn; eauto|].
      rewrite run_catch. destruct (run (afterGoto _ _ _) w3) as [[data|m] w4]; cbn; eauto.
    - cbn. eauto. }
  destruct Hreturns as (data & Hdata).
  destruct (run body w2) as [o w3]. cbn [fst snd] in *. subst o.
  unfold await in Hres. cbn [run handle] in Hres.
  assert (Hcur : currentPage w3 = pages w (opened w)).
  { unfold currentPage. rewrite Hopened, Hpages. cbn. now rewrite Nat.sub_0_r. }
  rewrite Hcur in Hres.
  exists (EClock :: evs), [EClosePage]. split; [|split; [|split; [reflexivity|]]].
  - subst res. destruct (onClose (pages w (opened w))) as [[]|m]; cbn [run snd trace];
      unfold logged; rewrite Htrace; cbn; unfold logged; cbn;
      rewrite <- !app_assoc; reflexivity.
  - constructor; [unfold inner; auto|assumption].
  - subst res. destruct (onClose (pages w (opened w))) as [[]|m]; cbn; eauto.
Qed.

Lemma attempt_run {A : Type} (e : Eff A) (w : World) :
  run (attempt e) w = (Returned (fst (run e w)), snd (run e w)).
Proof.
  unfold attempt. rewrite run_catch, run_bind.
  destruct (run e w) as [[a|m] w']; reflexivity.
Qed.

Lemma inner_counts (url : string) (mid : list Event) :
  Forall (inner url) mid ->
  sleepsOf mid = [] /\ pagesOpened mid = 0%nat /\ pagesClosed mid = 0%nat.
Proof.
  unfold sleepsOf, pagesOpened, pagesClosed.
  induction 1 as [|ev mid Hev _ IH]; [auto|].
  destruct IH as (IH1 & IH2 & IH3).
  destruct Hev as [->|[->|[->| ->]]]; cbn; auto.
Qed.

Lemma sleepsOf_app (a b : list Event) : sleepsOf (a ++ b) = sleepsOf a ++ sleepsOf b.
Proof. apply flat_map_app. Qed.

Lemma pagesOpened_app (a b : list Event) :
  pagesOpened (a ++ b) = (pagesOpened a + pagesOpened b)%nat.
Proof. unfold pagesOpened. now rewrite List.filter_app, length_app. Qed.

Lemma pagesClosed_app (a b : list Event) :
  pagesClosed (a ++ b) = (pagesClosed a + pagesClosed b)%nat.
Proof. unfold pagesClosed. now rewrite List.filter_app, length_app. Qed.

(** The events of one attempt: one page opened, closed when it was
    opened, no sleep. *)
Lemma crawlAttempt_counts (url : string) (w : World) :
  exists evs,
    trace (snd (run (crawlAttempt url) w)) = trace w ++ evs
    /\ pagesOpened evs = 1%nat /\ sleepsOf evs = []
    /\ match onNewPage (pages w (opened w)) with
       | Returned _ => pagesClosed evs = 1%nat /\ last evs = Some EClosePage
       | Thrown _ => pagesClosed evs = 0%nat
       end.
Proof.
  destruct (crawlAttempt_trace url w) as (mid & closing & Htrace & Hmid & Hcase).
  destruct (inner_counts url mid Hmid) as (Hs & Ho & Hc).
  exists (ENewPage :: mid ++ closing). split; [exact Htrace|].
  change (ENewPage :: mid ++ closing) with ([ENewPage] ++ mid ++ closing).
  rewrite !pagesOpened_app, !sleepsOf_app, !pagesClosed_app, Hs, Ho, Hc.
  destruct (onNewPage (pages w (opened w))) as [[]|m].
  - destruct Hcase as (-> & _). cbn. repeat split.
    rewrite app_comm_cons, last_snoc. reflexivity.
  - destruct Hcase as (-> & -> & _). cbn. auto.
Qed.

Lemma backoffs_cons (k n : nat) :
  backoffs k (S n)
  = if (k <? maxRetries)%nat
    then retryDelayMs * 2 ^ Z.of_nat k :: backoffs (S k) n
    else backoffs (S k) n.
Proof.
  unfold backoffs. cbn [seq List.filter]. destruct (k <? maxRetries)%nat; reflexivity.
Qed.

(** The loop of [crawl] from attempt [k], with [n] attempts left. *)
Lemma crawlFrom_trace (n k : nat) (url : string) (lastError : option string) (w : World) :
  exists data evs m,
    fst (run (crawlFrom n k url lastError) w) = Returned data
    /\ trace (snd (run (crawlFrom n k url lastError) w)) = trace w ++ evs
    /\ (pagesOpened evs <= n)%nat
    /\ (pagesClosed evs <= pagesOpened evs)%nat
    /\ (1 <= n -> 1 <= pagesOpened evs)%nat
    /\ sleepsOf evs = firstn m (backoffs k n).
Proof.
  revert k lastError w. induction n as [|n IH]; intros k lastError w.
  - cbn. exists (createErrorResult Number url 0 (lastMessage lastError)), [], 0%nat.
    rewrite app_nil_r. cbn. repeat split; lia.
  - cbn [PageCrawler.crawlFrom]. rewrite run_bind, attempt_run.
    destruct (crawlAttempt_counts url w) as (evsA & HtA & HoA & HsA & HcA).
    assert (HcA' : (pagesClosed evsA <= 1)%nat).
    { destruct (onNewPage (pages w (opened w))); [destruct HcA|]; lia. }
    clear HcA.
    destruct (run (crawlAttempt url) w) as [[data|message] w1]; cbn [fst snd] in *.
    + exists data, evsA, 0%nat. cbn. repeat split; auto; lia.
    + destruct (negb (isRetryableError message)).
      * eexists _, evsA, 0%nat. cbn. repeat split; auto; lia.
      * rewrite run_bind, backoffs_cons.
        destruct (k <? maxRetries)%nat.
        -- unfold perform. cbn [run handle].
           set (w2 := mkWorld (clock w1) (ticks w1) (pages w1) (opened w1) _).
           destruct (IH (S k) (Some message) w2) as (data & evs & m & Hd & Ht & Ho & Hc & _ & Hs).
           exists data, (evsA ++ ESleep (retryDelayMs * 2 ^ Z.of_nat k) :: evs), (S m).
           split; [exact Hd|]. split.
           { rewrite Ht. unfold w2, logged. cbn [trace eventOf].
             rewrite HtA, <- !app_assoc. reflexivity. }
           change (ESleep (retryDelayMs * 2 ^ Z.of_nat k) :: evs)
             with ([ESleep (retryDelayMs * 2 ^ Z.of_nat k)] ++ evs).
           rewrite !pagesOpened_app, !pagesClosed_app, !sleepsOf_app, HsA, Hs, HoA.
           cbn. repeat split; lia.
        -- cbn [run].
           destruct (IH (S k) (Some message) w1) as (data & evs & m & Hd & Ht & Ho & Hc & _ & Hs).
           exists data, (evsA ++ evs), m.
           split; [exact Hd|]. split; [rewrite Ht, HtA, <- app_assoc; reflexivity|].
           rewrite !pagesOpened_app, !pagesClosed_app, !sleepsOf_app, HsA, Hs, HoA.
           cbn. repeat split; lia.
Qed.

(** X17. [crawl] never rejects: whatever the browser does, every
    failure of the attempts ends in a returned error record. *)
Theorem crawl_never_throws (url : string) (w : World) :
  exists data, fst (run (crawl url) w) = Returned data.
Proof.
  unfold PageCrawler.crawl.
  destruct (crawlFrom_trace (S maxRetries) 0 url None w) as (data & _ & _ & Hd & _).
  eauto.
Qed.

(** X18. A crawl of one URL asks for a new page at least once and at
    most three times, closes no more pages than that, and sleeps
    between attempts for 1000 ms and then 2000 ms at most. *)
Theorem crawl_bounded_retries (url : string) (w : World) :
  exists evs,
    trace (snd (run (crawl url) w)) = trace w ++ evs
    /\ (1 <= pagesOpened evs <= 3)%nat
    /\ (pagesClosed evs <= pagesOpened evs)%nat
    /\ (sleepsOf evs = [] \/ sleepsOf evs = [1000] \/ sleepsOf evs = [1000; 2000]).
Proof.
  unfold PageCrawler.crawl.
  destruct (crawlFrom_trace (S maxRetries) 0 url None w)
    as (_ & evs & m & _ & Ht & Ho & Hc & H1 & Hs).
  exists evs. split; [exact Ht|]. unfold maxRetries in *.
  split; [split; [apply H1; lia|exact Ho]|]. split; [exact Hc|].
  rewrite Hs. destruct m as [|[|[|m]]]; cbn; auto.
Qed.

(** X19. An attempt asks for exactly one new page and never sleeps;
    when the page was opened, closing it is the last thing the attempt
    does, whether the navigation or the extraction failed or not, and
    when it was not, nothing is closed. *)
Theorem crawlAttempt_closes_page (url : string) (w : World) :
  exists evs,
    trace (snd (run (crawlAttempt url) w)) = trace w ++ evs
    /\ pagesOpened evs = 1%nat /\ sleepsOf evs = []
    /\ match onNewPage (pages w (opened w)) with
       | Returned _ => pagesClosed evs = 1%nat /\ last evs = Some EClosePage
       | Thrown _ => pagesClosed evs = 0%nat
       end.
Proof. apply crawlAttempt_counts. Qed.

(** X20. An attempt rejects only when opening or closing the page
    rejects: every failure of the navigation, of reading the content
    and of the extraction is turned into a returned record. *)
Theorem crawlAttempt_rejects_only (url : string) (w : World) (message : string) :
  fst (run (crawlAttempt url) w) = Thrown message <->
  onNewPage (pages w (opened w)) = Thrown message
  \/ ((exists u, onNewPage (pages w (opened w)) = Returned u)
      /\ onClose (pages w (opened w)) = Thrown message).
Proof.
  destruct (crawlAttempt_trace url w) as (mid & closing & _ & _ & Hcase).
  destruct (onNewPage (pages w (opened w))) as [u|m].
  - destruct Hcase as (_ & Hclose).
    destruct (onClose (pages w (opened w))) as [u'|m'].
    + destruct Hclose as (data & ->). split; [discriminate|].
      intros [H|(_ & H)]; discriminate.
    + rewrite Hclose. split.
      * intros [= ->]. right. eauto.
      * intros [H|(_ & [= ->])]; [discriminate|reflexivity].
  - destruct Hcase as (_ & _ & ->). split.
    + intros [= ->]. now left.
    + intros [[= ->]|((u & H) & _)]; [reflexivity|discriminate].
Qed.

(** *** Where the extraction throws *)

Abbreviation extractEcommerceData :=
  (PageCrawler.extractEcommerceData Number numberToString parseFloat isZero isNegative dateParse).
Abbreviation extractArticleData :=
  (PageCrawler.extractArticleData Number numberToString parseFloat isZero dateParse
     twoYearsBefore).
Abbreviation extractPageData :=
  (PageCrawler.extractPageData Number numberToString parseFloat isZero isNegative dateParse
     twoYearsBefore Dom library).

Lemma extractEcommerceData_returns (sd : list (SchemaObject Number)) (w : World) :
  exists e, fst (run (extractEcommerceData sd) w) = Returned e.
Proof.
  unfold PageCrawler.extractEcommerceData.
  destruct (List.filter _ sd) as [|product others]; [cbn; eauto|].
  rewrite run_bind.
  destruct (extractOffers _ _ _ _ _) as [|offer offerList]; cbn; eauto.
Qed.

Lemma dateChecks_returns (data : ArticleData Number) (w : World) :
  exists flags, fst (run (dateChecks Number dateParse twoYearsBefore data) w) = Returned flags.
Proof.
  unfold dateChecks.
  destruct (datePublished _ data) as [[|c r]|]; try (cbn; eauto; fail).
  destruct (isValidISO8601Date _ _); cbn; eauto.
Qed.

(** The outcome of the article extraction: it throws exactly on a first
    article whose [mainEntityOfPage] is [null]. *)
Lemma extractArticleData_outcome (sd : list (SchemaObject Number)) (w : World) :
  match List.filter (isArticleSchema Number) sd with
  | article :: _ =>
      match prop Number article "mainEntityOfPage" with
      | Some (JNull _) =>
          fst (run (extractArticleData sd) w)
          = Thrown "Cannot read properties of null (reading '@id')"
      | _ => exists a, fst (run (extractArticleData sd) w) = Returned a
      end
  | [] => exists a, fst (run (extractArticleData sd) w) = Returned a
  end.
Proof.
  unfold PageCrawler.extractArticleData.
  destruct (List.filter _ sd) as [|article others]; [cbn; eauto|].
  rewrite run_bind. unfold mainEntityValue.
  destruct (prop Number article "mainEntityOfPage") as [[]|]; cbn [run];
    try reflexivity;
    rewrite run_bind;
    match goal with
    | |- context [run (dateChecks _ _ _ ?d) ?w'] =>
        destruct (dateChecks_returns d w') as ([future outdated] & Hflags);
        destruct (run (dateChecks Number dateParse twoYearsBefore d) w') as [o w''];
        cbn [fst] in Hflags; subst o; cbn; eauto
    end.
Qed.

(** [schemaData.data] *)
Abbreviation structuredDataOf :=
  (fun dom => data Number (extractSchemaData Number isZero Dom library dom)).

Lemma extractPageData_thrown dom url baseData html (w : World) (message : string) :
  fst (run (extractPageData dom url baseData html) w) = Thrown message
  <-> (parseURL _ _ url = None /\ message = "Invalid URL")
      \/ (is_Some (parseURL _ _ url)
          /\ exists article others,
               List.filter (isArticleSchema Number) (structuredDataOf dom)
               = article :: others
               /\ prop Number article "mainEntityOfPage" = Some (JNull Number)
               /\ message = "Cannot read properties of null (reading '@id')").
Proof.
  unfold PageCrawler.extractPageData. rewrite run_bind. unfold extractLinks.
  destruct (parseURL _ _ url) as [base|]; cbn [run].
  2:{ split.
      - intros [= <-]. left. auto.
      - intros [[_ ->]|[[x Hx] _]]; [reflexivity|discriminate]. }
  assert (Hsome : is_Some (Some base)) by eauto.
  rewrite run_bind.
  destruct (extractEcommerceData_returns (structuredDataOf dom) w) as (e & He).
  destruct (run (extractEcommerceData (structuredDataOf dom)) w) as [o w1].
  cbn [fst] in He. subst o. rewrite run_bind.
  pose proof (extractArticleData_outcome (structuredDataOf dom) w1) as Hout.
  destruct (List.filter (isArticleSchema Number) (structuredDataOf dom))
    as [|article others].
  - destruct Hout as (a & Ha).
    destruct (run (extractArticleData (structuredDataOf dom)) w1) as [o w2].
    cbn [fst] in Ha. subst o. cbn. split; [discriminate|].
    intros [[H _]|(_ & ? & ? & ? & _)]; discriminate.
  - destruct (prop Number article "mainEntityOfPage") as [j|] eqn:Hprop.
    2:{ destruct Hout as (a & Ha).
        destruct (run (extractArticleData (structuredDataOf dom)) w1) as [o w2].
        cbn [fst] in Ha. subst o. cbn. split; [discriminate|].
        intros [[H _]|(_ & ? & ? & [= <- <-] & Hn & _)]; [discriminate|congruence]. }
    destruct j;
      try (destruct Hout as (a & Ha);
           destruct (run (extractArticleData (structuredDataOf dom)) w1) as [o w2];
           cbn [fst] in Ha; subst o; cbn; split; [discriminate|];
           intros [[H _]|(_ & ? & ? & [= <- <-] & Hn & _)]; [discriminate|congruence]).
    destruct (run (extractArticleData (structuredDataOf dom)) w1) as [o w2].
    cbn [fst] in Hout. subst o. cbn. split.
    + intros [= <-]. right. split; [assumption|]. exists article, others. auto.
    + intros [[H _]|(_ & ? & ? & _ & _ & ->)]; [discriminate|reflexivity].
Qed.

(** X26. Extracting a page throws in two cases and no other. The URL
    of the page is no URL: [extractLinks] calls [new URL(baseUrl)]
    outside its [try] block. Or the first Article object of the
    structured data has [mainEntityOfPage: null]: the test
    [typeof m === 'object'] lets [null] through to [m['@id']]. Every
    other statement of the extraction is total. *)
Theorem extractPageData_throws_iff dom url baseData html (w : World) (message : string) :
  fst (run (extractPageData dom url baseData html) w) = Thrown message
  <-> (parseURL _ _ url = None /\ message = "Invalid URL")
      \/ (is_Some (parseURL _ _ url)
          /\ exists article others,
               List.filter (isArticleSchema Number) (structuredDataOf dom)
               = article :: others
               /\ prop Number article "mainEntityOfPage" = Some (JNull Number)
               /\ message = "Cannot read properties of null (reading '@id')").
Proof. apply extractPageData_thrown. Qed.

(** X27. A page that loads as HTML but whose first Article object has
    [mainEntityOfPage: null] is returned by the attempt as an error
    record with the status of the response: the exception of the
    extraction lands in the [catch] block written for navigation
    errors. (When the URL of the page is no URL, the exception is that
    of [extractLinks], which comes first.) *)
Theorem crawlAttempt_extraction_failure (url : string) (w : World) (r : Response)
    (html : string) (article : SchemaObject Number) (others : list (SchemaObject Number)) :
  onNewPage (pages w (opened w)) = Returned tt ->
  onGoto (pages w (opened w)) = Returned (Some r) ->
  Js.includes "text/html"
    (match contentTypeHeader r with Some (String c t) => String c t | _ => "" end) = true ->
  onContent (pages w (opened w)) = Returned html ->
  List.filter (isArticleSchema Number) (structuredDataOf (load html)) = article :: others ->
  prop Number article "mainEntityOfPage" = Some (JNull Number) ->
  onClose (pages w (opened w)) = Returned tt ->
  fst (run (crawlAttempt url) w)
  = Returned (ErrorResult Number url (status r)
                (match parseURL _ _ (finalUrl r) with
                 | Some _ => "Cannot read properties of null (reading '@id')"
                 | None => "Invalid URL"
                 end)).
Proof.
  intros Hnew Hgoto Htype Hcontent Hfilter Hnull Hclose.
  assert (Hpage : forall w', opened w' = S (opened w) -> pages w' = pages w ->
                             currentPage w' = pages w (opened w)).
  { intros w' Ho Hp. unfold currentPage. rewrite Ho, Hp. cbn. now rewrite Nat.sub_0_r. }
  unfold PageCrawler.crawlAttempt. rewrite run_bind.
  unfold await at 1. cbn [run handle]. rewrite Hnew. cbn [run].
  rewrite run_bind. unfold perform at 1. cbn [run handle].
  rewrite run_finally, run_bind, run_catch, run_bind.
  unfold await at 1. cbn [run handle].
  rewrite Hpage by reflexivity. rewrite Hgoto. cbn [run].
  rewrite run_catch. unfold PageCrawler.afterGoto. rewrite run_bind.
  unfold perform at 1. cbn [run handle]. rewrite Htype. cbn [negb].
  rewrite run_bind. unfold await at 1. cbn [run handle].
  rewrite Hpage by reflexivity. rewrite Hcontent. cbn [run].
  rewrite run_bind.
  match goal with
  | |- context [run (PageCrawler.extractPageData _ _ _ _ _ _ _ _ _ ?d ?u ?b ?h) ?w'] =>
      assert (Hthrown : fst (run (extractPageData d u b h) w')
                        = Thrown (match parseURL _ _ (finalUrl r) with
                                  | Some _ => "Cannot read properties of null (reading '@id')"
                                  | None => "Invalid URL"
                                  end));
      [ apply extractPageData_thrown;
        destruct (parseURL _ _ (finalUrl r)) as [base|];
        [ right; split; [eauto|]; exists article, others; auto
        | left; auto ]
      | ];
      pose proof (run_uses_world _ _
                    (uses_weaken _ (inner url) _
                       (fun ev (H : ev = EClock) => or_introl H)
                       (clockOnly_uses _ (extractPageData_clockOnly Number numberToString
                          parseFloat isZero isNegative dateParse twoYearsBefore Dom library
                          d u b h)))
                    (inner_not_newPage url) w') as (Ho & Hp);
      destruct (run (extractPageData d u b h) w') as [o w'']
  end.
  cbn [fst snd] in *. subst o. cbn [run].
  unfold await. cbn [run handle].
  rewrite Hpage by (cbn in Ho, Hp; assumption). rewrite Hclose. cbn [run fst].
  unfold attemptFailed.
  destruct (parseURL _ _ (finalUrl r)); vm_compute Js.includes; reflexivity.
Qed.

(** X28. The flags of a product are consistent: a product without
    offers is flagged as missing price and availability and gets no
    other offer flag; a price is never flagged both missing and
    invalid; a product flagged out of stock or discontinued has an
    availability; an expired price needs an offer. *)
Theorem extractEcommerceData_flags (sd : list (SchemaObject Number)) (w : World)
    (e : Ecommerce Number) :
  fst (run (extractEcommerceData sd) w) = Returned (Some e) ->
  hasProductSchema _ e = true
  /\ forall i, productIssues _ e = Some i ->
       (missingOffer i = true ->
          missingPrice i = true /\ missingAvailability i = true
          /\ invalidPrice i = false /\ missingCurrency i = false
          /\ expiredPrice i = false /\ offers _ (productData _ e) = None)
       /\ (missingPrice i = true -> invalidPrice i = false)
       /\ (outOfStock i = true \/ discontinuedProduct i = true ->
           missingAvailability i = false
           /\ present (availability _ (productData _ e)) = true)
       /\ (expiredPrice i = true -> offers _ (productData _ e) <> None).
Proof.
  unfold PageCrawler.extractEcommerceData.
  destruct (List.filter _ sd) as [|product others]; [discriminate|].
  rewrite run_bind. unfold extractOffers.
  destruct (truthy Number isZero (prop Number product "offers")) eqn:Htruthy; cbn [negb].
  - set (offerList := match prop Number product "offers" with
                      | Some (JArray _ items) => flat_map _ items
                      | Some v => processOffer _ _ _ v
                      | None => []
                      end).
    destruct offerList as [|offer rest] eqn:Hoffers; cbn [run fst handle perform bind];
      intros [= <-]; cbn [hasProductSchema productIssues productData];
      (split; [reflexivity|]); intros i Hi;
      match type of Hi with
      | (if ?b then _ else _) = _ => destruct b; [|discriminate]
      end; injection Hi as <-;
      cbn [missingOffer missingPrice missingAvailability invalidPrice missingCurrency
           expiredPrice outOfStock discontinuedProduct offers availability price
           List.head].
    + split; [intros H; discriminate|]. split; [reflexivity|].
      split; [intros [H|H]; discriminate|intros H; discriminate].
    + split; [intros H; discriminate|].
      split; [destruct (offerPrice _ offer); [discriminate|reflexivity]|].
      split; [|intros _; discriminate].
      destruct (present (offerAvailability _ offer)); [auto|].
      vm_compute. intros [H|H]; discriminate.
  - cbn [run fst]. intros [= <-]. cbn [hasProductSchema productIssues productData].
    split; [reflexivity|]. intros i Hi.
    match type of Hi with
    | (if ?b then _ else _) = _ => destruct b; [|discriminate]
    end.
    injection Hi as <-.
    cbn [missingOffer missingPrice missingAvailability invalidPrice missingCurrency
         expiredPrice outOfStock discontinuedProduct offers availability price
         List.head].
    split; [auto 10|]. split; [reflexivity|].
    split; [vm_compute; intros [H|H]; discriminate|intros H; discriminate].
Qed.
End PageCrawlTraces.

(** ** The SEO filter, read backwards *)

Section SeoFilterCauses.
Import SeoUrlFilter.
Variable parseURL : string -> option Url.URL.

End SeoFilterCauses.

(** ** The AI-crawler rules, beyond the listed groups *)

Section AiCrawlerRules.
Import Robots.
Variable trim : string -> string.
Variable toLowerCase : string -> string.
Variable Matcher : Type.
Variable robotsParser : string -> string -> Matcher.

Abbreviation isAiCrawler := (Robots.isAiCrawler toLowerCase).
Abbreviation matchedCrawler := (Robots.matchedCrawler toLowerCase).
Abbreviation setRule := (Robots.setRule toLowerCase).
Abbreviation ruleStep := (Robots.ruleStep trim toLowerCase).
Abbreviation parseAiCrawlerRules := (Robots.parseAiCrawlerRules trim toLowerCase).
Abbreviation fetch := (Robots.fetch trim toLowerCase Matcher robotsParser).
Abbreviation normalLine := (Robots.normalLine trim toLowerCase).
Abbreviation userAgentOf := (Robots.userAgentOf trim).

(** A line that does not name the crawler leaves its lower-cased name
    out of [currentUserAgents] and its entry in the map as it is. *)
Lemma ruleStep_unnamed (crawler : string) (st : list string * gmap string bool)
    (line : string) :
  userAgentOf (normalLine line) <> Some (toLowerCase crawler) ->
  ~ In (toLowerCase crawler) (fst st) ->
  ~ In (toLowerCase crawler) (fst (ruleStep st line))
  /\ snd (ruleStep st line) !! crawler = snd st !! crawler.
Proof.
  destruct st as [cur rules]. cbn [fst snd]. intros Hline Hcur.
  unfold Robots.ruleStep, Robots.userAgentOf, Robots.normalLine in *.
  set (l := toLowerCase (trim line)) in *.
  destruct (Js.startsWith "user-agent:" l).
  { destruct (String.eqb _ "*" || isAiCrawler _); cbn [fst snd].
    - split; [|reflexivity]. intros H. apply in_app_or in H as [H|[H|[]]].
      + contradiction.
      + apply Hline. now rewrite H.
    - split; [intros []|reflexivity]. }
  assert (Hrule : forall b,
             fold_left (setRule b) cur rules !! crawler = rules !! crawler)
    by (intros b; now apply (fold_setRule_out toLowerCase)).
  repeat match goal with
         | |- context [if ?b then _ else _] => destruct b
         end; cbn [fst snd]; auto.
Qed.

Lemma parseAiCrawlerRules_unnamed (crawler : string) (lines : list string)
    (st : list string * gmap string bool) :
  (forall line, In line lines ->
     userAgentOf (normalLine line) <> Some (toLowerCase crawler)) ->
  ~ In (toLowerCase crawler) (fst st) ->
  snd (fold_left ruleStep lines st) !! crawler = snd st !! crawler.
Proof.
  revert st. induction lines as [|line lines IH]; intros st Hlines Hcur; [reflexivity|].
  cbn [fold_left].
  destruct (ruleStep_unnamed crawler st line (Hlines line (or_introl eq_refl)) Hcur)
    as [Hcur' Hrules].
  rewrite IH; [exact Hrules| |exact Hcur'].
  intros l Hl. apply Hlines. now right.
Qed.

(** X22. A listed AI crawler that no User-agent line of robots.txt
    names is reported as not mentioned, whatever the rules for other
    agents say: the rules of a [User-agent: *] group are never counted
    for it. A line names the crawler when, trimmed and lower-cased by
    the runtime, it starts with [user-agent:] and the rest, trimmed, is
    the lower-cased name of the crawler. *)
Theorem getAiCrawlerAccess_unnamed (d ua robotsTxt crawler : string) (status : Z) :
  200 <= status <= 299 ->
  In crawler AI_CRAWLERS ->
  (forall line, In line (Js.split "010" robotsTxt) ->
     userAgentOf (normalLine line) <> Some (toLowerCase crawler)) ->
  accessOf
    (getAiCrawlerAccess Matcher
       (fetch (new Matcher d ua)
          (Resolved (mkResponse status (Resolved robotsTxt)))))
    crawler
  = None.
Proof.
  intros Hstatus Hin Hlines.
  rewrite (getAiCrawlerAccess_rules trim toLowerCase Matcher robotsParser
             d ua robotsTxt crawler status Hstatus Hin).
  unfold Robots.parseAiCrawlerRules.
  rewrite (parseAiCrawlerRules_unnamed crawler _ ([], ∅) Hlines); [apply lookup_empty|].
  intros [].
Qed.

Lemma setRule_unlisted (b : bool) (rules : gmap string bool) (ua c : string) :
  ~ In c AI_CRAWLERS -> setRule b rules ua !! c = rules !! c.
Proof.
  intros Hc. unfold Robots.setRule. destruct (negb (String.eqb ua "*")); [|reflexivity].
  destruct (matchedCrawler ua) as [c'|] eqn:Hm; [|reflexivity].
  unfold Robots.matchedCrawler, Js.arrayFind in Hm. apply find_some in Hm as (Hin & _).
  apply lookup_insert_ne. intros ->. contradiction.
Qed.

Lemma fold_setRule_unlisted (b : bool) (cur : list string) (rules : gmap string bool)
    (c : string) :
  ~ In c AI_CRAWLERS -> fold_left (setRule b) cur rules !! c = rules !! c.
Proof.
  intros Hc. revert rules. induction cur as [|ua cur IH]; intros rules; [reflexivity|].
  cbn [fold_left]. rewrite IH. now apply setRule_unlisted.
Qed.

Lemma ruleStep_unlisted (st : list string * gmap string bool) (line c : string) :
  ~ In c AI_CRAWLERS -> snd (ruleStep st line) !! c = snd st !! c.
Proof.
  intros Hc. unfold Robots.ruleStep. destruct st as [cur rules]. cbv zeta.
  repeat match goal with
         | |- context [if ?b then _ else _] => destruct b
         end; cbn [snd]; try reflexivity; now apply fold_setRule_unlisted.
Qed.

Lemma parseAiCrawlerRules_unlisted (rules : gmap string bool) (robotsTxt c : string) :
  ~ In c AI_CRAWLERS -> parseAiCrawlerRules rules robotsTxt !! c = rules !! c.
Proof.
  intros Hc. unfold Robots.parseAiCrawlerRules.
  change (rules !! c) with (snd (@nil string, rules) !! c).
  generalize (@nil string, rules).
  induction (Js.split "010" robotsTxt) as [|line lines IH]; intros st; [reflexivity|].
  cbn [fold_left]. rewrite IH. now apply ruleStep_unlisted.
Qed.

(** X23. Verdicts are recorded under the listed names only:
    [isAiCrawlerAllowed] answers [null] for every name that is not
    literally in the list, in another letter case for instance,
    whatever robots.txt says. *)
Theorem isAiCrawlerAllowed_listed_only (d ua : string) (net : Thrown HttpResponse)
    (crawler : string) :
  ~ In crawler AI_CRAWLERS ->
  isAiCrawlerAllowed Matcher (fetch (new Matcher d ua) net) crawler
  = None.
Proof.
  intros Hc. unfold isAiCrawlerAllowed, Robots.fetch.
  destruct net as [response|]; [|apply lookup_empty].
  destruct (negb (ok response)); [apply lookup_empty|].
  destruct (text response) as [robotsTxt|]; [|apply lookup_empty].
  cbn [aiCrawlerRules new]. rewrite parseAiCrawlerRules_unlisted by assumption.
  apply lookup_empty.
Qed.
End AiCrawlerRules.

Lemma getAiCrawlerAccess_unnamed_witness :
  Robots.accessOf
    (Robots.getAiCrawlerAccess RobotsLib.Matcher
       (Robots.fetch Js.trim Js.toLowerCase RobotsLib.Matcher RobotsLib.robotsParser
          (Robots.new RobotsLib.Matcher "ex.test" "bot")
          (Robots.Resolved (Robots.mkResponse 200 (Robots.Resolved robotsTxtBlockAll)))))
    "GPTBot"
  = None.
Proof.
  apply (getAiCrawlerAccess_unnamed Js.trim Js.toLowerCase
           RobotsLib.Matcher RobotsLib.robotsParser
           "ex.test" "bot" robotsTxtBlockAll "GPTBot" 200).
  - lia.
  - vm_compute. tauto.
  - intros line Hin. vm_compute in Hin.
    destruct Hin as [<-|[<-|[<-|[]]]]; vm_compute; discriminate.
Defined.

Lemma isAiCrawlerAllowed_listed_only_witness :
  Robots.isAiCrawlerAllowed RobotsLib.Matcher
    (Robots.fetch Js.trim Js.toLowerCase RobotsLib.Matcher RobotsLib.robotsParser
       (Robots.new RobotsLib.Matcher "ex.test" "bot")
       (Robots.Resolved (Robots.mkResponse 200 (Robots.Resolved robotsTxtLastWins))))
    "gptbot"
  = None.
Proof.
  apply (isAiCrawlerAllowed_listed_only Js.trim Js.toLowerCase
           RobotsLib.Matcher RobotsLib.robotsParser "ex.test" "bot"
           (Robots.Resolved (Robots.mkResponse 200 (Robots.Resolved robotsTxtLastWins)))
           "gptbot").
  vm_compute. intros H. repeat destruct H as [H|H]; try discriminate H. exact H.
Defined.

(** ** Provenance of the sitemap results *)

Section SitemapProvenance.
Import Sitemap SitemapTrace.
Variable SitemapUrl : Type.
Variable parseXml : string -> SitemapParseResult SitemapUrl.
Variable web : gmap string string.
Variable maxUrls : Z.

Abbreviation Loop := (Loop SitemapUrl).
Abbreviation iteration := (iteration SitemapUrl parseXml web maxUrls).
Abbreviation loop := (loop SitemapUrl parseXml web).
Abbreviation listedBy := (listedBy SitemapUrl parseXml web).
Abbreviation foundIn := (foundIn SitemapUrl parseXml web).
Abbreviation traced := (traced SitemapUrl parseXml web).

Lemma loop_keeps (P : Loop -> Prop) :
  (forall st, P st -> P (iteration st)) ->
  forall fuel st st', loop fuel maxUrls st = Some st' -> P st -> P st'.
Proof.
  intros Hstep. induction fuel as [|fuel IH]; intros st st' H HP; cbn [Sitemap.loop] in H.
  - destruct (continues _ maxUrls st); [discriminate|]. now injection H as <-.
  - destruct (continues _ maxUrls st).
    + eapply IH; [exact H|]. now apply Hstep.
    + now injection H as <-.
Qed.

Lemma listedBy_more (log : list string) (k u : string) :
  listedBy log u -> listedBy (log ++ [k]) u.
Proof.
  intros (k' & content & Hin & Hweb & Hu). exists k', content.
  split; [apply in_app_iff; now left|auto].
Qed.

Lemma foundIn_more (log : list string) (k : string) (x : SitemapUrl) :
  foundIn log x -> foundIn (log ++ [k]) x.
Proof.
  intros (k' & content & Hin & Hweb & Hu). exists k', content.
  split; [apply in_app_iff; now left|auto].
Qed.

Lemma firstn_incl {A : Type} (n : nat) (l : list A) (x : A) :
  In x (firstn n l) -> In x l.
Proof.
  revert l. induction n as [|n IH]; intros [|a l]; cbn; try tauto.
  intros [->|H]; auto.
Qed.

Lemma sliceTo_In {A : Type} (n : Z) (l : list A) (x : A) :
  In x (sliceTo n l) -> In x l.
Proof.
  unfold sliceTo. destruct (0 <=? n); apply firstn_incl.
Qed.

Lemma iteration_traced (start : list string) (st : Loop) :
  traced start st -> traced start (iteration st).
Proof.
  intros (Hq & Hf & Hi & Hu). unfold Sitemap.iteration.
  destruct (sitemapsToProcess _ st) as [|u rest] eqn:Hqueue.
  { unfold SitemapTrace.traced. rewrite Hqueue. auto. }
  destruct (bool_decide (u ∈ processedSitemaps _ st)).
  { unfold SitemapTrace.traced. cbn. repeat split; auto. intros v Hv. apply Hq. now right. }
  assert (Hrest : forall v, In v rest -> In v start \/ listedBy (fetched _ st ++ [u]) v).
  { intros v Hv. destruct (Hq v (or_intror Hv)); [now left|right; now apply listedBy_more]. }
  assert (Hlog : forall v, In v (fetched _ st ++ [u]) ->
                           In v start \/ listedBy (fetched _ st ++ [u]) v).
  { intros v [Hv|[<-|[]]]%in_app_iff.
    - destruct (Hf v Hv); [now left|right; now apply listedBy_more].
    - destruct (Hq u (or_introl eq_refl)); [now left|right; now apply listedBy_more]. }
  assert (Hidx : forall v, In v (sitemapIndexUrls _ (result _ st)) ->
                           listedBy (fetched _ st ++ [u]) v).
  { intros v Hv. now apply listedBy_more, Hi. }
  assert (Hurl : forall x, In x (urls _ (result _ st)) -> foundIn (fetched _ st ++ [u]) x).
  { intros x Hx. now apply foundIn_more, Hu. }
  unfold fetchSitemap.
  destruct (web !! u) as [[|c content]|] eqn:Hweb;
    [unfold SitemapTrace.traced; cbn; auto | | unfold SitemapTrace.traced; cbn; auto].
  set (doc := String c content) in *. cbv zeta.
  unfold SitemapTrace.traced.
  cbn [sitemapsToProcess fetched result urls sitemapIndexUrls].
  assert (Hchild : forall v, In v (sitemapIndexUrls _ (parseXml doc)) ->
                             listedBy (fetched _ st ++ [u]) v).
  { intros v Hv. exists u, doc. split; [apply in_app_iff; right; now left|auto]. }
  split; [|split; [assumption|split]].
  - destruct (0 <? length (sitemapIndexUrls _ (parseXml doc)))%nat; [|assumption].
    intros v [Hv|Hv]%in_app_iff; [auto|].
    unfold pushChildren in Hv. apply filter_In in Hv as (Hv & _). right. auto.
  - destruct (0 <? length (sitemapIndexUrls _ (parseXml doc)))%nat; [|assumption].
    intros v [Hv|Hv]%in_app_iff; auto.
  - intros x [Hx|Hx]%in_app_iff; [auto|].
    apply sliceTo_In in Hx. exists u, doc. split; [apply in_app_iff; right; now left|auto].
Qed.

(** X24. What [parse] fetches and returns is traced to its input: every
    URL it fetches is one of the given sitemap URLs (or of the two
    default locations) or a child listed by a sitemap index fetched in
    the same run, and every entry and every index URL of the result was
    read from a fetched document. *)
Theorem parse_provenance (domain : string) (sitemapUrls : list string) :
  exists (fuel : nat) (st : Loop),
    parse _ parseXml web fuel domain maxUrls sitemapUrls = Some st
    /\ (forall u, In u (fetched _ st) ->
          In u (sitemapsToProcess _ (initial SitemapUrl domain sitemapUrls))
          \/ listedBy (fetched _ st) u)
    /\ (forall x, In x (urls _ (result _ st)) -> foundIn (fetched _ st) x)
    /\ (forall u, In u (sitemapIndexUrls _ (result _ st)) -> listedBy (fetched _ st) u).
Proof.
  set (st0 := initial SitemapUrl domain sitemapUrls).
  assert (Ht : tracks _ web web st0) by (intros k _; reflexivity).
  destruct (loop_ends _ parseXml web maxUrls (budget _ parseXml web st0) web st0 Ht
              (Nat.le_refl _)) as [st Hst].
  exists (budget _ parseXml web st0), st. split; [exact Hst|].
  assert (H0 : traced (sitemapsToProcess _ st0) st0).
  { unfold SitemapTrace.traced, st0. cbn. repeat split; auto; intros ? []. }
  pose proof (loop_keeps (traced (sitemapsToProcess _ st0)) (iteration_traced _)
                _ _ _ Hst H0) as (_ & Hf & Hi & Hu).
  auto.
Qed.

(** X25. With a cap of zero URLs (or less) [parse] fetches nothing and
    returns the empty result. *)
Theorem parse_without_budget (fuel : nat) (domain : string) (sitemapUrls : list string) :
  maxUrls <= 0 ->
  exists st, parse _ parseXml web fuel domain maxUrls sitemapUrls = Some st
             /\ fetched _ st = [] /\ urls _ (result _ st) = []
             /\ sitemapIndexUrls _ (result _ st) = [] /\ errors _ (result _ st) = [].
Proof.
  intros Hmax. exists (initial SitemapUrl domain sitemapUrls).
  split; [|cbn; auto].
  unfold parse. destruct fuel; cbn [Sitemap.loop]; unfold continues; cbn [initial urls result length];
    replace (Z.of_nat 0 <? maxUrls) with false by (symmetry; apply Z.ltb_ge; lia);
    now rewrite andb_false_r.
Qed.
End SitemapProvenance.

Lemma parse_without_budget_witness :
  exists st, Sitemap.parse string parseLines cyclicWeb 10 "ex.test" 0 [] = Some st
             /\ Sitemap.fetched _ st = [] /\ Sitemap.urls _ (Sitemap.result _ st) = []
             /\ Sitemap.sitemapIndexUrls _ (Sitemap.result _ st) = []
             /\ Sitemap.errors _ (Sitemap.result _ st) = [].
Proof. apply (parse_without_budget string parseLines cyclicWeb 0 10 "ex.test" []). lia. Defined.

Lemma crawlAttempt_extraction_failure_witness :
  fst (Effects.run
         (PageCrawler.crawlAttempt Runtime.Number Runtime.numberToString Runtime.parseFloat
            Runtime.isZero Runtime.isNegative Runtime.dateParse Runtime.twoYearsBefore
            Documents.Dom Documents.load Documents.library false "https://ex.test/post")
         (worldAt year2026 postScript))
  = Effects.Returned
      (PageCrawler.ErrorResult Runtime.Number "https://ex.test/post" 200
         "Cannot read properties of null (reading '@id')").
Proof.
  apply (crawlAttempt_extraction_failure Runtime.Number Runtime.numberToString
           Runtime.parseFloat Runtime.isZero Runtime.isNegative Runtime.dateParse
           Runtime.twoYearsBefore Documents.Dom Documents.load Documents.library false
           "https://ex.test/post" (worldAt year2026 postScript) postResponse
           "<html></html>" articleNullEntity []); reflexivity.
Defined.

Lemma extractEcommerceData_flags_witness :
  exists e,
    fst (Effects.run
           (PageCrawler.extractEcommerceData Runtime.Number Runtime.numberToString
              Runtime.parseFloat Runtime.isZero Runtime.isNegative Runtime.dateParse
              [productObject])
           (worldAt year2026 resetScript))
    = Effects.Returned (Some e)
    /\ PageCrawler.hasProductSchema _ e = true
    /\ forall i, PageCrawler.productIssues _ e = Some i ->
         (PageCrawler.missingOffer i = true ->
            PageCrawler.missingPrice i = true /\ PageCrawler.missingAvailability i = true
            /\ PageCrawler.invalidPrice i = false /\ PageCrawler.missingCurrency i = false
            /\ PageCrawler.expiredPrice i = false
            /\ PageCrawler.offers _ (PageCrawler.productData _ e) = None)
         /\ (PageCrawler.missingPrice i = true -> PageCrawler.invalidPrice i = false)
         /\ (PageCrawler.outOfStock i = true \/ PageCrawler.discontinuedProduct i = true ->
             PageCrawler.missingAvailability i = false
             /\ PageCrawler.present
                  (PageCrawler.availability _ (PageCrawler.productData _ e)) = true)
         /\ (PageCrawler.expiredPrice i = true ->
             PageCrawler.offers _ (PageCrawler.productData _ e) <> None).
Proof.
  eexists. split; [reflexivity|].
  apply (extractEcommerceData_flags Runtime.Number Runtime.numberToString
           Runtime.parseFloat Runtime.isZero Runtime.isNegative Runtime.dateParse
           [productObject] (worldAt year2026 resetScript)).
  reflexivity.
Defined.

Lemma analyze_sound_witness :
  exists pages page,
    Some [deepPage] = Some pages /\ In page pages /\ LinkPages.id page = "p9"
    /\ LinkPages.status_code page < 400
    /\ is_Some (depthDefinitions !! "dead_end_page")
    /\ In "dead_end_page" (LinkPages.detected page).
Proof.
  apply (analyze_sound depthDefinitions (Some [deepPage]) "p9" "dead_end_page").
  vm_compute. tauto.
Defined.

(** ** Admission to the frontier happens once *)

Section FrontierOnce.
Import CrawlManager.
Variable parseURL : string -> option Url.URL.
Variable Matcher : Type.
Variable matcherIsAllowed : Matcher -> string -> string -> option bool.

Abbreviation addToQueue := (CrawlManager.addToQueue parseURL Matcher matcherIsAllowed).
Abbreviation applyOp := (CrawlRun.applyOp parseURL Matcher matcherIsAllowed).

(** No write to the frontier removes a URL from [discovered]. *)
Lemma applyOp_discovered (s : State Matcher) op :
  discovered _ s ⊆ discovered _ (applyOp s op).
Proof.
  destruct op as [u d parent via| |u|u]; simpl.
  - destruct (addToQueue s u d parent via) as [[|] s'] eqn:Hcall; simpl.
    + apply addToQueue_accepted in Hcall as (_ & _ & n & _ & _ & _ & -> & _).
      apply union_subseteq_r.
    + now apply addToQueue_rejected in Hcall as ->.
  - reflexivity.
  - reflexivity.
  - unfold CrawlRun.preloadUrl.
    destruct (CrawlManager.normalizeUrl parseURL u); simpl; [|reflexivity].
    apply union_subseteq_r.
Qed.

Lemma applyOps_discovered ops (s : State Matcher) :
  discovered _ s ⊆ discovered _ (fold_left applyOp ops s).
Proof.
  revert s. induction ops as [|op ops IH]; intros s; simpl; [reflexivity|].
  etransitivity; [apply applyOp_discovered|apply IH].
Qed.

(** The links of a page are offered one after the other. *)
Lemma followLinks_ops item links (s : State Matcher) (m : gmap string Z) :
  fst (fold_left (CrawlRun.followLink parseURL Matcher matcherIsAllowed item) links (s, m))
  = fold_left applyOp
      (map (fun link => CrawlRun.Offer link (depth item + 1) (Some (url item)) crawl) links)
      s.
Proof.
  revert s m. induction links as [|link links IH]; intros s m; simpl; [reflexivity|].
  unfold CrawlRun.followLink at 2. simpl. apply IH.
Qed.

(** One iteration of the run loop changes the frontier by these writes
    only, whatever the pages return and whenever the crawl is
    cancelled. *)
Lemma iteration_ops visit cancelledAt (r r' : CrawlRun.Run Matcher) flag :
  CrawlRun.iteration parseURL Matcher matcherIsAllowed visit cancelledAt r = Some (r', flag) ->
  exists ops, CrawlRun.manager _ r' = fold_left applyOp ops (CrawlRun.manager _ r).
Proof.
  unfold CrawlRun.iteration.
  destruct (queue _ (CrawlRun.manager _ r)) as [|item rest] eqn:Hq; [discriminate|].
  destruct (cancelledAt _); [discriminate|].
  destruct (bool_decide _) eqn:Hv; intros H; inversion H; subst; clear H.
  - exists [CrawlRun.Shift]. simpl. now rewrite Hq.
  - exists (CrawlRun.Shift :: CrawlRun.MarkVisited (url item)
            :: map (fun link => CrawlRun.Offer link (depth item + 1) (Some (url item)) crawl)
                 (CrawlRun.links (visit (CrawlRun.fetched _ r) item))).
    simpl. rewrite followLinks_ops, Hq. reflexivity.
Qed.

(** X29. A URL that [addToQueue] accepted is never accepted again:
    after any sequence of later writes to the frontier (further offers,
    accepted or refused, the dequeuing and the marking of visited URLs
    by the run loop, the preloading of skipped URLs), an offer of any
    URL with the same normal form, at whatever depth and from whatever
    source, is refused and leaves the frontier as it is. *)
Theorem addToQueue_once (s : State Matcher) u d parent via ops u' d' parent' via' :
  fst (addToQueue s u d parent via) = true ->
  CrawlManager.normalizeUrl parseURL u' = CrawlManager.normalizeUrl parseURL u ->
  addToQueue (fold_left applyOp ops (snd (addToQueue s u d parent via))) u' d' parent' via'
  = (false, fold_left applyOp ops (snd (addToQueue s u d parent via))).
Proof.
  intros Hacc Hnorm.
  destruct (addToQueue s u d parent via) as [answer s'] eqn:Hcall.
  cbn [fst snd] in *. subst answer.
  apply addToQueue_accepted in Hcall as (_ & _ & n & Hn & _ & _ & Hdisc & _).
  assert (Hin : n ∈ discovered _ (fold_left applyOp ops s')).
  { apply (applyOps_discovered ops s'). rewrite Hdisc.
    apply elem_of_union_l. now apply elem_of_singleton. }
  unfold CrawlManager.addToQueue. rewrite Hnorm, Hn.
  replace (bool_decide (n ∈ discovered _ (fold_left applyOp ops s'))) with true.
  - now rewrite orb_true_r.
  - symmetry. now apply bool_decide_eq_true.
Qed.
End FrontierOnce.

Lemma addToQueue_once_witness :
  let s' := snd (CrawlManager.addToQueue Whatwg.parse RobotsLib.Matcher RobotsLib.isAllowed
                   freshFrontier "https://ex.test/about" 1 None CrawlManager.sitemap) in
  let later :=
    fold_left (CrawlRun.applyOp Whatwg.parse RobotsLib.Matcher RobotsLib.isAllowed)
      [CrawlRun.Offer "https://ex.test/" 0 None CrawlManager.seed;
       CrawlRun.Shift;
       CrawlRun.MarkVisited "https://ex.test/about";
       CrawlRun.Offer "https://ex.test/team" 2 (Some "https://ex.test/about")
         CrawlManager.crawl;
       CrawlRun.Shift]
      s' in
  CrawlManager.queue _ later = [CrawlManager.mkItem "https://ex.test/team" 2
                                  (Some "https://ex.test/about") CrawlManager.crawl]
  /\ CrawlManager.addToQueue Whatwg.parse RobotsLib.Matcher RobotsLib.isAllowed
       later "https://ex.test/about/#team" 1 (Some "https://ex.test/team") CrawlManager.crawl
     = (false, later).
Proof.
  intros s' later. split.
  - vm_compute. reflexivity.
  - apply (addToQueue_once Whatwg.parse RobotsLib.Matcher RobotsLib.isAllowed freshFrontier
             "https://ex.test/about" 1 None CrawlManager.sitemap
             [CrawlRun.Offer "https://ex.test/" 0 None CrawlManager.seed;
              CrawlRun.Shift;
              CrawlRun.MarkVisited "https://ex.test/about";
              CrawlRun.Offer "https://ex.test/team" 2 (Some "https://ex.test/about")
                CrawlManager.crawl;
              CrawlRun.Shift]
             "https://ex.test/about/#team" 1 (Some "https://ex.test/team") CrawlManager.crawl).
    + vm_compute. reflexivity.
    + vm_compute. reflexivity.
Defined.
